(** * FBXReader_Mesh: mesh extraction and GPU buffer assembly

    A shallow embedding of [appendIndex], [FBXReader::extractMesh] and
    [FBXReader::buildModelMesh] (FBXReader_Mesh.cpp), with the properties
    the specification states about them.

    Conventions of the embedding:
    - [float] is IEEE binary32, as the inductive [spec_float] of the
      standard library with precision 24 and exponent bound 128; [==] on
      floats is [SFeqb] (a NaN differs from itself, the two zeros are equal);
    - a [QVector<T>] is a [list T]; positions inside a vector are [nat],
      signed values stored in a vector ([int] entries of the FBX arrays)
      are [Z];
    - [int] byte sizes are [Z] values wrapped to 32 bits by [to_int],
      [unsigned int] values by [to_uint];
    - a reference parameter is passed in and returned;
    - a loop without a bound of its own gets a number of rounds (fuel) and
      returns [None] when they are used up; [extractMesh_returns] shows
      that this does not happen. *)

From Stdlib Require Import ZArith List Bool Lia.
From Stdlib Require Import Floats.SpecFloat.
From stdpp Require Import gmap strings list fin_maps.

Open Scope Z_scope.

(** ** Scalars and glm vectors *)

Definition float : Type := spec_float.

Definition fzero : float := S754_zero false.
Definition fone : float := S754_finite false 8388608 (-23).
Definition fadd (a b : float) : float := SFadd 24 128 a b.
Definition feqb (a b : float) : bool := SFeqb a b.

Definition vec2 : Type := float * float.
Definition vec3 : Type := float * float * float.
Definition vec4 : Type := float * float * float * float.

(** glm default construction: all components zero. *)
Definition vec2_zero : vec2 := (fzero, fzero).
Definition vec3_zero : vec3 := (fzero, fzero, fzero).
Definition vec4_zero : vec4 := (fzero, fzero, fzero, fzero).

(** [glm::vec2 == glm::vec2]: componentwise [==]. *)
Definition vec2_eqb (a b : vec2) : bool :=
  feqb (fst a) (fst b) && feqb (snd a) (snd b).

(** [glm::vec3 += glm::vec3]. *)
Definition vec3_add (a b : vec3) : vec3 :=
  let '(ax, ay, az) := a in
  let '(bx, by_, bz) := b in
  (fadd ax bx, fadd ay by_, fadd az bz).

(** [glm::vec3(glm::vec4)]: the first three components. *)
Definition vec3_of_vec4 (c : vec4) : vec3 :=
  let '(r, g, b, _) := c in (r, g, b).

(** [QVector::at] with an [int] position; every use in the source is
    guarded by a range test. *)
Definition at_ {A : Type} (d : A) (l : list A) (i : Z) : A :=
  nth (Z.to_nat i) l d.

(** [QVector::size] as an [int]. *)
Definition size {A : Type} (l : list A) : Z := Z.of_nat (length l).

(** ** The dedup key *)

Module Vertex.
Record t : Type := mk {
  originalIndex : Z;
  texCoord : vec2;
  texCoord1 : vec2
}.
End Vertex.

(** [operator==(const Vertex&, const Vertex&)]. *)
Definition Vertex_eqb (v1 v2 : Vertex.t) : bool :=
  (Vertex.originalIndex v1 =? Vertex.originalIndex v2)
  && vec2_eqb (Vertex.texCoord v1) (Vertex.texCoord v2)
  && vec2_eqb (Vertex.texCoord1 v1) (Vertex.texCoord1 v2).

(** [QHash<Vertex, int>]: the entries in some order. [find] returns the
    value of an entry whose key compares equal, [insert] replaces the value
    of such an entry or adds one. *)
Module QHash.
Definition t : Type := list (Vertex.t * nat).

Fixpoint find (h : t) (k : Vertex.t) : option nat :=
  match h with
  | [] => None
  | (k', v) :: r => if Vertex_eqb k' k then Some v else find r k
  end.

Fixpoint insert (h : t) (k : Vertex.t) (v : nat) : t :=
  match h with
  | [] => [(k, v)]
  | (k', v') :: r =>
      if Vertex_eqb k' k then (k', v) :: r else (k', v') :: insert r k v
  end.
End QHash.

(** ** Mesh records *)

(** Modelled from the spec: [FBXMeshPart] (FBXReader.h), the index lists
    of one (material, texture) part of the data model (section 3): the
    quad corners, the triangles made of quads and the other triangles. *)
Module FBXMeshPart.
Record t : Type := mk {
  quadIndices : list nat;
  quadTrianglesIndices : list nat;
  triangleIndices : list nat
}.
Definition empty : t := mk [] [] [].
End FBXMeshPart.

(** Modelled from the spec: [FBXCluster] (FBXReader.h), a skin cluster;
    the mesh builder reads only how many there are. *)
Module FBXCluster.
Record t : Type := mk { jointIndex : Z }.
End FBXCluster.

(** ** GPU side: elements, buffers, views, model::Mesh *)

(** Modelled from the spec: the GPU buffer objects of section 6, each
    tagged with an element format (component count, scalar type, channel
    semantics); [gpu::Buffer], [gpu::BufferView] and [gpu::Element] are
    declared in libraries/gpu. A buffer is its byte content; a byte is
    kept symbolic (which byte of which stored object), so that no float
    or integer encoding has to be fixed. *)

Module gpu.
Inductive Dimension : Type := SCALAR | VEC2 | VEC3 | VEC4.
Inductive Type_ : Type := FLOAT | UINT32 | UINT16 | UINT8 | NUINT8.
Inductive Semantic : Type := XYZ | RGB | UV | XYZW.

Record Element : Type := mkElement {
  dimension : Dimension;
  type : Type_;
  semantic : Semantic
}.

(** [gpu::Stream::Slot], the slots this file attaches. *)
Inductive Slot : Type :=
  | NORMAL | TANGENT | COLOR | TEXCOORD | TEXCOORD1
  | SKIN_CLUSTER_INDEX | SKIN_CLUSTER_WEIGHT.

Definition Slot_eqb (a b : Slot) : bool :=
  match a, b with
  | NORMAL, NORMAL | TANGENT, TANGENT | COLOR, COLOR
  | TEXCOORD, TEXCOORD | TEXCOORD1, TEXCOORD1
  | SKIN_CLUSTER_INDEX, SKIN_CLUSTER_INDEX
  | SKIN_CLUSTER_WEIGHT, SKIN_CLUSTER_WEIGHT => true
  | _, _ => false
  end.

(** [gpu::Byte]: the [k]-th byte of a stored float, the [k]-th byte of a
    [w]-byte integer, or a byte never written. *)
Inductive Byte : Type :=
  | Undef
  | FloatByte (f : float) (k : nat)
  | IntByte (w : nat) (v : Z) (k : nat).

Definition Buffer : Type := list Byte.

(** Modelled from the spec: [gpu::Buffer::resize] (libraries/gpu), which
    pre-sizes the buffer before the copies (section 5); the new bytes
    are not written. A negative size gives an empty buffer. *)
Definition resize (b : Buffer) (n : Z) : Buffer :=
  firstn (Z.to_nat n) b ++ repeat Undef (Z.to_nat n - length b).

(** Modelled from the spec: [gpu::Buffer::setSubData] (libraries/gpu), a
    fixed-size memory copy of the first [size] bytes of [data] to
    [offset] of a pre-sized buffer (section 5); a copy that does not lie
    inside the buffer is not done. *)
Definition setSubData (b : Buffer) (offset size : Z) (data : list Byte)
  : Buffer :=
  if (0 <=? offset) && (0 <=? size) && (offset + size <=? Z.of_nat (length b))
  then firstn (Z.to_nat offset) b
       ++ firstn (Z.to_nat size) data
       ++ skipn (Z.to_nat (offset + size)) b
  else b.

(** Modelled from the spec: [gpu::Buffer::setData] (libraries/gpu), the
    buffer becomes the first [size] bytes of [data]. *)
Definition setData (size : Z) (data : list Byte) : Buffer :=
  firstn (Z.to_nat size) data.

(** [gpu::BufferView]: a buffer, a byte range in it and the element
    format. The two-argument constructor views the whole buffer. *)
Record BufferView : Type := mkView {
  _buffer : Buffer;
  _offset : Z;
  _size : Z;
  _element : Element
}.

Definition wholeView (b : Buffer) (e : Element) : BufferView :=
  mkView b 0 (Z.of_nat (length b)) e.

(** The bytes a view designates. *)
Definition viewBytes (v : BufferView) : list Byte :=
  firstn (Z.to_nat (_size v)) (skipn (Z.to_nat (_offset v)) (_buffer v)).
End gpu.

(** Modelled from the spec: [model::Mesh] (libraries/model), the mesh the
    buffers are attached to (sections 4.5 and 6): a vertex buffer, a view
    per attribute slot, an index buffer and a buffer of part ranges. *)
Module Mesh.
(** [model::Mesh::Topology] and [model::Mesh::Part]. *)
Inductive Topology : Type := POINTS | LINES | LINE_STRIP | TRIANGLES.

Record Part : Type := mkPart {
  _startIndex : Z;
  _numIndices : Z;
  _baseVertex : Z;
  _topology : Topology
}.

(** [model::Mesh]: the buffers attached so far. *)
Record t : Type := mk {
  _vertexBuffer : option gpu.BufferView;
  _attributeBuffers : list (gpu.Slot * gpu.BufferView);
  _indexBuffer : option gpu.BufferView;
  _partBuffer : option gpu.BufferView
}.

Definition new : t := mk None [] None None.

Definition setVertexBuffer (m : t) (v : gpu.BufferView) : t :=
  mk (Some v) (_attributeBuffers m) (_indexBuffer m) (_partBuffer m).

(** [_attributeBuffers[slot] = view]. *)
Fixpoint setSlot (l : list (gpu.Slot * gpu.BufferView)) (s : gpu.Slot)
    (v : gpu.BufferView) : list (gpu.Slot * gpu.BufferView) :=
  match l with
  | [] => [(s, v)]
  | (s', v') :: r =>
      if gpu.Slot_eqb s' s then (s', v) :: r else (s', v') :: setSlot r s v
  end.

Definition addAttribute (m : t) (s : gpu.Slot) (v : gpu.BufferView) : t :=
  mk (_vertexBuffer m) (setSlot (_attributeBuffers m) s v)
     (_indexBuffer m) (_partBuffer m).

Definition setIndexBuffer (m : t) (v : gpu.BufferView) : t :=
  mk (_vertexBuffer m) (_attributeBuffers m) (Some v) (_partBuffer m).

Definition setPartBuffer (m : t) (v : gpu.BufferView) : t :=
  mk (_vertexBuffer m) (_attributeBuffers m) (_indexBuffer m) (Some v).

(** The view attached to a slot, if any. *)
Fixpoint getAttribute (l : list (gpu.Slot * gpu.BufferView)) (s : gpu.Slot)
  : option gpu.BufferView :=
  match l with
  | [] => None
  | (s', v) :: r => if gpu.Slot_eqb s' s then Some v else getAttribute r s
  end.
End Mesh.

(** Modelled from the spec: [FBXMesh] (FBXReader.h), the per-vertex
    arrays and the parts of section 3, with the skin-cluster arrays and
    the GPU mesh [_mesh] that [buildModelMesh] sets. *)
Module FBXMesh.
Record t : Type := mk {
  parts : list FBXMeshPart.t;
  vertices : list vec3;
  normals : list vec3;
  tangents : list vec3;
  colors : list vec3;
  texCoords : list vec2;
  texCoords1 : list vec2;
  clusterIndices : list Z;     (* QVector<uint16_t> *)
  clusterWeights : list Z;     (* QVector<uint8_t> *)
  clusters : list FBXCluster.t;
  meshIndex : Z;
  _mesh : option Mesh.t
}.

Definition empty (meshIndex : Z) : t :=
  mk [] [] [] [] [] [] [] [] [] [] meshIndex None.
End FBXMesh.

(** Modelled from the spec: [ExtractedMesh] (FBXReader.h), the output of
    the extraction (section 3): the mesh, the mapping from source vertex
    index to output index, the key of each part and the named UV sets. *)
Module ExtractedMesh.
Record t : Type := mk {
  mesh : FBXMesh.t;
  newIndices : list (Z * nat);              (* QMultiHash<int, int> *)
  partMaterialTextures : list (Z * Z);      (* QVector<QPair<int, int>> *)
  texcoordSetMap : gmap string nat          (* QHash<QString, size_t> *)
}.
End ExtractedMesh.

Module AttributeData.
Record t : Type := mk {
  texCoords : list vec2;
  texCoordIndices : list Z;
  name : string;
  index : Z
}.
Definition empty : t := mk [] [] EmptyString 0.
End AttributeData.

Module MeshData.
Record t : Type := mk {
  extracted : ExtractedMesh.t;
  vertices : list vec3;
  polygonIndices : list Z;
  normalsByVertex : bool;
  normals : list vec3;
  normalIndices : list Z;
  colorsByVertex : bool;
  averageColor : vec4;
  colors : list vec4;
  colorIndices : list Z;
  texCoords : list vec2;
  texCoordIndices : list Z;
  indices : QHash.t;
  attributes : list AttributeData.t
}.
End MeshData.

(** Field updates used below. *)
Definition FBXMesh_appendVertex (m : FBXMesh.t) (position normal : vec3)
    (texCoord : vec2) (color : option vec3) (texCoord1 : option vec2)
  : FBXMesh.t :=
  FBXMesh.mk (FBXMesh.parts m)
    (FBXMesh.vertices m ++ [position])
    (FBXMesh.normals m ++ [normal])
    (FBXMesh.tangents m)
    (FBXMesh.colors m ++ match color with Some c => [c] | None => [] end)
    (FBXMesh.texCoords m ++ [texCoord])
    (FBXMesh.texCoords1 m
       ++ match texCoord1 with Some t => [t] | None => [] end)
    (FBXMesh.clusterIndices m) (FBXMesh.clusterWeights m)
    (FBXMesh.clusters m) (FBXMesh.meshIndex m) (FBXMesh._mesh m).

Definition FBXMesh_setNormals (m : FBXMesh.t) (normals : list vec3)
  : FBXMesh.t :=
  FBXMesh.mk (FBXMesh.parts m) (FBXMesh.vertices m) normals
    (FBXMesh.tangents m) (FBXMesh.colors m) (FBXMesh.texCoords m)
    (FBXMesh.texCoords1 m) (FBXMesh.clusterIndices m)
    (FBXMesh.clusterWeights m) (FBXMesh.clusters m) (FBXMesh.meshIndex m)
    (FBXMesh._mesh m).

Definition FBXMesh_setParts (m : FBXMesh.t) (parts : list FBXMeshPart.t)
  : FBXMesh.t :=
  FBXMesh.mk parts (FBXMesh.vertices m) (FBXMesh.normals m)
    (FBXMesh.tangents m) (FBXMesh.colors m) (FBXMesh.texCoords m)
    (FBXMesh.texCoords1 m) (FBXMesh.clusterIndices m)
    (FBXMesh.clusterWeights m) (FBXMesh.clusters m) (FBXMesh.meshIndex m)
    (FBXMesh._mesh m).

Definition FBXMesh_setMesh (m : FBXMesh.t) (mesh : option Mesh.t)
  : FBXMesh.t :=
  FBXMesh.mk (FBXMesh.parts m) (FBXMesh.vertices m) (FBXMesh.normals m)
    (FBXMesh.tangents m) (FBXMesh.colors m) (FBXMesh.texCoords m)
    (FBXMesh.texCoords1 m) (FBXMesh.clusterIndices m)
    (FBXMesh.clusterWeights m) (FBXMesh.clusters m) (FBXMesh.meshIndex m)
    mesh.

Definition ExtractedMesh_setMesh (e : ExtractedMesh.t) (m : FBXMesh.t)
  : ExtractedMesh.t :=
  ExtractedMesh.mk m (ExtractedMesh.newIndices e)
    (ExtractedMesh.partMaterialTextures e) (ExtractedMesh.texcoordSetMap e).

Definition MeshData_setExtracted (d : MeshData.t) (e : ExtractedMesh.t)
    (indices : QHash.t) : MeshData.t :=
  MeshData.mk e (MeshData.vertices d) (MeshData.polygonIndices d)
    (MeshData.normalsByVertex d) (MeshData.normals d)
    (MeshData.normalIndices d) (MeshData.colorsByVertex d)
    (MeshData.averageColor d) (MeshData.colors d) (MeshData.colorIndices d)
    (MeshData.texCoords d) (MeshData.texCoordIndices d) indices
    (MeshData.attributes d).

Definition isEmpty {A : Type} (l : list A) : bool :=
  match l with [] => true | _ :: _ => false end.

(** ** appendIndex: the resolved values of a corner

    The local variables of [appendIndex], as functions of the mesh data
    and the corner position [index] (source lines 91-156). *)

(** Lines 91-94: the source vertex index, a terminator decoded. On [int]
    entries [- vertexIndex - 1] does not overflow
    ([vertexIndex_no_overflow]). *)
Definition vertexIndex_of (data : MeshData.t) (index : nat) : Z :=
  let vertexIndex := at_ 0 (MeshData.polygonIndices data) (Z.of_nat index) in
  if vertexIndex <? 0 then - vertexIndex - 1 else vertexIndex.

(** Lines 98-101. *)
Definition position_of (data : MeshData.t) (index : nat) : vec3 :=
  let vertexIndex := vertexIndex_of data index in
  if vertexIndex <? size (MeshData.vertices data)
  then at_ vec3_zero (MeshData.vertices data) vertexIndex
  else vec3_zero.

(** Lines 103-114. *)
Definition normal_of (data : MeshData.t) (index : nat) : vec3 :=
  let vertexIndex := vertexIndex_of data index in
  let normalIndex :=
    if MeshData.normalsByVertex data then vertexIndex else Z.of_nat index in
  if isEmpty (MeshData.normalIndices data) then
    if normalIndex <? size (MeshData.normals data)
    then at_ vec3_zero (MeshData.normals data) normalIndex
    else vec3_zero
  else if normalIndex <? size (MeshData.normalIndices data) then
    let normalIndex := at_ 0 (MeshData.normalIndices data) normalIndex in
    if (0 <=? normalIndex) && (normalIndex <? size (MeshData.normals data))
    then at_ vec3_zero (MeshData.normals data) normalIndex
    else vec3_zero
  else vec3_zero.

(** Line 118. *)
Definition hasColors (data : MeshData.t) : bool :=
  1 <? size (MeshData.colors data).

(** Lines 117-131. *)
Definition color_of (data : MeshData.t) (index : nat) : vec4 :=
  let vertexIndex := vertexIndex_of data index in
  if hasColors data then
    let colorIndex :=
      if MeshData.colorsByVertex data then vertexIndex else Z.of_nat index in
    if isEmpty (MeshData.colorIndices data) then
      if colorIndex <? size (MeshData.colors data)
      then at_ vec4_zero (MeshData.colors data) colorIndex
      else vec4_zero
    else if colorIndex <? size (MeshData.colorIndices data) then
      let colorIndex := at_ 0 (MeshData.colorIndices data) colorIndex in
      if (0 <=? colorIndex) && (colorIndex <? size (MeshData.colors data))
      then at_ vec4_zero (MeshData.colors data) colorIndex
      else vec4_zero
    else vec4_zero
  else vec4_zero.

(** Lines 133-142, and 146-155 for the second channel: a UV taken at the
    corner position, through the index array when there is one. *)
Definition texCoord_at (texCoords : list vec2) (texCoordIndices : list Z)
    (index : nat) : vec2 :=
  if isEmpty texCoordIndices then
    if Z.of_nat index <? size texCoords
    then at_ vec2_zero texCoords (Z.of_nat index)
    else vec2_zero
  else if Z.of_nat index <? size texCoordIndices then
    let texCoordIndex := at_ 0 texCoordIndices (Z.of_nat index) in
    if (0 <=? texCoordIndex) && (texCoordIndex <? size texCoords)
    then at_ vec2_zero texCoords texCoordIndex
    else vec2_zero
  else vec2_zero.

Definition texCoord_of (data : MeshData.t) (index : nat) : vec2 :=
  texCoord_at (MeshData.texCoords data) (MeshData.texCoordIndices data) index.

(** Line 144. *)
Definition hasMoreTexcoords (data : MeshData.t) : bool :=
  1 <? size (MeshData.attributes data).

Definition texCoord1_of (data : MeshData.t) (index : nat) : vec2 :=
  if hasMoreTexcoords data then
    let a := nth 1 (MeshData.attributes data) AttributeData.empty in
    texCoord_at (AttributeData.texCoords a) (AttributeData.texCoordIndices a)
      index
  else vec2_zero.

(** The key of a corner: [vertex] at line 158. *)
Definition vertex_of (data : MeshData.t) (index : nat) : Vertex.t :=
  Vertex.mk (vertexIndex_of data index) (texCoord_of data index)
    (texCoord1_of data index).

(** ** appendIndex (lines 87-177)

    [normals[*it] += normal] needs [*it] inside the array; it is in every
    state the extraction reaches ([hit_in_range]), and outside of it the
    model leaves the array as it is. *)
Definition appendIndex (data : MeshData.t) (indices : list nat) (index : nat)
  : MeshData.t * list nat :=
  if size (MeshData.polygonIndices data) <=? Z.of_nat index then
    (data, indices)
  else
    let vertexIndex := vertexIndex_of data index in
    let vertex := vertex_of data index in
    let position := position_of data index in
    let normal := normal_of data index in
    let color := color_of data index in
    let extracted := MeshData.extracted data in
    let mesh := ExtractedMesh.mesh extracted in
    match QHash.find (MeshData.indices data) vertex with
    | None =>
        let newIndex := length (FBXMesh.vertices mesh) in
        let mesh' :=
          FBXMesh_appendVertex mesh position normal (Vertex.texCoord vertex)
            (if hasColors data then Some (vec3_of_vec4 color) else None)
            (if hasMoreTexcoords data then Some (Vertex.texCoord1 vertex)
             else None) in
        let extracted' :=
          ExtractedMesh.mk mesh'
            ((vertexIndex, newIndex) :: ExtractedMesh.newIndices extracted)
            (ExtractedMesh.partMaterialTextures extracted)
            (ExtractedMesh.texcoordSetMap extracted) in
        (MeshData_setExtracted data extracted'
           (QHash.insert (MeshData.indices data) vertex newIndex),
         indices ++ [newIndex])
    | Some it =>
        let mesh' :=
          FBXMesh_setNormals mesh
            (alter (fun stored => vec3_add stored normal) it
               (FBXMesh.normals mesh)) in
        (MeshData_setExtracted data (ExtractedMesh_setMesh extracted mesh')
           (MeshData.indices data),
         indices ++ [it])
    end.

(** ** The scene node and the decoded compressed geometry *)

(** Modelled from the spec: the codec interface of sections 4.4 and 6,
    [draco::Mesh] as the reader uses it: a point count, optional
    per-point attributes (an accessor gives the converted value of a
    point) and the faces, three point indices each. *)
Module draco.
Record Mesh : Type := mkMesh {
  num_points : nat;
  POSITION : option (nat -> vec3);
  NORMAL : option (nat -> vec3);
  TEX_COORD : option (nat -> vec2);
  TEX_COORD_1 : option (nat -> vec2);
  COLOR : option (nat -> vec3);
  MATERIAL_ID : option (nat -> Z);      (* uint16_t *)
  faces : list (nat * nat * nat)
}.
End draco.

(** Modelled from the spec: [FBXNode] (section 6), a name, the content
    of its properties and its children. [getIntVector], [getDoubleVector]
    and the [createVec*Vector] helpers belong to FBXReader.cpp; a node
    carries their result, and a DracoMesh node the geometry its byte
    block decodes to. [PNone] is a node without property. Where the scan
    reads [properties.at(0)] without a test (lines 210-345), [toInt],
    [toString], [propertyIs] and [getDraco] give on such a node what a
    default-constructed [QVariant] gives, while the source reads outside
    the list there; [propertiesPresent] below holds of the nodes on which
    the scan makes no such read. *)
Module FBXNode.
Inductive Property : Type :=
  | PNone
  | PInt (z : Z)
  | PByteArray (s : string)
  | PIntVector (l : list Z)
  | PVec2Vector (l : list vec2)
  | PVec3Vector (l : list vec3)
  | PVec4Vector (l : list vec4) (average : vec4)
  | PDraco (m : draco.Mesh).

#[local] Unset Elimination Schemes.
Inductive t : Type :=
  | mk (name : string) (property : Property) (children : list t).
#[local] Set Elimination Schemes.

Definition name (n : t) : string := let 'mk s _ _ := n in s.
Definition property (n : t) : Property := let 'mk _ p _ := n in p.
Definition children (n : t) : list t := let 'mk _ _ c := n in c.

Definition getIntVector (n : t) : list Z :=
  match property n with PIntVector l => l | _ => [] end.
Definition getVec2Vector (n : t) : list vec2 :=
  match property n with PVec2Vector l => l | _ => [] end.
Definition getVec3Vector (n : t) : list vec3 :=
  match property n with PVec3Vector l => l | _ => [] end.
Definition getVec4Vector (n : t) (average : vec4) : list vec4 * vec4 :=
  match property n with
  | PVec4Vector l a => (l, a)
  | _ => ([], average)
  end.
Definition toInt (n : t) : Z :=
  match property n with PInt z => z | _ => 0 end.
Definition toString (n : t) : string :=
  match property n with PByteArray s => s | _ => EmptyString end.
(** [properties.at(0) == QByteArray(s)]. *)
Definition propertyIs (n : t) (s : string) : bool :=
  match property n with PByteArray s' => String.eqb s' s | _ => false end.
Definition getDraco (n : t) : draco.Mesh :=
  match property n with
  | PDraco m => m
  | _ => draco.mkMesh 0 None None None None None None []
  end.
End FBXNode.

Definition BY_VERTICE : string := "ByVertice".
Definition INDEX_TO_DIRECT : string := "IndexToDirect".
Definition BY_POLYGON : string := "ByPolygon".

(** More field updates. *)
Definition MeshData_setParts (d : MeshData.t) (parts : list FBXMeshPart.t)
  : MeshData.t :=
  let e := MeshData.extracted d in
  MeshData_setExtracted d
    (ExtractedMesh_setMesh e (FBXMesh_setParts (ExtractedMesh.mesh e) parts))
    (MeshData.indices d).

Definition MeshData_parts (d : MeshData.t) : list FBXMeshPart.t :=
  FBXMesh.parts (ExtractedMesh.mesh (MeshData.extracted d)).

(** [partMaterialTextures.append(materialTexture); parts.resize(size + 1)]
    (lines 441-442 and 476-477). *)
Definition MeshData_newPart (d : MeshData.t) (materialTexture : Z * Z)
  : MeshData.t :=
  let e := MeshData.extracted d in
  let m := ExtractedMesh.mesh e in
  MeshData_setExtracted d
    (ExtractedMesh.mk
       (FBXMesh_setParts m (FBXMesh.parts m ++ [FBXMeshPart.empty]))
       (ExtractedMesh.newIndices e)
       (ExtractedMesh.partMaterialTextures e ++ [materialTexture])
       (ExtractedMesh.texcoordSetMap e))
    (MeshData.indices d).

(** [int& partIndex = materialTextureParts[materialTexture]] followed by the
    creation of the part when the entry is 0 (lines 439-444 and 474-479):
    the data, the map and the 1-based part index. *)
Definition obtainPart (data : MeshData.t) (materialTextureParts : gmap (Z * Z) nat)
    (materialTexture : Z * Z) : MeshData.t * gmap (Z * Z) nat * nat :=
  let partIndex := default 0%nat (materialTextureParts !! materialTexture) in
  if Nat.eqb partIndex 0 then
    let data' := MeshData_newPart data materialTexture in
    let partIndex' := length (MeshData_parts data') in
    (data', <[materialTexture := partIndex']> materialTextureParts, partIndex')
  else
    (data, materialTextureParts, partIndex).

(** ** extractMesh, compressed path (lines 339-452) *)

Definition optionalValue {A : Type} (attribute : option (nat -> A)) (i : nat)
  : list A :=
  match attribute with Some value => [value i] | None => [] end.

(** One round of the per-point loop (lines 371-421). *)
Definition dracoPoint (dracoMesh : draco.Mesh) (data : MeshData.t) (i : nat)
  : MeshData.t :=
  let e := MeshData.extracted data in
  let m := ExtractedMesh.mesh e in
  let m' :=
    FBXMesh.mk (FBXMesh.parts m)
      (FBXMesh.vertices m ++ optionalValue (draco.POSITION dracoMesh) i)
      (FBXMesh.normals m ++ optionalValue (draco.NORMAL dracoMesh) i)
      (FBXMesh.tangents m)
      (FBXMesh.colors m ++ optionalValue (draco.COLOR dracoMesh) i)
      (FBXMesh.texCoords m ++ optionalValue (draco.TEX_COORD dracoMesh) i)
      (FBXMesh.texCoords1 m ++ optionalValue (draco.TEX_COORD_1 dracoMesh) i)
      (FBXMesh.clusterIndices m) (FBXMesh.clusterWeights m)
      (FBXMesh.clusters m) (FBXMesh.meshIndex m) (FBXMesh._mesh m) in
  MeshData_setExtracted data
    (ExtractedMesh.mk m'
       ((Z.of_nat i, i) :: ExtractedMesh.newIndices e)
       (ExtractedMesh.partMaterialTextures e)
       (ExtractedMesh.texcoordSetMap e))
    (MeshData.indices data).

(** One round of the per-face loop (lines 423-451). *)
Definition dracoFace (dracoMesh : draco.Mesh)
    (st : MeshData.t * gmap (Z * Z) nat) (face : nat * nat * nat)
  : MeshData.t * gmap (Z * Z) nat :=
  let '(data, materialTextureParts) := st in
  let '(firstCorner, secondCorner, thirdCorner) := face in
  let materialID :=
    match draco.MATERIAL_ID dracoMesh with
    | Some value => value firstCorner
    | None => 0
    end in
  let materialTexture := (materialID, 0) in
  let '(data1, materialTextureParts1, partIndexPlusOne) :=
    obtainPart data materialTextureParts materialTexture in
  let appendFace (part : FBXMeshPart.t) :=
    FBXMeshPart.mk (FBXMeshPart.quadIndices part)
      (FBXMeshPart.quadTrianglesIndices part)
      (FBXMeshPart.triangleIndices part
         ++ [firstCorner; secondCorner; thirdCorner]) in
  (MeshData_setParts data1
     (alter appendFace (partIndexPlusOne - 1)%nat (MeshData_parts data1)),
   materialTextureParts1).

(** The DracoMesh child: all points, then all faces. *)
Definition extractDraco (dracoMesh : draco.Mesh) (data : MeshData.t)
  : MeshData.t :=
  let data1 :=
    fold_left (dracoPoint dracoMesh) (seq 0 (draco.num_points dracoMesh)) data in
  fst (fold_left (dracoFace dracoMesh) (draco.faces dracoMesh) (data1, ∅)).

(** ** extractMesh, the scan of the node's children (lines 193-341) *)

Record ScanState : Type := mkScan {
  scan_data : MeshData.t;
  materials : list Z;
  textures : list Z;
  isMaterialPerPolygon : bool;
  isDracoMesh : bool
}.

Definition MeshData_setVertices (d : MeshData.t) (v : list vec3) : MeshData.t :=
  MeshData.mk (MeshData.extracted d) v (MeshData.polygonIndices d)
    (MeshData.normalsByVertex d) (MeshData.normals d)
    (MeshData.normalIndices d) (MeshData.colorsByVertex d)
    (MeshData.averageColor d) (MeshData.colors d) (MeshData.colorIndices d)
    (MeshData.texCoords d) (MeshData.texCoordIndices d) (MeshData.indices d)
    (MeshData.attributes d).

Definition MeshData_setPolygonIndices (d : MeshData.t) (p : list Z)
  : MeshData.t :=
  MeshData.mk (MeshData.extracted d) (MeshData.vertices d) p
    (MeshData.normalsByVertex d) (MeshData.normals d)
    (MeshData.normalIndices d) (MeshData.colorsByVertex d)
    (MeshData.averageColor d) (MeshData.colors d) (MeshData.colorIndices d)
    (MeshData.texCoords d) (MeshData.texCoordIndices d) (MeshData.indices d)
    (MeshData.attributes d).

Definition MeshData_setNormalLayer (d : MeshData.t) (byVertex : bool)
    (normals : list vec3) (normalIndices : list Z) : MeshData.t :=
  MeshData.mk (MeshData.extracted d) (MeshData.vertices d)
    (MeshData.polygonIndices d) byVertex normals normalIndices
    (MeshData.colorsByVertex d) (MeshData.averageColor d) (MeshData.colors d)
    (MeshData.colorIndices d) (MeshData.texCoords d)
    (MeshData.texCoordIndices d) (MeshData.indices d) (MeshData.attributes d).

Definition MeshData_setColorLayer (d : MeshData.t) (byVertex : bool)
    (averageColor : vec4) (colors : list vec4) (colorIndices : list Z)
  : MeshData.t :=
  MeshData.mk (MeshData.extracted d) (MeshData.vertices d)
    (MeshData.polygonIndices d) (MeshData.normalsByVertex d)
    (MeshData.normals d) (MeshData.normalIndices d) byVertex averageColor
    colors colorIndices (MeshData.texCoords d) (MeshData.texCoordIndices d)
    (MeshData.indices d) (MeshData.attributes d).

Definition MeshData_setTexCoords (d : MeshData.t) (texCoords : list vec2)
    (texCoordIndices : list Z) : MeshData.t :=
  MeshData.mk (MeshData.extracted d) (MeshData.vertices d)
    (MeshData.polygonIndices d) (MeshData.normalsByVertex d)
    (MeshData.normals d) (MeshData.normalIndices d)
    (MeshData.colorsByVertex d) (MeshData.averageColor d) (MeshData.colors d)
    (MeshData.colorIndices d) texCoords texCoordIndices (MeshData.indices d)
    (MeshData.attributes d).

(** [texcoordSetMap.insert(attrib.name, attributes.size());
     attributes.push_back(attrib)] (lines 282-283 and 311-312). *)
Definition MeshData_pushAttribute (d : MeshData.t) (attrib : AttributeData.t)
  : MeshData.t :=
  let e := MeshData.extracted d in
  MeshData.mk
    (ExtractedMesh.mk (ExtractedMesh.mesh e) (ExtractedMesh.newIndices e)
       (ExtractedMesh.partMaterialTextures e)
       (<[AttributeData.name attrib := length (MeshData.attributes d)]>
          (ExtractedMesh.texcoordSetMap e)))
    (MeshData.vertices d) (MeshData.polygonIndices d)
    (MeshData.normalsByVertex d) (MeshData.normals d)
    (MeshData.normalIndices d) (MeshData.colorsByVertex d)
    (MeshData.averageColor d) (MeshData.colors d) (MeshData.colorIndices d)
    (MeshData.texCoords d) (MeshData.texCoordIndices d) (MeshData.indices d)
    (MeshData.attributes d ++ [attrib]).

Open Scope string_scope.

(** LayerElementNormal (lines 200-220). *)
Definition scanNormalSub (acc : bool * bool * list vec3 * list Z)
    (subdata : FBXNode.t) : bool * bool * list vec3 * list Z :=
  let '(normalsByVertex, indexToDirect, normals, normalIndices) := acc in
  if String.eqb (FBXNode.name subdata) "Normals" then
    (normalsByVertex, indexToDirect, FBXNode.getVec3Vector subdata,
     normalIndices)
  else if String.eqb (FBXNode.name subdata) "NormalsIndex" then
    (normalsByVertex, indexToDirect, normals, FBXNode.getIntVector subdata)
  else if String.eqb (FBXNode.name subdata) "MappingInformationType"
          && FBXNode.propertyIs subdata BY_VERTICE then
    (true, indexToDirect, normals, normalIndices)
  else if String.eqb (FBXNode.name subdata) "ReferenceInformationType"
          && FBXNode.propertyIs subdata INDEX_TO_DIRECT then
    (normalsByVertex, true, normals, normalIndices)
  else acc.

Definition scanNormalLayer (data : MeshData.t) (child : FBXNode.t)
  : MeshData.t :=
  let '(normalsByVertex, indexToDirect, normals, normalIndices) :=
    fold_left scanNormalSub (FBXNode.children child)
      (false, false, MeshData.normals data, MeshData.normalIndices data) in
  MeshData_setNormalLayer data
    (if indexToDirect && isEmpty normalIndices then true else normalsByVertex)
    normals normalIndices.

(** LayerElementColor (lines 221-240); the last test reads
    [normalIndices], as the source does. *)
Definition scanColorSub (acc : bool * bool * vec4 * list vec4 * list Z)
    (subdata : FBXNode.t) : bool * bool * vec4 * list vec4 * list Z :=
  let '(colorsByVertex, indexToDirect, averageColor, colors, colorIndices) :=
    acc in
  if String.eqb (FBXNode.name subdata) "Colors" then
    let '(colors', averageColor') :=
      FBXNode.getVec4Vector subdata averageColor in
    (colorsByVertex, indexToDirect, averageColor', colors', colorIndices)
  else if String.eqb (FBXNode.name subdata) "ColorsIndex" then
    (colorsByVertex, indexToDirect, averageColor, colors,
     FBXNode.getIntVector subdata)
  else if String.eqb (FBXNode.name subdata) "MappingInformationType"
          && FBXNode.propertyIs subdata BY_VERTICE then
    (true, indexToDirect, averageColor, colors, colorIndices)
  else if String.eqb (FBXNode.name subdata) "ReferenceInformationType"
          && FBXNode.propertyIs subdata INDEX_TO_DIRECT then
    (colorsByVertex, true, averageColor, colors, colorIndices)
  else acc.

Definition scanColorLayer (data : MeshData.t) (child : FBXNode.t)
  : MeshData.t :=
  let '(colorsByVertex, indexToDirect, averageColor, colors, colorIndices) :=
    fold_left scanColorSub (FBXNode.children child)
      (false, false, MeshData.averageColor data, MeshData.colors data,
       MeshData.colorIndices data) in
  MeshData_setColorLayer data
    (if indexToDirect && isEmpty (MeshData.normalIndices data) then true
     else colorsByVertex)
    averageColor colors colorIndices.

(** LayerElementUV (lines 255-317). *)
Definition scanUVSub (attrib : AttributeData.t) (subdata : FBXNode.t)
  : AttributeData.t :=
  if String.eqb (FBXNode.name subdata) "UV" then
    AttributeData.mk (FBXNode.getVec2Vector subdata)
      (AttributeData.texCoordIndices attrib) (AttributeData.name attrib)
      (AttributeData.index attrib)
  else if String.eqb (FBXNode.name subdata) "UVIndex" then
    AttributeData.mk (AttributeData.texCoords attrib)
      (FBXNode.getIntVector subdata) (AttributeData.name attrib)
      (AttributeData.index attrib)
  else if String.eqb (FBXNode.name subdata) "Name" then
    AttributeData.mk (AttributeData.texCoords attrib)
      (AttributeData.texCoordIndices attrib) (FBXNode.toString subdata)
      (AttributeData.index attrib)
  else attrib.

(** The first branch also stores UV and UVIndex in the legacy fields. *)
Definition scanUV0Sub (acc : MeshData.t * AttributeData.t)
    (subdata : FBXNode.t) : MeshData.t * AttributeData.t :=
  let '(data, attrib) := acc in
  let data' :=
    if String.eqb (FBXNode.name subdata) "UV" then
      MeshData_setTexCoords data (FBXNode.getVec2Vector subdata)
        (MeshData.texCoordIndices data)
    else if String.eqb (FBXNode.name subdata) "UVIndex" then
      MeshData_setTexCoords data (MeshData.texCoords data)
        (FBXNode.getIntVector subdata)
    else data in
  (data', scanUVSub attrib subdata).

Definition scanUVLayer (data : MeshData.t) (child : FBXNode.t) : MeshData.t :=
  let attrib0 := AttributeData.mk [] [] "" (FBXNode.toInt child) in
  if Z.eqb (FBXNode.toInt child) 0 then
    let '(data', attrib) :=
      fold_left scanUV0Sub (FBXNode.children child) (data, attrib0) in
    MeshData_pushAttribute data' attrib
  else
    let attrib := fold_left scanUVSub (FBXNode.children child) attrib0 in
    match ExtractedMesh.texcoordSetMap (MeshData.extracted data)
            !! AttributeData.name attrib with
    | None => MeshData_pushAttribute data attrib
    | Some _ => data
    end.

(** LayerElementMaterial (lines 318-330). *)
Definition scanMaterialSub (acc : list Z * bool) (subdata : FBXNode.t)
  : list Z * bool :=
  let '(materials, isMaterialPerPolygon) := acc in
  if String.eqb (FBXNode.name subdata) "Materials" then
    (FBXNode.getIntVector subdata, isMaterialPerPolygon)
  else if String.eqb (FBXNode.name subdata) "MappingInformationType" then
    (materials,
     if FBXNode.propertyIs subdata BY_POLYGON then true
     else isMaterialPerPolygon)
  else (materials, false).

(** LayerElementTexture (lines 333-338). *)
Definition scanTextureSub (textures : list Z) (subdata : FBXNode.t) : list Z :=
  if String.eqb (FBXNode.name subdata) "TextureId"
  then FBXNode.getIntVector subdata else textures.

(** One child of the mesh node (the body of the loop at line 193). *)
Definition scanChild (st : ScanState) (child : FBXNode.t) : ScanState :=
  let data := scan_data st in
  let withData (d : MeshData.t) :=
    mkScan d (materials st) (textures st) (isMaterialPerPolygon st)
      (isDracoMesh st) in
  if String.eqb (FBXNode.name child) "Vertices" then
    withData (MeshData_setVertices data (FBXNode.getVec3Vector child))
  else if String.eqb (FBXNode.name child) "PolygonVertexIndex" then
    withData (MeshData_setPolygonIndices data (FBXNode.getIntVector child))
  else if String.eqb (FBXNode.name child) "LayerElementNormal" then
    withData (scanNormalLayer data child)
  else if String.eqb (FBXNode.name child) "LayerElementColor" then
    withData (scanColorLayer data child)
  else if String.eqb (FBXNode.name child) "LayerElementUV" then
    withData (scanUVLayer data child)
  else if String.eqb (FBXNode.name child) "LayerElementMaterial" then
    let '(materials', isMaterialPerPolygon') :=
      fold_left scanMaterialSub (FBXNode.children child)
        (materials st, isMaterialPerPolygon st) in
    mkScan data materials' (textures st) isMaterialPerPolygon' (isDracoMesh st)
  else if String.eqb (FBXNode.name child) "LayerElementTexture" then
    mkScan data (materials st)
      (fold_left scanTextureSub (FBXNode.children child) (textures st))
      (isMaterialPerPolygon st) (isDracoMesh st)
  else if String.eqb (FBXNode.name child) "DracoMesh" then
    mkScan (extractDraco (FBXNode.getDraco child) data) (materials st)
      (textures st) (isMaterialPerPolygon st) true
  else st.

Close Scope string_scope.

(** ** extractMesh, non-compressed path (lines 457-521) *)

(** Line 470: [while (endIndex < size && polygonIndices.at(endIndex++) >= 0);]
    over the entries from [endIndex] on. *)
Fixpoint scanSpan (rest : list Z) (endIndex : nat) : nat :=
  match rest with
  | [] => endIndex
  | entry :: rest' =>
      if 0 <=? entry then scanSpan rest' (S endIndex) else S endIndex
  end.

Definition spanEnd (polygonIndices : list Z) (beginIndex : nat) : nat :=
  scanSpan (skipn beginIndex polygonIndices) beginIndex.

(** The fan loop of lines 510-517; it has no bound of its own, the model
    counts its rounds with [fuel]. *)
Fixpoint fanLoop (fuel : nat) (data : MeshData.t) (triangleIndices : list nat)
    (beginIndex nextIndex : nat) : option (MeshData.t * list nat) :=
  match fuel with
  | O => None
  | S fuel' =>
      let '(data1, t1) := appendIndex data triangleIndices beginIndex in
      let '(data2, t2) := appendIndex data1 t1 nextIndex in
      let nextIndex' := S nextIndex in
      let '(data3, t3) := appendIndex data2 t2 nextIndex' in
      if (size (MeshData.polygonIndices data3) <=? Z.of_nat nextIndex')
         || (at_ 0 (MeshData.polygonIndices data3) (Z.of_nat nextIndex') <? 0)
      then Some (data3, t3)
      else fanLoop fuel' data3 t3 beginIndex nextIndex'
  end.

(** The variables of the polygon loop. *)
Record PolyState : Type := mkPoly {
  poly_data : MeshData.t;
  materialTextureParts : gmap (Z * Z) nat;
  beginIndex : nat;
  polygonIndex : nat
}.

(** Lines 472-473: the key of the polygon's part. *)
Definition materialTexture_of (materials textures : list Z)
    (polygonIndex : nat) : Z * Z :=
  (if Z.of_nat polygonIndex <? size materials
   then at_ 0 materials (Z.of_nat polygonIndex) else 0,
   if Z.of_nat polygonIndex <? size textures
   then at_ 0 textures (Z.of_nat polygonIndex) else 0).

(** One round of the polygon loop (lines 469-519). [parts[partIndex - 1]]
    and [quadIndices[quadStartIndex + i]] are inside their vectors in
    every state the loop reaches ([obtainPart_spec], [nth_snoc4]); the
    model reads a default and writes nothing outside. *)
Definition polygonStep (materials textures : list Z) (st : PolyState)
  : option PolyState :=
  let data := poly_data st in
  let beginIndex := beginIndex st in
  let polygonIndex := polygonIndex st in
  let endIndex := spanEnd (MeshData.polygonIndices data) beginIndex in
  let materialTexture := materialTexture_of materials textures polygonIndex in
  let '(data0, materialTextureParts', partIndex) :=
    obtainPart data (materialTextureParts st) materialTexture in
  let part := nth (partIndex - 1) (MeshData_parts data0) FBXMeshPart.empty in
  if Nat.eqb (endIndex - beginIndex) 4 then
    let '(data1, q1) :=
      appendIndex data0 (FBXMeshPart.quadIndices part) beginIndex in
    let '(data2, q2) := appendIndex data1 q1 (beginIndex + 1) in
    let '(data3, q3) := appendIndex data2 q2 (beginIndex + 2) in
    let '(data4, q4) := appendIndex data3 q3 (beginIndex + 3) in
    let quadStartIndex := (length q4 - 4)%nat in
    let i0 := nth (quadStartIndex + 0) q4 0%nat in
    let i1 := nth (quadStartIndex + 1) q4 0%nat in
    let i2 := nth (quadStartIndex + 2) q4 0%nat in
    let i3 := nth (quadStartIndex + 3) q4 0%nat in
    let part' :=
      FBXMeshPart.mk q4
        (FBXMeshPart.quadTrianglesIndices part ++ [i0; i1; i3; i1; i2; i3])
        (FBXMeshPart.triangleIndices part) in
    Some (mkPoly
            (MeshData_setParts data4
               (<[(partIndex - 1)%nat := part']> (MeshData_parts data4)))
            materialTextureParts' (beginIndex + 4) (S polygonIndex))
  else
    match fanLoop (length (MeshData.polygonIndices data0)) data0
            (FBXMeshPart.triangleIndices part) beginIndex (S beginIndex) with
    | None => None
    | Some (data1, triangleIndices') =>
        let part' :=
          FBXMeshPart.mk (FBXMeshPart.quadIndices part)
            (FBXMeshPart.quadTrianglesIndices part) triangleIndices' in
        Some (mkPoly
                (MeshData_setParts data1
                   (<[(partIndex - 1)%nat := part']> (MeshData_parts data1)))
                materialTextureParts' endIndex (S polygonIndex))
    end.

(** The polygon loop (line 468), [fuel] rounds at most. *)
Fixpoint polygonLoop (fuel : nat) (materials textures : list Z)
    (st : PolyState) : option PolyState :=
  if Z.of_nat (beginIndex st) <? size (MeshData.polygonIndices (poly_data st))
  then
    match fuel with
    | O => None
    | S fuel' =>
        match polygonStep materials textures st with
        | None => None
        | Some st' => polygonLoop fuel' materials textures st'
        end
    end
  else Some st.

(** The non-compressed conversion of a scanned node: every round consumes
    at least one entry of the stream, so its length bounds the rounds. *)
Definition extractPolygons (materials textures : list Z) (data : MeshData.t)
  : option MeshData.t :=
  match polygonLoop (length (MeshData.polygonIndices data)) materials textures
          (mkPoly data ∅ 0 0) with
  | Some st => Some (poly_data st)
  | None => None
  end.

(** [unsigned int] arithmetic. *)
Definition to_uint (x : Z) : Z := x mod 2 ^ 32.

(** [MeshData data;]: empty arrays; the two mapping flags have no
    initialiser and are arguments here. *)
Definition MeshData_initial (normalsByVertex colorsByVertex : bool)
    (meshIndex : Z) : MeshData.t :=
  MeshData.mk (ExtractedMesh.mk (FBXMesh.empty meshIndex) [] [] ∅)
    [] [] normalsByVertex [] [] colorsByVertex (fone, fone, fone, fone)
    [] [] [] [] [] [].

(** ** FBXReader::extractMesh (lines 179-524)

    The result and the incremented [meshIndex]; [None] only if the loop
    model ran out of rounds. *)
Definition extractMesh (normalsByVertex colorsByVertex : bool)
    (object : FBXNode.t) (meshIndex : Z) : option (ExtractedMesh.t * Z) :=
  let data := MeshData_initial normalsByVertex colorsByVertex meshIndex in
  let st :=
    fold_left scanChild (FBXNode.children object)
      (mkScan data [] [] false false) in
  if isDracoMesh st then
    Some (MeshData.extracted (scan_data st), to_uint (meshIndex + 1))
  else
    match extractPolygons (materials st) (textures st) (scan_data st) with
    | Some data' => Some (MeshData.extracted data', to_uint (meshIndex + 1))
    | None => None
    end.

(** ** FBXReader::buildModelMesh (lines 526-710) *)

(** A value stored in an [int]. *)
Definition to_int (x : Z) : Z := (x + 2 ^ 31) mod 2 ^ 32 - 2 ^ 31.

Definition UINT8_MAX : Z := 255.
Definition sizeof_vec3 : Z := 12.
Definition sizeof_vec2 : Z := 8.
Definition sizeof_uint8 : Z := 1.
Definition sizeof_int : Z := 4.
Definition sizeof_Part : Z := 16.

(** The memory behind [constData()] of each vector. *)
Definition bytes_float (f : float) : list gpu.Byte :=
  map (gpu.FloatByte f) [0; 1; 2; 3]%nat.
Definition bytes_vec2 (v : vec2) : list gpu.Byte :=
  bytes_float (fst v) ++ bytes_float (snd v).
Definition bytes_vec3 (v : vec3) : list gpu.Byte :=
  let '(x, y, z) := v in bytes_float x ++ bytes_float y ++ bytes_float z.
Definition bytes_uint8 (v : Z) : list gpu.Byte := [gpu.IntByte 1 v 0].
Definition bytes_uint16 (v : Z) : list gpu.Byte :=
  map (gpu.IntByte 2 v) [0; 1]%nat.
Definition bytes_uint32 (v : Z) : list gpu.Byte :=
  map (gpu.IntByte 4 v) [0; 1; 2; 3]%nat.
Definition bytes_index (i : nat) : list gpu.Byte := bytes_uint32 (Z.of_nat i).
Definition Topology_value (t : Mesh.Topology) : Z :=
  match t with
  | Mesh.POINTS => 0 | Mesh.LINES => 1 | Mesh.LINE_STRIP => 2
  | Mesh.TRIANGLES => 3
  end.
Definition bytes_Part (p : Mesh.Part) : list gpu.Byte :=
  bytes_uint32 (Mesh._startIndex p) ++ bytes_uint32 (Mesh._numIndices p)
  ++ bytes_uint32 (Mesh._baseVertex p)
  ++ bytes_uint32 (Topology_value (Mesh._topology p)).

(** The sum of lines 529-532 and 649-652, in an [unsigned int]. *)
Definition totalIndices_of (parts : list FBXMeshPart.t) : Z :=
  fold_left
    (fun total part =>
       to_uint (total
                + to_int (size (FBXMeshPart.quadTrianglesIndices part)
                          + size (FBXMeshPart.triangleIndices part))))
    parts 0.

(** A line of the log: the text and the url streamed after it. *)
Definition LogLine : Type := (string * string)%type.

Definition noIndices (url : string) : LogLine :=
  ("buildModelMesh failed -- no indices, url = "%string, url).
Definition noVertices (url : string) : LogLine :=
  ("buildModelMesh failed -- no vertices, url = "%string, url).
Definition noParts (url : string) : LogLine :=
  ("buildModelMesh failed -- no parts, url = "%string, url).

(** The byte sizes and offsets of lines 555-575. *)
Record AttributeLayout : Type := mkLayout {
  normalsSize : Z;
  tangentsSize : Z;
  colorsSize : Z;
  texCoordsSize : Z;
  texCoords1Size : Z;
  clusterIndicesSize : Z;
  clusterWeightsSize : Z;
  normalsOffset : Z;
  tangentsOffset : Z;
  colorsOffset : Z;
  texCoordsOffset : Z;
  texCoords1Offset : Z;
  clusterIndicesOffset : Z;
  clusterWeightsOffset : Z;
  totalAttributeSize : Z
}.

Definition attributeLayout (fbxMesh : FBXMesh.t) : AttributeLayout :=
  let normalsSize := to_int (size (FBXMesh.normals fbxMesh) * sizeof_vec3) in
  let tangentsSize := to_int (size (FBXMesh.tangents fbxMesh) * sizeof_vec3) in
  let colorsSize := to_int (size (FBXMesh.colors fbxMesh) * sizeof_vec3) in
  let texCoordsSize :=
    to_int (size (FBXMesh.texCoords fbxMesh) * sizeof_vec2) in
  let texCoords1Size :=
    to_int (size (FBXMesh.texCoords1 fbxMesh) * sizeof_vec2) in
  let clusterIndicesSize :=
    to_int (size (FBXMesh.clusterIndices fbxMesh) * sizeof_uint8) in
  let clusterIndicesSize :=
    if UINT8_MAX <? size (FBXMesh.clusters fbxMesh)
    then to_int (clusterIndicesSize * 2) else clusterIndicesSize in
  let clusterWeightsSize :=
    to_int (size (FBXMesh.clusterWeights fbxMesh) * sizeof_uint8) in
  let normalsOffset := 0 in
  let tangentsOffset := to_int (normalsOffset + normalsSize) in
  let colorsOffset := to_int (tangentsOffset + tangentsSize) in
  let texCoordsOffset := to_int (colorsOffset + colorsSize) in
  let texCoords1Offset := to_int (texCoordsOffset + texCoordsSize) in
  let clusterIndicesOffset := to_int (texCoords1Offset + texCoords1Size) in
  let clusterWeightsOffset :=
    to_int (clusterIndicesOffset + clusterIndicesSize) in
  let totalAttributeSize := to_int (clusterWeightsOffset + clusterWeightsSize) in
  mkLayout normalsSize tangentsSize colorsSize texCoordsSize texCoords1Size
    clusterIndicesSize clusterWeightsSize normalsOffset tangentsOffset
    colorsOffset texCoordsOffset texCoords1Offset clusterIndicesOffset
    clusterWeightsOffset totalAttributeSize.

(** Lines 577-599: the attribute buffer and its copies. *)
Definition attributeBuffer (fbxMesh : FBXMesh.t) : gpu.Buffer :=
  let L := attributeLayout fbxMesh in
  let b := gpu.resize [] (totalAttributeSize L) in
  let b := gpu.setSubData b (normalsOffset L) (normalsSize L)
             (flat_map bytes_vec3 (FBXMesh.normals fbxMesh)) in
  let b := gpu.setSubData b (tangentsOffset L) (tangentsSize L)
             (flat_map bytes_vec3 (FBXMesh.tangents fbxMesh)) in
  let b := gpu.setSubData b (colorsOffset L) (colorsSize L)
             (flat_map bytes_vec3 (FBXMesh.colors fbxMesh)) in
  let b := gpu.setSubData b (texCoordsOffset L) (texCoordsSize L)
             (flat_map bytes_vec2 (FBXMesh.texCoords fbxMesh)) in
  let b := gpu.setSubData b (texCoords1Offset L) (texCoords1Size L)
             (flat_map bytes_vec2 (FBXMesh.texCoords1 fbxMesh)) in
  let b :=
    if size (FBXMesh.clusters fbxMesh) <? UINT8_MAX then
      (* the indices narrowed to uint8_t; line 592 asserts in debug builds
         that none exceeds UINT8_MAX *)
      let clusterIndices :=
        map (fun i => i mod 256) (FBXMesh.clusterIndices fbxMesh) in
      gpu.setSubData b (clusterIndicesOffset L) (clusterIndicesSize L)
        (flat_map bytes_uint8 clusterIndices)
    else
      gpu.setSubData b (clusterIndicesOffset L) (clusterIndicesSize L)
        (flat_map bytes_uint16 (FBXMesh.clusterIndices fbxMesh)) in
  gpu.setSubData b (clusterWeightsOffset L) (clusterWeightsSize L)
    (flat_map bytes_uint8 (FBXMesh.clusterWeights fbxMesh)).

(** Lines 601-646: the attributes attached to the mesh. *)
Definition attachAttributes (fbxMesh : FBXMesh.t) (attribBuffer : gpu.Buffer)
    (mesh : Mesh.t) : Mesh.t :=
  let L := attributeLayout fbxMesh in
  let view := gpu.mkView attribBuffer in
  let mesh :=
    if negb (normalsSize L =? 0) then
      Mesh.addAttribute mesh gpu.NORMAL
        (view (normalsOffset L) (normalsSize L)
           (gpu.mkElement gpu.VEC3 gpu.FLOAT gpu.XYZ))
    else mesh in
  let mesh :=
    if negb (tangentsSize L =? 0) then
      Mesh.addAttribute mesh gpu.TANGENT
        (view (tangentsOffset L) (tangentsSize L)
           (gpu.mkElement gpu.VEC3 gpu.FLOAT gpu.XYZ))
    else mesh in
  let mesh :=
    if negb (colorsSize L =? 0) then
      Mesh.addAttribute mesh gpu.COLOR
        (view (colorsOffset L) (colorsSize L)
           (gpu.mkElement gpu.VEC3 gpu.FLOAT gpu.RGB))
    else mesh in
  let mesh :=
    if negb (texCoordsSize L =? 0) then
      Mesh.addAttribute mesh gpu.TEXCOORD
        (view (texCoordsOffset L) (texCoordsSize L)
           (gpu.mkElement gpu.VEC2 gpu.FLOAT gpu.UV))
    else mesh in
  let mesh :=
    if negb (texCoords1Size L =? 0) then
      Mesh.addAttribute mesh gpu.TEXCOORD1
        (view (texCoords1Offset L) (texCoords1Size L)
           (gpu.mkElement gpu.VEC2 gpu.FLOAT gpu.UV))
    else if negb (texCoordsSize L =? 0) then
      Mesh.addAttribute mesh gpu.TEXCOORD1
        (view (texCoordsOffset L) (texCoordsSize L)
           (gpu.mkElement gpu.VEC2 gpu.FLOAT gpu.UV))
    else mesh in
  let mesh :=
    if negb (clusterIndicesSize L =? 0) then
      if size (FBXMesh.clusters fbxMesh) <? UINT8_MAX then
        Mesh.addAttribute mesh gpu.SKIN_CLUSTER_INDEX
          (view (clusterIndicesOffset L) (clusterIndicesSize L)
             (gpu.mkElement gpu.VEC4 gpu.UINT8 gpu.XYZW))
      else
        Mesh.addAttribute mesh gpu.SKIN_CLUSTER_INDEX
          (view (clusterIndicesOffset L) (clusterIndicesSize L)
             (gpu.mkElement gpu.VEC4 gpu.UINT16 gpu.XYZW))
    else mesh in
  if negb (clusterWeightsSize L =? 0) then
    Mesh.addAttribute mesh gpu.SKIN_CLUSTER_WEIGHT
      (view (clusterWeightsOffset L) (clusterWeightsSize L)
         (gpu.mkElement gpu.VEC4 gpu.NUINT8 gpu.XYZW))
  else mesh.

(** The variables of the part loop (lines 659-691). *)
Record IndexState : Type := mkIndexState {
  indexBuffer : gpu.Buffer;
  indexNum : Z;
  offset : Z;
  modelParts : list Mesh.Part
}.

(** One round of the part loop (lines 669-691). *)
Definition indexPart (st : IndexState) (part : FBXMeshPart.t) : IndexState :=
  let modelPart := Mesh.mkPart (to_uint (indexNum st)) 0 0 Mesh.TRIANGLES in
  let quadTrianglesIndices := FBXMeshPart.quadTrianglesIndices part in
  let triangleIndices := FBXMeshPart.triangleIndices part in
  let '(st1, modelPart1) :=
    if negb (size quadTrianglesIndices =? 0) then
      (mkIndexState
         (gpu.setSubData (indexBuffer st) (offset st)
            (size quadTrianglesIndices * sizeof_int)
            (flat_map bytes_index quadTrianglesIndices))
         (to_int (indexNum st + size quadTrianglesIndices))
         (to_int (offset st + size quadTrianglesIndices * sizeof_int))
         (modelParts st),
       Mesh.mkPart (Mesh._startIndex modelPart)
         (to_uint (Mesh._numIndices modelPart + size quadTrianglesIndices))
         (Mesh._baseVertex modelPart) (Mesh._topology modelPart))
    else (st, modelPart) in
  let '(st2, modelPart2) :=
    if negb (size triangleIndices =? 0) then
      (mkIndexState
         (gpu.setSubData (indexBuffer st1) (offset st1)
            (size triangleIndices * sizeof_int)
            (flat_map bytes_index triangleIndices))
         (to_int (indexNum st1 + size triangleIndices))
         (to_int (offset st1 + size triangleIndices * sizeof_int))
         (modelParts st1),
       Mesh.mkPart (Mesh._startIndex modelPart1)
         (to_uint (Mesh._numIndices modelPart1 + size triangleIndices))
         (Mesh._baseVertex modelPart1) (Mesh._topology modelPart1))
    else (st1, modelPart1) in
  mkIndexState (indexBuffer st2) (indexNum st2) (offset st2)
    (modelParts st2 ++ [modelPart2]).

(** [buildModelMesh(extractedMesh, url)]: the mesh after the call and the
    lines logged. Line 667 assigns [indexNum] the value it has, and
    [mesh->evalPartBound(0)] (line 707) computes a box that is dropped;
    both are left out. *)
Definition buildModelMesh (extractedMesh : FBXMesh.t) (url : string)
  : FBXMesh.t * list LogLine :=
  let totalSourceIndices := totalIndices_of (FBXMesh.parts extractedMesh) in
  if totalSourceIndices =? 0 then (extractedMesh, [noIndices url])
  else if size (FBXMesh.vertices extractedMesh) =? 0 then
    (extractedMesh, [noVertices url])
  else
    let fbxMesh := extractedMesh in
    let mesh := Mesh.new in
    let vb :=
      gpu.setData (size (FBXMesh.vertices extractedMesh) * sizeof_vec3)
        (flat_map bytes_vec3 (FBXMesh.vertices extractedMesh)) in
    let vbv := gpu.wholeView vb (gpu.mkElement gpu.VEC3 gpu.FLOAT gpu.XYZ) in
    let mesh := Mesh.setVertexBuffer mesh vbv in
    let attribBuffer := attributeBuffer fbxMesh in
    let mesh := attachAttributes fbxMesh attribBuffer mesh in
    let totalIndices := totalIndices_of (FBXMesh.parts extractedMesh) in
    if totalIndices =? 0 then (extractedMesh, [noIndices url])
    else
      let indexBuffer0 := gpu.resize [] (totalIndices * sizeof_int) in
      let st :=
        fold_left indexPart (FBXMesh.parts extractedMesh)
          (mkIndexState indexBuffer0 0 0 []) in
      let indexBufferView :=
        gpu.wholeView (indexBuffer st)
          (gpu.mkElement gpu.SCALAR gpu.UINT32 gpu.XYZ) in
      let mesh := Mesh.setIndexBuffer mesh indexBufferView in
      if negb (size (modelParts st) =? 0) then
        let pb :=
          gpu.setData (size (modelParts st) * sizeof_Part)
            (flat_map bytes_Part (modelParts st)) in
        let pbv :=
          gpu.wholeView pb (gpu.mkElement gpu.VEC4 gpu.UINT32 gpu.XYZW) in
        let mesh := Mesh.setPartBuffer mesh pbv in
        (FBXMesh_setMesh extractedMesh (Some mesh), [])
      else (extractedMesh, [noParts url]).


(** * Notions used by the properties *)

(** The number of triangle indices of an extracted mesh, quad-sourced and
    ordinary, over all parts. *)
Definition indexCount (parts : list FBXMeshPart.t) : nat :=
  list_sum
    (map (fun part =>
            (length (FBXMeshPart.quadTrianglesIndices part)
             + length (FBXMeshPart.triangleIndices part))%nat)
       parts).

(** The outcome of a call that passed both validations. *)
Definition builtMesh (extractedMesh : FBXMesh.t) : Mesh.t :=
  let mesh :=
    Mesh.setVertexBuffer Mesh.new
      (gpu.wholeView
         (gpu.setData (size (FBXMesh.vertices extractedMesh) * sizeof_vec3)
            (flat_map bytes_vec3 (FBXMesh.vertices extractedMesh)))
         (gpu.mkElement gpu.VEC3 gpu.FLOAT gpu.XYZ)) in
  let mesh :=
    attachAttributes extractedMesh (attributeBuffer extractedMesh) mesh in
  let st :=
    fold_left indexPart (FBXMesh.parts extractedMesh)
      (mkIndexState
         (gpu.resize [] (totalIndices_of (FBXMesh.parts extractedMesh)
                         * sizeof_int)) 0 0 []) in
  let mesh :=
    Mesh.setIndexBuffer mesh
      (gpu.wholeView (indexBuffer st)
         (gpu.mkElement gpu.SCALAR gpu.UINT32 gpu.XYZ)) in
  Mesh.setPartBuffer mesh
    (gpu.wholeView
       (gpu.setData (size (modelParts st) * sizeof_Part)
          (flat_map bytes_Part (modelParts st)))
       (gpu.mkElement gpu.VEC4 gpu.UINT32 gpu.XYZW)).

(** The bytes of one skin-cluster index in the attribute buffer, by the
    test of line 562. *)
Definition clusterIndexWidth (fbxMesh : FBXMesh.t) : Z :=
  if UINT8_MAX <? size (FBXMesh.clusters fbxMesh) then 2 else 1.

(** The exact byte count of the seven attribute arrays. *)
Definition attributeBytes (fbxMesh : FBXMesh.t) : Z :=
  size (FBXMesh.normals fbxMesh) * sizeof_vec3
  + size (FBXMesh.tangents fbxMesh) * sizeof_vec3
  + size (FBXMesh.colors fbxMesh) * sizeof_vec3
  + size (FBXMesh.texCoords fbxMesh) * sizeof_vec2
  + size (FBXMesh.texCoords1 fbxMesh) * sizeof_vec2
  + size (FBXMesh.clusterIndices fbxMesh) * clusterIndexWidth fbxMesh
  + size (FBXMesh.clusterWeights fbxMesh) * sizeof_uint8.

(** The attribute data fits the [int] variables that hold its sizes. *)
Definition fitsInt (fbxMesh : FBXMesh.t) : Prop :=
  attributeBytes fbxMesh < 2 ^ 31.

(** The mesh passes the two tests of lines 534 and 539. *)
Definition passesValidation (fbxMesh : FBXMesh.t) : Prop :=
  totalIndices_of (FBXMesh.parts fbxMesh) <> 0
  /\ FBXMesh.vertices fbxMesh <> [].

(** The bytes copied for the skin-cluster indices (lines 586-598). *)
Definition clusterIndexBytes (fbxMesh : FBXMesh.t) : list gpu.Byte :=
  firstn (Z.to_nat (clusterIndicesSize (attributeLayout fbxMesh)))
    (if size (FBXMesh.clusters fbxMesh) <? UINT8_MAX
     then flat_map bytes_uint8
            (map (fun i => i mod 256) (FBXMesh.clusterIndices fbxMesh))
     else flat_map bytes_uint16 (FBXMesh.clusterIndices fbxMesh)).

(** The attributes of the mesh a call sets, by slot. *)
Definition attributeOf (fbxMesh : FBXMesh.t) (slot : gpu.Slot)
  : option gpu.BufferView :=
  Mesh.getAttribute (Mesh._attributeBuffers (builtMesh fbxMesh)) slot.

(** A valid mesh with 255 clusters and four skin-cluster indices. *)
Definition mesh_255_clusters : FBXMesh.t :=
  FBXMesh.mk [FBXMeshPart.mk [] [] [0; 0; 0]%nat] [vec3_zero] [] [] [] [] []
    [0; 1; 2; 254] [255; 0; 0; 0] (repeat (FBXCluster.mk 0) 255) 0 None.

(** A valid mesh with one UV and no second UV channel. *)
Definition mesh_uv0_only : FBXMesh.t :=
  FBXMesh.mk [FBXMeshPart.mk [] [] [0; 0; 0]%nat] [vec3_zero] [vec3_zero] []
    [(fone, fzero, fzero)] [(fone, fone)] [] [] [] [] 0 None.

(** The attribute order of the buffer, and per slot: the length of the
    source array, the bytes of one source element, the size and offset
    the layout gives it, its element format and its source bytes. *)
Definition slotOrder : list gpu.Slot :=
  [gpu.NORMAL; gpu.TANGENT; gpu.COLOR; gpu.TEXCOORD; gpu.TEXCOORD1;
   gpu.SKIN_CLUSTER_INDEX; gpu.SKIN_CLUSTER_WEIGHT].

Definition sourceSize (fbxMesh : FBXMesh.t) (slot : gpu.Slot) : Z :=
  match slot with
  | gpu.NORMAL => size (FBXMesh.normals fbxMesh)
  | gpu.TANGENT => size (FBXMesh.tangents fbxMesh)
  | gpu.COLOR => size (FBXMesh.colors fbxMesh)
  | gpu.TEXCOORD => size (FBXMesh.texCoords fbxMesh)
  | gpu.TEXCOORD1 => size (FBXMesh.texCoords1 fbxMesh)
  | gpu.SKIN_CLUSTER_INDEX => size (FBXMesh.clusterIndices fbxMesh)
  | gpu.SKIN_CLUSTER_WEIGHT => size (FBXMesh.clusterWeights fbxMesh)
  end.

Definition elementBytes (fbxMesh : FBXMesh.t) (slot : gpu.Slot) : Z :=
  match slot with
  | gpu.NORMAL | gpu.TANGENT | gpu.COLOR => sizeof_vec3
  | gpu.TEXCOORD | gpu.TEXCOORD1 => sizeof_vec2
  | gpu.SKIN_CLUSTER_INDEX => clusterIndexWidth fbxMesh
  | gpu.SKIN_CLUSTER_WEIGHT => sizeof_uint8
  end.

Definition slotSize (L : AttributeLayout) (slot : gpu.Slot) : Z :=
  match slot with
  | gpu.NORMAL => normalsSize L
  | gpu.TANGENT => tangentsSize L
  | gpu.COLOR => colorsSize L
  | gpu.TEXCOORD => texCoordsSize L
  | gpu.TEXCOORD1 => texCoords1Size L
  | gpu.SKIN_CLUSTER_INDEX => clusterIndicesSize L
  | gpu.SKIN_CLUSTER_WEIGHT => clusterWeightsSize L
  end.

Definition slotOffset (L : AttributeLayout) (slot : gpu.Slot) : Z :=
  match slot with
  | gpu.NORMAL => normalsOffset L
  | gpu.TANGENT => tangentsOffset L
  | gpu.COLOR => colorsOffset L
  | gpu.TEXCOORD => texCoordsOffset L
  | gpu.TEXCOORD1 => texCoords1Offset L
  | gpu.SKIN_CLUSTER_INDEX => clusterIndicesOffset L
  | gpu.SKIN_CLUSTER_WEIGHT => clusterWeightsOffset L
  end.

Definition slotElement (fbxMesh : FBXMesh.t) (slot : gpu.Slot) : gpu.Element :=
  match slot with
  | gpu.NORMAL | gpu.TANGENT => gpu.mkElement gpu.VEC3 gpu.FLOAT gpu.XYZ
  | gpu.COLOR => gpu.mkElement gpu.VEC3 gpu.FLOAT gpu.RGB
  | gpu.TEXCOORD | gpu.TEXCOORD1 => gpu.mkElement gpu.VEC2 gpu.FLOAT gpu.UV
  | gpu.SKIN_CLUSTER_INDEX =>
      gpu.mkElement gpu.VEC4
        (if size (FBXMesh.clusters fbxMesh) <? UINT8_MAX
         then gpu.UINT8 else gpu.UINT16)
        gpu.XYZW
  | gpu.SKIN_CLUSTER_WEIGHT => gpu.mkElement gpu.VEC4 gpu.NUINT8 gpu.XYZW
  end.

Definition slotBytes (fbxMesh : FBXMesh.t) (slot : gpu.Slot) : list gpu.Byte :=
  match slot with
  | gpu.NORMAL => flat_map bytes_vec3 (FBXMesh.normals fbxMesh)
  | gpu.TANGENT => flat_map bytes_vec3 (FBXMesh.tangents fbxMesh)
  | gpu.COLOR => flat_map bytes_vec3 (FBXMesh.colors fbxMesh)
  | gpu.TEXCOORD => flat_map bytes_vec2 (FBXMesh.texCoords fbxMesh)
  | gpu.TEXCOORD1 => flat_map bytes_vec2 (FBXMesh.texCoords1 fbxMesh)
  | gpu.SKIN_CLUSTER_INDEX => clusterIndexBytes fbxMesh
  | gpu.SKIN_CLUSTER_WEIGHT =>
      flat_map bytes_uint8 (FBXMesh.clusterWeights fbxMesh)
  end.

(** The sum of a list of byte sizes. *)
Definition sumZ (l : list Z) : Z := fold_right Z.add 0 l.

(** The view of a slot's own region. *)
Definition slotView (fbxMesh : FBXMesh.t) (slot : gpu.Slot) : gpu.BufferView :=
  gpu.mkView (attributeBuffer fbxMesh)
    (slotOffset (attributeLayout fbxMesh) slot)
    (slotSize (attributeLayout fbxMesh) slot)
    (slotElement fbxMesh slot).

(** When [==] holds between two floats. *)
Definition float_same (a b : float) : Prop :=
  match a, b with
  | S754_zero _, S754_zero _ => True
  | S754_infinity s1, S754_infinity s2 => s1 = s2
  | S754_finite s1 m1 e1, S754_finite s2 m2 e2 =>
      s1 = s2 /\ m1 = m2 /\ e1 = e2
  | _, _ => False
  end.

(** A float that is not a number, and a UV with such a component. *)
Definition isNaN (f : float) : bool :=
  match f with S754_nan => true | _ => false end.

Definition hasNaN (uv : vec2) : bool := isNaN (fst uv) || isNaN (snd uv).

(** When [==] holds between two UVs: between their components. *)
Definition uv_same (a b : vec2) : Prop :=
  float_same (fst a) (fst b) /\ float_same (snd a) (snd b).

(** The keys of two corners compare equal, as [operator==] of lines 52-54
    decides it, written out on the values: the same source vertex index,
    and primary and secondary UVs between which [==] holds. *)
Definition keysCompareEqual (data : MeshData.t) (ci cj : nat) : Prop :=
  vertexIndex_of data ci = vertexIndex_of data cj
  /\ uv_same (texCoord_of data ci) (texCoord_of data cj)
  /\ uv_same (texCoord1_of data ci) (texCoord1_of data cj).

(** The keys of two corners are identical, in the words of the
    specification: the same source vertex index, the same resolved
    primary UV and the same resolved secondary UV. *)
Definition identicalKeys (data : MeshData.t) (ci cj : nat) : Prop :=
  vertexIndex_of data ci = vertexIndex_of data cj
  /\ texCoord_of data ci = texCoord_of data cj
  /\ texCoord1_of data ci = texCoord1_of data cj.

(** The corners [cs] handed to [appendIndex] one after the other, all with
    the same index list. *)
Definition appendCorners (data : MeshData.t) (indices : list nat)
    (cs : list nat) : MeshData.t * list nat :=
  fold_left (fun st c => appendIndex (fst st) (snd st) c) cs (data, indices).

(** The extracted mesh inside the mesh data. *)
Definition meshOf (data : MeshData.t) : FBXMesh.t :=
  ExtractedMesh.mesh (MeshData.extracted data).

(** The arrays read from the node, which [appendIndex] only reads. *)
Definition sourceOf (data : MeshData.t) :=
  (MeshData.vertices data, MeshData.polygonIndices data,
   MeshData.normalsByVertex data, MeshData.normals data,
   MeshData.normalIndices data, MeshData.colorsByVertex data,
   MeshData.colors data, MeshData.colorIndices data,
   MeshData.texCoords data, MeshData.texCoordIndices data,
   MeshData.attributes data).

(** No two entries of the table have keys that compare equal. *)
Fixpoint keysApart (h : QHash.t) : Prop :=
  match h with
  | [] => True
  | (k, _) :: r =>
      (forall e, In e r -> Vertex_eqb k (fst e) = false) /\ keysApart r
  end.

(** The state of the dedup index between two calls of [appendIndex]: keys
    apart, one entry per output index, every stored index an existing
    vertex, one normal per vertex. *)
Definition dedupInv (data : MeshData.t) : Prop :=
  keysApart (MeshData.indices data)
  /\ NoDup (map snd (MeshData.indices data))
  /\ (forall e, In e (MeshData.indices data) ->
       (snd e < length (FBXMesh.vertices (meshOf data)))%nat)
  /\ length (FBXMesh.normals (meshOf data))
     = length (FBXMesh.vertices (meshOf data)).

(** The normal stored for output vertex [v] after the corners [cos] (each
    with the output index it got), from the stored value [init]: the
    normals of the corners that got [v], added in order. *)
Definition addCorner (data : MeshData.t) (v : nat) (acc : option vec3)
    (co : nat * nat) : option vec3 :=
  if Nat.eqb (snd co) v then
    Some (match acc with
          | Some stored => vec3_add stored (normal_of data (fst co))
          | None => normal_of data (fst co)
          end)
  else acc.

Definition summedNormal (data : MeshData.t) (cos : list (nat * nat)) (v : nat)
    (init : option vec3) : option vec3 :=
  fold_left (addCorner data v) cos init.

(** What holds after the corners [cs], handed to [appendIndex] from
    [data] with an empty index list, gave [data'] and the indices [out]. *)
Record runInv (data : MeshData.t) (cs : list nat) (data' : MeshData.t)
    (out : list nat) : Prop := mkRunInv {
  run_length : length out = length cs;
  run_dedup : dedupInv data';
  run_source : sourceOf data' = sourceOf data;
  run_entry :
    forall i c o, cs !! i = Some c -> out !! i = Some o ->
    exists k', In (k', o) (MeshData.indices data')
               /\ (k' = vertex_of data c
                   \/ Vertex_eqb k' (vertex_of data c) = true);
  run_same :
    forall i j ci cj oi oj, i <> j ->
    cs !! i = Some ci -> cs !! j = Some cj ->
    out !! i = Some oi -> out !! j = Some oj ->
    (oi = oj <-> Vertex_eqb (vertex_of data ci) (vertex_of data cj) = true);
  run_normals :
    forall v,
    FBXMesh.normals (meshOf data') !! v
    = summedNormal data (combine cs out) v (FBXMesh.normals (meshOf data) !! v);
  run_lookup :
    forall i c o, cs !! i = Some c -> out !! i = Some o ->
    Vertex_eqb (vertex_of data c) (vertex_of data c) = true ->
    QHash.find (MeshData.indices data') (vertex_of data c) = Some o
}.

(** Mesh data with the polygon stream of one quad over three source
    vertices, the first and the last corner on vertex 0. *)
Definition data_shared_corner : MeshData.t :=
  MeshData_setPolygonIndices (MeshData_initial false false 0) [0; 1; 2; -1].

(** Two corners on source vertex 0 that take the same entry of the UV
    array, a UV whose first component is not a number. *)
Definition data_nan_shared : MeshData.t :=
  MeshData_setTexCoords
    (MeshData_setPolygonIndices (MeshData_initial false false 0) [0; -1])
    [(S754_nan, fzero)] [0; 0].

(** Two corners on source vertex 0 whose UVs differ in the sign of a
    zero. *)
Definition data_zero_signs : MeshData.t :=
  MeshData_setTexCoords
    (MeshData_setPolygonIndices (MeshData_initial false false 0) [0; -1])
    [(S754_zero false, fzero); (S754_zero true, fzero)] [].

(** The corner positions of the fan over a polygon of [N] corners that
    starts at [b]: (corner 0, corner i, corner i+1) for i = 1 .. N-2. *)
Definition fanCorners (b N : nat) : list nat :=
  flat_map (fun i => [b; b + i; b + i + 1]%nat) (seq 1 (N - 2)).

(** The polygon that starts at [b] has [N] corners: [N - 1] entries that
    are not negative, then the terminator. *)
Definition terminatedSpan (polygonIndices : list Z) (b N : nat) : Prop :=
  (1 <= N)%nat
  /\ (b + N <= length polygonIndices)%nat
  /\ (forall i, (i < N - 1)%nat -> 0 <= nth (b + i) polygonIndices 0)
  /\ nth (b + N - 1) polygonIndices 0 < 0.

(** The output index the dedup table gives a corner. *)
Definition outputIndex (data : MeshData.t) (index : nat) : nat :=
  default 0%nat (QHash.find (MeshData.indices data) (vertex_of data index)).

(** The key of a corner compares equal to itself (no NaN among its UVs). *)
Definition selfEqual (data : MeshData.t) (index : nat) : Prop :=
  Vertex_eqb (vertex_of data index) (vertex_of data index) = true.

(** The state of the polygon loop between two rounds: the dedup index is
    sound and every entry of the part map is the 1-based position of an
    existing part. *)
Definition polyInv (st : PolyState) : Prop :=
  dedupInv (poly_data st)
  /\ forall key v,
       materialTextureParts st !! key = Some v ->
       (1 <= v <= length (MeshData_parts (poly_data st)))%nat.

(** What [appendIndex] keeps of the extracted mesh, apart from the parts:
    the dedup table and the per-vertex arrays. *)
Definition vertexDataOf (data : MeshData.t) :=
  (MeshData.indices data, FBXMesh.vertices (meshOf data),
   FBXMesh.normals (meshOf data), FBXMesh.colors (meshOf data),
   FBXMesh.texCoords (meshOf data), FBXMesh.texCoords1 (meshOf data)).

(** The scenario of the specification: four vertices, one quad, no
    normals, UVs or colors. *)
Definition quadNode : FBXNode.t :=
  FBXNode.mk "Geometry" FBXNode.PNone
    [FBXNode.mk "Vertices"
       (FBXNode.PVec3Vector
          [(fzero, fzero, fzero); (fone, fzero, fzero);
           (fone, fone, fzero); (fzero, fone, fzero)]) [];
     FBXNode.mk "PolygonVertexIndex" (FBXNode.PIntVector [0; 1; 2; -4]) []].

(** The state of the polygon loop when it starts on the scanned data. *)
Definition polyStart (data : MeshData.t) : PolyState := mkPoly data ∅ 0 0.

(** The mesh data of [quadNode] after the scan of its children. *)
Definition quadData : MeshData.t :=
  scan_data
    (fold_left scanChild (FBXNode.children quadNode)
       (mkScan (MeshData_initial false false 0) [] [] false false)).

(** The polygon stream of one pentagon. *)
Definition pentagonData : MeshData.t :=
  MeshData_setPolygonIndices (MeshData_initial false false 0)
    [0; 1; 2; 3; -5].

(** Every per-vertex attribute array is empty or as long as the vertex
    array. *)
Definition arraysAligned (m : FBXMesh.t) : Prop :=
  let n := length (FBXMesh.vertices m) in
  (FBXMesh.normals m = [] \/ length (FBXMesh.normals m) = n)
  /\ (FBXMesh.colors m = [] \/ length (FBXMesh.colors m) = n)
  /\ (FBXMesh.texCoords m = [] \/ length (FBXMesh.texCoords m) = n)
  /\ (FBXMesh.texCoords1 m = [] \/ length (FBXMesh.texCoords1 m) = n).

(** Which optional arrays are filled: normals, primary UVs, secondary UVs,
    colors. *)
Definition Carried : Type := (bool * bool * bool * bool)%type.

Definition lengthIf (carried : bool) (n : nat) : nat :=
  if carried then n else 0%nat.

(** The per-vertex arrays hold one entry per vertex for the attributes of
    [sig] and nothing for the others. *)
Definition lensSig (sig : Carried) (m : FBXMesh.t) : Prop :=
  let '(n, t, t1, c) := sig in
  let count := length (FBXMesh.vertices m) in
  length (FBXMesh.normals m) = lengthIf n count
  /\ length (FBXMesh.texCoords m) = lengthIf t count
  /\ length (FBXMesh.texCoords1 m) = lengthIf t1 count
  /\ length (FBXMesh.colors m) = lengthIf c count.

(** The arrays the non-compressed path fills for the given source. *)
Definition sourceCarried (data : MeshData.t) : Carried :=
  (true, true, hasMoreTexcoords data, hasColors data).

Definition isSome {A : Type} (o : option A) : bool :=
  match o with Some _ => true | None => false end.

(** The optional attributes a decoded geometry carries. *)
Definition dracoCarried (m : draco.Mesh) : Carried :=
  (isSome (draco.NORMAL m), isSome (draco.TEX_COORD m),
   isSome (draco.TEX_COORD_1 m), isSome (draco.COLOR m)).

(** The DracoMesh children of a node, decoded, in order. *)
Definition dracoChildren (object : FBXNode.t) : list draco.Mesh :=
  map FBXNode.getDraco
    (List.filter (fun child => String.eqb (FBXNode.name child) "DracoMesh")
       (FBXNode.children object)).

(** The number of corners resolved into the parts. *)
Definition cornerCount (parts : list FBXMeshPart.t) : nat :=
  list_sum
    (map (fun part =>
            (length (FBXMeshPart.quadIndices part)
             + length (FBXMeshPart.triangleIndices part))%nat)
       parts).

(** A part with quad corners has quad triangles. *)
Definition quadsSplit (part : FBXMeshPart.t) : Prop :=
  FBXMeshPart.quadIndices part <> [] ->
  FBXMeshPart.quadTrianglesIndices part <> [].

(** What the polygon loop keeps, besides [polyInv]: the arrays aligned as
    the source demands, at most one vertex per resolved corner, every
    quad split. *)
Definition extractInv (st : PolyState) : Prop :=
  polyInv st
  /\ lensSig (sourceCarried (poly_data st)) (meshOf (poly_data st))
  /\ (length (FBXMesh.vertices (meshOf (poly_data st)))
      <= cornerCount (MeshData_parts (poly_data st)))%nat
  /\ Forall quadsSplit (MeshData_parts (poly_data st)).

(** A node whose compressed geometry has one point with a normal and no
    position. *)
Definition nodeWithoutPositions : FBXNode.t :=
  FBXNode.mk "Geometry" FBXNode.PNone
    [FBXNode.mk "DracoMesh"
       (FBXNode.PDraco
          (draco.mkMesh 1 None (Some (fun _ => vec3_zero)) None None None None
             []))
       []].

(** Nothing extracted yet. *)
Definition nothingExtracted (data : MeshData.t) : Prop :=
  vertexDataOf data = ([], [], [], [], [], []) /\ MeshData_parts data = [].

(** What the scan of the children keeps, when every DracoMesh child
    carries positions and the optional attributes [sig]. *)
Definition scanInv (sig : Carried) (st : ScanState) : Prop :=
  MeshData.indices (scan_data st) = []
  /\ lensSig sig (meshOf (scan_data st))
  /\ (isDracoMesh st = false -> nothingExtracted (scan_data st)).

(** A decoded geometry with positions and the optional attributes [sig]. *)
Definition dracoWith (sig : Carried) (m : draco.Mesh) : Prop :=
  draco.POSITION m <> None /\ dracoCarried m = sig.

(** A node whose compressed geometry is one triangle with positions and
    normals. *)
Definition dracoTriangleNode : FBXNode.t :=
  FBXNode.mk "Geometry" FBXNode.PNone
    [FBXNode.mk "DracoMesh"
       (FBXNode.PDraco
          (draco.mkMesh 3
             (Some (fun i => (if Nat.eqb i 1 then fone else fzero,
                              if Nat.eqb i 2 then fone else fzero, fzero)))
             (Some (fun _ => (fzero, fzero, fone)))
             None None None None [(0, 1, 2)%nat]))
       []].

(** The states the polygon loop goes through on the scanned data
    [data]. *)
Inductive loopReaches (materials textures : list Z) (data : MeshData.t)
  : PolyState -> Prop :=
  | reach_start : loopReaches materials textures data (polyStart data)
  | reach_round (st st' : PolyState) :
      loopReaches materials textures data st ->
      (beginIndex st < length (MeshData.polygonIndices (poly_data st)))%nat ->
      polygonStep materials textures st = Some st' ->
      loopReaches materials textures data st'.

(** A stream that ends inside a triangle, with no terminator. *)
Definition openTriangleNode : FBXNode.t :=
  FBXNode.mk "Geometry" FBXNode.PNone
    [FBXNode.mk "PolygonVertexIndex" (FBXNode.PIntVector [0; 1; 2]) []].

(** * Further notions: the index buffer and the part ranges *)

(** The triangle indices of a part in the order the part loop copies
    them (lines 672-688): the triangles made of quads, then the others. *)
Definition partIndices (part : FBXMeshPart.t) : list nat :=
  FBXMeshPart.quadTrianglesIndices part ++ FBXMeshPart.triangleIndices part.

(** The triangle indices of all parts, part after part. *)
Definition allIndices (parts : list FBXMeshPart.t) : list nat :=
  flat_map partIndices parts.

(** The ranges of consecutive parts in the index array, the first one
    starting at [start]. *)
Fixpoint partRanges (start : nat) (parts : list FBXMeshPart.t)
  : list Mesh.Part :=
  match parts with
  | [] => []
  | part :: rest =>
      Mesh.mkPart (Z.of_nat start) (Z.of_nat (length (partIndices part))) 0
        Mesh.TRIANGLES
      :: partRanges (start + length (partIndices part)) rest
  end.

(** The indices a part range designates in an index array. *)
Definition rangeIndices (range : Mesh.Part) (indices : list nat) : list nat :=
  firstn (Z.to_nat (Mesh._numIndices range))
    (skipn (Z.to_nat (Mesh._startIndex range)) indices).

(** A valid mesh of two parts: a quad split into two triangles, and one
    triangle. *)
Definition mesh_two_parts : FBXMesh.t :=
  FBXMesh.mk
    [FBXMeshPart.mk [0; 1; 2; 3]%nat [0; 1; 3; 1; 2; 3]%nat [];
     FBXMeshPart.mk [] [] [0; 2; 4]%nat]
    [vec3_zero; vec3_zero; vec3_zero; vec3_zero; vec3_zero]
    [] [] [] [] [] [] [] [] 0 None.

(** A valid mesh skinned by 300 clusters, with four skin-cluster indices
    and weights. *)
Definition mesh_300_clusters : FBXMesh.t :=
  FBXMesh.mk [FBXMeshPart.mk [] [] [0; 0; 0]%nat] [vec3_zero] [] [] [] [] []
    [0; 1; 2; 299] [255; 0; 0; 0] (repeat (FBXCluster.mk 0) 300) 0 None.

(** * Further notions: the extraction *)

(** The state in which the scan of the children leaves the variables of
    [extractMesh] (lines 180-453). *)
Definition scanned (normalsByVertex colorsByVertex : bool)
    (object : FBXNode.t) (meshIndex : Z) : ScanState :=
  fold_left scanChild (FBXNode.children object)
    (mkScan (MeshData_initial normalsByVertex colorsByVertex meshIndex)
       [] [] false false).

(** The key of each part, and the pairs of source and output index. *)
Definition keysOf (data : MeshData.t) : list (Z * Z) :=
  ExtractedMesh.partMaterialTextures (MeshData.extracted data).

Definition newIndicesOf (data : MeshData.t) : list (Z * nat) :=
  ExtractedMesh.newIndices (MeshData.extracted data).

(** Every index of the part is below [n]. *)
Definition partInRange (n : nat) (part : FBXMeshPart.t) : Prop :=
  Forall (fun i => (i < n)%nat) (FBXMeshPart.quadIndices part)
  /\ Forall (fun i => (i < n)%nat) (FBXMeshPart.quadTrianglesIndices part)
  /\ Forall (fun i => (i < n)%nat) (FBXMeshPart.triangleIndices part).

(** What one round of the polygon loop does to the lists of its part,
    given the indices [out] that its calls of [appendIndex] appended: a
    quad, or a fan. *)
Definition roundPart (part : FBXMeshPart.t) (out : list nat)
    (part' : FBXMeshPart.t) : Prop :=
  (exists A B C D,
     out = [A; B; C; D]
     /\ part' = FBXMeshPart.mk (FBXMeshPart.quadIndices part ++ [A; B; C; D])
                  (FBXMeshPart.quadTrianglesIndices part
                   ++ [A; B; D; B; C; D])
                  (FBXMeshPart.triangleIndices part))
  \/ part' = FBXMeshPart.mk (FBXMeshPart.quadIndices part)
               (FBXMeshPart.quadTrianglesIndices part)
               (FBXMeshPart.triangleIndices part ++ out).

(** A node with two quads of different materials. *)
Definition twoMaterialNode : FBXNode.t :=
  FBXNode.mk "Geometry" FBXNode.PNone
    [FBXNode.mk "Vertices"
       (FBXNode.PVec3Vector
          [(fzero, fzero, fzero); (fone, fzero, fzero);
           (fone, fone, fzero); (fzero, fone, fzero);
           (fzero, fzero, fone); (fone, fzero, fone)]) [];
     FBXNode.mk "PolygonVertexIndex"
       (FBXNode.PIntVector [0; 1; 2; -4; 1; 0; 4; -6]) [];
     FBXNode.mk "LayerElementMaterial" FBXNode.PNone
       [FBXNode.mk "Materials" (FBXNode.PIntVector [0; 1]) []]].

(** The part map of the polygon loop and the list of part keys describe
    each other: the map sends a key to the 1-based position of the key in
    the list, and there is one key per part. *)
Definition keysInv (mtp : gmap (Z * Z) nat) (data : MeshData.t) : Prop :=
  length (keysOf data) = length (MeshData_parts data)
  /\ (forall k v, mtp !! k = Some v ->
        (1 <= v)%nat /\ keysOf data !! (v - 1)%nat = Some k)
  /\ (forall i k, keysOf data !! i = Some k -> mtp !! k = Some (S i)).

(** The position of the source vertex [vertexIndex] (lines 98-101): the
    entry of the vertex array, or zero outside of it. *)
Definition sourcePosition (data : MeshData.t) (vertexIndex : Z) : vec3 :=
  if vertexIndex <? size (MeshData.vertices data)
  then at_ vec3_zero (MeshData.vertices data) vertexIndex
  else vec3_zero.

(** The output vertex [v] of [m] holds what corner [c] of the source
    [src] resolves to: position, primary UV, and color and secondary UV
    when the source has them. *)
Definition copiesCorner (src : MeshData.t) (m : FBXMesh.t) (v c : nat)
  : Prop :=
  (c < length (MeshData.polygonIndices src))%nat
  /\ FBXMesh.vertices m !! v = Some (position_of src c)
  /\ FBXMesh.texCoords m !! v = Some (texCoord_of src c)
  /\ FBXMesh.colors m !! v
     = (if hasColors src then Some (vec3_of_vec4 (color_of src c)) else None)
  /\ FBXMesh.texCoords1 m !! v
     = (if hasMoreTexcoords src then Some (texCoord1_of src c) else None).

(** The state of the extraction between two calls of [appendIndex], for
    the source [src]: the arrays aligned, one pair of [newIndices] per
    output vertex, in order, each output vertex a copy of a corner, with
    its key in the table. *)
Definition payloadInv (src data : MeshData.t) : Prop :=
  sourceOf data = sourceOf src
  /\ lensSig (sourceCarried src) (meshOf data)
  /\ map snd (rev (newIndicesOf data))
     = seq 0 (length (FBXMesh.vertices (meshOf data)))
  /\ (forall orig v,
        In (orig, v) (newIndicesOf data) ->
        0 <= orig
        /\ FBXMesh.vertices (meshOf data) !! v
           = Some (sourcePosition src orig))
  /\ (forall v,
        (v < length (FBXMesh.vertices (meshOf data)))%nat ->
        exists c,
          copiesCorner src (meshOf data) v c
          /\ In (vertexIndex_of src c, v) (newIndicesOf data)
          /\ In (vertex_of src c, v) (MeshData.indices data)).

(** [qHash(const Vertex&, uint seed)] (lines 48-50), over the hash
    [qHash(int, uint)] of Qt, which is an argument here. *)
Definition qHash_Vertex (qHash_int : Z -> Z -> Z) (vertex : Vertex.t)
    (seed : Z) : Z :=
  qHash_int (Vertex.originalIndex vertex) seed.

(** Mesh data whose only corner has a UV that is not a number. *)
Definition data_nan_uv : MeshData.t :=
  MeshData_setTexCoords
    (MeshData_setPolygonIndices (MeshData_initial false false 0) [-1])
    [(S754_nan, fzero)] [].

(** * Further notions: the compressed path *)

(** The values of an optional attribute for the points [0 .. n-1], as the
    per-point loop appends them (lines 371-421). *)
Definition pointValues {A : Type} (attribute : option (nat -> A)) (n : nat)
  : list A :=
  flat_map (optionalValue attribute) (seq 0 n).

(** The pairs the per-point loop inserts in [newIndices] (line 420). *)
Definition pointPairs (n : nat) : list (Z * nat) :=
  map (fun i => (Z.of_nat i, i)) (seq 0 n).

(** The key of the part of a face (lines 425-436): the material id of
    its first corner, or 0 without that attribute, and texture 0. *)
Definition faceKey (dracoMesh : draco.Mesh) (face : nat * nat * nat)
  : Z * Z :=
  (match draco.MATERIAL_ID dracoMesh with
   | Some value => value (fst (fst face))
   | None => 0
   end, 0).

Definition faceCorners (face : nat * nat * nat) : list nat :=
  let '(firstCorner, secondCorner, thirdCorner) := face in
  [firstCorner; secondCorner; thirdCorner].

Definition sameKey (a b : Z * Z) : bool :=
  (fst a =? fst b) && (snd a =? snd b).

(** The distinct keys of a list, in the order of their first
    occurrence. *)
Definition addKey (seen : list (Z * Z)) (key : Z * Z) : list (Z * Z) :=
  if existsb (sameKey key) seen then seen else seen ++ [key].

Definition firstKeys (keys : list (Z * Z)) : list (Z * Z) :=
  fold_left addKey keys [].

(** The part of the faces of [faces] whose key is [key]. *)
Definition facesPart (dracoMesh : draco.Mesh) (faces : list (nat * nat * nat))
    (key : Z * Z) : FBXMeshPart.t :=
  FBXMeshPart.mk [] []
    (flat_map faceCorners
       (List.filter (fun face => sameKey (faceKey dracoMesh face) key) faces)).

(** A node whose compressed geometry has four points and three faces of
    materials 7, 2 and 7. *)
Definition dracoMaterialNode : FBXNode.t :=
  FBXNode.mk "Geometry" FBXNode.PNone
    [FBXNode.mk "DracoMesh"
       (FBXNode.PDraco
          (draco.mkMesh 4
             (Some (fun i => (if Nat.eqb i 1 then fone else fzero,
                              if Nat.eqb i 2 then fone else fzero, fzero)))
             None
             (Some (fun i => (if Nat.eqb i 3 then fone else fzero, fzero)))
             None None
             (Some (fun i => if Nat.eqb i 1 then 2 else 7))
             [(0, 1, 2); (1, 2, 3); (2, 3, 0)]%nat))
       []].

(** * Further notions: a stream that ends inside a polygon *)

(** The run that starts at [b] has [M] entries, none of them negative,
    and ends the stream: a polygon without its terminator. *)
Definition openSpan (polygonIndices : list Z) (b M : nat) : Prop :=
  (1 <= M)%nat
  /\ (b + M)%nat = length polygonIndices
  /\ forall i, (i < M)%nat -> 0 <= nth (b + i) polygonIndices 0.

(** The corner positions the fan loop resolves on such a run: those of
    the fan over [M + 1] corners, without the last, which lies after the
    end of the stream. *)
Definition openFanCorners (b M : nat) : list nat :=
  removelast (fanCorners b (M + 1)).

(** The polygon stream of one triangle without terminator. *)
Definition openTriangleData : MeshData.t :=
  MeshData_setPolygonIndices (MeshData_initial false false 0) [0; 1; 2].

(** * Further notions: streams of whole polygons *)

(** The stream is made of whole polygons: each has at least three
    corners and ends with its terminator. [corners] counts the entries
    of the polygon being read. *)
Fixpoint wholeFrom (corners : nat) (polygonIndices : list Z) : bool :=
  match polygonIndices with
  | [] => Nat.eqb corners 0
  | entry :: rest =>
      if 0 <=? entry then wholeFrom (S corners) rest
      else (2 <=? corners)%nat && wholeFrom 0 rest
  end.

Definition wholePolygons (polygonIndices : list Z) : bool :=
  wholeFrom 0 polygonIndices.

(** The lists of a part hold whole triangles and whole quads, each quad
    with its two triangles. *)
Definition wholePart (part : FBXMeshPart.t) : Prop :=
  (length (FBXMeshPart.triangleIndices part) mod 3 = 0)%nat
  /\ (length (FBXMeshPart.quadIndices part) mod 4 = 0)%nat
  /\ (length (FBXMeshPart.quadTrianglesIndices part) * 2
      = length (FBXMeshPart.quadIndices part) * 3)%nat.

(** A node with a quad, a triangle and a pentagon. *)
Definition mixedNode : FBXNode.t :=
  FBXNode.mk "Geometry" FBXNode.PNone
    [FBXNode.mk "Vertices"
       (FBXNode.PVec3Vector
          [(fzero, fzero, fzero); (fone, fzero, fzero);
           (fone, fone, fzero); (fzero, fone, fzero);
           (fzero, fzero, fone)]) [];
     FBXNode.mk "PolygonVertexIndex"
       (FBXNode.PIntVector [0; 1; 2; -4; 0; 1; -5; 0; 1; 2; 3; -5]) []].

(** * Further notions: the named UV sets *)

Definition setMapOf (data : MeshData.t) : gmap string nat :=
  ExtractedMesh.texcoordSetMap (MeshData.extracted data).

(** Every name of the map of UV sets is sent to the position of an
    accepted UV set with that name. *)
Definition namesInv (data : MeshData.t) : Prop :=
  forall name k,
    setMapOf data !! name = Some k ->
    exists attrib,
      MeshData.attributes data !! k = Some attrib
      /\ AttributeData.name attrib = name.

(** A node with three UV layers, the third under the name of the
    second. *)
Definition threeUVNode : FBXNode.t :=
  FBXNode.mk "Geometry" FBXNode.PNone
    [FBXNode.mk "LayerElementUV" (FBXNode.PInt 0)
       [FBXNode.mk "Name" (FBXNode.PByteArray "map1") [];
        FBXNode.mk "UV" (FBXNode.PVec2Vector [(fzero, fzero)]) []];
     FBXNode.mk "LayerElementUV" (FBXNode.PInt 1)
       [FBXNode.mk "Name" (FBXNode.PByteArray "light") [];
        FBXNode.mk "UV" (FBXNode.PVec2Vector [(fone, fzero)]) []];
     FBXNode.mk "LayerElementUV" (FBXNode.PInt 2)
       [FBXNode.mk "Name" (FBXNode.PByteArray "light") [];
        FBXNode.mk "UV" (FBXNode.PVec2Vector [(fone, fone)]) []]].

(** * Further notions: the first properties the scan reads

    The scan reads [properties.at(0)] of a node in ten places without
    testing that the list has an entry: of the MappingInformationType and
    ReferenceInformationType nodes of a normal or color layer (lines 210,
    213, 230, 233), of a UV layer itself and of its Name nodes (lines
    256, 258, 267, 286, 293), of the MappingInformationType nodes of a
    material layer (line 324) and of a DracoMesh child (line 345). On a
    node without property such a read is outside the list. *)

Definition hasProperty (node : FBXNode.t) : bool :=
  match FBXNode.property node with
  | FBXNode.PNone => false
  | _ => true
  end.

(** The children of [child] with one of the names [names]. *)
Definition subdataNamed (names : list string) (child : FBXNode.t)
  : list FBXNode.t :=
  List.filter
    (fun subdata => existsb (String.eqb (FBXNode.name subdata)) names)
    (FBXNode.children child).

(** The nodes whose first property the scan of the child [child] reads,
    branch by branch of the loop at line 193. *)
Definition firstPropertiesRead (child : FBXNode.t) : list FBXNode.t :=
  if String.eqb (FBXNode.name child) "Vertices" then []
  else if String.eqb (FBXNode.name child) "PolygonVertexIndex" then []
  else if String.eqb (FBXNode.name child) "LayerElementNormal" then
    subdataNamed
      ["MappingInformationType"; "ReferenceInformationType"]%string child
  else if String.eqb (FBXNode.name child) "LayerElementColor" then
    subdataNamed
      ["MappingInformationType"; "ReferenceInformationType"]%string child
  else if String.eqb (FBXNode.name child) "LayerElementUV" then
    child :: subdataNamed ["Name"%string] child
  else if String.eqb (FBXNode.name child) "LayerElementMaterial" then
    subdataNamed ["MappingInformationType"%string] child
  else if String.eqb (FBXNode.name child) "LayerElementTexture" then []
  else if String.eqb (FBXNode.name child) "DracoMesh" then [child]
  else [].

(** Every first property the scan of the node reads is there. *)
Definition propertiesPresent (object : FBXNode.t) : bool :=
  forallb (fun child => forallb hasProperty (firstPropertiesRead child))
    (FBXNode.children object).
(** * Properties *)

(** ** Integer conversions *)

Lemma to_int_small (x : Z) : - 2 ^ 31 <= x < 2 ^ 31 -> to_int x = x.
Proof.
  intros H. unfold to_int. rewrite Z.mod_small; lia.
Qed.

Lemma to_uint_small (x : Z) : 0 <= x < 2 ^ 32 -> to_uint x = x.
Proof.
  intros H. unfold to_uint. apply Z.mod_small. lia.
Qed.

Lemma to_uint_range (x : Z) : 0 <= to_uint x < 2 ^ 32.
Proof.
  unfold to_uint. apply Z.mod_pos_bound. lia.
Qed.

Lemma size_nonneg {A : Type} (l : list A) : 0 <= size l.
Proof. unfold size. lia. Qed.

Lemma size_zero_iff {A : Type} (l : list A) : size l = 0 <-> l = [].
Proof.
  unfold size. destruct l; simpl; split; intros H; try reflexivity; try lia.
  discriminate.
Qed.

(** ** buildModelMesh: validation and failure branches *)


Lemma totalIndices_fold_zero (parts : list FBXMeshPart.t) :
  indexCount parts = 0%nat ->
  forall total, 0 <= total < 2 ^ 32 ->
  fold_left
    (fun total part =>
       to_uint (total
                + to_int (size (FBXMeshPart.quadTrianglesIndices part)
                          + size (FBXMeshPart.triangleIndices part))))
    parts total = total.
Proof.
  induction parts as [|part parts IH]; intros Hc total Ht; simpl.
  - reflexivity.
  - unfold indexCount in Hc. simpl in Hc.
    assert (Hq : length (FBXMeshPart.quadTrianglesIndices part) = 0%nat) by lia.
    assert (Hr : length (FBXMeshPart.triangleIndices part) = 0%nat) by lia.
    apply length_zero_iff_nil in Hq, Hr. rewrite Hq, Hr.
    change (to_int (size [] + size [])) with 0.
    rewrite Z.add_0_r, to_uint_small by lia.
    apply IH; [unfold indexCount; lia | lia].
Qed.

Lemma totalIndices_of_zero (parts : list FBXMeshPart.t) :
  indexCount parts = 0%nat -> totalIndices_of parts = 0.
Proof.
  intros H. unfold totalIndices_of. apply totalIndices_fold_zero; [exact H | lia].
Qed.

Lemma totalIndices_of_nil : totalIndices_of [] = 0.
Proof. reflexivity. Qed.

Lemma indexPart_modelParts (st : IndexState) (part : FBXMeshPart.t) :
  length (modelParts (indexPart st part)) = S (length (modelParts st)).
Proof.
  unfold indexPart.
  destruct (negb (size (FBXMeshPart.quadTrianglesIndices part) =? 0));
    destruct (negb (size (FBXMeshPart.triangleIndices part) =? 0));
    simpl; rewrite length_app; simpl; lia.
Qed.

Lemma fold_indexPart_modelParts (parts : list FBXMeshPart.t) (st : IndexState) :
  length (modelParts (fold_left indexPart parts st))
  = (length (modelParts st) + length parts)%nat.
Proof.
  revert st. induction parts as [|part parts IH]; intros st; simpl.
  - lia.
  - rewrite IH, indexPart_modelParts. lia.
Qed.


Lemma buildModelMesh_valid (extractedMesh : FBXMesh.t) (url : string) :
  totalIndices_of (FBXMesh.parts extractedMesh) <> 0 ->
  FBXMesh.vertices extractedMesh <> [] ->
  buildModelMesh extractedMesh url
  = (FBXMesh_setMesh extractedMesh (Some (builtMesh extractedMesh)), []).
Proof.
  intros Hi Hv. unfold buildModelMesh.
  destruct (totalIndices_of (FBXMesh.parts extractedMesh) =? 0) eqn:E.
  { apply Z.eqb_eq in E. contradiction. }
  destruct (size (FBXMesh.vertices extractedMesh) =? 0) eqn:E2.
  { apply Z.eqb_eq in E2. apply size_zero_iff in E2. contradiction. }
  cbv zeta.
  destruct (negb (size (modelParts _) =? 0)) eqn:E3.
  - reflexivity.
  - exfalso. apply negb_false_iff, Z.eqb_eq in E3. unfold size in E3.
    rewrite fold_indexPart_modelParts in E3. simpl in E3.
    destruct (FBXMesh.parts extractedMesh); [apply Hi; reflexivity|].
    simpl in E3. lia.
Qed.

Lemma buildModelMesh_noIndices (extractedMesh : FBXMesh.t) (url : string) :
  totalIndices_of (FBXMesh.parts extractedMesh) = 0 ->
  buildModelMesh extractedMesh url = (extractedMesh, [noIndices url]).
Proof.
  intros H. unfold buildModelMesh. rewrite H. reflexivity.
Qed.

Lemma buildModelMesh_noVertices (extractedMesh : FBXMesh.t) (url : string) :
  totalIndices_of (FBXMesh.parts extractedMesh) <> 0 ->
  FBXMesh.vertices extractedMesh = [] ->
  buildModelMesh extractedMesh url = (extractedMesh, [noVertices url]).
Proof.
  intros Hi H. unfold buildModelMesh.
  destruct (totalIndices_of (FBXMesh.parts extractedMesh) =? 0) eqn:E.
  { apply Z.eqb_eq in E. contradiction. }
  rewrite H. reflexivity.
Qed.

(** C7. Empty-mesh rejection: when the parts hold no quad-triangle and no
    triangle index, or the vertex array is empty (in any combination), the
    call logs one line that carries the url ("no indices" when the index
    total is zero, "no vertices" otherwise) and returns the mesh as it
    was, so [_mesh] is not set. The function is total: there is no other
    outcome. *)
Theorem empty_mesh_rejected (extractedMesh : FBXMesh.t) (url : string) :
  indexCount (FBXMesh.parts extractedMesh) = 0%nat
  \/ FBXMesh.vertices extractedMesh = [] ->
  exists line : LogLine,
    buildModelMesh extractedMesh url = (extractedMesh, [line])
    /\ snd line = url
    /\ line = (if totalIndices_of (FBXMesh.parts extractedMesh) =? 0
               then noIndices url else noVertices url)
    /\ FBXMesh._mesh (fst (buildModelMesh extractedMesh url))
       = FBXMesh._mesh extractedMesh.
Proof.
  intros H.
  destruct (totalIndices_of (FBXMesh.parts extractedMesh) =? 0) eqn:E.
  - apply Z.eqb_eq in E. exists (noIndices url).
    rewrite buildModelMesh_noIndices by exact E. auto.
  - apply Z.eqb_neq in E. exists (noVertices url).
    destruct H as [H | H].
    + exfalso. apply E. apply totalIndices_of_zero. exact H.
    + rewrite buildModelMesh_noVertices by assumption. auto.
Qed.

(** C9. The "no parts" branch cannot be taken: a nonzero index total
    means that the part list is not empty and that the part loop pushes
    one range per part; no call logs "no parts", and every call either
    returns at the "no indices" or "no vertices" test or sets a mesh with
    a part buffer. *)
Theorem no_parts_branch_unreachable (extractedMesh : FBXMesh.t) (url : string) :
  (totalIndices_of (FBXMesh.parts extractedMesh) <> 0 ->
   FBXMesh.parts extractedMesh <> []
   /\ forall st,
        length (modelParts (fold_left indexPart (FBXMesh.parts extractedMesh) st))
        = (length (modelParts st) + length (FBXMesh.parts extractedMesh))%nat)
  /\ ~ In (noParts url) (snd (buildModelMesh extractedMesh url))
  /\ (buildModelMesh extractedMesh url = (extractedMesh, [noIndices url])
      \/ buildModelMesh extractedMesh url = (extractedMesh, [noVertices url])
      \/ exists mesh pbv,
           buildModelMesh extractedMesh url
           = (FBXMesh_setMesh extractedMesh (Some mesh), [])
           /\ Mesh._partBuffer mesh = Some pbv).
Proof.
  split; [|].
  { intros Hi. split.
    - intros Hp. apply Hi. rewrite Hp. reflexivity.
    - intros st. apply fold_indexPart_modelParts. }
  destruct (Z.eq_dec (totalIndices_of (FBXMesh.parts extractedMesh)) 0) as [E | E].
  - rewrite buildModelMesh_noIndices by exact E. split.
    + simpl. intros [H | []]. discriminate H.
    + left. reflexivity.
  - destruct (FBXMesh.vertices extractedMesh) eqn:Ev.
    + rewrite buildModelMesh_noVertices by assumption. split.
      * simpl. intros [H | []]. discriminate H.
      * right. left. reflexivity.
    + rewrite buildModelMesh_valid; [| exact E | rewrite Ev; discriminate].
      split.
      * simpl. tauto.
      * right. right. eexists. eexists. split; reflexivity.
Qed.

(** A mesh with one triangle and no vertex, and one with a vertex and no
    index. *)
Lemma no_parts_branch_unreachable_witness :
  totalIndices_of [FBXMeshPart.mk [] [] [0; 0; 0]%nat] <> 0
  /\ [FBXMeshPart.mk [] [] [0; 0; 0]%nat] <> [].
Proof.
  split.
  - vm_compute. discriminate.
  - apply (proj1 (no_parts_branch_unreachable
                    (FBXMesh_setParts (FBXMesh.empty 0)
                       [FBXMeshPart.mk [] [] [0; 0; 0]%nat])
                    EmptyString)).
    vm_compute. discriminate.
Defined.

Lemma empty_mesh_rejected_witness :
  exists line : LogLine,
    buildModelMesh (FBXMesh.empty 0) "mesh.fbx" = (FBXMesh.empty 0, [line])
    /\ snd line = "mesh.fbx"%string.
Proof.
  destruct (empty_mesh_rejected (FBXMesh.empty 0) "mesh.fbx") as [line H].
  - left. reflexivity.
  - exists line. split; apply H.
Defined.

(** ** buildModelMesh: the attribute layout *)

Lemma attributeLayout_exact (fbxMesh : FBXMesh.t) :
  fitsInt fbxMesh ->
  let n := size (FBXMesh.normals fbxMesh) * sizeof_vec3 in
  let t := size (FBXMesh.tangents fbxMesh) * sizeof_vec3 in
  let c := size (FBXMesh.colors fbxMesh) * sizeof_vec3 in
  let u := size (FBXMesh.texCoords fbxMesh) * sizeof_vec2 in
  let u1 := size (FBXMesh.texCoords1 fbxMesh) * sizeof_vec2 in
  let ci := size (FBXMesh.clusterIndices fbxMesh) * clusterIndexWidth fbxMesh in
  let cw := size (FBXMesh.clusterWeights fbxMesh) * sizeof_uint8 in
  attributeLayout fbxMesh
  = mkLayout n t c u u1 ci cw
      0 n (n + t) (n + t + c) (n + t + c + u) (n + t + c + u + u1)
      (n + t + c + u + u1 + ci) (n + t + c + u + u1 + ci + cw).
Proof.
  unfold fitsInt, attributeBytes, attributeLayout, clusterIndexWidth.
  unfold sizeof_vec3, sizeof_vec2, sizeof_uint8, UINT8_MAX.
  pose proof (size_nonneg (FBXMesh.normals fbxMesh)).
  pose proof (size_nonneg (FBXMesh.tangents fbxMesh)).
  pose proof (size_nonneg (FBXMesh.colors fbxMesh)).
  pose proof (size_nonneg (FBXMesh.texCoords fbxMesh)).
  pose proof (size_nonneg (FBXMesh.texCoords1 fbxMesh)).
  pose proof (size_nonneg (FBXMesh.clusterIndices fbxMesh)).
  pose proof (size_nonneg (FBXMesh.clusterWeights fbxMesh)).
  intros Hfit. cbv zeta.
  destruct (255 <? size (FBXMesh.clusters fbxMesh));
    repeat match goal with
           | |- context [to_int ?x] =>
               lazymatch x with
               | context [to_int _] => fail
               | _ => rewrite (to_int_small x) by lia
               end
           end;
    f_equal; lia.
Qed.
Lemma setSubData_block (pre old post data : list gpu.Byte) (off sz : Z) :
  off = size pre -> sz = size old ->
  gpu.setSubData (pre ++ old ++ post) off sz data
  = pre ++ firstn (Z.to_nat sz) data ++ post.
Proof.
  intros -> ->. unfold gpu.setSubData, size.
  rewrite !length_app.
  destruct (_ && _) eqn:E.
  - rewrite <- Nat2Z.inj_add, !Nat2Z.id.
    rewrite firstn_app, Nat.sub_diag, firstn_all. simpl. rewrite app_nil_r.
    rewrite skipn_app, skipn_all2 by lia. simpl.
    replace (length pre + length old - length pre)%nat with (length old) by lia.
    rewrite skipn_app, skipn_all, Nat.sub_diag. reflexivity.
  - exfalso. rewrite !andb_false_iff, !Z.leb_gt in E. lia.
Qed.

Lemma length_bytes_vec3 (l : list vec3) :
  size (flat_map bytes_vec3 l) = size l * sizeof_vec3.
Proof.
  unfold size, sizeof_vec3. induction l as [|[[x y] z] l IH]; simpl; [reflexivity|].
  simpl in IH. lia.
Qed.

Lemma length_bytes_vec2 (l : list vec2) :
  size (flat_map bytes_vec2 l) = size l * sizeof_vec2.
Proof.
  unfold size, sizeof_vec2. induction l as [|[x y] l IH]; simpl; [reflexivity|].
  simpl in IH. lia.
Qed.

Lemma length_bytes_uint8 (l : list Z) :
  size (flat_map bytes_uint8 l) = size l.
Proof.
  unfold size. induction l as [|x l IH]; simpl; [reflexivity|]. lia.
Qed.

Lemma length_bytes_uint16 (l : list Z) :
  size (flat_map bytes_uint16 l) = size l * 2.
Proof.
  unfold size. induction l as [|x l IH]; simpl; [reflexivity|]. simpl in IH. lia.
Qed.

Lemma firstn_size {A : Type} (l : list A) : firstn (Z.to_nat (size l)) l = l.
Proof. unfold size. rewrite Nat2Z.id. apply firstn_all. Qed.

Lemma size_app {A : Type} (l k : list A) : size (l ++ k) = size l + size k.
Proof. unfold size. rewrite length_app. lia. Qed.

Lemma size_repeat {A : Type} (x : A) (n : Z) : 0 <= n -> size (repeat x (Z.to_nat n)) = n.
Proof. intros H. unfold size. rewrite repeat_length. lia. Qed.

Lemma resize_nil_blocks (a b : Z) :
  0 <= a -> 0 <= b ->
  repeat gpu.Undef (Z.to_nat (a + b))
  = repeat gpu.Undef (Z.to_nat a) ++ repeat gpu.Undef (Z.to_nat b).
Proof.
  intros Ha Hb. rewrite Z2Nat.inj_add by lia. apply repeat_app.
Qed.

Lemma size_clusterIndexBytes (fbxMesh : FBXMesh.t) :
  fitsInt fbxMesh ->
  size (clusterIndexBytes fbxMesh)
  = size (FBXMesh.clusterIndices fbxMesh) * clusterIndexWidth fbxMesh.
Proof.
  intros Hfit. unfold clusterIndexBytes.
  rewrite (attributeLayout_exact fbxMesh Hfit). cbn [clusterIndicesSize].
  pose proof (size_nonneg (FBXMesh.clusterIndices fbxMesh)) as Hn.
  assert (Hlen : forall d : list gpu.Byte,
             size (FBXMesh.clusterIndices fbxMesh) * clusterIndexWidth fbxMesh
             <= size d ->
             size (firstn (Z.to_nat (size (FBXMesh.clusterIndices fbxMesh)
                                     * clusterIndexWidth fbxMesh)) d)
             = size (FBXMesh.clusterIndices fbxMesh) * clusterIndexWidth fbxMesh).
  { intros d Hd. unfold size in *. rewrite length_firstn.
    unfold clusterIndexWidth in *. destruct (UINT8_MAX <? _); lia. }
  apply Hlen. unfold clusterIndexWidth, UINT8_MAX.
  destruct (size (FBXMesh.clusters fbxMesh) <? 255) eqn:E1;
    destruct (255 <? size (FBXMesh.clusters fbxMesh)) eqn:E2;
    rewrite ?length_bytes_uint8, ?length_bytes_uint16;
    try (unfold size at 2; rewrite length_map; fold (size (FBXMesh.clusterIndices fbxMesh)));
    try lia.
Qed.

Lemma attributeBuffer_content (fbxMesh : FBXMesh.t) :
  fitsInt fbxMesh ->
  attributeBuffer fbxMesh
  = flat_map bytes_vec3 (FBXMesh.normals fbxMesh)
    ++ flat_map bytes_vec3 (FBXMesh.tangents fbxMesh)
    ++ flat_map bytes_vec3 (FBXMesh.colors fbxMesh)
    ++ flat_map bytes_vec2 (FBXMesh.texCoords fbxMesh)
    ++ flat_map bytes_vec2 (FBXMesh.texCoords1 fbxMesh)
    ++ clusterIndexBytes fbxMesh
    ++ flat_map bytes_uint8 (FBXMesh.clusterWeights fbxMesh).
Proof.
  intros Hfit.
  pose proof (size_clusterIndexBytes fbxMesh Hfit) as HCI.
  unfold attributeBuffer.
  set (S6 := if size (FBXMesh.clusters fbxMesh) <? UINT8_MAX
             then flat_map bytes_uint8
                    (map (fun i => i mod 256) (FBXMesh.clusterIndices fbxMesh))
             else flat_map bytes_uint16 (FBXMesh.clusterIndices fbxMesh)).
  assert (Hif : forall b o s,
             (if size (FBXMesh.clusters fbxMesh) <? UINT8_MAX
              then gpu.setSubData b o s
                     (flat_map bytes_uint8
                        (map (fun i => i mod 256) (FBXMesh.clusterIndices fbxMesh)))
              else gpu.setSubData b o s
                     (flat_map bytes_uint16 (FBXMesh.clusterIndices fbxMesh)))
             = gpu.setSubData b o s S6).
  { intros. subst S6. destruct (_ <? _); reflexivity. }
  cbv zeta. rewrite Hif. clear Hif.
  assert (HD6 : clusterIndexBytes fbxMesh
                = firstn (Z.to_nat (clusterIndicesSize (attributeLayout fbxMesh))) S6)
    by reflexivity.
  revert HD6.
  rewrite (attributeLayout_exact fbxMesh Hfit).
  cbn [normalsSize tangentsSize colorsSize texCoordsSize texCoords1Size
       clusterIndicesSize clusterWeightsSize normalsOffset tangentsOffset
       colorsOffset texCoordsOffset texCoords1Offset clusterIndicesOffset
       clusterWeightsOffset totalAttributeSize].
  intros HD6.
  set (D1 := flat_map bytes_vec3 (FBXMesh.normals fbxMesh)).
  set (D2 := flat_map bytes_vec3 (FBXMesh.tangents fbxMesh)).
  set (D3 := flat_map bytes_vec3 (FBXMesh.colors fbxMesh)).
  set (D4 := flat_map bytes_vec2 (FBXMesh.texCoords fbxMesh)).
  set (D5 := flat_map bytes_vec2 (FBXMesh.texCoords1 fbxMesh)).
  set (D7 := flat_map bytes_uint8 (FBXMesh.clusterWeights fbxMesh)).
  pose proof (length_bytes_vec3 (FBXMesh.normals fbxMesh)) as H1.
  pose proof (length_bytes_vec3 (FBXMesh.tangents fbxMesh)) as H2.
  pose proof (length_bytes_vec3 (FBXMesh.colors fbxMesh)) as H3.
  pose proof (length_bytes_vec2 (FBXMesh.texCoords fbxMesh)) as H4.
  pose proof (length_bytes_vec2 (FBXMesh.texCoords1 fbxMesh)) as H5.
  pose proof (length_bytes_uint8 (FBXMesh.clusterWeights fbxMesh)) as H7.
  fold D1 in H1. fold D2 in H2. fold D3 in H3. fold D4 in H4. fold D5 in H5.
  fold D7 in H7.
  replace (size (FBXMesh.clusterWeights fbxMesh) * sizeof_uint8)
    with (size (FBXMesh.clusterWeights fbxMesh)) by (unfold sizeof_uint8; lia).
  rewrite <- HCI in HD6.
  rewrite <- H1, <- H2, <- H3, <- H4, <- H5, <- H7, <- HCI.
  set (D6 := clusterIndexBytes fbxMesh) in *.
  pose proof (size_nonneg D1). pose proof (size_nonneg D2).
  pose proof (size_nonneg D3). pose proof (size_nonneg D4).
  pose proof (size_nonneg D5). pose proof (size_nonneg D6).
  pose proof (size_nonneg D7).
  unfold gpu.resize. rewrite firstn_nil. simpl length. rewrite Nat.sub_0_r.
  cbn [app].
  rewrite !resize_nil_blocks by lia.
  rewrite <- !app_assoc.
  match goal with
  | |- context [gpu.setSubData (?old ++ ?post) 0 (size D1) D1] =>
      pose proof (setSubData_block [] old post D1 0 (size D1) eq_refl) as Hb1;
      cbn [app] in Hb1; rewrite Hb1 by (rewrite size_repeat; auto);
      clear Hb1
  end.
  rewrite firstn_size.
  rewrite (setSubData_block D1 _ _ D2) by (rewrite ?size_repeat; auto; lia).
  rewrite firstn_size.
  rewrite (app_assoc D1 D2).
  rewrite (setSubData_block (D1 ++ D2) _ _ D3)
    by (rewrite ?size_app, ?size_repeat; auto; lia).
  rewrite firstn_size.
  rewrite (app_assoc (D1 ++ D2) D3).
  rewrite (setSubData_block ((D1 ++ D2) ++ D3) _ _ D4)
    by (rewrite ?size_app, ?size_repeat; auto; lia).
  rewrite firstn_size.
  rewrite (app_assoc ((D1 ++ D2) ++ D3) D4).
  rewrite (setSubData_block (((D1 ++ D2) ++ D3) ++ D4) _ _ D5)
    by (rewrite ?size_app, ?size_repeat; auto; lia).
  rewrite firstn_size.
  rewrite (app_assoc (((D1 ++ D2) ++ D3) ++ D4) D5).
  rewrite (setSubData_block ((((D1 ++ D2) ++ D3) ++ D4) ++ D5) _ _ S6)
    by (rewrite ?size_app, ?size_repeat; auto; lia).
  rewrite <- HD6.
  rewrite (app_assoc ((((D1 ++ D2) ++ D3) ++ D4) ++ D5) D6).
  rewrite <- (app_nil_r (repeat gpu.Undef (Z.to_nat (size D7)))).
  rewrite (setSubData_block (((((D1 ++ D2) ++ D3) ++ D4) ++ D5) ++ D6) _ [] D7)
    by (rewrite ?size_app, ?size_repeat; auto; lia).
  rewrite firstn_size, app_nil_r, <- !app_assoc. reflexivity.
Qed.

Lemma attributeOf_spec (fbxMesh : FBXMesh.t) (slot : gpu.Slot) :
  let L := attributeLayout fbxMesh in
  let view := gpu.mkView (attributeBuffer fbxMesh) in
  attributeOf fbxMesh slot
  = match slot with
    | gpu.NORMAL =>
        if normalsSize L =? 0 then None
        else Some (view (normalsOffset L) (normalsSize L)
                     (gpu.mkElement gpu.VEC3 gpu.FLOAT gpu.XYZ))
    | gpu.TANGENT =>
        if tangentsSize L =? 0 then None
        else Some (view (tangentsOffset L) (tangentsSize L)
                     (gpu.mkElement gpu.VEC3 gpu.FLOAT gpu.XYZ))
    | gpu.COLOR =>
        if colorsSize L =? 0 then None
        else Some (view (colorsOffset L) (colorsSize L)
                     (gpu.mkElement gpu.VEC3 gpu.FLOAT gpu.RGB))
    | gpu.TEXCOORD =>
        if texCoordsSize L =? 0 then None
        else Some (view (texCoordsOffset L) (texCoordsSize L)
                     (gpu.mkElement gpu.VEC2 gpu.FLOAT gpu.UV))
    | gpu.TEXCOORD1 =>
        if texCoords1Size L =? 0 then
          if texCoordsSize L =? 0 then None
          else Some (view (texCoordsOffset L) (texCoordsSize L)
                       (gpu.mkElement gpu.VEC2 gpu.FLOAT gpu.UV))
        else Some (view (texCoords1Offset L) (texCoords1Size L)
                     (gpu.mkElement gpu.VEC2 gpu.FLOAT gpu.UV))
    | gpu.SKIN_CLUSTER_INDEX =>
        if clusterIndicesSize L =? 0 then None
        else Some (view (clusterIndicesOffset L) (clusterIndicesSize L)
                     (gpu.mkElement gpu.VEC4
                        (if size (FBXMesh.clusters fbxMesh) <? UINT8_MAX
                         then gpu.UINT8 else gpu.UINT16)
                        gpu.XYZW))
    | gpu.SKIN_CLUSTER_WEIGHT =>
        if clusterWeightsSize L =? 0 then None
        else Some (view (clusterWeightsOffset L) (clusterWeightsSize L)
                     (gpu.mkElement gpu.VEC4 gpu.NUINT8 gpu.XYZW))
    end.
Proof.
  cbv zeta. unfold attributeOf, builtMesh, attachAttributes.
  generalize (attributeBuffer fbxMesh) as buf.
  generalize (attributeLayout fbxMesh) as L.
  intros L buf.
  destruct (normalsSize L =? 0), (tangentsSize L =? 0), (colorsSize L =? 0),
    (texCoordsSize L =? 0), (texCoords1Size L =? 0),
    (clusterIndicesSize L =? 0), (clusterWeightsSize L =? 0),
    (size (FBXMesh.clusters fbxMesh) <? UINT8_MAX);
    destruct slot; reflexivity.
Qed.

Lemma region_app (pre d post : list gpu.Byte) (off sz : Z) :
  off = size pre -> sz = size d ->
  firstn (Z.to_nat sz) (skipn (Z.to_nat off) (pre ++ d ++ post)) = d.
Proof.
  intros -> ->. unfold size. rewrite !Nat2Z.id.
  rewrite drop_app_length. apply take_app_length.
Qed.

Lemma size_slotBytes (fbxMesh : FBXMesh.t) (slot : gpu.Slot) :
  fitsInt fbxMesh ->
  size (slotBytes fbxMesh slot)
  = sourceSize fbxMesh slot * elementBytes fbxMesh slot.
Proof.
  intros Hfit. destruct slot; simpl;
    rewrite ?length_bytes_vec3, ?length_bytes_vec2, ?length_bytes_uint8,
      ?size_clusterIndexBytes by assumption;
    unfold sizeof_uint8; lia.
Qed.

Lemma slotSize_exact (fbxMesh : FBXMesh.t) (slot : gpu.Slot) :
  fitsInt fbxMesh ->
  slotSize (attributeLayout fbxMesh) slot
  = sourceSize fbxMesh slot * elementBytes fbxMesh slot.
Proof.
  intros Hfit. rewrite (attributeLayout_exact fbxMesh Hfit).
  destruct slot; reflexivity.
Qed.

Lemma slotOffset_cumulative (fbxMesh : FBXMesh.t) (k : nat) (slot : gpu.Slot) :
  fitsInt fbxMesh ->
  nth_error slotOrder k = Some slot ->
  slotOffset (attributeLayout fbxMesh) slot
  = sumZ (map (slotSize (attributeLayout fbxMesh)) (firstn k slotOrder)).
Proof.
  intros Hfit Hk. rewrite (attributeLayout_exact fbxMesh Hfit).
  do 7 (destruct k as [|k];
        [injection Hk as <-; unfold sumZ; simpl; lia|]).
  destruct k; discriminate Hk.
Qed.

Lemma viewBytes_slotView (fbxMesh : FBXMesh.t) (slot : gpu.Slot) :
  fitsInt fbxMesh ->
  gpu.viewBytes (slotView fbxMesh slot) = slotBytes fbxMesh slot.
Proof.
  intros Hfit. unfold gpu.viewBytes, slotView. cbn [gpu._size gpu._offset gpu._buffer].
  rewrite (attributeBuffer_content fbxMesh Hfit).
  pose proof (fun s => size_slotBytes fbxMesh s Hfit) as Hs.
  pose proof (Hs gpu.NORMAL) as H1. pose proof (Hs gpu.TANGENT) as H2.
  pose proof (Hs gpu.COLOR) as H3. pose proof (Hs gpu.TEXCOORD) as H4.
  pose proof (Hs gpu.TEXCOORD1) as H5.
  pose proof (Hs gpu.SKIN_CLUSTER_INDEX) as H6.
  pose proof (Hs gpu.SKIN_CLUSTER_WEIGHT) as H7.
  clear Hs. simpl in H1, H2, H3, H4, H5, H6, H7.
  rewrite (attributeLayout_exact fbxMesh Hfit).
  set (D1 := flat_map bytes_vec3 (FBXMesh.normals fbxMesh)) in *.
  set (D2 := flat_map bytes_vec3 (FBXMesh.tangents fbxMesh)) in *.
  set (D3 := flat_map bytes_vec3 (FBXMesh.colors fbxMesh)) in *.
  set (D4 := flat_map bytes_vec2 (FBXMesh.texCoords fbxMesh)) in *.
  set (D5 := flat_map bytes_vec2 (FBXMesh.texCoords1 fbxMesh)) in *.
  set (D6 := clusterIndexBytes fbxMesh) in *.
  set (D7 := flat_map bytes_uint8 (FBXMesh.clusterWeights fbxMesh)) in *.
  destruct slot; cbn [slotSize slotOffset slotBytes normalsSize tangentsSize
    colorsSize texCoordsSize texCoords1Size clusterIndicesSize
    clusterWeightsSize normalsOffset tangentsOffset colorsOffset
    texCoordsOffset texCoords1Offset clusterIndicesOffset clusterWeightsOffset].
  - apply (region_app [] D1); simpl; auto.
  - apply (region_app D1 D2); auto.
  - rewrite (app_assoc D1 D2). apply (region_app (D1 ++ D2) D3); auto.
    rewrite size_app; lia.
  - rewrite (app_assoc D1 D2), (app_assoc (D1 ++ D2) D3).
    apply (region_app ((D1 ++ D2) ++ D3) D4); auto.
    rewrite !size_app, ?H1, ?H2, ?H3, ?H4, ?H5, ?H6; reflexivity.
  - rewrite (app_assoc D1 D2), (app_assoc (D1 ++ D2) D3),
      (app_assoc ((D1 ++ D2) ++ D3) D4).
    apply (region_app (((D1 ++ D2) ++ D3) ++ D4) D5); auto.
    rewrite !size_app, ?H1, ?H2, ?H3, ?H4, ?H5, ?H6; reflexivity.
  - rewrite (app_assoc D1 D2), (app_assoc (D1 ++ D2) D3),
      (app_assoc ((D1 ++ D2) ++ D3) D4),
      (app_assoc (((D1 ++ D2) ++ D3) ++ D4) D5).
    apply (region_app ((((D1 ++ D2) ++ D3) ++ D4) ++ D5) D6); auto.
    rewrite !size_app, ?H1, ?H2, ?H3, ?H4, ?H5, ?H6; reflexivity.
  - rewrite (app_assoc D1 D2), (app_assoc (D1 ++ D2) D3),
      (app_assoc ((D1 ++ D2) ++ D3) D4),
      (app_assoc (((D1 ++ D2) ++ D3) ++ D4) D5),
      (app_assoc ((((D1 ++ D2) ++ D3) ++ D4) ++ D5) D6).
    rewrite <- (app_nil_r D7) at 1.
    apply (region_app (((((D1 ++ D2) ++ D3) ++ D4) ++ D5) ++ D6) D7 []).
    + rewrite !size_app, H1, H2, H3, H4, H5, H6. reflexivity.
    + rewrite H7. reflexivity.
Qed.

Lemma elementBytes_pos (fbxMesh : FBXMesh.t) (slot : gpu.Slot) :
  0 < elementBytes fbxMesh slot.
Proof.
  destruct slot; simpl; unfold clusterIndexWidth; try destruct (_ <? _);
    reflexivity.
Qed.

Lemma sourceSize_nonneg (fbxMesh : FBXMesh.t) (slot : gpu.Slot) :
  0 <= sourceSize fbxMesh slot.
Proof. destruct slot; apply size_nonneg. Qed.

Lemma attributeOf_by_source (fbxMesh : FBXMesh.t) (slot : gpu.Slot) :
  fitsInt fbxMesh ->
  attributeOf fbxMesh slot
  = if sourceSize fbxMesh slot =? 0 then
      match slot with
      | gpu.TEXCOORD1 =>
          if sourceSize fbxMesh gpu.TEXCOORD =? 0 then None
          else Some (slotView fbxMesh gpu.TEXCOORD)
      | _ => None
      end
    else Some (slotView fbxMesh slot).
Proof.
  intros Hfit.
  assert (Hz : forall s, (slotSize (attributeLayout fbxMesh) s =? 0)
                         = (sourceSize fbxMesh s =? 0)).
  { intros s. rewrite slotSize_exact by assumption.
    pose proof (elementBytes_pos fbxMesh s).
    pose proof (sourceSize_nonneg fbxMesh s).
    destruct (sourceSize fbxMesh s =? 0) eqn:E.
    - apply Z.eqb_eq in E. rewrite E. reflexivity.
    - apply Z.eqb_neq in E. apply Z.eqb_neq.
      intros Hm. apply Z.mul_eq_0 in Hm. lia. }
  pose proof (attributeOf_spec fbxMesh slot) as Hspec. cbv zeta in Hspec.
  rewrite Hspec. clear Hspec.
  pose proof (Hz slot) as Hslot. pose proof (Hz gpu.TEXCOORD) as Huv.
  unfold slotView.
  destruct slot; cbn [slotSize] in Hslot, Huv; rewrite ?Hslot, ?Huv;
    cbn [slotSize slotOffset slotElement];
    repeat match goal with |- context [if ?b then _ else _] => destruct b end;
    reflexivity.
Qed.

(** The width rule of the skin-cluster indices, as the code has it: the
    byte size doubles above 255 clusters, the format is 8-bit only below
    255 clusters. *)
Lemma cluster_index_attribute (fbxMesh : FBXMesh.t) :
  fitsInt fbxMesh ->
  FBXMesh.clusterIndices fbxMesh <> [] ->
  exists view,
    attributeOf fbxMesh gpu.SKIN_CLUSTER_INDEX = Some view
    /\ gpu._size view
       = size (FBXMesh.clusterIndices fbxMesh)
         * (if UINT8_MAX <? size (FBXMesh.clusters fbxMesh) then 2 else 1)
    /\ gpu.type (gpu._element view)
       = (if size (FBXMesh.clusters fbxMesh) <? UINT8_MAX
          then gpu.UINT8 else gpu.UINT16).
Proof.
  intros Hfit Hne. rewrite attributeOf_by_source by assumption.
  destruct (sourceSize fbxMesh gpu.SKIN_CLUSTER_INDEX =? 0) eqn:E.
  - apply Z.eqb_eq in E. simpl in E. apply size_zero_iff in E. contradiction.
  - eexists. split; [reflexivity|]. split.
    + unfold slotView. cbn [gpu._size].
      rewrite slotSize_exact by assumption. reflexivity.
    + reflexivity.
Qed.

(** C4. With exactly 255 clusters the two tests disagree: the region of
    the four skin-cluster indices has 4 bytes, one byte per index, and the
    attribute attached to it has the 16-bit unsigned format. *)
Theorem cluster_index_width_at_255 :
  passesValidation mesh_255_clusters
  /\ size (FBXMesh.clusters mesh_255_clusters) = 255
  /\ size (FBXMesh.clusterIndices mesh_255_clusters) = 4
  /\ exists mesh view,
       buildModelMesh mesh_255_clusters EmptyString
       = (FBXMesh_setMesh mesh_255_clusters (Some mesh), [])
       /\ Mesh.getAttribute (Mesh._attributeBuffers mesh) gpu.SKIN_CLUSTER_INDEX
          = Some view
       /\ gpu._size view = 4
       /\ gpu.type (gpu._element view) = gpu.UINT16.
Proof.
  assert (Hv : passesValidation mesh_255_clusters).
  { split; vm_compute; discriminate. }
  split; [exact Hv|]. split; [reflexivity|]. split; [reflexivity|].
  destruct Hv as [Hi Hn].
  exists (builtMesh mesh_255_clusters).
  destruct (cluster_index_attribute mesh_255_clusters) as (view & Ha & Hs & Ht).
  - vm_compute. reflexivity.
  - discriminate.
  - exists view. split; [apply buildModelMesh_valid; assumption|].
    split; [exact Ha|]. split; [rewrite Hs; reflexivity | rewrite Ht; reflexivity].
Qed.

(** C5, as the spec states it, fails for the second UV channel: the
    UV1 array of [mesh_uv0_only] is empty, it adds no byte to the buffer,
    and the mesh the call sets has a TEXCOORD1 attribute all the same. *)
Lemma empty_source_still_attached :
  FBXMesh.texCoords1 mesh_uv0_only = []
  /\ texCoords1Size (attributeLayout mesh_uv0_only) = 0
  /\ exists mesh view,
       buildModelMesh mesh_uv0_only EmptyString
       = (FBXMesh_setMesh mesh_uv0_only (Some mesh), [])
       /\ Mesh.getAttribute (Mesh._attributeBuffers mesh) gpu.TEXCOORD1
          = Some view.
Proof.
  split; [reflexivity|]. split; [reflexivity|].
  eexists. eexists. split; vm_compute; reflexivity.
Qed.

(** C5, amended. For a mesh that passes validation and whose attribute
    data fits the [int] sizes, the call sets the built mesh; the seven
    attributes lie in the order of [slotOrder]; the size of each is its
    source length times its element size (zero for an empty source), its
    offset the sum of the sizes before it; the buffer is the seven source
    byte runs back to back; a slot with a non-empty source is attached
    with its own region, a slot with an empty source is not attached,
    except TEXCOORD1, which is attached with the region of UV0 when UV0
    is not empty. *)
Theorem attribute_layout_cumulative (fbxMesh : FBXMesh.t) (url : string) :
  passesValidation fbxMesh ->
  fitsInt fbxMesh ->
  let L := attributeLayout fbxMesh in
  buildModelMesh fbxMesh url
  = (FBXMesh_setMesh fbxMesh (Some (builtMesh fbxMesh)), [])
  /\ (forall k slot,
        nth_error slotOrder k = Some slot ->
        slotSize L slot = sourceSize fbxMesh slot * elementBytes fbxMesh slot
        /\ slotOffset L slot = sumZ (map (slotSize L) (firstn k slotOrder)))
  /\ totalAttributeSize L = sumZ (map (slotSize L) slotOrder)
  /\ attributeBuffer fbxMesh = concat (map (slotBytes fbxMesh) slotOrder)
  /\ (forall slot,
        attributeOf fbxMesh slot
        = if sourceSize fbxMesh slot =? 0 then
            match slot with
            | gpu.TEXCOORD1 =>
                if sourceSize fbxMesh gpu.TEXCOORD =? 0 then None
                else Some (slotView fbxMesh gpu.TEXCOORD)
            | _ => None
            end
          else Some (slotView fbxMesh slot)).
Proof.
  intros [Hi Hv] Hfit L. split; [apply buildModelMesh_valid; assumption|].
  split; [|split; [|split]].
  - intros k slot Hk. split.
    + apply slotSize_exact; assumption.
    + apply slotOffset_cumulative; assumption.
  - subst L. rewrite (attributeLayout_exact fbxMesh Hfit).
    unfold sumZ. simpl. lia.
  - rewrite attributeBuffer_content by assumption. simpl.
    rewrite app_nil_r. reflexivity.
  - intros slot. apply attributeOf_by_source; assumption.
Qed.

Lemma attribute_layout_cumulative_witness :
  passesValidation mesh_uv0_only
  /\ fitsInt mesh_uv0_only
  /\ slotOffset (attributeLayout mesh_uv0_only) gpu.TEXCOORD = 24
  /\ attributeOf mesh_uv0_only gpu.TANGENT = None.
Proof.
  assert (Hv : passesValidation mesh_uv0_only)
    by (split; vm_compute; discriminate).
  assert (Hf : fitsInt mesh_uv0_only) by (vm_compute; reflexivity).
  split; [exact Hv|]. split; [exact Hf|].
  destruct (attribute_layout_cumulative mesh_uv0_only EmptyString Hv Hf)
    as (_ & Hoff & _ & _ & Hatt).
  split.
  - destruct (Hoff 3%nat gpu.TEXCOORD eq_refl) as [_ Ho]. rewrite Ho.
    vm_compute. reflexivity.
  - rewrite Hatt. reflexivity.
Defined.

(** C6. UV1 aliasing: for a mesh that passes validation, whose attribute
    data fits the [int] sizes, with a non-empty UV0 array and an empty UV1
    array, the built mesh has a TEXCOORD1 attribute; its view is the view
    of TEXCOORD (the same buffer, offset, size and element format), on the
    UV0 region of the attribute buffer, and the bytes it designates are
    the bytes of the UV0 array. *)
Theorem uv1_aliases_uv0 (fbxMesh : FBXMesh.t) (url : string) :
  passesValidation fbxMesh ->
  fitsInt fbxMesh ->
  FBXMesh.texCoords fbxMesh <> [] ->
  FBXMesh.texCoords1 fbxMesh = [] ->
  exists mesh view,
    buildModelMesh fbxMesh url = (FBXMesh_setMesh fbxMesh (Some mesh), [])
    /\ Mesh.getAttribute (Mesh._attributeBuffers mesh) gpu.TEXCOORD1 = Some view
    /\ Mesh.getAttribute (Mesh._attributeBuffers mesh) gpu.TEXCOORD = Some view
    /\ gpu._buffer view = attributeBuffer fbxMesh
    /\ gpu._offset view = texCoordsOffset (attributeLayout fbxMesh)
    /\ gpu._size view = size (FBXMesh.texCoords fbxMesh) * sizeof_vec2
    /\ gpu._element view = gpu.mkElement gpu.VEC2 gpu.FLOAT gpu.UV
    /\ gpu.viewBytes view = flat_map bytes_vec2 (FBXMesh.texCoords fbxMesh).
Proof.
  intros [Hi Hv] Hfit Huv Huv1.
  exists (builtMesh fbxMesh), (slotView fbxMesh gpu.TEXCOORD).
  split; [apply buildModelMesh_valid; assumption|].
  assert (H0 : (sourceSize fbxMesh gpu.TEXCOORD =? 0) = false).
  { apply Z.eqb_neq. simpl. rewrite size_zero_iff. exact Huv. }
  assert (H1 : (sourceSize fbxMesh gpu.TEXCOORD1 =? 0) = true).
  { apply Z.eqb_eq. simpl. rewrite Huv1. reflexivity. }
  pose proof (attributeOf_by_source fbxMesh gpu.TEXCOORD1 Hfit) as A1.
  pose proof (attributeOf_by_source fbxMesh gpu.TEXCOORD Hfit) as A0.
  rewrite H1, H0 in A1. rewrite H0 in A0.
  split; [exact A1|]. split; [exact A0|].
  split; [reflexivity|]. split; [reflexivity|].
  split; [apply (slotSize_exact fbxMesh gpu.TEXCOORD Hfit)|].
  split; [reflexivity|].
  apply (viewBytes_slotView fbxMesh gpu.TEXCOORD Hfit).
Qed.

Lemma uv1_aliases_uv0_witness :
  passesValidation mesh_uv0_only
  /\ fitsInt mesh_uv0_only
  /\ FBXMesh.texCoords mesh_uv0_only <> []
  /\ FBXMesh.texCoords1 mesh_uv0_only = []
  /\ exists mesh view,
       buildModelMesh mesh_uv0_only EmptyString
       = (FBXMesh_setMesh mesh_uv0_only (Some mesh), [])
       /\ Mesh.getAttribute (Mesh._attributeBuffers mesh) gpu.TEXCOORD1
          = Some view
       /\ gpu.viewBytes view = bytes_vec2 (fone, fone).
Proof.
  assert (Hv : passesValidation mesh_uv0_only)
    by (split; vm_compute; discriminate).
  assert (Hf : fitsInt mesh_uv0_only) by (vm_compute; reflexivity).
  assert (Hu : FBXMesh.texCoords mesh_uv0_only <> []) by discriminate.
  split; [exact Hv|]. split; [exact Hf|]. split; [exact Hu|].
  split; [reflexivity|].
  destruct (uv1_aliases_uv0 mesh_uv0_only EmptyString Hv Hf Hu eq_refl)
    as (mesh & view & Hb & H1 & _ & _ & _ & _ & _ & Hbytes).
  exists mesh, view. split; [exact Hb|]. split; [exact H1|].
  rewrite Hbytes. reflexivity.
Defined.

(** ** The comparison of keys *)

Lemma feqb_true_iff (a b : float) : feqb a b = true <-> float_same a b.
Proof.
  unfold feqb, SFeqb, SFcompare, float_same.
  destruct a as [[]|[]| |[] m1 e1], b as [[]|[]| |[] m2 e2];
    try (split; [discriminate | contradiction]);
    try (split; [discriminate | intros H; discriminate H]);
    try (split; [discriminate | intros (H & _); discriminate H]);
    try (split; intros _; reflexivity).
  - destruct (Z.compare_spec e1 e2) as [He | He | He];
      try (split; [discriminate | intros (_ & _ & H); lia]).
    rewrite Pos.compare_cont_spec. simpl.
    destruct (Pos.compare_spec m1 m2) as [Hm | Hm | Hm]; simpl;
      try (split; [discriminate | intros (_ & H & _); lia]).
    subst. split; auto.
  - destruct (Z.compare_spec e1 e2) as [He | He | He];
      try (split; [discriminate | intros (_ & _ & H); lia]).
    rewrite Pos.compare_cont_spec. simpl.
    destruct (Pos.compare_spec m1 m2) as [Hm | Hm | Hm]; simpl;
      try (split; [discriminate | intros (_ & H & _); lia]).
    subst. split; auto.
Qed.

Lemma float_same_sym (a b : float) : float_same a b -> float_same b a.
Proof.
  destruct a, b; simpl; intuition congruence.
Qed.

Lemma float_same_trans (a b c : float) :
  float_same a b -> float_same b c -> float_same a c.
Proof.
  destruct a, b, c; simpl; intuition congruence.
Qed.

Lemma feqb_sym (a b : float) : feqb a b = feqb b a.
Proof.
  destruct (feqb a b) eqn:E1, (feqb b a) eqn:E2; try reflexivity.
  - apply feqb_true_iff, float_same_sym, feqb_true_iff in E1. congruence.
  - apply feqb_true_iff, float_same_sym, feqb_true_iff in E2. congruence.
Qed.

Lemma feqb_trans (a b c : float) :
  feqb a b = true -> feqb b c = true -> feqb a c = true.
Proof.
  rewrite !feqb_true_iff. apply float_same_trans.
Qed.

Lemma vec2_eqb_sym (a b : vec2) : vec2_eqb a b = vec2_eqb b a.
Proof.
  unfold vec2_eqb. rewrite (feqb_sym (fst a)), (feqb_sym (snd a)). reflexivity.
Qed.

Lemma vec2_eqb_trans (a b c : vec2) :
  vec2_eqb a b = true -> vec2_eqb b c = true -> vec2_eqb a c = true.
Proof.
  unfold vec2_eqb. rewrite !andb_true_iff. intros [H1 H2] [H3 H4].
  split; eapply feqb_trans; eassumption.
Qed.

Lemma Vertex_eqb_sym (a b : Vertex.t) : Vertex_eqb a b = Vertex_eqb b a.
Proof.
  unfold Vertex_eqb.
  rewrite (Z.eqb_sym (Vertex.originalIndex a)),
    (vec2_eqb_sym (Vertex.texCoord a)), (vec2_eqb_sym (Vertex.texCoord1 a)).
  reflexivity.
Qed.

Lemma Vertex_eqb_trans (a b c : Vertex.t) :
  Vertex_eqb a b = true -> Vertex_eqb b c = true -> Vertex_eqb a c = true.
Proof.
  unfold Vertex_eqb. rewrite !andb_true_iff, !Z.eqb_eq.
  intros [[H1 H2] H3] [[H4 H5] H6].
  repeat split; [congruence | |]; eapply vec2_eqb_trans; eassumption.
Qed.

(** ** The dedup table *)

Lemma find_Some_In (h : QHash.t) (k : Vertex.t) (v : nat) :
  QHash.find h k = Some v ->
  exists k', In (k', v) h /\ Vertex_eqb k' k = true.
Proof.
  induction h as [|[k' v'] r IH]; simpl; [discriminate|].
  destruct (Vertex_eqb k' k) eqn:E; intros H.
  - injection H as <-. exists k'. auto.
  - destruct (IH H) as (k2 & Hin & He). exists k2. auto.
Qed.

Lemma find_None_all (h : QHash.t) (k : Vertex.t) :
  QHash.find h k = None -> forall e, In e h -> Vertex_eqb (fst e) k = false.
Proof.
  induction h as [|[k' v'] r IH]; simpl; [contradiction|].
  destruct (Vertex_eqb k' k) eqn:E; [discriminate|].
  intros H e [<- | Hin]; [exact E | apply IH; assumption].
Qed.

Lemma find_In_not_None (h : QHash.t) (k k' : Vertex.t) (v : nat) :
  In (k', v) h -> Vertex_eqb k' k = true -> QHash.find h k <> None.
Proof.
  intros Hin He Hn. pose proof (find_None_all h k Hn _ Hin) as Hf.
  simpl in Hf. congruence.
Qed.

Lemma insert_fresh (h : QHash.t) (k : Vertex.t) (v : nat) :
  QHash.find h k = None -> QHash.insert h k v = h ++ [(k, v)].
Proof.
  induction h as [|[k' v'] r IH]; simpl; [reflexivity|].
  destruct (Vertex_eqb k' k); [discriminate|].
  intros H. rewrite IH by assumption. reflexivity.
Qed.

Lemma find_app_l (h h' : QHash.t) (k : Vertex.t) (v : nat) :
  QHash.find h k = Some v -> QHash.find (h ++ h') k = Some v.
Proof.
  induction h as [|[k' v'] r IH]; simpl; [discriminate|].
  destruct (Vertex_eqb k' k); auto.
Qed.

Lemma find_app_r (h h' : QHash.t) (k : Vertex.t) :
  QHash.find h k = None -> QHash.find (h ++ h') k = QHash.find h' k.
Proof.
  induction h as [|[k' v'] r IH]; simpl; [reflexivity|].
  destruct (Vertex_eqb k' k); [discriminate | auto].
Qed.

Lemma keysApart_unique (h : QHash.t) (e1 e2 : Vertex.t * nat) :
  keysApart h -> In e1 h -> In e2 h ->
  Vertex_eqb (fst e1) (fst e2) = true -> e1 = e2.
Proof.
  induction h as [|[k v] r IH]; simpl; [contradiction|].
  intros [Hk Hr] [H1 | H1] [H2 | H2] He.
  - congruence.
  - subst e1. simpl in He. rewrite (Hk e2 H2) in He. discriminate.
  - subst e2. simpl in He. rewrite Vertex_eqb_sym, (Hk e1 H1) in He.
    discriminate.
  - apply IH; assumption.
Qed.

Lemma keysApart_snoc (h : QHash.t) (k : Vertex.t) (v : nat) :
  keysApart h ->
  (forall e, In e h -> Vertex_eqb (fst e) k = false) ->
  keysApart (h ++ [(k, v)]).
Proof.
  induction h as [|[k' v'] r IH]; simpl; intros Ha Hf.
  - split; [intros e [] | exact I].
  - destruct Ha as [Hk Hr]. split.
    + intros e He. apply in_app_iff in He. destruct He as [He | [<- | []]].
      * apply Hk. exact He.
      * simpl. apply (Hf (k', v')). left. reflexivity.
    + apply IH; [exact Hr |]. intros e He. apply Hf. right. exact He.
Qed.

Lemma values_unique (h : QHash.t) (k1 k2 : Vertex.t) (v : nat) :
  NoDup (map snd h) -> In (k1, v) h -> In (k2, v) h -> k1 = k2.
Proof.
  induction h as [|[k v'] r IH]; simpl; [contradiction|].
  intros Hnd H1 H2. apply NoDup_cons in Hnd. destruct Hnd as [Hn Hnd].
  assert (Hv : forall k0, In (k0, v') r -> False).
  { intros k0 Hin. apply Hn. apply list_elem_of_In.
    apply (in_map snd) in Hin. exact Hin. }
  destruct H1 as [H1 | H1], H2 as [H2 | H2].
  - congruence.
  - injection H1 as -> ->. exfalso. eapply Hv. exact H2.
  - injection H2 as -> ->. exfalso. eapply Hv. exact H1.
  - apply IH; assumption.
Qed.

(** ** appendIndex, case by case *)

Lemma appendIndex_outside (data : MeshData.t) (indices : list nat) (index : nat) :
  (length (MeshData.polygonIndices data) <= index)%nat ->
  appendIndex data indices index = (data, indices).
Proof.
  intros H. unfold appendIndex.
  destruct (size (MeshData.polygonIndices data) <=? Z.of_nat index) eqn:E;
    [reflexivity|].
  apply Z.leb_gt in E. unfold size in E. lia.
Qed.

(** The output index a corner gets. *)
Lemma appendIndex_inside (data : MeshData.t) (indices : list nat) (index : nat) :
  (index < length (MeshData.polygonIndices data))%nat ->
  appendIndex data indices index
  = match QHash.find (MeshData.indices data) (vertex_of data index) with
    | None =>
        let newIndex := length (FBXMesh.vertices (meshOf data)) in
        (MeshData_setExtracted data
           (ExtractedMesh.mk
              (FBXMesh_appendVertex (meshOf data) (position_of data index)
                 (normal_of data index) (texCoord_of data index)
                 (if hasColors data
                  then Some (vec3_of_vec4 (color_of data index)) else None)
                 (if hasMoreTexcoords data
                  then Some (texCoord1_of data index) else None))
              ((vertexIndex_of data index, newIndex)
               :: ExtractedMesh.newIndices (MeshData.extracted data))
              (ExtractedMesh.partMaterialTextures (MeshData.extracted data))
              (ExtractedMesh.texcoordSetMap (MeshData.extracted data)))
           (MeshData.indices data ++ [(vertex_of data index, newIndex)]),
         indices ++ [newIndex])
    | Some it =>
        (MeshData_setExtracted data
           (ExtractedMesh_setMesh (MeshData.extracted data)
              (FBXMesh_setNormals (meshOf data)
                 (alter (fun stored => vec3_add stored (normal_of data index))
                    it (FBXMesh.normals (meshOf data)))))
           (MeshData.indices data),
         indices ++ [it])
    end.
Proof.
  intros H. unfold appendIndex.
  destruct (size (MeshData.polygonIndices data) <=? Z.of_nat index) eqn:E.
  { apply Z.leb_le in E. unfold size in E. lia. }
  cbv zeta.
  destruct (QHash.find (MeshData.indices data) (vertex_of data index)) eqn:F.
  - reflexivity.
  - rewrite insert_fresh by exact F. reflexivity.
Qed.

(** The index found in the table is the index of a stored normal. *)
Lemma hit_in_range (data : MeshData.t) (index it : nat) :
  dedupInv data ->
  QHash.find (MeshData.indices data) (vertex_of data index) = Some it ->
  (it < length (FBXMesh.normals (meshOf data)))%nat.
Proof.
  intros (_ & _ & Hb & Hl) F.
  destruct (find_Some_In _ _ _ F) as (k' & Hin & _).
  rewrite Hl. apply (Hb (k', it) Hin).
Qed.

Lemma appendIndex_source (data : MeshData.t) (indices : list nat) (index : nat) :
  sourceOf (fst (appendIndex data indices index)) = sourceOf data.
Proof.
  unfold appendIndex.
  destruct (size (MeshData.polygonIndices data) <=? Z.of_nat index);
    [reflexivity|].
  cbv zeta. destruct (QHash.find _ _); reflexivity.
Qed.

Lemma appendIndex_parts (data : MeshData.t) (indices : list nat) (index : nat) :
  MeshData_parts (fst (appendIndex data indices index)) = MeshData_parts data.
Proof.
  unfold appendIndex.
  destruct (size (MeshData.polygonIndices data) <=? Z.of_nat index);
    [reflexivity|].
  cbv zeta. destruct (QHash.find _ _); reflexivity.
Qed.

(** What a corner resolves to depends on the source arrays only. *)
Lemma source_resolved (d d' : MeshData.t) (index : nat) :
  sourceOf d = sourceOf d' ->
  vertex_of d index = vertex_of d' index
  /\ position_of d index = position_of d' index
  /\ normal_of d index = normal_of d' index
  /\ color_of d index = color_of d' index
  /\ hasColors d = hasColors d'
  /\ hasMoreTexcoords d = hasMoreTexcoords d'
  /\ MeshData.polygonIndices d = MeshData.polygonIndices d'.
Proof.
  unfold sourceOf. intros H. injection H as H1 H2 H3 H4 H5 H6 H7 H8 H9 H10 H11.
  unfold vertex_of, position_of, normal_of, color_of, hasColors,
    hasMoreTexcoords, texCoord_of, texCoord1_of, hasMoreTexcoords,
    vertexIndex_of.
  rewrite H1, H2, H3, H4, H5, H6, H7, H8, H9, H10, H11.
  repeat split; reflexivity.
Qed.

(** ** A run of appendIndex *)

Lemma lookup_snoc {A : Type} (l : list A) (x y : A) (i : nat) :
  (l ++ [x]) !! i = Some y ->
  (l !! i = Some y /\ (i < length l)%nat) \/ (i = length l /\ y = x).
Proof.
  intros H. destruct (Nat.lt_ge_cases i (length l)) as [Hlt | Hge].
  - left. rewrite lookup_app_l in H by exact Hlt. auto.
  - right. rewrite lookup_app_r in H by exact Hge.
    destruct (i - length l)%nat eqn:E; simpl in H; [|discriminate].
    injection H as <-. split; [lia | reflexivity].
Qed.

Lemma combine_snoc {A B : Type} (l : list A) (k : list B) (x : A) (y : B) :
  length l = length k ->
  combine (l ++ [x]) (k ++ [y]) = combine l k ++ [(x, y)].
Proof.
  revert k. induction l as [|a l IH]; intros [|b k] H; simpl in *;
    try discriminate; [reflexivity|].
  rewrite IH by lia. reflexivity.
Qed.

Lemma runInv_start (data : MeshData.t) :
  dedupInv data -> runInv data [] data [].
Proof.
  intros H. constructor; try reflexivity; try assumption;
    intros; discriminate.
Qed.

Lemma entry_bound (data : MeshData.t) (cs : list nat) (d : MeshData.t)
    (out : list nat) (i o : nat) :
  runInv data cs d out -> out !! i = Some o ->
  (o < length (FBXMesh.vertices (meshOf d)))%nat.
Proof.
  intros R Ho.
  assert (Hi : (i < length cs)%nat).
  { rewrite <- (run_length _ _ _ _ R). eapply lookup_lt_Some. exact Ho. }
  destruct (lookup_lt_is_Some_2 cs i Hi) as [c Hc].
  destruct (run_entry _ _ _ _ R i c o Hc Ho) as (k' & Hin & _).
  destruct (run_dedup _ _ _ _ R) as (_ & _ & Hb & _).
  apply (Hb (k', o) Hin).
Qed.

Lemma summedNormal_snoc (data : MeshData.t) (cos : list (nat * nat))
    (co : nat * nat) (v : nat) (init : option vec3) :
  summedNormal data (cos ++ [co]) v init
  = addCorner data v (summedNormal data cos v init) co.
Proof.
  unfold summedNormal. rewrite fold_left_app. reflexivity.
Qed.

Lemma runInv_hit (data : MeshData.t) (cs : list nat) (d : MeshData.t)
    (out : list nat) (c it : nat) :
  runInv data cs d out ->
  (c < length (MeshData.polygonIndices d))%nat ->
  QHash.find (MeshData.indices d) (vertex_of d c) = Some it ->
  runInv data (cs ++ [c]) (fst (appendIndex d out c)) (out ++ [it])
  /\ snd (appendIndex d out c) = out ++ [it].
Proof.
  intros R Hc F.
  destruct (source_resolved d data c (run_source _ _ _ _ R))
    as (Hk & _ & Hn & _).
  rewrite appendIndex_inside by exact Hc. rewrite F. cbn [fst snd].
  split; [|reflexivity].
  destruct (run_dedup _ _ _ _ R) as (Ha & Hnd & Hb & Hl).
  destruct (find_Some_In _ _ _ F) as (k' & Hin & He). rewrite Hk in He.
  assert (Hit : (it < length (FBXMesh.normals (meshOf d)))%nat).
  { rewrite Hl. apply (Hb (k', it) Hin). }
  pose proof (run_length _ _ _ _ R) as Hlen.
  assert (Hnew : forall i ci oi, cs !! i = Some ci -> out !! i = Some oi ->
                 (oi = it <->
                  Vertex_eqb (vertex_of data ci) (vertex_of data c) = true)).
  { intros i ci oi Hci Hoi.
    destruct (run_entry _ _ _ _ R i ci oi Hci Hoi) as (ki & Hini & Hki).
    assert (Hik : Vertex_eqb ki (vertex_of data c) = true
                  <-> Vertex_eqb (vertex_of data ci) (vertex_of data c) = true).
    { destruct Hki as [-> | Hki]; [tauto|]. split; intros H.
      - eapply Vertex_eqb_trans; [|exact H].
        rewrite Vertex_eqb_sym. exact Hki.
      - eapply Vertex_eqb_trans; eassumption. }
    rewrite <- Hik. split.
    - intros ->. rewrite (values_unique _ ki k' it Hnd Hini Hin). exact He.
    - intros H.
      assert (Heq : (ki, oi) = (k', it)).
      { apply (keysApart_unique _ _ _ Ha Hini Hin). simpl.
        eapply Vertex_eqb_trans; [exact H|].
        rewrite Vertex_eqb_sym. exact He. }
      congruence. }
  constructor.
  - rewrite !length_app. simpl. lia.
  - unfold dedupInv, meshOf in *. simpl. repeat split; try assumption.
    rewrite length_alter. exact Hl.
  - exact (run_source _ _ _ _ R).
  - intros i c0 o Hc0 Ho. simpl.
    apply lookup_snoc in Hc0. apply lookup_snoc in Ho.
    destruct Hc0 as [[Hc0 Hi] | [Hi ->]], Ho as [[Ho Hi'] | [Hi' ->]];
      try lia.
    + exact (run_entry _ _ _ _ R i c0 o Hc0 Ho).
    + exists k'. auto.
  - intros i j ci cj oi oj Hij Hci Hcj Hoi Hoj.
    apply lookup_snoc in Hci, Hcj, Hoi, Hoj.
    destruct Hci as [[Hci Hi] | [Hi ->]], Hoi as [[Hoi Hi'] | [Hi' ->]];
      try lia;
      destruct Hcj as [[Hcj Hj] | [Hj ->]], Hoj as [[Hoj Hj'] | [Hj' ->]];
      try lia.
    + exact (run_same _ _ _ _ R i j ci cj oi oj Hij Hci Hcj Hoi Hoj).
    + apply (Hnew i ci oi Hci Hoi).
    + rewrite Vertex_eqb_sym. split; intros H.
      * apply (Hnew j cj oj Hcj Hoj). congruence.
      * symmetry. apply (Hnew j cj oj Hcj Hoj). exact H.
  - intros v.
    rewrite combine_snoc by (symmetry; exact Hlen).
    rewrite summedNormal_snoc, <- (run_normals _ _ _ _ R v).
    unfold addCorner. cbn [fst snd]. rewrite <- Hn.
    unfold meshOf at 1. cbn. fold (meshOf d).
    destruct (Nat.eqb_spec it v) as [-> | Hne].
    + rewrite list_lookup_alter.
      destruct (lookup_lt_is_Some_2 _ _ Hit) as [s Hs]. rewrite Hs.
      destruct (decide (v = v)); [reflexivity | congruence].
    + rewrite list_lookup_alter_ne by exact Hne. reflexivity.
  - intros i c0 o Hc0 Ho Hself. simpl.
    apply lookup_snoc in Hc0. apply lookup_snoc in Ho.
    destruct Hc0 as [[Hc0 Hi] | [Hi ->]], Ho as [[Ho Hi'] | [Hi' ->]];
      try lia.
    + exact (run_lookup _ _ _ _ R i c0 o Hc0 Ho Hself).
    + rewrite <- Hk. exact F.
Qed.

Lemma runInv_miss (data : MeshData.t) (cs : list nat) (d : MeshData.t)
    (out : list nat) (c : nat) :
  runInv data cs d out ->
  (c < length (MeshData.polygonIndices d))%nat ->
  QHash.find (MeshData.indices d) (vertex_of d c) = None ->
  let newIndex := length (FBXMesh.vertices (meshOf d)) in
  runInv data (cs ++ [c]) (fst (appendIndex d out c)) (out ++ [newIndex])
  /\ snd (appendIndex d out c) = out ++ [newIndex].
Proof.
  intros R Hc F newIndex.
  destruct (source_resolved d data c (run_source _ _ _ _ R))
    as (Hk & _ & Hn & _).
  rewrite appendIndex_inside by exact Hc. rewrite F. cbn [fst snd].
  split; [|reflexivity].
  destruct (run_dedup _ _ _ _ R) as (Ha & Hnd & Hb & Hl).
  pose proof (run_length _ _ _ _ R) as Hlen.
  pose proof (find_None_all _ _ F) as Hall. rewrite Hk in Hall, F.
  assert (Hold : forall i ci oi, cs !! i = Some ci -> out !! i = Some oi ->
                 oi <> newIndex
                 /\ Vertex_eqb (vertex_of data ci) (vertex_of data c) = false).
  { intros i ci oi Hci Hoi.
    pose proof (entry_bound _ _ _ _ _ _ R Hoi) as Hlt. split; [unfold newIndex; lia|].
    destruct (run_entry _ _ _ _ R i ci oi Hci Hoi) as (ki & Hini & Hki).
    destruct (Vertex_eqb (vertex_of data ci) (vertex_of data c)) eqn:E;
      [|reflexivity].
    exfalso. apply (find_In_not_None _ (vertex_of data c) _ _ Hini);
      [|exact F].
    destruct Hki as [-> | Hki]; [exact E|].
    eapply Vertex_eqb_trans; eassumption. }
  constructor.
  - rewrite !length_app. simpl. lia.
  - unfold dedupInv, meshOf. simpl. fold (meshOf d). repeat split.
    + apply keysApart_snoc; [exact Ha|]. rewrite Hk. exact Hall.
    + rewrite map_app. simpl. apply NoDup_app. split; [exact Hnd|]. split.
      * intros x Hx Hx'. apply list_elem_of_In in Hx.
        apply in_map_iff in Hx. destruct Hx as (e & <- & He).
        apply list_elem_of_In in Hx'. simpl in Hx'.
        destruct Hx' as [Hx' | []]. pose proof (Hb e He). fold newIndex in Hx'.
        unfold newIndex in Hx'. lia.
      * apply NoDup_singleton.
    + intros e He. rewrite length_app. simpl.
      apply in_app_iff in He. destruct He as [He | [<- | []]].
      * pose proof (Hb e He). lia.
      * simpl. lia.
    + rewrite !length_app. simpl. lia.
  - exact (run_source _ _ _ _ R).
  - intros i c0 o Hc0 Ho. simpl.
    apply lookup_snoc in Hc0. apply lookup_snoc in Ho.
    destruct Hc0 as [[Hc0 Hi] | [Hi ->]], Ho as [[Ho Hi'] | [Hi' ->]];
      try lia.
    + destruct (run_entry _ _ _ _ R i c0 o Hc0 Ho) as (k' & Hin & Hk').
      exists k'. split; [apply in_app_iff; left; exact Hin | exact Hk'].
    + exists (vertex_of data c). split; [|left; reflexivity].
      apply in_app_iff. right. left. rewrite Hk. reflexivity.
  - intros i j ci cj oi oj Hij Hci Hcj Hoi Hoj.
    apply lookup_snoc in Hci, Hcj, Hoi, Hoj.
    destruct Hci as [[Hci Hi] | [Hi ->]], Hoi as [[Hoi Hi'] | [Hi' ->]];
      try lia;
      destruct Hcj as [[Hcj Hj] | [Hj ->]], Hoj as [[Hoj Hj'] | [Hj' ->]];
      try lia.
    + exact (run_same _ _ _ _ R i j ci cj oi oj Hij Hci Hcj Hoi Hoj).
    + destruct (Hold i ci oi Hci Hoi) as [Hne Hf]. rewrite Hf.
      split; [intros; contradiction | discriminate].
    + destruct (Hold j cj oj Hcj Hoj) as [Hne Hf].
      rewrite Vertex_eqb_sym, Hf.
      split; [intros; exfalso; apply Hne; congruence | discriminate].
  - intros v.
    rewrite combine_snoc by (symmetry; exact Hlen).
    rewrite summedNormal_snoc, <- (run_normals _ _ _ _ R v).
    unfold addCorner. cbn [fst snd]. rewrite <- Hn.
    unfold meshOf at 1. cbn. fold (meshOf d).
    destruct (Nat.eqb_spec newIndex v) as [<- | Hne].
    + unfold newIndex. rewrite <- Hl.
      rewrite lookup_app_r by lia. rewrite Nat.sub_diag. simpl.
      rewrite (lookup_ge_None_2 (FBXMesh.normals (meshOf d))) by lia.
      reflexivity.
    + unfold newIndex in Hne.
      destruct (Nat.lt_ge_cases v (length (FBXMesh.normals (meshOf d))))
        as [Hlt | Hge].
      * rewrite lookup_app_l by exact Hlt. reflexivity.
      * rewrite (lookup_ge_None_2 (FBXMesh.normals (meshOf d))) by exact Hge.
        apply lookup_ge_None_2. rewrite length_app. simpl. lia.
  - intros i c0 o Hc0 Ho Hself. simpl.
    apply lookup_snoc in Hc0. apply lookup_snoc in Ho.
    destruct Hc0 as [[Hc0 Hi] | [Hi ->]], Ho as [[Ho Hi'] | [Hi' ->]];
      try lia.
    + apply find_app_l. exact (run_lookup _ _ _ _ R i c0 o Hc0 Ho Hself).
    + rewrite find_app_r by exact F. rewrite Hk. simpl. rewrite Hself.
      reflexivity.
Qed.

(** One more corner. *)
Lemma runInv_step (data : MeshData.t) (cs : list nat) (d : MeshData.t)
    (out : list nat) (c : nat) :
  runInv data cs d out ->
  (c < length (MeshData.polygonIndices data))%nat ->
  runInv data (cs ++ [c]) (fst (appendIndex d out c))
    (snd (appendIndex d out c)).
Proof.
  intros R Hc.
  assert (Hc' : (c < length (MeshData.polygonIndices d))%nat).
  { destruct (source_resolved d data c (run_source _ _ _ _ R))
      as (_ & _ & _ & _ & _ & _ & Hp). rewrite Hp. exact Hc. }
  destruct (QHash.find (MeshData.indices d) (vertex_of d c)) as [it|] eqn:F.
  - destruct (runInv_hit _ _ _ _ _ _ R Hc' F) as [H1 H2]. rewrite H2. exact H1.
  - destruct (runInv_miss _ _ _ _ _ R Hc' F) as [H1 H2]. rewrite H2. exact H1.
Qed.

Lemma appendCorners_snoc (data : MeshData.t) (indices : list nat)
    (cs : list nat) (c : nat) :
  appendCorners data indices (cs ++ [c])
  = appendIndex (fst (appendCorners data indices cs))
      (snd (appendCorners data indices cs)) c.
Proof.
  unfold appendCorners. rewrite fold_left_app. reflexivity.
Qed.

Lemma appendCorners_app (data : MeshData.t) (indices : list nat)
    (cs cs' : list nat) :
  appendCorners data indices (cs ++ cs')
  = appendCorners (fst (appendCorners data indices cs))
      (snd (appendCorners data indices cs)) cs'.
Proof.
  unfold appendCorners. rewrite fold_left_app.
  destruct (fold_left _ cs (data, indices)); reflexivity.
Qed.

Lemma runInv_run (data : MeshData.t) (cs : list nat) :
  dedupInv data ->
  Forall (fun c => (c < length (MeshData.polygonIndices data))%nat) cs ->
  runInv data cs (fst (appendCorners data [] cs))
    (snd (appendCorners data [] cs)).
Proof.
  intros Hd. induction cs as [|c cs IH] using rev_ind; intros Hcs.
  - apply runInv_start. exact Hd.
  - apply Forall_app in Hcs. destruct Hcs as [Hcs Hc].
    rewrite appendCorners_snoc. apply runInv_step.
    + apply IH. exact Hcs.
    + apply Forall_inv in Hc. exact Hc.
Qed.

Lemma dedupInv_empty (data : MeshData.t) :
  MeshData.indices data = [] ->
  FBXMesh.vertices (meshOf data) = [] ->
  FBXMesh.normals (meshOf data) = [] ->
  dedupInv data.
Proof.
  intros Hi Hv Hn. unfold dedupInv. rewrite Hi, Hv, Hn. simpl.
  repeat split; try constructor. intros e [].
Qed.

(** [operator==] on the keys of two corners, written out on the values. *)
Lemma vec2_eqb_uv_same (a b : vec2) : vec2_eqb a b = true <-> uv_same a b.
Proof.
  unfold vec2_eqb, uv_same. rewrite andb_true_iff, !feqb_true_iff.
  reflexivity.
Qed.

Lemma Vertex_eqb_keys (data : MeshData.t) (ci cj : nat) :
  Vertex_eqb (vertex_of data ci) (vertex_of data cj) = true
  <-> keysCompareEqual data ci cj.
Proof.
  unfold Vertex_eqb, keysCompareEqual, vertex_of.
  cbn [Vertex.originalIndex Vertex.texCoord Vertex.texCoord1].
  rewrite !andb_true_iff, Z.eqb_eq, !vec2_eqb_uv_same. tauto.
Qed.

Lemma float_same_refl (a : float) : isNaN a = false -> float_same a a.
Proof.
  destruct a; simpl; intros H; try discriminate H; auto.
Qed.

Lemma uv_same_refl (a : vec2) : hasNaN a = false -> uv_same a a.
Proof.
  unfold hasNaN, uv_same. intros H. apply orb_false_iff in H.
  destruct H as [H1 H2]. split; apply float_same_refl; assumption.
Qed.

(** C1, as the spec states it, fails in both directions. The two corners
    of [data_nan_shared] have identical keys (source vertex 0 and the same
    entry of the UV array, whose first component is not a number) and get
    two output indices: [==] does not hold between a NaN and itself, so
    the second corner does not find the key of the first. The two corners
    of [data_zero_signs] have keys that are not identical (their UVs
    differ in the sign of a zero) and get one output index: [==] holds
    between the two zeros. Both states are states of the dedup index as
    [extractMesh] keeps it, and the corners are corners of the stream. *)
Lemma identical_keys_not_decisive :
  (dedupInv data_nan_shared
   /\ Forall (fun c => (c < length (MeshData.polygonIndices data_nan_shared))%nat)
        [0; 1]%nat
   /\ identicalKeys data_nan_shared 0 1
   /\ snd (appendCorners data_nan_shared [] [0; 1]%nat) = [0; 1]%nat)
  /\ (dedupInv data_zero_signs
      /\ Forall (fun c => (c < length (MeshData.polygonIndices data_zero_signs))%nat)
           [0; 1]%nat
      /\ ~ identicalKeys data_zero_signs 0 1
      /\ snd (appendCorners data_zero_signs [] [0; 1]%nat) = [0; 0]%nat).
Proof.
  split.
  - split; [apply dedupInv_empty; reflexivity|].
    split; [repeat constructor|].
    split; [|vm_compute; reflexivity].
    repeat split; reflexivity.
  - split; [apply dedupInv_empty; reflexivity|].
    split; [repeat constructor|].
    split; [|vm_compute; reflexivity].
    intros (_ & H & _). vm_compute in H. discriminate H.
Qed.

(** C1, amended. Vertex deduplication. From a state of the dedup index as
    [extractMesh] keeps it ([dedupInv], which holds in every state of the
    polygon loop by [loopReaches_extractInv]), after any sequence of
    corners of the polygon stream went through [appendIndex]: every
    corner got an output index; two corners (two places of the sequence)
    got the same index exactly when their keys compare equal
    ([keysCompareEqual]: the same source vertex index, and primary and
    secondary UVs whose components are equal as floats, the two zeros
    being equal and a NaN equal to nothing); so two corners with identical
    keys got the same index when no component of their UVs is NaN, and
    two corners on the same source vertex between whose UVs [==] does not
    hold got distinct indices; the normal stored for an output vertex is
    the sum, in order, of the normals of the corners that got it; and a
    single call that finds its key adds the corner's normal to the stored
    one, appends the stored index and leaves the vertices alone. *)
Theorem dedup_exact (data : MeshData.t) (cs : list nat) :
  dedupInv data ->
  Forall (fun c => (c < length (MeshData.polygonIndices data))%nat) cs ->
  let data' := fst (appendCorners data [] cs) in
  let out := snd (appendCorners data [] cs) in
  length out = length cs
  /\ (forall i j ci cj oi oj, i <> j ->
      cs !! i = Some ci -> cs !! j = Some cj ->
      out !! i = Some oi -> out !! j = Some oj ->
      (oi = oj <-> keysCompareEqual data ci cj))
  /\ (forall i j ci cj oi oj, i <> j ->
      cs !! i = Some ci -> cs !! j = Some cj ->
      out !! i = Some oi -> out !! j = Some oj ->
      identicalKeys data ci cj ->
      hasNaN (texCoord_of data ci) = false ->
      hasNaN (texCoord1_of data ci) = false ->
      oi = oj)
  /\ (forall i j ci cj oi oj, i <> j ->
      cs !! i = Some ci -> cs !! j = Some cj ->
      out !! i = Some oi -> out !! j = Some oj ->
      vertexIndex_of data ci = vertexIndex_of data cj ->
      ~ uv_same (texCoord_of data ci) (texCoord_of data cj)
      \/ ~ uv_same (texCoord1_of data ci) (texCoord1_of data cj) ->
      oi <> oj)
  /\ (forall v,
      FBXMesh.normals (meshOf data') !! v
      = summedNormal data (combine cs out) v
          (FBXMesh.normals (meshOf data) !! v))
  /\ (forall d indices c it,
      (c < length (MeshData.polygonIndices d))%nat ->
      QHash.find (MeshData.indices d) (vertex_of d c) = Some it ->
      snd (appendIndex d indices c) = indices ++ [it]
      /\ FBXMesh.normals (meshOf (fst (appendIndex d indices c)))
         = alter (fun stored => vec3_add stored (normal_of d c)) it
             (FBXMesh.normals (meshOf d))
      /\ FBXMesh.vertices (meshOf (fst (appendIndex d indices c)))
         = FBXMesh.vertices (meshOf d)).
Proof.
  intros Hd Hcs data' out.
  pose proof (runInv_run data cs Hd Hcs) as R. fold data' out in R.
  assert (Hsame : forall i j ci cj oi oj, i <> j ->
            cs !! i = Some ci -> cs !! j = Some cj ->
            out !! i = Some oi -> out !! j = Some oj ->
            (oi = oj <-> keysCompareEqual data ci cj)).
  { intros i j ci cj oi oj Hij Hci Hcj Hoi Hoj.
    rewrite <- Vertex_eqb_keys.
    exact (run_same _ _ _ _ R i j ci cj oi oj Hij Hci Hcj Hoi Hoj). }
  split; [exact (run_length _ _ _ _ R)|].
  split; [exact Hsame|].
  split; [|split; [|split; [exact (run_normals _ _ _ _ R)|]]].
  - intros i j ci cj oi oj Hij Hci Hcj Hoi Hoj (Hv & H0 & H1) Hn0 Hn1.
    apply (Hsame i j ci cj oi oj Hij Hci Hcj Hoi Hoj).
    split; [exact Hv|]. rewrite <- H0, <- H1.
    split; apply uv_same_refl; assumption.
  - intros i j ci cj oi oj Hij Hci Hcj Hoi Hoj Hv Huv Heq.
    apply (Hsame i j ci cj oi oj Hij Hci Hcj Hoi Hoj) in Heq.
    destruct Heq as (_ & H0 & H1). destruct Huv as [Huv | Huv]; tauto.
  - intros d indices c it Hc F.
    rewrite appendIndex_inside by exact Hc. rewrite F. auto.
Qed.

Lemma dedup_exact_witness :
  dedupInv data_shared_corner
  /\ Forall (fun c => (c < length (MeshData.polygonIndices data_shared_corner))%nat)
       [0; 1; 2; 3]%nat
  /\ snd (appendCorners data_shared_corner [] [0; 1; 2; 3]%nat)
     = [0; 1; 2; 0]%nat
  /\ keysCompareEqual data_shared_corner 0 3
  /\ ~ keysCompareEqual data_shared_corner 0 1.
Proof.
  assert (Hd : dedupInv data_shared_corner)
    by (apply dedupInv_empty; reflexivity).
  assert (Hc : Forall (fun c => (c < length (MeshData.polygonIndices
                                              data_shared_corner))%nat)
                 [0; 1; 2; 3]%nat)
    by (repeat constructor).
  assert (Ho : snd (appendCorners data_shared_corner [] [0; 1; 2; 3]%nat)
               = [0; 1; 2; 0]%nat) by (vm_compute; reflexivity).
  pose proof (proj1 (proj2 (dedup_exact data_shared_corner [0; 1; 2; 3]%nat
                              Hd Hc))) as Hsame.
  cbv zeta in Hsame. rewrite Ho in Hsame.
  split; [exact Hd|]. split; [exact Hc|]. split; [exact Ho|]. split.
  - apply (Hsame 0%nat 3%nat 0%nat 3%nat 0%nat 0%nat); try reflexivity.
    discriminate.
  - intros H.
    apply (Hsame 0%nat 1%nat 0%nat 1%nat 0%nat 1%nat) in H;
      try reflexivity; discriminate.
Defined.

(** ** Runs of appendIndex inside the polygon loop *)

Lemma appendIndex_prefix (data : MeshData.t) (indices : list nat) (index : nat) :
  appendIndex data indices index
  = (fst (appendIndex data [] index),
     indices ++ snd (appendIndex data [] index)).
Proof.
  unfold appendIndex.
  destruct (size (MeshData.polygonIndices data) <=? Z.of_nat index).
  - simpl. rewrite app_nil_r. reflexivity.
  - cbv zeta. destruct (QHash.find _ _); reflexivity.
Qed.

Lemma appendCorners_prefix (data : MeshData.t) (indices : list nat)
    (cs : list nat) :
  appendCorners data indices cs
  = (fst (appendCorners data [] cs),
     indices ++ snd (appendCorners data [] cs)).
Proof.
  induction cs as [|c cs IH] using rev_ind.
  - simpl. rewrite app_nil_r. reflexivity.
  - rewrite !appendCorners_snoc, IH. cbn [fst snd].
    rewrite appendIndex_prefix.
    rewrite (appendIndex_prefix _ (snd (appendCorners data [] cs))).
    cbn [fst snd]. rewrite app_assoc. reflexivity.
Qed.

Lemma appendCorners_source (data : MeshData.t) (indices : list nat)
    (cs : list nat) :
  sourceOf (fst (appendCorners data indices cs)) = sourceOf data.
Proof.
  induction cs as [|c cs IH] using rev_ind; [reflexivity|].
  rewrite appendCorners_snoc, appendIndex_source. exact IH.
Qed.

Lemma appendCorners_parts (data : MeshData.t) (indices : list nat)
    (cs : list nat) :
  MeshData_parts (fst (appendCorners data indices cs)) = MeshData_parts data.
Proof.
  induction cs as [|c cs IH] using rev_ind; [reflexivity|].
  rewrite appendCorners_snoc, appendIndex_parts. exact IH.
Qed.

Lemma source_polygonIndices (d d' : MeshData.t) :
  sourceOf d = sourceOf d' ->
  MeshData.polygonIndices d = MeshData.polygonIndices d'.
Proof.
  intros H. apply (source_resolved d d' 0%nat H).
Qed.

(** With keys that compare equal to themselves, the indices a run appends
    are the ones the final table gives the corners. *)
Lemma run_outputIndex (data : MeshData.t) (cs : list nat) (d : MeshData.t)
    (out : list nat) :
  runInv data cs d out ->
  (forall c, In c cs -> selfEqual data c) ->
  out = map (outputIndex d) cs.
Proof.
  intros R Hself. apply list_eq. intros i. rewrite list_lookup_fmap.
  destruct (cs !! i) as [c|] eqn:Hc; simpl.
  - assert (Hi : (i < length out)%nat).
    { rewrite (run_length _ _ _ _ R). eapply lookup_lt_Some. exact Hc. }
    destruct (lookup_lt_is_Some_2 out i Hi) as [o Ho]. rewrite Ho.
    assert (Hin : In c cs).
    { apply list_elem_of_In. eapply list_elem_of_lookup_2. exact Hc. }
    pose proof (run_lookup _ _ _ _ R i c o Hc Ho (Hself c Hin)) as F.
    unfold outputIndex.
    destruct (source_resolved d data c (run_source _ _ _ _ R)) as (Hk & _).
    rewrite Hk, F. reflexivity.
  - apply lookup_ge_None_2. rewrite (run_length _ _ _ _ R).
    apply lookup_ge_None_1. exact Hc.
Qed.

(** ** The span scan *)

Lemma at_nat {A : Type} (d : A) (l : list A) (i : nat) :
  at_ d l (Z.of_nat i) = nth i l d.
Proof. unfold at_. rewrite Nat2Z.id. reflexivity. Qed.

Lemma skipn_nth {A : Type} (d : A) (l : list A) (b : nat) :
  (b < length l)%nat -> skipn b l = nth b l d :: skipn (S b) l.
Proof.
  revert b. induction l as [|x l IH]; intros b H; simpl in H; [lia|].
  destruct b; [reflexivity|]. simpl. apply IH. lia.
Qed.

Lemma spanEnd_terminated (l : list Z) (b N : nat) :
  terminatedSpan l b N -> spanEnd l b = (b + N)%nat.
Proof.
  unfold spanEnd. revert b. induction N as [|N IH]; intros b (H1 & H2 & H3 & H4).
  - lia.
  - rewrite (skipn_nth 0 l b) by lia. simpl.
    destruct N as [|N].
    + replace (b + 1 - 1)%nat with b in H4 by lia.
      destruct (0 <=? nth b l 0) eqn:E; [apply Z.leb_le in E; lia | lia].
    + pose proof (H3 0%nat ltac:(lia)) as H0. rewrite Nat.add_0_r in H0.
      apply Z.leb_le in H0. rewrite H0.
      rewrite IH; [lia|]. repeat split; try lia.
      * intros i Hi. replace (S b + i)%nat with (b + S i)%nat by lia.
        apply H3. lia.
      * replace (S b + S N - 1)%nat with (b + S (S N) - 1)%nat by lia.
        exact H4.
Qed.

Lemma spanEnd_bounds (l : list Z) (b : nat) :
  (b < length l)%nat -> (b < spanEnd l b <= length l)%nat.
Proof.
  unfold spanEnd. intros H.
  assert (G : forall r e, (e <= scanSpan r e <= e + length r)%nat
                          /\ (r <> [] -> e < scanSpan r e)%nat).
  { induction r as [|x r IH]; intros e; simpl.
    - split; [lia | congruence].
    - destruct (0 <=? x).
      + destruct (IH (S e)) as [IH1 _]. split; [lia | intros; lia].
      + split; [lia | intros; lia]. }
  destruct (G (skipn b l) b) as [G1 G2].
  rewrite length_skipn in G1. split; [|lia].
  apply G2. intros E. apply (f_equal (@length Z)) in E.
  rewrite length_skipn in E. simpl in E. lia.
Qed.

(** ** The fan loop *)

(** On a terminated polygon: after the corner [b + i], with [M] corners
    left after it, the loop makes the [M] triangles that remain. *)
Lemma fanLoop_terminated (M : nat) :
  forall (fuel : nat) (data : MeshData.t) (triangleIndices : list nat)
         (b i : nat),
  (1 <= M <= fuel)%nat ->
  (b + i + M < length (MeshData.polygonIndices data))%nat ->
  (forall j, (1 <= j < M)%nat ->
             0 <= nth (b + i + j) (MeshData.polygonIndices data) 0) ->
  nth (b + i + M) (MeshData.polygonIndices data) 0 < 0 ->
  fanLoop fuel data triangleIndices b (b + i)
  = Some (appendCorners data triangleIndices
            (flat_map (fun j => [b; b + j; b + j + 1]%nat) (seq i M))).
Proof.
  induction M as [|M IH]; intros fuel data tri b i HM Hlen Hpos Hneg; [lia|].
  destruct fuel as [|fuel]; [lia|].
  cbn [fanLoop].
  destruct (appendIndex data tri b) as [data1 t1] eqn:E1.
  destruct (appendIndex data1 t1 (b + i)) as [data2 t2] eqn:E2.
  destruct (appendIndex data2 t2 (S (b + i))) as [data3 t3] eqn:E3.
  assert (Hrun : appendCorners data tri [b; b + i; b + i + 1]%nat = (data3, t3)).
  { unfold appendCorners. simpl. rewrite E1. simpl. rewrite E2. simpl.
    replace (b + i + 1)%nat with (S (b + i)) by lia. exact E3. }
  assert (Hsrc : MeshData.polygonIndices data3 = MeshData.polygonIndices data).
  { apply source_polygonIndices.
    pose proof (appendCorners_source data tri [b; b + i; b + i + 1]%nat) as Hs.
    rewrite Hrun in Hs. exact Hs. }
  rewrite Hsrc, at_nat.
  assert (Hin : (size (MeshData.polygonIndices data) <=? Z.of_nat (S (b + i)))
                = false).
  { apply Z.leb_gt. unfold size. lia. }
  rewrite Hin. simpl orb.
  cbn [seq flat_map]. rewrite appendCorners_app, Hrun. cbn [fst snd].
  destruct M as [|M].
  - replace (b + i + 1)%nat with (S (b + i)) in Hneg by lia.
    apply Z.ltb_lt in Hneg. rewrite Hneg. reflexivity.
  - pose proof (Hpos 1%nat ltac:(lia)) as H1.
    replace (b + i + 1)%nat with (S (b + i)) in H1 by lia.
    destruct (nth (S (b + i)) (MeshData.polygonIndices data) 0 <? 0) eqn:E;
      [apply Z.ltb_lt in E; lia|].
    replace (S (b + i)) with (b + S i)%nat by lia.
    apply IH.
    + lia.
    + rewrite Hsrc. lia.
    + rewrite Hsrc. intros j Hj.
      replace (b + S i + j)%nat with (b + i + S j)%nat by lia.
      apply Hpos. lia.
    + rewrite Hsrc. replace (b + S i + S M)%nat with (b + i + S (S M))%nat by lia.
      exact Hneg.
Qed.

(** On any stream the loop ends within the fuel [extractMesh] gives it,
    and what it did is a run of [appendIndex]. *)
Lemma fanLoop_total (fuel : nat) :
  forall (data : MeshData.t) (triangleIndices : list nat) (b next : nat),
  (1 <= fuel)%nat ->
  (length (MeshData.polygonIndices data) - next <= fuel)%nat ->
  exists cs,
    fanLoop fuel data triangleIndices b next
    = Some (appendCorners data triangleIndices cs).
Proof.
  induction fuel as [|fuel IH]; intros data tri b next H1 H2; [lia|].
  cbn [fanLoop].
  destruct (appendIndex data tri b) as [data1 t1] eqn:E1.
  destruct (appendIndex data1 t1 next) as [data2 t2] eqn:E2.
  destruct (appendIndex data2 t2 (S next)) as [data3 t3] eqn:E3.
  assert (Hrun : appendCorners data tri [b; next; S next] = (data3, t3)).
  { unfold appendCorners. simpl. rewrite E1. simpl. rewrite E2. simpl.
    exact E3. }
  assert (Hsrc : MeshData.polygonIndices data3 = MeshData.polygonIndices data).
  { apply source_polygonIndices.
    pose proof (appendCorners_source data tri [b; next; S next]) as Hs.
    rewrite Hrun in Hs. exact Hs. }
  destruct ((size (MeshData.polygonIndices data3) <=? Z.of_nat (S next))
            || (at_ 0 (MeshData.polygonIndices data3) (Z.of_nat (S next)) <? 0))
    eqn:E.
  - exists [b; next; S next]. rewrite Hrun. reflexivity.
  - apply orb_false_iff in E. destruct E as [E _].
    apply Z.leb_gt in E. unfold size in E. rewrite Hsrc in E.
    destruct (IH data3 t3 b (S next)) as [cs Hcs]; [lia | rewrite Hsrc; lia |].
    exists ([b; next; S next] ++ cs).
    rewrite Hcs, appendCorners_app, Hrun. reflexivity.
Qed.

(** ** Parts *)

Lemma setParts_source (d : MeshData.t) (parts : list FBXMeshPart.t) :
  sourceOf (MeshData_setParts d parts) = sourceOf d.
Proof. reflexivity. Qed.

Lemma setParts_vertexData (d : MeshData.t) (parts : list FBXMeshPart.t) :
  vertexDataOf (MeshData_setParts d parts) = vertexDataOf d.
Proof. reflexivity. Qed.

Lemma setParts_parts (d : MeshData.t) (parts : list FBXMeshPart.t) :
  MeshData_parts (MeshData_setParts d parts) = parts.
Proof. reflexivity. Qed.

Lemma vertexData_dedupInv (d d' : MeshData.t) :
  vertexDataOf d = vertexDataOf d' -> dedupInv d -> dedupInv d'.
Proof.
  unfold vertexDataOf, dedupInv. intros H.
  injection H as H1 H2 H3 H4 H5 H6. rewrite H1, H2, H3. tauto.
Qed.

Lemma outputIndex_ext (d d' : MeshData.t) (c : nat) :
  sourceOf d = sourceOf d' -> MeshData.indices d = MeshData.indices d' ->
  outputIndex d c = outputIndex d' c.
Proof.
  intros Hs Hi. unfold outputIndex.
  destruct (source_resolved d d' c Hs) as (Hk & _). rewrite Hk, Hi.
  reflexivity.
Qed.

Lemma obtainPart_spec (data : MeshData.t) (mtp : gmap (Z * Z) nat)
    (key : Z * Z) (data0 : MeshData.t) (mtp' : gmap (Z * Z) nat)
    (partIndex : nat) :
  (forall k v, mtp !! k = Some v ->
               (1 <= v <= length (MeshData_parts data))%nat) ->
  obtainPart data mtp key = (data0, mtp', partIndex) ->
  (1 <= partIndex <= length (MeshData_parts data0))%nat
  /\ (forall k v, mtp' !! k = Some v ->
                  (1 <= v <= length (MeshData_parts data0))%nat)
  /\ sourceOf data0 = sourceOf data
  /\ vertexDataOf data0 = vertexDataOf data
  /\ (MeshData_parts data0 = MeshData_parts data
      \/ (MeshData_parts data0 = MeshData_parts data ++ [FBXMeshPart.empty]
          /\ partIndex = length (MeshData_parts data0))).
Proof.
  intros Hm. unfold obtainPart.
  destruct (mtp !! key) as [v|] eqn:E; simpl.
  - destruct (Nat.eqb_spec v 0) as [-> | Hv].
    + pose proof (Hm key 0%nat E). lia.
    + intros H. injection H as <- <- <-.
      pose proof (Hm key v E).
      split; [lia|]. split; [exact Hm|]. auto.
  - intros H. injection H as <- <- <-.
    assert (Hp : MeshData_parts (MeshData_newPart data key)
                 = MeshData_parts data ++ [FBXMeshPart.empty]) by reflexivity.
    rewrite Hp, length_app. simpl.
    split; [lia|]. split; [|auto].
    intros k v H. destruct (decide (key = k)) as [-> | Hne].
    + rewrite lookup_insert_eq in H. injection H as <-. lia.
    + rewrite lookup_insert_ne in H by exact Hne.
      pose proof (Hm k v H). lia.
Qed.

Lemma nth_snoc4 (q : list nat) (A B C D : nat) :
  let q4 := q ++ [A; B; C; D] in
  nth (length q4 - 4 + 0) q4 0%nat = A
  /\ nth (length q4 - 4 + 1) q4 0%nat = B
  /\ nth (length q4 - 4 + 2) q4 0%nat = C
  /\ nth (length q4 - 4 + 3) q4 0%nat = D.
Proof.
  cbv zeta. rewrite length_app. simpl length.
  replace (length q + 4 - 4)%nat with (length q) by lia.
  repeat split; rewrite app_nth2 by lia.
  - replace (length q + 0 - length q)%nat with 0%nat by lia. reflexivity.
  - replace (length q + 1 - length q)%nat with 1%nat by lia. reflexivity.
  - replace (length q + 2 - length q)%nat with 2%nat by lia. reflexivity.
  - replace (length q + 3 - length q)%nat with 3%nat by lia. reflexivity.
Qed.

(** ** One round of the polygon loop *)

Lemma polyInv_start (data : MeshData.t) :
  dedupInv data -> polyInv (polyStart data).
Proof.
  intros H. split; [exact H|]. intros key v Hk.
  simpl in Hk. rewrite lookup_empty in Hk. discriminate.
Qed.

Lemma run_in_range (data : MeshData.t) (cs : list nat) :
  dedupInv data ->
  Forall (fun c => (c < length (MeshData.polygonIndices data))%nat) cs ->
  length (snd (appendCorners data [] cs)) = length cs.
Proof.
  intros Hd Hcs. exact (run_length _ _ _ _ (runInv_run data cs Hd Hcs)).
Qed.

(** The quad branch. *)
Lemma polygonStep_quad (materials textures : list Z) (st : PolyState)
    (data0 : MeshData.t) (mtp' : gmap (Z * Z) nat) (partIndex : nat) :
  polyInv st ->
  (beginIndex st < length (MeshData.polygonIndices (poly_data st)))%nat ->
  (spanEnd (MeshData.polygonIndices (poly_data st)) (beginIndex st)
   - beginIndex st = 4)%nat ->
  obtainPart (poly_data st) (materialTextureParts st)
    (materialTexture_of materials textures (polygonIndex st))
  = (data0, mtp', partIndex) ->
  let b := beginIndex st in
  let cs := [b; b + 1; b + 2; b + 3]%nat in
  exists A B C D part,
    snd (appendCorners data0 [] cs) = [A; B; C; D]
    /\ MeshData_parts data0 !! (partIndex - 1)%nat = Some part
    /\ polygonStep materials textures st
       = Some (mkPoly
                 (MeshData_setParts (fst (appendCorners data0 [] cs))
                    (<[(partIndex - 1)%nat :=
                         FBXMeshPart.mk
                           (FBXMeshPart.quadIndices part ++ [A; B; C; D])
                           (FBXMeshPart.quadTrianglesIndices part
                            ++ [A; B; D; B; C; D])
                           (FBXMeshPart.triangleIndices part)]>
                       (MeshData_parts data0)))
                 mtp' (b + 4) (S (polygonIndex st))).
Proof.
  intros [Hd Hm] Hb Hspan Hob b cs.
  destruct (obtainPart_spec _ _ _ _ _ _ Hm Hob) as (Hpi & Hm' & Hsrc & Hvd & _).
  assert (Hd0 : dedupInv data0).
  { eapply vertexData_dedupInv; [symmetry; exact Hvd | exact Hd]. }
  pose proof (source_polygonIndices _ _ Hsrc) as Hpoly.
  pose proof (spanEnd_bounds _ _ Hb) as Hse. fold b in Hspan, Hse.
  assert (Hcs : Forall (fun c => (c < length (MeshData.polygonIndices data0))%nat)
                  cs).
  { rewrite Hpoly. subst cs. repeat constructor; lia. }
  pose proof (run_in_range data0 cs Hd0 Hcs) as Hlen.
  destruct (snd (appendCorners data0 [] cs)) as [|A [|B [|C [|D [|? ?]]]]] eqn:Eout;
    try discriminate Hlen.
  destruct (lookup_lt_is_Some_2 (MeshData_parts data0) (partIndex - 1)%nat
              ltac:(lia)) as [part Hpart].
  exists A, B, C, D, part. split; [reflexivity|]. split; [exact Hpart|].
  unfold polygonStep. rewrite Hob.
  rewrite (nth_lookup_Some _ _ FBXMeshPart.empty _ Hpart).
  fold b. rewrite Hspan. cbn [Nat.eqb].
  pose proof (appendCorners_prefix data0 (FBXMeshPart.quadIndices part) cs) as Hq.
  rewrite Eout in Hq.
  destruct (appendIndex data0 (FBXMeshPart.quadIndices part) b)
    as [data1 q1] eqn:E1.
  destruct (appendIndex data1 q1 (b + 1)) as [data2 q2] eqn:E2.
  destruct (appendIndex data2 q2 (b + 2)) as [data3 q3] eqn:E3.
  destruct (appendIndex data3 q3 (b + 3)) as [data4 q4] eqn:E4.
  assert (Hrun : appendCorners data0 (FBXMeshPart.quadIndices part) cs
                 = (data4, q4)).
  { unfold appendCorners, cs. cbn [fold_left fst snd]. rewrite E1.
    cbn [fst snd]. rewrite E2. cbn [fst snd]. rewrite E3. cbn [fst snd].
    exact E4. }
  rewrite Hq in Hrun. injection Hrun as Hd4 Hq4. subst q4 data4.
  destruct (nth_snoc4 (FBXMeshPart.quadIndices part) A B C D)
    as (H0 & H1 & H2 & H3).
  cbv zeta in H0, H1, H2, H3. rewrite H0, H1, H2, H3.
  rewrite appendCorners_parts. reflexivity.
Qed.

Lemma flat_map_length3 (b : nat) (l : list nat) :
  length (flat_map (fun i => [b; b + i; b + i + 1]%nat) l) = (3 * length l)%nat.
Proof.
  induction l as [|x l IH]; simpl; [reflexivity|]. simpl in IH. lia.
Qed.

Lemma fanCorners_length (b N : nat) : length (fanCorners b N) = (3 * (N - 2))%nat.
Proof.
  unfold fanCorners. rewrite flat_map_length3, length_seq. reflexivity.
Qed.

Lemma fanCorners_range (b N c : nat) :
  In c (fanCorners b N) -> (b <= c < b + N)%nat.
Proof.
  unfold fanCorners. intros H. apply in_flat_map in H.
  destruct H as (i & Hi & Hc). apply in_seq in Hi.
  simpl in Hc. destruct Hc as [<- | [<- | [<- | []]]]; lia.
Qed.

(** The fan branch, on a terminated polygon. *)
Lemma polygonStep_fan (materials textures : list Z) (st : PolyState) (N : nat)
    (data0 : MeshData.t) (mtp' : gmap (Z * Z) nat) (partIndex : nat) :
  polyInv st ->
  (3 <= N)%nat -> N <> 4%nat ->
  terminatedSpan (MeshData.polygonIndices (poly_data st)) (beginIndex st) N ->
  obtainPart (poly_data st) (materialTextureParts st)
    (materialTexture_of materials textures (polygonIndex st))
  = (data0, mtp', partIndex) ->
  let b := beginIndex st in
  let run := appendCorners data0 [] (fanCorners b N) in
  exists part,
    MeshData_parts data0 !! (partIndex - 1)%nat = Some part
    /\ length (snd run) = (3 * (N - 2))%nat
    /\ polygonStep materials textures st
       = Some (mkPoly
                 (MeshData_setParts (fst run)
                    (<[(partIndex - 1)%nat :=
                         FBXMeshPart.mk (FBXMeshPart.quadIndices part)
                           (FBXMeshPart.quadTrianglesIndices part)
                           (FBXMeshPart.triangleIndices part ++ snd run)]>
                       (MeshData_parts data0)))
                 mtp' (b + N) (S (polygonIndex st))).
Proof.
  intros [Hd Hm] HN HN4 Hspan Hob b run.
  destruct (obtainPart_spec _ _ _ _ _ _ Hm Hob) as (Hpi & Hm' & Hsrc & Hvd & _).
  assert (Hd0 : dedupInv data0).
  { eapply vertexData_dedupInv; [symmetry; exact Hvd | exact Hd]. }
  pose proof (source_polygonIndices _ _ Hsrc) as Hpoly.
  pose proof (spanEnd_terminated _ _ _ Hspan) as Hend. fold b in Hend, Hspan.
  destruct Hspan as (_ & Hlen & Hpos & Hneg).
  assert (Hcs : Forall (fun c => (c < length (MeshData.polygonIndices data0))%nat)
                  (fanCorners b N)).
  { apply Forall_forall. intros c Hc. apply list_elem_of_In in Hc.
    apply fanCorners_range in Hc. rewrite Hpoly. lia. }
  destruct (lookup_lt_is_Some_2 (MeshData_parts data0) (partIndex - 1)%nat
              ltac:(lia)) as [part Hpart].
  exists part. split; [exact Hpart|]. split.
  { unfold run. rewrite run_in_range by assumption. apply fanCorners_length. }
  unfold polygonStep. rewrite Hob.
  rewrite (nth_lookup_Some _ _ FBXMeshPart.empty _ Hpart).
  fold b. rewrite Hend.
  replace (b + N - b)%nat with N by lia.
  destruct (Nat.eqb_spec N 4) as [? | _]; [contradiction|].
  replace (S b) with (b + 1)%nat by lia.
  rewrite (fanLoop_terminated (N - 2)).
  - fold (fanCorners b N).
    rewrite appendCorners_prefix. cbn [fst snd].
    rewrite appendCorners_parts. reflexivity.
  - rewrite Hpoly. lia.
  - rewrite Hpoly. lia.
  - rewrite Hpoly. intros j Hj.
    replace (b + 1 + j)%nat with (b + (1 + j))%nat by lia. apply Hpos. lia.
  - rewrite Hpoly. replace (b + 1 + (N - 2))%nat with (b + N - 1)%nat by lia.
    exact Hneg.
Qed.

Lemma map_fanCorners (R : nat -> nat) (b N : nat) :
  map R (fanCorners b N)
  = flat_map (fun i => [R b; R (b + i)%nat; R (b + i + 1)%nat]) (seq 1 (N - 2)).
Proof.
  unfold fanCorners. generalize (seq 1 (N - 2)) as l.
  induction l as [|x l IH]; simpl; [reflexivity|]. rewrite IH. reflexivity.
Qed.

Lemma selfEqual_source (d d' : MeshData.t) (c : nat) :
  sourceOf d = sourceOf d' -> selfEqual d c -> selfEqual d' c.
Proof.
  unfold selfEqual. intros Hs.
  destruct (source_resolved d d' c Hs) as (Hk & _). rewrite Hk. tauto.
Qed.

(** The indices a run appended, read back from the table of the state the
    round leaves. *)
Lemma run_resolved (data0 : MeshData.t) (cs : list nat)
    (parts : list FBXMeshPart.t) :
  dedupInv data0 ->
  Forall (fun c => (c < length (MeshData.polygonIndices data0))%nat) cs ->
  (forall c, In c cs -> selfEqual data0 c) ->
  snd (appendCorners data0 [] cs)
  = map (outputIndex
           (MeshData_setParts (fst (appendCorners data0 [] cs)) parts)) cs.
Proof.
  intros Hd Hcs Hself.
  rewrite (run_outputIndex _ _ _ _ (runInv_run data0 cs Hd Hcs) Hself) at 1.
  apply map_ext. intros c. apply outputIndex_ext; reflexivity.
Qed.

(** C2. Quad tessellation. In a round of the polygon loop ([polyInv]
    holds in every state the loop reaches) whose span has exactly 4
    corners, the corners [b .. b+3] are resolved in source order
    into (A,B,C,D), the part's quad list gets them, its quad-triangles
    list gets exactly A,B,D,B,C,D, its triangle list and the other parts
    stay as they are, and the next round starts 4 entries further. With
    keys that compare equal to themselves, A..D are the indices the
    table gives the four corners. The scenario of the specification gives
    the four input vertices and one part with quad-triangles
    [0,1,3,1,2,3]. *)
Theorem quad_split_fixed_diagonal :
  (forall (materials textures : list Z) (st : PolyState) (data0 : MeshData.t)
          (mtp' : gmap (Z * Z) nat) (partIndex : nat),
     polyInv st ->
     (beginIndex st < length (MeshData.polygonIndices (poly_data st)))%nat ->
     (spanEnd (MeshData.polygonIndices (poly_data st)) (beginIndex st)
      - beginIndex st = 4)%nat ->
     obtainPart (poly_data st) (materialTextureParts st)
       (materialTexture_of materials textures (polygonIndex st))
     = (data0, mtp', partIndex) ->
     let b := beginIndex st in
     let cs := [b; b + 1; b + 2; b + 3]%nat in
     exists A B C D part st',
       polygonStep materials textures st = Some st'
       /\ snd (appendCorners data0 [] cs) = [A; B; C; D]
       /\ ((forall c, In c cs -> selfEqual (poly_data st) c) ->
           [A; B; C; D] = map (outputIndex (poly_data st')) cs)
       /\ MeshData_parts data0 !! (partIndex - 1)%nat = Some part
       /\ MeshData_parts (poly_data st')
          = <[(partIndex - 1)%nat :=
                FBXMeshPart.mk (FBXMeshPart.quadIndices part ++ [A; B; C; D])
                  (FBXMeshPart.quadTrianglesIndices part ++ [A; B; D; B; C; D])
                  (FBXMeshPart.triangleIndices part)]>
              (MeshData_parts data0)
       /\ beginIndex st' = (b + 4)%nat)
  /\ (forall (normalsByVertex colorsByVertex : bool) (meshIndex : Z),
      exists e i,
        extractMesh normalsByVertex colorsByVertex quadNode meshIndex
        = Some (e, i)
        /\ FBXMesh.vertices (ExtractedMesh.mesh e)
           = [(fzero, fzero, fzero); (fone, fzero, fzero);
              (fone, fone, fzero); (fzero, fone, fzero)]
        /\ FBXMesh.parts (ExtractedMesh.mesh e)
           = [FBXMeshPart.mk [0; 1; 2; 3]%nat [0; 1; 3; 1; 2; 3]%nat []]).
Proof.
  split.
  - intros materials textures st data0 mtp' partIndex Hinv Hb Hspan Hob b cs.
    destruct (polygonStep_quad materials textures st data0 mtp' partIndex
                Hinv Hb Hspan Hob) as (A & B & C & D & part & Hout & Hpart & Hstep).
    fold b cs in Hout, Hstep.
    exists A, B, C, D, part. eexists. split; [exact Hstep|].
    split; [exact Hout|]. split; [|split; [exact Hpart|split; reflexivity]].
    intros Hself. cbn [poly_data]. rewrite <- Hout.
    destruct Hinv as [Hd Hm].
    destruct (obtainPart_spec _ _ _ _ _ _ Hm Hob) as (_ & _ & Hsrc & Hvd & _).
    pose proof (spanEnd_bounds _ _ Hb) as Hse. fold b in Hse, Hspan.
    apply run_resolved.
    + eapply vertexData_dedupInv; [symmetry; exact Hvd | exact Hd].
    + rewrite (source_polygonIndices _ _ Hsrc). subst cs.
      repeat constructor; lia.
    + intros c Hc. eapply selfEqual_source; [symmetry; exact Hsrc|].
      apply Hself. exact Hc.
  - intros normalsByVertex colorsByVertex meshIndex.
    assert (H : option_map
                  (fun r => (FBXMesh.vertices (ExtractedMesh.mesh (fst r)),
                             FBXMesh.parts (ExtractedMesh.mesh (fst r))))
                  (extractMesh normalsByVertex colorsByVertex quadNode
                     meshIndex)
                = Some ([(fzero, fzero, fzero); (fone, fzero, fzero);
                         (fone, fone, fzero); (fzero, fone, fzero)],
                        [FBXMeshPart.mk [0; 1; 2; 3]%nat
                           [0; 1; 3; 1; 2; 3]%nat []])).
    { destruct normalsByVertex, colorsByVertex; vm_compute; reflexivity. }
    destruct (extractMesh normalsByVertex colorsByVertex quadNode meshIndex)
      as [[e i]|]; [|discriminate H].
    simpl in H. injection H as H1 H2. exists e, i. auto.
Qed.

Lemma quad_split_fixed_diagonal_witness :
  polyInv (polyStart quadData)
  /\ (beginIndex (polyStart quadData)
      < length (MeshData.polygonIndices (poly_data (polyStart quadData))))%nat
  /\ (spanEnd (MeshData.polygonIndices (poly_data (polyStart quadData)))
        (beginIndex (polyStart quadData))
      - beginIndex (polyStart quadData) = 4)%nat
  /\ exists st',
       polygonStep [] [] (polyStart quadData) = Some st'
       /\ MeshData_parts (poly_data st')
          = [FBXMeshPart.mk [0; 1; 2; 3]%nat [0; 1; 3; 1; 2; 3]%nat []].
Proof.
  assert (Hinv : polyInv (polyStart quadData)).
  { apply polyInv_start. apply dedupInv_empty; reflexivity. }
  assert (Hb : (beginIndex (polyStart quadData)
                < length (MeshData.polygonIndices
                            (poly_data (polyStart quadData))))%nat).
  { vm_compute. lia. }
  assert (Hspan : (spanEnd (MeshData.polygonIndices
                              (poly_data (polyStart quadData)))
                     (beginIndex (polyStart quadData))
                   - beginIndex (polyStart quadData) = 4)%nat).
  { reflexivity. }
  split; [exact Hinv|]. split; [exact Hb|]. split; [exact Hspan|].
  destruct (proj1 quad_split_fixed_diagonal [] [] (polyStart quadData)
              (MeshData_newPart quadData (0, 0)) (<[(0, 0) := 1%nat]> ∅) 1%nat
              Hinv Hb Hspan eq_refl)
    as (A & B & C & D & part & st' & Hstep & Hout & _ & Hpart & Hparts & _).
  exists st'. split; [exact Hstep|]. rewrite Hparts.
  vm_compute in Hout. injection Hout as <- <- <- <-.
  vm_compute in Hpart. injection Hpart as <-.
  reflexivity.
Defined.

(** C3. N-gon fan. In a round of the polygon loop ([polyInv] holds in
    every state the loop reaches) on a polygon of [N] corners, [N >= 3]
    and [N <> 4], whose span ends with the terminator it is scanned up
    to, the
    indices appended to the part's triangle list are the resolutions, in
    order, of (corner 0, corner i, corner i+1) for i = 1 .. N-2, that is
    of the positions [fanCorners b N]: [3 * (N - 2)] indices; the quad
    lists and the other parts stay as they are and the next round starts
    after the polygon. With keys that compare equal to themselves, the
    appended indices are the ones the table gives these corners. *)
Theorem ngon_fan_from_first_corner (materials textures : list Z)
    (st : PolyState) (N : nat) (data0 : MeshData.t)
    (mtp' : gmap (Z * Z) nat) (partIndex : nat) :
  polyInv st ->
  (3 <= N)%nat -> N <> 4%nat ->
  terminatedSpan (MeshData.polygonIndices (poly_data st)) (beginIndex st) N ->
  obtainPart (poly_data st) (materialTextureParts st)
    (materialTexture_of materials textures (polygonIndex st))
  = (data0, mtp', partIndex) ->
  let b := beginIndex st in
  exists part st' idxs,
    polygonStep materials textures st = Some st'
    /\ idxs = snd (appendCorners data0 [] (fanCorners b N))
    /\ length idxs = (3 * (N - 2))%nat
    /\ ((forall c, (b <= c < b + N)%nat -> selfEqual (poly_data st) c) ->
        let R := outputIndex (poly_data st') in
        idxs = flat_map (fun i => [R b; R (b + i)%nat; R (b + i + 1)%nat])
                 (seq 1 (N - 2)))
    /\ MeshData_parts data0 !! (partIndex - 1)%nat = Some part
    /\ MeshData_parts (poly_data st')
       = <[(partIndex - 1)%nat :=
             FBXMeshPart.mk (FBXMeshPart.quadIndices part)
               (FBXMeshPart.quadTrianglesIndices part)
               (FBXMeshPart.triangleIndices part ++ idxs)]>
           (MeshData_parts data0)
    /\ beginIndex st' = (b + N)%nat.
Proof.
  intros Hinv HN HN4 Hspan Hob b.
  destruct (polygonStep_fan materials textures st N data0 mtp' partIndex
              Hinv HN HN4 Hspan Hob) as (part & Hpart & Hlen & Hstep).
  fold b in Hlen, Hstep.
  exists part. eexists. eexists. split; [exact Hstep|].
  split; [reflexivity|]. split; [exact Hlen|].
  split; [|split; [exact Hpart|split; reflexivity]].
  intros Hself R. subst R. cbn [poly_data].
  rewrite <- map_fanCorners.
  destruct Hinv as [Hd Hm].
  destruct (obtainPart_spec _ _ _ _ _ _ Hm Hob) as (_ & _ & Hsrc & Hvd & _).
  destruct Hspan as (_ & Hbound & _).
  apply run_resolved.
  - eapply vertexData_dedupInv; [symmetry; exact Hvd | exact Hd].
  - apply Forall_forall. intros c Hc. apply list_elem_of_In in Hc.
    apply fanCorners_range in Hc.
    rewrite (source_polygonIndices _ _ Hsrc). fold b in Hbound. lia.
  - intros c Hc. eapply selfEqual_source; [symmetry; exact Hsrc|].
    apply Hself. apply fanCorners_range. exact Hc.
Qed.

(** The pentagon (A,B,C,D,E) gives (A,B,C), (A,C,D), (A,D,E). *)
Lemma ngon_fan_from_first_corner_witness :
  polyInv (polyStart pentagonData)
  /\ terminatedSpan (MeshData.polygonIndices (poly_data (polyStart pentagonData)))
       (beginIndex (polyStart pentagonData)) 5
  /\ exists st',
       polygonStep [] [] (polyStart pentagonData) = Some st'
       /\ MeshData_parts (poly_data st')
          = [FBXMeshPart.mk [] [] [0; 1; 2; 0; 2; 3; 0; 3; 4]%nat].
Proof.
  assert (Hinv : polyInv (polyStart pentagonData)).
  { apply polyInv_start. apply dedupInv_empty; reflexivity. }
  assert (Hspan : terminatedSpan
                    (MeshData.polygonIndices (poly_data (polyStart pentagonData)))
                    (beginIndex (polyStart pentagonData)) 5).
  { split; [lia|]. split; [simpl; lia|]. split.
    - intros i Hi. do 4 (destruct i as [|i]; [simpl; lia|]). lia.
    - simpl. lia. }
  split; [exact Hinv|]. split; [exact Hspan|].
  destruct (ngon_fan_from_first_corner [] [] (polyStart pentagonData) 5
              (MeshData_newPart pentagonData (0, 0)) (<[(0, 0) := 1%nat]> ∅)
              1%nat Hinv ltac:(lia) ltac:(lia) Hspan eq_refl)
    as (part & st' & idxs & Hstep & Hidx & _ & _ & Hpart & Hparts & _).
  exists st'. split; [exact Hstep|]. rewrite Hparts.
  vm_compute in Hidx. subst idxs.
  vm_compute in Hpart. injection Hpart as <-.
  reflexivity.
Defined.

(** ** What every call of appendIndex keeps *)

Lemma appendIndex_cases (data : MeshData.t) (indices : list nat) (index : nat) :
  appendIndex data indices index = (data, indices)
  \/ ((index < length (MeshData.polygonIndices data))%nat
      /\ exists it,
           QHash.find (MeshData.indices data) (vertex_of data index) = Some it
           /\ snd (appendIndex data indices index) = indices ++ [it]
           /\ vertexDataOf (fst (appendIndex data indices index))
              = (MeshData.indices data, FBXMesh.vertices (meshOf data),
                 alter (fun stored => vec3_add stored (normal_of data index))
                   it (FBXMesh.normals (meshOf data)),
                 FBXMesh.colors (meshOf data),
                 FBXMesh.texCoords (meshOf data),
                 FBXMesh.texCoords1 (meshOf data)))
  \/ ((index < length (MeshData.polygonIndices data))%nat
      /\ QHash.find (MeshData.indices data) (vertex_of data index) = None
      /\ snd (appendIndex data indices index)
         = indices ++ [length (FBXMesh.vertices (meshOf data))]
      /\ vertexDataOf (fst (appendIndex data indices index))
         = (MeshData.indices data
            ++ [(vertex_of data index, length (FBXMesh.vertices (meshOf data)))],
            FBXMesh.vertices (meshOf data) ++ [position_of data index],
            FBXMesh.normals (meshOf data) ++ [normal_of data index],
            FBXMesh.colors (meshOf data)
            ++ (if hasColors data
                then [vec3_of_vec4 (color_of data index)] else []),
            FBXMesh.texCoords (meshOf data) ++ [texCoord_of data index],
            FBXMesh.texCoords1 (meshOf data)
            ++ (if hasMoreTexcoords data
                then [texCoord1_of data index] else []))).
Proof.
  destruct (Nat.lt_ge_cases index (length (MeshData.polygonIndices data)))
    as [Hlt | Hge].
  - right. rewrite appendIndex_inside by exact Hlt.
    destruct (QHash.find (MeshData.indices data) (vertex_of data index))
      as [it|] eqn:F.
    + left. split; [exact Hlt|]. exists it. auto.
    + right. split; [exact Hlt|]. split; [reflexivity|].
      split; [reflexivity|]. unfold vertexDataOf, meshOf. cbn.
      destruct (hasColors data), (hasMoreTexcoords data); reflexivity.
  - left. apply appendIndex_outside. exact Hge.
Qed.

Lemma appendIndex_dedupInv (data : MeshData.t) (indices : list nat)
    (index : nat) :
  dedupInv data -> dedupInv (fst (appendIndex data indices index)).
Proof.
  intros Hd.
  destruct (Nat.lt_ge_cases index (length (MeshData.polygonIndices data)))
    as [Hlt | Hge].
  - pose proof (runInv_step data [] data [] index (runInv_start data Hd) Hlt)
      as R.
    pose proof (run_dedup _ _ _ _ R) as Hd'.
    rewrite appendIndex_prefix. cbn [fst]. exact Hd'.
  - rewrite appendIndex_outside by exact Hge. exact Hd.
Qed.

Lemma appendCorners_dedupInv (data : MeshData.t) (indices : list nat)
    (cs : list nat) :
  dedupInv data -> dedupInv (fst (appendCorners data indices cs)).
Proof.
  intros Hd. induction cs as [|c cs IH] using rev_ind; [exact Hd|].
  rewrite appendCorners_snoc. apply appendIndex_dedupInv. exact IH.
Qed.

Lemma sourceCarried_source (d d' : MeshData.t) :
  sourceOf d = sourceOf d' -> sourceCarried d = sourceCarried d'.
Proof.
  intros Hs. unfold sourceCarried.
  destruct (source_resolved d d' 0%nat Hs) as (_ & _ & _ & _ & Hc & Hm & _).
  rewrite Hc, Hm. reflexivity.
Qed.

Lemma lensSig_vertexData (sig : Carried) (d d' : MeshData.t) :
  vertexDataOf d = vertexDataOf d' ->
  lensSig sig (meshOf d) -> lensSig sig (meshOf d').
Proof.
  unfold vertexDataOf, lensSig. intros H.
  injection H as H1 H2 H3 H4 H5 H6. destruct sig as [[[n t] t1] c].
  rewrite H2, H3, H4, H5, H6. tauto.
Qed.

(** The growth of the arrays and of the index list in one call: the
    arrays stay aligned, and a vertex is added only with an index. *)
Lemma appendIndex_growth (data : MeshData.t) (indices : list nat)
    (index : nat) :
  let r := appendIndex data indices index in
  (lensSig (sourceCarried data) (meshOf data) ->
   lensSig (sourceCarried data) (meshOf (fst r)))
  /\ (length indices <= length (snd r))%nat
  /\ (length (FBXMesh.vertices (meshOf (fst r))) + length indices
      <= length (FBXMesh.vertices (meshOf data)) + length (snd r))%nat
  /\ (length (FBXMesh.vertices (meshOf data))
      <= length (FBXMesh.vertices (meshOf (fst r))))%nat.
Proof.
  cbv zeta.
  destruct (appendIndex_cases data indices index)
    as [E | [(Hlt & it & F & Hs & Hv) | (Hlt & F & Hs & Hv)]].
  - rewrite E. cbn [fst snd]. split; [tauto|]. repeat split; lia.
  - unfold vertexDataOf in Hv. injection Hv as H1 H2 H3 H4 H5 H6.
    rewrite Hs, H2, length_app. simpl. split; [|repeat split; lia].
    unfold lensSig, sourceCarried. rewrite H2, H3, H4, H5, H6, length_alter.
    tauto.
  - unfold vertexDataOf in Hv. injection Hv as H1 H2 H3 H4 H5 H6.
    rewrite Hs, H2, !length_app. simpl. split; [|repeat split; lia].
    unfold lensSig, sourceCarried. rewrite H2, H3, H4, H5, H6, !length_app.
    destruct (hasColors data), (hasMoreTexcoords data); simpl; lia.
Qed.

Lemma appendCorners_growth (data : MeshData.t) (indices : list nat)
    (cs : list nat) :
  let r := appendCorners data indices cs in
  (lensSig (sourceCarried data) (meshOf data) ->
   lensSig (sourceCarried data) (meshOf (fst r)))
  /\ (length indices <= length (snd r))%nat
  /\ (length (FBXMesh.vertices (meshOf (fst r))) + length indices
      <= length (FBXMesh.vertices (meshOf data)) + length (snd r))%nat
  /\ (length (FBXMesh.vertices (meshOf data))
      <= length (FBXMesh.vertices (meshOf (fst r))))%nat.
Proof.
  cbv zeta. induction cs as [|c cs IH] using rev_ind.
  - cbn. split; [tauto|]. repeat split; lia.
  - rewrite appendCorners_snoc.
    destruct IH as (I1 & I2 & I3 & I4).
    pose proof (appendIndex_growth (fst (appendCorners data indices cs))
                  (snd (appendCorners data indices cs)) c) as G.
    cbv zeta in G. destruct G as (G1 & G2 & G3 & G4).
    rewrite (sourceCarried_source _ data (appendCorners_source _ _ _)) in G1.
    split; [intros H; apply G1, I1, H|]. repeat split; lia.
Qed.

(** ** The polygon loop keeps its invariant and ends *)

Lemma cornerCount_insert (parts : list FBXMeshPart.t) (i : nat)
    (part part' : FBXMeshPart.t) :
  parts !! i = Some part ->
  (cornerCount (<[i := part']> parts)
   + (length (FBXMeshPart.quadIndices part)
      + length (FBXMeshPart.triangleIndices part))
   = cornerCount parts
     + (length (FBXMeshPart.quadIndices part')
        + length (FBXMeshPart.triangleIndices part')))%nat.
Proof.
  unfold cornerCount. revert i.
  induction parts as [|p parts IH]; intros i H; [discriminate|].
  destruct i as [|i]; simpl in *.
  - injection H as ->. lia.
  - specialize (IH i H). lia.
Qed.

Lemma cornerCount_snoc_empty (parts : list FBXMeshPart.t) :
  cornerCount (parts ++ [FBXMeshPart.empty]) = cornerCount parts.
Proof.
  unfold cornerCount. rewrite map_app, list_sum_app. simpl. lia.
Qed.

Lemma vertexData_vertices (d d' : MeshData.t) :
  vertexDataOf d = vertexDataOf d' ->
  FBXMesh.vertices (meshOf d) = FBXMesh.vertices (meshOf d').
Proof.
  unfold vertexDataOf. intros H. injection H as H1 H2 H3 H4 H5 H6. exact H2.
Qed.

(** The state a round leaves, from what it did: a run of [appendIndex]
    from the data with the polygon's part, whose indices went to that
    part. *)
Lemma round_extractInv (st : PolyState) (key : Z * Z) (data0 : MeshData.t)
    (mtp' : gmap (Z * Z) nat) (partIndex : nat) (part part' : FBXMeshPart.t)
    (cs : list nat) (e k : nat) :
  extractInv st ->
  obtainPart (poly_data st) (materialTextureParts st) key
  = (data0, mtp', partIndex) ->
  MeshData_parts data0 !! (partIndex - 1)%nat = Some part ->
  quadsSplit part ->
  let run := appendCorners data0 [] cs in
  (length (FBXMeshPart.quadIndices part')
   + length (FBXMeshPart.triangleIndices part')
   = length (FBXMeshPart.quadIndices part)
     + length (FBXMeshPart.triangleIndices part) + length (snd run))%nat ->
  quadsSplit part' ->
  extractInv
    (mkPoly
       (MeshData_setParts (fst run)
          (<[(partIndex - 1)%nat := part']> (MeshData_parts data0)))
       mtp' e k).
Proof.
  intros ((Hd & Hm) & Hl & Hc & Hq) Hob Hpart Hsplit run Hlen Hsplit'.
  destruct (obtainPart_spec _ _ _ _ _ _ Hm Hob)
    as (Hpi & Hm' & Hsrc & Hvd & Hparts).
  assert (Hd0 : dedupInv data0).
  { eapply vertexData_dedupInv; [symmetry; exact Hvd | exact Hd]. }
  pose proof (appendCorners_growth data0 [] cs) as G. cbv zeta in G.
  fold run in G. destruct G as (G1 & _ & G3 & _). simpl in G3.
  pose proof (appendCorners_source data0 [] cs) as Hrs. fold run in Hrs.
  unfold extractInv, polyInv. cbn [poly_data materialTextureParts].
  rewrite setParts_parts.
  split; [split|split; [|split]].
  - eapply vertexData_dedupInv;
      [symmetry; apply setParts_vertexData|].
    apply appendCorners_dedupInv. exact Hd0.
  - intros key' v Hk. rewrite length_insert. apply (Hm' key' v Hk).
  - rewrite (sourceCarried_source _ data0)
      by (rewrite setParts_source; exact Hrs).
    apply (lensSig_vertexData _ (fst run));
      [symmetry; apply setParts_vertexData|].
    apply G1. rewrite (sourceCarried_source data0 (poly_data st) Hsrc).
    apply (lensSig_vertexData _ (poly_data st));
      [symmetry; exact Hvd | exact Hl].
  - rewrite (vertexData_vertices _ (fst run))
      by apply setParts_vertexData.
    pose proof (cornerCount_insert _ _ _ part' Hpart) as Hci.
    rewrite (vertexData_vertices _ _ Hvd) in G3.
    assert (Hc0 : cornerCount (MeshData_parts data0)
                  = cornerCount (MeshData_parts (poly_data st))).
    { destruct Hparts as [-> | [-> _]];
        [reflexivity | apply cornerCount_snoc_empty]. }
    lia.
  - apply Forall_insert; [|exact Hsplit'].
    destruct Hparts as [-> | [-> _]]; [exact Hq|].
    apply Forall_app. split; [exact Hq|].
    constructor; [|constructor]. intros H. contradiction.
Qed.

Lemma polygonStep_extractInv (materials textures : list Z) (st : PolyState) :
  extractInv st ->
  (beginIndex st < length (MeshData.polygonIndices (poly_data st)))%nat ->
  exists st',
    polygonStep materials textures st = Some st'
    /\ extractInv st'
    /\ sourceOf (poly_data st') = sourceOf (poly_data st)
    /\ (beginIndex st < beginIndex st'
        <= length (MeshData.polygonIndices (poly_data st)))%nat.
Proof.
  intros Hinv Hb.
  destruct (obtainPart (poly_data st) (materialTextureParts st)
              (materialTexture_of materials textures (polygonIndex st)))
    as [[data0 mtp'] partIndex] eqn:Hob.
  pose proof Hinv as ((Hd & Hm) & Hl & Hc & Hq).
  destruct (obtainPart_spec _ _ _ _ _ _ Hm Hob)
    as (Hpi & Hm' & Hsrc & Hvd & Hparts).
  pose proof (source_polygonIndices _ _ Hsrc) as Hpoly.
  pose proof (spanEnd_bounds _ _ Hb) as Hse.
  destruct (lookup_lt_is_Some_2 (MeshData_parts data0) (partIndex - 1)%nat
              ltac:(lia)) as [part Hpart].
  assert (Hsplit : quadsSplit part).
  { assert (Hq0 : Forall quadsSplit (MeshData_parts data0)).
    { destruct Hparts as [-> | [-> _]]; [exact Hq|].
      apply Forall_app. split; [exact Hq|].
      constructor; [|constructor]. intros H. contradiction. }
    rewrite Forall_forall in Hq0. apply Hq0.
    eapply list_elem_of_lookup_2. exact Hpart. }
  destruct (Nat.eqb_spec
              (spanEnd (MeshData.polygonIndices (poly_data st)) (beginIndex st)
               - beginIndex st) 4) as [Hspan | Hspan].
  - destruct (polygonStep_quad materials textures st data0 mtp' partIndex
                (conj Hd Hm) Hb Hspan Hob)
      as (A & B & C & D & part0 & Hout & Hpart0 & Hstep).
    rewrite Hpart in Hpart0. injection Hpart0 as <-.
    eexists. split; [exact Hstep|]. split; [|split].
    + eapply round_extractInv; try eassumption.
      * cbn [FBXMeshPart.quadIndices FBXMeshPart.triangleIndices].
        rewrite Hout, length_app. simpl. lia.
      * intros _. cbn [FBXMeshPart.quadTrianglesIndices].
        intros H. apply app_eq_nil in H. destruct H as [_ H]. discriminate H.
    + cbn [poly_data]. rewrite setParts_source, appendCorners_source. exact Hsrc.
    + cbn [beginIndex]. lia.
  - unfold polygonStep. rewrite Hob.
    rewrite (nth_lookup_Some _ _ FBXMeshPart.empty _ Hpart).
    destruct (Nat.eqb_spec
                (spanEnd (MeshData.polygonIndices (poly_data st))
                   (beginIndex st) - beginIndex st) 4) as [? | _];
      [contradiction|].
    destruct (fanLoop_total (length (MeshData.polygonIndices data0)) data0
                (FBXMeshPart.triangleIndices part) (beginIndex st)
                (S (beginIndex st))) as [cs Hcs]; [rewrite Hpoly; lia | lia |].
    rewrite Hcs, appendCorners_prefix. cbn [fst snd].
    rewrite appendCorners_parts.
    eexists. split; [reflexivity|]. split; [|split].
    + eapply round_extractInv; try eassumption.
      cbn [FBXMeshPart.quadIndices FBXMeshPart.triangleIndices].
      rewrite length_app. lia.
    + cbn [poly_data]. rewrite setParts_source, appendCorners_source. exact Hsrc.
    + cbn [beginIndex]. lia.
Qed.

Lemma polygonLoop_total (materials textures : list Z) (fuel : nat) :
  forall st : PolyState,
  extractInv st ->
  (length (MeshData.polygonIndices (poly_data st)) - beginIndex st <= fuel)%nat ->
  exists st',
    polygonLoop fuel materials textures st = Some st'
    /\ extractInv st'
    /\ sourceOf (poly_data st') = sourceOf (poly_data st).
Proof.
  induction fuel as [|fuel IH]; intros st Hinv Hfuel.
  - exists st. simpl.
    destruct (Z.of_nat (beginIndex st)
              <? size (MeshData.polygonIndices (poly_data st))) eqn:E.
    + apply Z.ltb_lt in E. unfold size in E. lia.
    + auto.
  - cbn [polygonLoop].
    destruct (Z.of_nat (beginIndex st)
              <? size (MeshData.polygonIndices (poly_data st))) eqn:E.
    + apply Z.ltb_lt in E. unfold size in E.
      destruct (polygonStep_extractInv materials textures st Hinv ltac:(lia))
        as (st1 & Hstep & Hinv1 & Hsrc1 & Hb1).
      rewrite Hstep.
      pose proof (source_polygonIndices _ _ Hsrc1) as Hp.
      destruct (IH st1 Hinv1) as (st' & Hloop & Hinv' & Hsrc').
      { rewrite Hp. lia. }
      exists st'. split; [exact Hloop|]. split; [exact Hinv'|].
      rewrite Hsrc'. exact Hsrc1.
    + exists st. auto.
Qed.

(** ** The scan of the children *)

Lemma fold_scanUV0Sub_kept (l : list FBXNode.t) (d : MeshData.t)
    (a : AttributeData.t) :
  vertexDataOf (fst (fold_left scanUV0Sub l (d, a))) = vertexDataOf d
  /\ MeshData_parts (fst (fold_left scanUV0Sub l (d, a))) = MeshData_parts d.
Proof.
  revert d a. induction l as [|x l IH]; intros d a; simpl; [auto|].
  destruct (IH (if String.eqb (FBXNode.name x) "UV"
                then MeshData_setTexCoords d (FBXNode.getVec2Vector x)
                       (MeshData.texCoordIndices d)
                else if String.eqb (FBXNode.name x) "UVIndex"
                     then MeshData_setTexCoords d (MeshData.texCoords d)
                            (FBXNode.getIntVector x)
                     else d) (scanUVSub a x)) as [H1 H2].
  rewrite H1, H2.
  destruct (String.eqb (FBXNode.name x) "UV");
    [auto | destruct (String.eqb (FBXNode.name x) "UVIndex"); auto].
Qed.

Lemma scanUVLayer_kept (d : MeshData.t) (child : FBXNode.t) :
  vertexDataOf (scanUVLayer d child) = vertexDataOf d
  /\ MeshData_parts (scanUVLayer d child) = MeshData_parts d.
Proof.
  unfold scanUVLayer.
  destruct (Z.eqb (FBXNode.toInt child) 0).
  - pose proof (fold_scanUV0Sub_kept (FBXNode.children child) d
                  (AttributeData.mk [] [] "" (FBXNode.toInt child))) as H.
    destruct (fold_left scanUV0Sub _ _) as [d' a]. simpl in H.
    destruct H as [H1 H2]. rewrite <- H1, <- H2. auto.
  - destruct (_ !! _); auto.
Qed.

(** A child that is not a DracoMesh leaves what was extracted. *)
Lemma scanChild_other (st : ScanState) (child : FBXNode.t) :
  String.eqb (FBXNode.name child) "DracoMesh" = false ->
  vertexDataOf (scan_data (scanChild st child)) = vertexDataOf (scan_data st)
  /\ MeshData_parts (scan_data (scanChild st child))
     = MeshData_parts (scan_data st)
  /\ isDracoMesh (scanChild st child) = isDracoMesh st.
Proof.
  intros Hn. unfold scanChild. rewrite Hn.
  destruct (String.eqb (FBXNode.name child) "Vertices"); [auto|].
  destruct (String.eqb (FBXNode.name child) "PolygonVertexIndex"); [auto|].
  destruct (String.eqb (FBXNode.name child) "LayerElementNormal").
  { unfold scanNormalLayer. destruct (fold_left scanNormalSub _ _) as [[[? ?] ?] ?].
    auto. }
  destruct (String.eqb (FBXNode.name child) "LayerElementColor").
  { unfold scanColorLayer.
    destruct (fold_left scanColorSub _ _) as [[[[? ?] ?] ?] ?]. auto. }
  destruct (String.eqb (FBXNode.name child) "LayerElementUV").
  { cbn [scan_data isDracoMesh].
    destruct (scanUVLayer_kept (scan_data st) child) as [H1 H2]. auto. }
  destruct (String.eqb (FBXNode.name child) "LayerElementMaterial").
  { destruct (fold_left scanMaterialSub _ _) as [? ?]. auto. }
  destruct (String.eqb (FBXNode.name child) "LayerElementTexture"); auto.
Qed.

Lemma scanChild_draco (st : ScanState) (child : FBXNode.t) :
  String.eqb (FBXNode.name child) "DracoMesh" = true ->
  scanChild st child
  = mkScan (extractDraco (FBXNode.getDraco child) (scan_data st))
      (materials st) (textures st) (isMaterialPerPolygon st) true.
Proof.
  intros Hn. unfold scanChild. apply String.eqb_eq in Hn. rewrite Hn.
  reflexivity.
Qed.

(** The compressed path, point by point and face by face. *)
Lemma dracoPoint_kept (sig : Carried) (m : draco.Mesh) (d : MeshData.t)
    (i : nat) :
  dracoWith sig m ->
  MeshData.indices d = [] /\ lensSig sig (meshOf d) ->
  MeshData.indices (dracoPoint m d i) = []
  /\ lensSig sig (meshOf (dracoPoint m d i)).
Proof.
  intros [Hp Hsig] [Hi Hl]. split; [exact Hi|].
  unfold dracoWith, dracoCarried in *. subst sig.
  unfold lensSig, dracoPoint, meshOf in *. cbn.
  destruct (draco.POSITION m); [|contradiction].
  destruct (draco.NORMAL m), (draco.TEX_COORD m), (draco.TEX_COORD_1 m),
    (draco.COLOR m); cbn in *; rewrite ?length_app, ?app_nil_r; simpl; lia.
Qed.

Lemma dracoFace_kept (m : draco.Mesh) (st : MeshData.t * gmap (Z * Z) nat)
    (face : nat * nat * nat) :
  vertexDataOf (fst (dracoFace m st face)) = vertexDataOf (fst st).
Proof.
  destruct st as [d mtp], face as [[a b] c]. unfold dracoFace.
  destruct (obtainPart d mtp _) as [[d1 mtp1] pi] eqn:E. cbn [fst].
  rewrite setParts_vertexData.
  unfold obtainPart in E.
  destruct (Nat.eqb _ 0); injection E as <- _ _; reflexivity.
Qed.

Lemma extractDraco_kept (sig : Carried) (m : draco.Mesh) (d : MeshData.t) :
  dracoWith sig m ->
  MeshData.indices d = [] /\ lensSig sig (meshOf d) ->
  MeshData.indices (extractDraco m d) = []
  /\ lensSig sig (meshOf (extractDraco m d)).
Proof.
  intros Hw H. unfold extractDraco.
  assert (Hpts : forall l d0,
             MeshData.indices d0 = [] /\ lensSig sig (meshOf d0) ->
             MeshData.indices (fold_left (dracoPoint m) l d0) = []
             /\ lensSig sig (meshOf (fold_left (dracoPoint m) l d0))).
  { induction l as [|i l IH]; intros d0 H0; simpl; [exact H0|].
    apply IH. apply dracoPoint_kept; assumption. }
  assert (Hfaces : forall l st,
             vertexDataOf (fst (fold_left (dracoFace m) l st))
             = vertexDataOf (fst st)).
  { induction l as [|f l IH]; intros st; simpl; [reflexivity|].
    rewrite IH. apply dracoFace_kept. }
  specialize (Hpts (seq 0 (draco.num_points m)) d H).
  set (d1 := fold_left (dracoPoint m) (seq 0 (draco.num_points m)) d) in *.
  specialize (Hfaces (draco.faces m) (d1, ∅)). cbn [fst] in Hfaces.
  destruct Hpts as [Hi Hl]. split.
  - unfold vertexDataOf in Hfaces. injection Hfaces as -> _ _ _ _ _. exact Hi.
  - apply (lensSig_vertexData sig d1); [symmetry; exact Hfaces | exact Hl].
Qed.

Lemma scanInv_initial (sig : Carried) (normalsByVertex colorsByVertex : bool)
    (meshIndex : Z) :
  scanInv sig
    (mkScan (MeshData_initial normalsByVertex colorsByVertex meshIndex)
       [] [] false false).
Proof.
  destruct sig as [[[n t] t1] c]. split; [reflexivity|]. split.
  - destruct n, t, t1, c; repeat split; reflexivity.
  - intros _. split; reflexivity.
Qed.

Lemma scanChild_scanInv (sig : Carried) (st : ScanState) (child : FBXNode.t) :
  (String.eqb (FBXNode.name child) "DracoMesh" = true ->
   dracoWith sig (FBXNode.getDraco child)) ->
  scanInv sig st -> scanInv sig (scanChild st child).
Proof.
  intros Hw (Hi & Hl & He).
  destruct (String.eqb (FBXNode.name child) "DracoMesh") eqn:Hn.
  - rewrite scanChild_draco by exact Hn. cbn [scan_data isDracoMesh].
    destruct (extractDraco_kept sig (FBXNode.getDraco child) (scan_data st)
                (Hw eq_refl) (conj Hi Hl)) as [Hi' Hl'].
    split; [exact Hi'|]. split; [exact Hl'|]. discriminate.
  - destruct (scanChild_other st child Hn) as (Hv & Hp & Hd).
    split; [|split].
    + unfold vertexDataOf in Hv. injection Hv as -> _ _ _ _ _. exact Hi.
    + apply (lensSig_vertexData sig (scan_data st));
        [symmetry; exact Hv | exact Hl].
    + rewrite Hd. intros Hf. destruct (He Hf) as [H1 H2].
      split; [rewrite Hv; exact H1 | rewrite Hp; exact H2].
Qed.

Lemma fold_scanChild_scanInv (sig : Carried) (l : list FBXNode.t) :
  forall st : ScanState,
  (forall child, In child l ->
     String.eqb (FBXNode.name child) "DracoMesh" = true ->
     dracoWith sig (FBXNode.getDraco child)) ->
  scanInv sig st -> scanInv sig (fold_left scanChild l st).
Proof.
  induction l as [|child l IH]; intros st Hw Hinv; simpl; [exact Hinv|].
  apply IH.
  - intros c Hc. apply Hw. right. exact Hc.
  - apply scanChild_scanInv; [|exact Hinv]. apply Hw. left. reflexivity.
Qed.

Lemma dracoChildren_In (object : FBXNode.t) (child : FBXNode.t) :
  In child (FBXNode.children object) ->
  String.eqb (FBXNode.name child) "DracoMesh" = true ->
  In (FBXNode.getDraco child) (dracoChildren object).
Proof.
  intros Hc Hn. unfold dracoChildren. apply in_map.
  apply filter_In. auto.
Qed.

Lemma fold_scanChild_noDraco (l : list FBXNode.t) :
  forall st : ScanState,
  (forall child, In child l ->
     String.eqb (FBXNode.name child) "DracoMesh" = false) ->
  isDracoMesh (fold_left scanChild l st) = isDracoMesh st.
Proof.
  induction l as [|child l IH]; intros st Hn; simpl; [reflexivity|].
  rewrite IH by (intros c Hc; apply Hn; right; exact Hc).
  apply (scanChild_other st child). apply Hn. left. reflexivity.
Qed.

Lemma lensSig_aligned (sig : Carried) (m : FBXMesh.t) :
  lensSig sig m -> arraysAligned m.
Proof.
  destruct sig as [[[n t] t1] c]. unfold lensSig, arraysAligned, lengthIf.
  intros (H1 & H2 & H3 & H4).
  repeat split.
  - destruct n; [right; exact H1 | left; apply length_zero_iff_nil; exact H1].
  - destruct c; [right; exact H4 | left; apply length_zero_iff_nil; exact H4].
  - destruct t; [right; exact H2 | left; apply length_zero_iff_nil; exact H2].
  - destruct t1; [right; exact H3 | left; apply length_zero_iff_nil; exact H3].
Qed.

Lemma extractInv_start (data : MeshData.t) :
  MeshData.indices data = [] -> nothingExtracted data ->
  extractInv (polyStart data).
Proof.
  intros Hi [Hv Hp]. unfold vertexDataOf in Hv.
  injection Hv as H1 H2 H3 H4 H5 H6.
  split; [|split; [|split]].
  - apply polyInv_start. apply dedupInv_empty; assumption.
  - cbn [poly_data polyStart]. unfold lensSig, sourceCarried.
    rewrite H2, H3, H4, H5, H6.
    destruct (hasMoreTexcoords data), (hasColors data); repeat split; reflexivity.
  - cbn [poly_data polyStart]. rewrite H2. simpl. lia.
  - cbn [poly_data polyStart]. rewrite Hp. constructor.
Qed.

(** The non-compressed conversion of scanned data ends and keeps the
    invariant. *)
Lemma extractPolygons_total (materials textures : list Z) (data : MeshData.t) :
  MeshData.indices data = [] -> nothingExtracted data ->
  exists st',
    extractPolygons materials textures data = Some (poly_data st')
    /\ extractInv st'
    /\ sourceOf (poly_data st') = sourceOf data.
Proof.
  intros Hi He. unfold extractPolygons.
  destruct (polygonLoop_total materials textures
              (length (MeshData.polygonIndices data)) (polyStart data)
              (extractInv_start data Hi He)) as (st' & Hloop & Hinv & Hsrc).
  { cbn. lia. }
  exists st'. unfold polyStart in Hloop. rewrite Hloop. auto.
Qed.

(** ** The whole extraction *)

(** Every state of the polygon loop satisfies the loop invariant. *)
Lemma loopReaches_extractInv (materials textures : list Z) (data : MeshData.t)
    (st : PolyState) :
  MeshData.indices data = [] -> nothingExtracted data ->
  loopReaches materials textures data st -> extractInv st.
Proof.
  intros Hi He Hr. induction Hr as [|st st' Hr IH Hb Hstep].
  - apply extractInv_start; assumption.
  - destruct (polygonStep_extractInv materials textures st IH Hb)
      as (st1 & Hstep1 & Hinv & _).
    rewrite Hstep in Hstep1. injection Hstep1 as <-. exact Hinv.
Qed.

Lemma extractDraco_indices (m : draco.Mesh) (d : MeshData.t) :
  MeshData.indices (extractDraco m d) = MeshData.indices d.
Proof.
  unfold extractDraco.
  assert (Hpts : forall l d0,
             MeshData.indices (fold_left (dracoPoint m) l d0)
             = MeshData.indices d0).
  { induction l as [|i l IH]; intros d0; simpl; [reflexivity|].
    rewrite IH. reflexivity. }
  assert (Hfaces : forall l st,
             vertexDataOf (fst (fold_left (dracoFace m) l st))
             = vertexDataOf (fst st)).
  { induction l as [|f l IH]; intros st; simpl; [reflexivity|].
    rewrite IH. apply dracoFace_kept. }
  specialize (Hfaces (draco.faces m)
                (fold_left (dracoPoint m) (seq 0 (draco.num_points m)) d, ∅)).
  cbn [fst] in Hfaces. unfold vertexDataOf in Hfaces.
  injection Hfaces as -> _ _ _ _ _. apply Hpts.
Qed.

Lemma fold_scanChild_fresh (l : list FBXNode.t) :
  forall st : ScanState,
  MeshData.indices (scan_data st) = []
  /\ (isDracoMesh st = false -> nothingExtracted (scan_data st)) ->
  MeshData.indices (scan_data (fold_left scanChild l st)) = []
  /\ (isDracoMesh (fold_left scanChild l st) = false ->
      nothingExtracted (scan_data (fold_left scanChild l st))).
Proof.
  induction l as [|child l IH]; intros st [Hi He]; simpl; [auto|].
  apply IH.
  destruct (String.eqb (FBXNode.name child) "DracoMesh") eqn:Hn.
  - rewrite scanChild_draco by exact Hn. cbn [scan_data isDracoMesh].
    split; [rewrite extractDraco_indices; exact Hi | discriminate].
  - destruct (scanChild_other st child Hn) as (Hv & Hp & Hd). split.
    + unfold vertexDataOf in Hv. injection Hv as -> _ _ _ _ _. exact Hi.
    + rewrite Hd. intros Hf. destruct (He Hf) as [H1 H2].
      split; [rewrite Hv; exact H1 | rewrite Hp; exact H2].
Qed.

(** [extractMesh] returns on every node: the rounds the loop model is
    given are enough. *)
Lemma extractMesh_returns (normalsByVertex colorsByVertex : bool)
    (object : FBXNode.t) (meshIndex : Z) :
  exists e,
    extractMesh normalsByVertex colorsByVertex object meshIndex
    = Some (e, to_uint (meshIndex + 1)).
Proof.
  unfold extractMesh. cbv zeta.
  destruct (fold_scanChild_fresh (FBXNode.children object)
              (mkScan (MeshData_initial normalsByVertex colorsByVertex
                         meshIndex) [] [] false false)) as [Hi He].
  { split; [reflexivity|]. intros _. split; reflexivity. }
  set (st := fold_left scanChild (FBXNode.children object) _) in *.
  destruct (isDracoMesh st) eqn:Hd.
  - eexists. reflexivity.
  - destruct (extractPolygons_total (materials st) (textures st) (scan_data st)
                Hi (He eq_refl)) as (st' & Hex & _).
    rewrite Hex. eexists. reflexivity.
Qed.

(** The decoding of a terminator does not overflow: for an [int] entry
    [v < 0], [-v - 1] computed in wrapping 32-bit arithmetic is the exact
    value. *)
Lemma vertexIndex_no_overflow (v : Z) :
  - 2 ^ 31 <= v < 0 -> to_int (to_int (- v) - 1) = - v - 1.
Proof.
  intros H. destruct (Z.eq_dec v (- 2 ^ 31)) as [-> | Hne].
  - reflexivity.
  - rewrite (to_int_small (- v)) by lia. apply to_int_small. lia.
Qed.

(** A trailing run without terminator is not a polygon of the stream
    encoding; the fan loop stops inside its second round and leaves a
    partial triangle. *)
Example trailing_run_without_terminator :
  option_map
    (fun r => FBXMesh.parts (ExtractedMesh.mesh (fst r)))
    (extractMesh false false openTriangleNode 0)
  = Some [FBXMeshPart.mk [] [] [0; 1; 2; 0; 2]%nat].
Proof. vm_compute. reflexivity. Qed.

(** C8, as the spec states it, fails on the compressed path: the
    geometry of [nodeWithoutPositions] has a normal for its point and no
    position, and the extracted mesh has one normal for zero vertices. *)
Lemma aligned_fails_without_positions :
  exists e i,
    extractMesh false false nodeWithoutPositions 0 = Some (e, i)
    /\ FBXMesh.vertices (ExtractedMesh.mesh e) = []
    /\ FBXMesh.normals (ExtractedMesh.mesh e) = [vec3_zero]
    /\ ~ arraysAligned (ExtractedMesh.mesh e).
Proof.
  eexists. eexists. split; [vm_compute; reflexivity|].
  split; [reflexivity|]. split; [reflexivity|].
  intros ([H | H] & _); discriminate H.
Qed.

(** C8, amended. [extractMesh] returns for every node. When every
    DracoMesh child of the node carries positions and the children carry
    the same optional attributes (in particular when there is no such
    child, the non-compressed path, or one child with positions), each of
    the arrays of normals, colors, primary and secondary UVs of the
    result is empty or as long as the vertex array. *)
Theorem extracted_arrays_aligned (normalsByVertex colorsByVertex : bool)
    (object : FBXNode.t) (meshIndex : Z) (sig : Carried) :
  (forall m, In m (dracoChildren object) -> dracoWith sig m) ->
  exists e i,
    extractMesh normalsByVertex colorsByVertex object meshIndex = Some (e, i)
    /\ arraysAligned (ExtractedMesh.mesh e).
Proof.
  intros Hw. unfold extractMesh. cbv zeta.
  pose proof (fold_scanChild_scanInv sig (FBXNode.children object)
                (mkScan (MeshData_initial normalsByVertex colorsByVertex
                           meshIndex) [] [] false false)) as Hscan.
  destruct Hscan as (Hi & Hl & He).
  { intros child Hc Hn. apply Hw. apply dracoChildren_In; assumption. }
  { apply scanInv_initial. }
  set (st := fold_left scanChild (FBXNode.children object) _) in *.
  destruct (isDracoMesh st) eqn:Hd.
  - eexists. eexists. split; [reflexivity|].
    apply (lensSig_aligned sig). exact Hl.
  - destruct (extractPolygons_total (materials st) (textures st) (scan_data st)
                Hi (He eq_refl)) as (st' & Hex & Hinv & _).
    rewrite Hex. eexists. eexists. split; [reflexivity|].
    destruct Hinv as (_ & Hlens & _).
    apply (lensSig_aligned _ _ Hlens).
Qed.

Lemma extracted_arrays_aligned_witness :
  (forall m, In m (dracoChildren dracoTriangleNode) ->
             dracoWith (true, false, false, false) m)
  /\ exists e i,
       extractMesh false false dracoTriangleNode 0 = Some (e, i)
       /\ arraysAligned (ExtractedMesh.mesh e).
Proof.
  assert (H : forall m, In m (dracoChildren dracoTriangleNode) ->
                        dracoWith (true, false, false, false) m).
  { intros m Hm. vm_compute in Hm. destruct Hm as [<- | []].
    split; [discriminate | reflexivity]. }
  split; [exact H|].
  exact (extracted_arrays_aligned false false dracoTriangleNode 0
           (true, false, false, false) H).
Defined.

(** ** From the extraction to the GPU mesh *)

Lemma vertexIndex_nonneg (data : MeshData.t) (index : nat) :
  0 <= vertexIndex_of data index.
Proof.
  unfold vertexIndex_of.
  destruct (at_ 0 (MeshData.polygonIndices data) (Z.of_nat index) <? 0) eqn:E.
  - apply Z.ltb_lt in E. lia.
  - apply Z.ltb_ge in E. exact E.
Qed.

Lemma at_nil {A : Type} (d : A) (i : Z) : at_ d [] i = d.
Proof. unfold at_. destruct (Z.to_nat i); reflexivity. Qed.

Lemma normal_of_zero (data : MeshData.t) (index : nat) :
  MeshData.normals data = [] -> normal_of data index = vec3_zero.
Proof.
  intros H. unfold normal_of. rewrite H. cbv zeta.
  pose proof (vertexIndex_nonneg data index) as Hv.
  change (size (@nil vec3)) with 0. rewrite !at_nil.
  destruct (isEmpty (MeshData.normalIndices data)).
  - destruct (_ <? 0); reflexivity.
  - destruct (_ <? size _); [|reflexivity].
    destruct (_ && _); reflexivity.
Qed.

Lemma texCoord_at_zero (texCoordIndices : list Z) (index : nat) :
  texCoord_at [] texCoordIndices index = vec2_zero.
Proof.
  unfold texCoord_at. change (size (@nil vec2)) with 0. rewrite !at_nil.
  destruct (isEmpty texCoordIndices).
  - destruct (_ <? 0); reflexivity.
  - destruct (_ <? size _); [|reflexivity].
    destruct (_ && _); reflexivity.
Qed.

Lemma texCoord_of_zero (data : MeshData.t) (index : nat) :
  MeshData.texCoords data = [] -> texCoord_of data index = vec2_zero.
Proof.
  intros H. unfold texCoord_of. rewrite H. apply texCoord_at_zero.
Qed.

Lemma to_int_mod (x : Z) : to_uint (to_int x) = to_uint x.
Proof.
  unfold to_uint, to_int.
  rewrite Zminus_mod, Zmod_mod, <- Zminus_mod.
  f_equal. lia.
Qed.

Lemma to_uint_add (a x : Z) : to_uint (a + to_int x) = to_uint (a + x).
Proof.
  unfold to_uint. rewrite Zplus_mod. fold (to_uint (to_int x)).
  rewrite to_int_mod. unfold to_uint. rewrite <- Zplus_mod. reflexivity.
Qed.

Lemma totalIndices_of_mod (parts : list FBXMeshPart.t) :
  totalIndices_of parts = to_uint (Z.of_nat (indexCount parts)).
Proof.
  unfold totalIndices_of.
  assert (G : forall l acc,
             fold_left
               (fun total part =>
                  to_uint (total
                           + to_int (size (FBXMeshPart.quadTrianglesIndices part)
                                     + size (FBXMeshPart.triangleIndices part))))
               l (to_uint acc)
             = to_uint (acc + Z.of_nat (indexCount l))).
  { induction l as [|p l IH]; intros acc; simpl.
    - unfold indexCount. simpl. rewrite Z.add_0_r. reflexivity.
    - rewrite to_uint_add.
      assert (E : to_uint (to_uint acc
                           + (size (FBXMeshPart.quadTrianglesIndices p)
                              + size (FBXMeshPart.triangleIndices p)))
                  = to_uint (acc
                             + (size (FBXMeshPart.quadTrianglesIndices p)
                                + size (FBXMeshPart.triangleIndices p)))).
      { unfold to_uint. apply Zplus_mod_idemp_l. }
      rewrite E, IH. f_equal. unfold indexCount, size. simpl. lia. }
  specialize (G parts 0). rewrite Z.add_0_l in G. exact G.
Qed.

Lemma quadsSplit_indexCount (parts : list FBXMeshPart.t) :
  Forall quadsSplit parts ->
  (0 < cornerCount parts)%nat -> (0 < indexCount parts)%nat.
Proof.
  unfold cornerCount, indexCount.
  induction parts as [|p parts IH]; intros Hq Hc; simpl in *; [lia|].
  apply Forall_cons in Hq. destruct Hq as [Hp Hq].
  destruct (FBXMeshPart.quadIndices p) eqn:Eq.
  - simpl in Hc.
    destruct (FBXMeshPart.triangleIndices p); simpl in *; [|lia].
    specialize (IH Hq). lia.
  - unfold quadsSplit in Hp. rewrite Eq in Hp.
    destruct (FBXMeshPart.quadTrianglesIndices p); simpl;
      [exfalso; apply Hp; [discriminate | reflexivity] | lia].
Qed.

Lemma dracoChildren_nil (object : FBXNode.t) :
  dracoChildren object = [] ->
  forall child, In child (FBXNode.children object) ->
  String.eqb (FBXNode.name child) "DracoMesh" = false.
Proof.
  intros H child Hc.
  destruct (String.eqb (FBXNode.name child) "DracoMesh") eqn:E;
    [|reflexivity].
  pose proof (dracoChildren_In object child Hc E) as Hin.
  rewrite H in Hin. contradiction.
Qed.

Lemma built_carries_normals_and_uvs (m : FBXMesh.t) (url : string) :
  FBXMesh.vertices m <> [] ->
  length (FBXMesh.normals m) = length (FBXMesh.vertices m) ->
  length (FBXMesh.texCoords m) = length (FBXMesh.vertices m) ->
  (0 < indexCount (FBXMesh.parts m))%nat ->
  Z.of_nat (indexCount (FBXMesh.parts m)) < 2 ^ 32 ->
  fitsInt m ->
  exists mesh vn vt vt1,
    buildModelMesh m url = (FBXMesh_setMesh m (Some mesh), [])
    /\ Mesh.getAttribute (Mesh._attributeBuffers mesh) gpu.NORMAL = Some vn
    /\ Mesh.getAttribute (Mesh._attributeBuffers mesh) gpu.TEXCOORD = Some vt
    /\ Mesh.getAttribute (Mesh._attributeBuffers mesh) gpu.TEXCOORD1 = Some vt1.
Proof.
  intros Hv Hn Ht Hc Hsmall Hfit.
  assert (Hlen : (0 < length (FBXMesh.vertices m))%nat).
  { destruct (FBXMesh.vertices m); [contradiction | simpl; lia]. }
  assert (Hvalid : totalIndices_of (FBXMesh.parts m) <> 0).
  { rewrite totalIndices_of_mod, to_uint_small by lia. lia. }
  pose proof (attributeOf_by_source m gpu.NORMAL Hfit) as An.
  pose proof (attributeOf_by_source m gpu.TEXCOORD Hfit) as At.
  pose proof (attributeOf_by_source m gpu.TEXCOORD1 Hfit) as At1.
  assert (En : (sourceSize m gpu.NORMAL =? 0) = false).
  { apply Z.eqb_neq. simpl. unfold size. lia. }
  assert (Et : (sourceSize m gpu.TEXCOORD =? 0) = false).
  { apply Z.eqb_neq. simpl. unfold size. lia. }
  rewrite En in An. rewrite Et in At, At1.
  exists (builtMesh m), (slotView m gpu.NORMAL), (slotView m gpu.TEXCOORD).
  exists (if sourceSize m gpu.TEXCOORD1 =? 0
          then slotView m gpu.TEXCOORD else slotView m gpu.TEXCOORD1).
  split; [apply buildModelMesh_valid; assumption|].
  split; [exact An|]. split; [exact At|].
  fold (attributeOf m gpu.TEXCOORD1). rewrite At1.
  destruct (sourceSize m gpu.TEXCOORD1 =? 0); reflexivity.
Qed.

(** C10. The non-compressed path fills normals and primary UVs. A call
    of [appendIndex] that creates a vertex appends one position, one
    normal and one primary UV, the zero vector when the source has no
    normals or no UVs. For a node without DracoMesh child, [extractMesh]
    returns a mesh with as many normals and primary UVs as vertices; if it
    has a vertex, the two arrays are not empty and some part has an index,
    and [buildModelMesh] (index count below 2^32, attribute sizes within
    [int]) sets a mesh with NORMAL, TEXCOORD and TEXCOORD1 attributes. *)
Theorem noncompressed_populates_normals_and_uvs
    (normalsByVertex colorsByVertex : bool) (object : FBXNode.t)
    (meshIndex : Z) (url : string) :
  dracoChildren object = [] ->
  (forall d indices c,
     (c < length (MeshData.polygonIndices d))%nat ->
     QHash.find (MeshData.indices d) (vertex_of d c) = None ->
     let d' := fst (appendIndex d indices c) in
     FBXMesh.vertices (meshOf d')
     = FBXMesh.vertices (meshOf d) ++ [position_of d c]
     /\ FBXMesh.normals (meshOf d')
        = FBXMesh.normals (meshOf d) ++ [normal_of d c]
     /\ FBXMesh.texCoords (meshOf d')
        = FBXMesh.texCoords (meshOf d) ++ [texCoord_of d c]
     /\ (MeshData.normals d = [] -> normal_of d c = vec3_zero)
     /\ (MeshData.texCoords d = [] -> texCoord_of d c = vec2_zero))
  /\ exists e i,
       extractMesh normalsByVertex colorsByVertex object meshIndex
       = Some (e, i)
       /\ let m := ExtractedMesh.mesh e in
          length (FBXMesh.normals m) = length (FBXMesh.vertices m)
          /\ length (FBXMesh.texCoords m) = length (FBXMesh.vertices m)
          /\ (FBXMesh.vertices m <> [] ->
              FBXMesh.normals m <> [] /\ FBXMesh.texCoords m <> []
              /\ (0 < indexCount (FBXMesh.parts m))%nat
              /\ (Z.of_nat (indexCount (FBXMesh.parts m)) < 2 ^ 32 ->
                  fitsInt m ->
                  exists mesh vn vt vt1,
                    buildModelMesh m url
                    = (FBXMesh_setMesh m (Some mesh), [])
                    /\ Mesh.getAttribute (Mesh._attributeBuffers mesh)
                         gpu.NORMAL = Some vn
                    /\ Mesh.getAttribute (Mesh._attributeBuffers mesh)
                         gpu.TEXCOORD = Some vt
                    /\ Mesh.getAttribute (Mesh._attributeBuffers mesh)
                         gpu.TEXCOORD1 = Some vt1)).
Proof.
  intros Hnone. split.
  - intros d indices c Hc F. cbv zeta.
    rewrite appendIndex_inside by exact Hc. rewrite F. cbn.
    repeat split; try reflexivity.
    + apply normal_of_zero.
    + apply texCoord_of_zero.
  - unfold extractMesh. cbv zeta.
    pose proof (fold_scanChild_scanInv (false, false, false, false)
                  (FBXNode.children object)
                  (mkScan (MeshData_initial normalsByVertex colorsByVertex
                             meshIndex) [] [] false false)) as Hscan.
    destruct Hscan as (Hi & _ & He).
    { intros child Hc Hn.
      rewrite (dracoChildren_nil object Hnone child Hc) in Hn. discriminate. }
    { apply scanInv_initial. }
    pose proof (fold_scanChild_noDraco (FBXNode.children object)
                  (mkScan (MeshData_initial normalsByVertex colorsByVertex
                             meshIndex) [] [] false false)
                  (dracoChildren_nil object Hnone)) as Hd.
    set (st := fold_left scanChild (FBXNode.children object) _) in *.
    cbn [isDracoMesh] in Hd. rewrite Hd.
    destruct (extractPolygons_total (materials st) (textures st) (scan_data st)
                Hi (He Hd)) as (st' & Hex & Hinv & _).
    rewrite Hex. eexists. eexists. split; [reflexivity|].
    destruct Hinv as (_ & Hlens & Hcount & Hsplit).
    unfold lensSig, sourceCarried, lengthIf in Hlens.
    destruct Hlens as (Hn & Ht & _). fold (meshOf (poly_data st')).
    cbv zeta. split; [exact Hn|]. split; [exact Ht|].
    intros Hv.
    assert (Hlen : (0 < length (FBXMesh.vertices (meshOf (poly_data st'))))%nat).
    { destruct (FBXMesh.vertices (meshOf (poly_data st')));
        [contradiction | simpl; lia]. }
    assert (Hix : (0 < indexCount (FBXMesh.parts (meshOf (poly_data st'))))%nat).
    { apply quadsSplit_indexCount; [exact Hsplit|].
      unfold MeshData_parts, meshOf in *. lia. }
    split; [|split; [|split; [exact Hix|]]].
    + intros E. rewrite E in Hn. simpl in Hn. lia.
    + intros E. rewrite E in Ht. simpl in Ht. lia.
    + intros Hsmall Hfit.
      apply built_carries_normals_and_uvs; assumption.
Qed.

Lemma noncompressed_populates_normals_and_uvs_witness :
  dracoChildren quadNode = []
  /\ exists e i,
       extractMesh false false quadNode 0 = Some (e, i)
       /\ length (FBXMesh.normals (ExtractedMesh.mesh e))
          = length (FBXMesh.vertices (ExtractedMesh.mesh e)).
Proof.
  split; [reflexivity|].
  destruct (proj2 (noncompressed_populates_normals_and_uvs false false
                     quadNode 0 EmptyString eq_refl))
    as (e & i & He & Hn & _).
  exists e, i. split; [exact He | exact Hn].
Defined.

(** ** buildModelMesh: the index buffer and the part ranges *)

Lemma length_bytes_index (l : list nat) :
  size (flat_map bytes_index l) = size l * sizeof_int.
Proof.
  unfold size, sizeof_int. induction l as [|x l IH]; simpl; [reflexivity|].
  simpl in IH. lia.
Qed.

Lemma indexCount_cons (part : FBXMeshPart.t) (parts : list FBXMeshPart.t) :
  indexCount (part :: parts)
  = (length (partIndices part) + indexCount parts)%nat.
Proof.
  unfold indexCount, partIndices. simpl. rewrite length_app. reflexivity.
Qed.

Lemma indexCount_allIndices (parts : list FBXMeshPart.t) :
  indexCount parts = length (allIndices parts).
Proof.
  induction parts as [|p parts IH]; [reflexivity|].
  rewrite indexCount_cons. unfold allIndices. simpl. rewrite length_app.
  fold (allIndices parts). lia.
Qed.

(** One copy of the part loop into the unwritten rest of the buffer. *)
Lemma setSubData_next (W : list gpu.Byte) (l : list nat) (r : Z) :
  0 <= r ->
  gpu.setSubData
    (W ++ repeat gpu.Undef (Z.to_nat (size l * sizeof_int + r)))
    (size W) (size l * sizeof_int) (flat_map bytes_index l)
  = (W ++ flat_map bytes_index l) ++ repeat gpu.Undef (Z.to_nat r).
Proof.
  intros Hr. pose proof (size_nonneg l) as Hl.
  rewrite resize_nil_blocks by (unfold sizeof_int; lia).
  rewrite (setSubData_block W _ _ (flat_map bytes_index l))
    by (rewrite ?size_repeat; unfold sizeof_int; lia).
  rewrite <- length_bytes_index, firstn_size, app_assoc. reflexivity.
Qed.

(** The part loop, from a buffer written up to [offset]. *)
Lemma fold_indexPart_content (parts : list FBXMeshPart.t) :
  forall (W : list gpu.Byte) (start : nat) (r : Z) (ranges : list Mesh.Part),
  0 <= r ->
  size W = Z.of_nat start * sizeof_int ->
  (Z.of_nat start + Z.of_nat (indexCount parts)) * sizeof_int < 2 ^ 31 ->
  fold_left indexPart parts
    (mkIndexState
       (W ++ repeat gpu.Undef
               (Z.to_nat (Z.of_nat (indexCount parts) * sizeof_int + r)))
       (Z.of_nat start) (size W) ranges)
  = mkIndexState
      ((W ++ flat_map bytes_index (allIndices parts))
       ++ repeat gpu.Undef (Z.to_nat r))
      (Z.of_nat (start + indexCount parts))
      (size W + Z.of_nat (indexCount parts) * sizeof_int)
      (ranges ++ partRanges start parts).
Proof.
  induction parts as [|part parts IH]; intros W start r ranges Hr HW Hfit.
  - simpl. rewrite !app_nil_r, Nat.add_0_r, Z.add_0_r. reflexivity.
  - rewrite indexCount_cons in *. cbn [fold_left].
    assert (Hs4 : sizeof_int = 4) by reflexivity.
    assert (Hstep : indexPart
                      (mkIndexState
                         (W ++ repeat gpu.Undef
                                 (Z.to_nat
                                    (Z.of_nat (length (partIndices part)
                                               + indexCount parts)
                                     * sizeof_int + r)))
                         (Z.of_nat start) (size W) ranges) part
                    = mkIndexState
                        ((W ++ flat_map bytes_index (partIndices part))
                         ++ repeat gpu.Undef
                              (Z.to_nat (Z.of_nat (indexCount parts)
                                         * sizeof_int + r)))
                        (Z.of_nat (start + length (partIndices part)))
                        (size (W ++ flat_map bytes_index (partIndices part)))
                        (ranges
                         ++ [Mesh.mkPart (Z.of_nat start)
                               (Z.of_nat (length (partIndices part))) 0
                               Mesh.TRIANGLES])).
    { unfold indexPart, partIndices in *.
      remember (FBXMeshPart.quadTrianglesIndices part) as q eqn:Eq0.
      remember (FBXMeshPart.triangleIndices part) as t eqn:Et0.
      clear Eq0 Et0 IH.
      assert (Hlen : Z.of_nat (length (q ++ t)) = size q + size t).
      { unfold size. rewrite length_app. lia. }
      pose proof (size_nonneg q) as Hq. pose proof (size_nonneg t) as Ht.
      cbn [indexBuffer indexNum offset modelParts].
      rewrite (to_uint_small (Z.of_nat start)) by lia.
      replace (Z.of_nat (length (q ++ t) + indexCount parts) * sizeof_int + r)
        with (size q * sizeof_int
              + (size t * sizeof_int
                 + (Z.of_nat (indexCount parts) * sizeof_int + r))) by lia.
      rewrite flat_map_app, Nat2Z.inj_add, Hlen.
      destruct (size q =? 0) eqn:Eq; destruct (size t =? 0) eqn:Et;
        cbn [negb indexBuffer indexNum offset modelParts Mesh._startIndex
             Mesh._numIndices Mesh._baseVertex Mesh._topology].
      - apply Z.eqb_eq in Eq, Et. apply size_zero_iff in Eq, Et. subst q t.
        cbn [flat_map app]. change (size (@nil nat)) with 0.
        rewrite app_nil_r. f_equal. lia.
      - apply Z.eqb_eq in Eq. apply size_zero_iff in Eq. subst q.
        cbn [flat_map app]. change (size (@nil nat)) with 0 in *.
        rewrite !Z.mul_0_l, !Z.add_0_l.
        rewrite setSubData_next by lia.
        rewrite (to_int_small (Z.of_nat start + size t)) by lia.
        rewrite (to_int_small (size W + size t * sizeof_int)) by lia.
        rewrite (to_uint_small (size t)) by lia.
        rewrite size_app, length_bytes_index. reflexivity.
      - apply Z.eqb_eq in Et. apply size_zero_iff in Et. subst t.
        cbn [flat_map app]. change (size (@nil nat)) with 0 in *.
        rewrite !Z.mul_0_l, !Z.add_0_l, !Z.add_0_r, app_nil_r.
        rewrite setSubData_next by lia.
        rewrite (to_int_small (Z.of_nat start + size q)) by lia.
        rewrite (to_int_small (size W + size q * sizeof_int)) by lia.
        rewrite (to_uint_small (size q)) by lia.
        rewrite size_app, length_bytes_index. reflexivity.
      - rewrite setSubData_next by lia.
        rewrite (to_int_small (Z.of_nat start + size q)) by lia.
        rewrite (to_int_small (size W + size q * sizeof_int)) by lia.
        rewrite Z.add_0_l.
        rewrite (to_uint_small (size q)) by lia.
        rewrite <- (length_bytes_index q), <- size_app.
        rewrite setSubData_next by lia.
        rewrite (to_int_small (Z.of_nat start + size q + size t)) by lia.
        rewrite size_app, length_bytes_index.
        rewrite (to_int_small (size W + size q * sizeof_int
                               + size t * sizeof_int)) by lia.
        rewrite (to_uint_small (size q + size t)) by lia.
        rewrite !size_app, !length_bytes_index, <- !app_assoc, !Z.add_assoc.
        reflexivity. }
    rewrite Hstep.
    rewrite (IH (W ++ flat_map bytes_index (partIndices part))
               (start + length (partIndices part))%nat r).
    + unfold allIndices. cbn [flat_map partRanges].
      rewrite flat_map_app, <- !app_assoc. cbn [app].
      f_equal; try lia.
      rewrite size_app, length_bytes_index. unfold size in *. lia.
    + exact Hr.
    + rewrite size_app, length_bytes_index. unfold size in *. lia.
    + lia.
Qed.

Lemma resize_nil (n : Z) : gpu.resize [] n = repeat gpu.Undef (Z.to_nat n).
Proof.
  unfold gpu.resize. rewrite firstn_nil. simpl. rewrite Nat.sub_0_r.
  reflexivity.
Qed.

(** The state the part loop of a call ends in. *)
Lemma part_loop_result (parts : list FBXMeshPart.t) :
  Z.of_nat (indexCount parts) * sizeof_int < 2 ^ 31 ->
  fold_left indexPart parts
    (mkIndexState (gpu.resize [] (totalIndices_of parts * sizeof_int)) 0 0 [])
  = mkIndexState (flat_map bytes_index (allIndices parts))
      (Z.of_nat (indexCount parts))
      (Z.of_nat (indexCount parts) * sizeof_int)
      (partRanges 0 parts).
Proof.
  intros Hfit. assert (Hs4 : sizeof_int = 4) by reflexivity.
  rewrite totalIndices_of_mod, to_uint_small by lia.
  rewrite resize_nil.
  pose proof (fold_indexPart_content parts [] 0%nat 0 []) as H.
  cbn [app] in H. change (size (@nil gpu.Byte)) with 0 in H.
  change (Z.of_nat 0) with 0 in H.
  rewrite Z.add_0_r in H. rewrite H by lia.
  cbn [repeat Z.to_nat]. rewrite app_nil_r. reflexivity.
Qed.

Lemma length_bytes_Part (l : list Mesh.Part) :
  size (flat_map bytes_Part l) = size l * sizeof_Part.
Proof.
  unfold size, sizeof_Part. induction l as [|x l IH]; simpl; [reflexivity|].
  simpl in IH. lia.
Qed.

Lemma partRanges_length (start : nat) (parts : list FBXMeshPart.t) :
  length (partRanges start parts) = length parts.
Proof.
  revert start. induction parts as [|p parts IH]; intros start; simpl;
    [reflexivity|]. rewrite IH. reflexivity.
Qed.

Lemma partRanges_lookup (parts : list FBXMeshPart.t) :
  forall (start k : nat) (part : FBXMeshPart.t),
  parts !! k = Some part ->
  partRanges start parts !! k
  = Some (Mesh.mkPart (Z.of_nat (start + indexCount (take k parts)))
            (Z.of_nat (length (partIndices part))) 0 Mesh.TRIANGLES).
Proof.
  induction parts as [|p parts IH]; intros start k part H; [discriminate|].
  destruct k as [|k]; simpl in H.
  - injection H as ->. simpl. rewrite Nat.add_0_r. reflexivity.
  - change (take (S k) (p :: parts)) with (p :: take k parts).
    rewrite indexCount_cons. cbn [partRanges].
    change ((?x :: ?l) !! S k) with (l !! k).
    rewrite (IH _ k part H). f_equal. f_equal. lia.
Qed.

Lemma allIndices_split (parts : list FBXMeshPart.t) (k : nat)
    (part : FBXMeshPart.t) :
  parts !! k = Some part ->
  allIndices parts
  = allIndices (take k parts) ++ partIndices part
    ++ allIndices (drop (S k) parts).
Proof.
  intros H. unfold allIndices.
  rewrite <- (take_drop_middle parts k part H) at 1.
  rewrite flat_map_app. reflexivity.
Qed.

Lemma builtMesh_indexBuffer (m : FBXMesh.t) :
  Z.of_nat (indexCount (FBXMesh.parts m)) * sizeof_int < 2 ^ 31 ->
  Mesh._indexBuffer (builtMesh m)
  = Some (gpu.wholeView (flat_map bytes_index (allIndices (FBXMesh.parts m)))
            (gpu.mkElement gpu.SCALAR gpu.UINT32 gpu.XYZ)).
Proof.
  intros Hfit. unfold builtMesh. cbv zeta.
  rewrite (part_loop_result _ Hfit). reflexivity.
Qed.

(** X1. For a mesh with a vertex, an index and an index array below 2^31
    bytes, the call sets a mesh whose index buffer holds, 4 bytes each and
    with no byte left unwritten, the indices of the parts in part order,
    each part giving its triangles made of quads and then its other
    triangles; the view is the whole buffer, 32-bit unsigned scalars. *)
Theorem index_buffer_concatenates_parts (extractedMesh : FBXMesh.t)
    (url : string) :
  FBXMesh.vertices extractedMesh <> [] ->
  (0 < indexCount (FBXMesh.parts extractedMesh))%nat ->
  Z.of_nat (indexCount (FBXMesh.parts extractedMesh)) * sizeof_int < 2 ^ 31 ->
  exists mesh view,
    buildModelMesh extractedMesh url
    = (FBXMesh_setMesh extractedMesh (Some mesh), [])
    /\ Mesh._indexBuffer mesh = Some view
    /\ gpu._element view = gpu.mkElement gpu.SCALAR gpu.UINT32 gpu.XYZ
    /\ gpu._offset view = 0
    /\ gpu._size view
       = Z.of_nat (indexCount (FBXMesh.parts extractedMesh)) * sizeof_int
    /\ gpu._buffer view
       = flat_map bytes_index (allIndices (FBXMesh.parts extractedMesh))
    /\ gpu.viewBytes view = gpu._buffer view.
Proof.
  intros Hv Hc Hfit. assert (Hs4 : sizeof_int = 4) by reflexivity.
  assert (Hvalid : totalIndices_of (FBXMesh.parts extractedMesh) <> 0).
  { rewrite totalIndices_of_mod, to_uint_small by lia. lia. }
  eexists. eexists. split; [apply buildModelMesh_valid; assumption|].
  split; [apply builtMesh_indexBuffer; exact Hfit|].
  unfold gpu.wholeView, gpu.viewBytes.
  cbn [gpu._element gpu._offset gpu._size gpu._buffer].
  split; [reflexivity|]. split; [reflexivity|].
  set (I := flat_map bytes_index (allIndices (FBXMesh.parts extractedMesh))).
  assert (HI : size I
               = Z.of_nat (indexCount (FBXMesh.parts extractedMesh))
                 * sizeof_int).
  { unfold I. rewrite length_bytes_index, indexCount_allIndices.
    reflexivity. }
  split; [exact HI|]. split; [reflexivity|].
  change (Z.to_nat 0) with 0%nat. cbn [skipn]. apply firstn_size.
Qed.

Lemma index_buffer_concatenates_parts_witness :
  FBXMesh.vertices mesh_two_parts <> []
  /\ (0 < indexCount (FBXMesh.parts mesh_two_parts))%nat
  /\ Z.of_nat (indexCount (FBXMesh.parts mesh_two_parts)) * sizeof_int < 2 ^ 31
  /\ exists mesh view,
       buildModelMesh mesh_two_parts EmptyString
       = (FBXMesh_setMesh mesh_two_parts (Some mesh), [])
       /\ Mesh._indexBuffer mesh = Some view
       /\ gpu._buffer view
          = flat_map bytes_index [0; 1; 3; 1; 2; 3; 0; 2; 4]%nat.
Proof.
  assert (Hv : FBXMesh.vertices mesh_two_parts <> []) by discriminate.
  assert (Hc : (0 < indexCount (FBXMesh.parts mesh_two_parts))%nat)
    by (vm_compute; lia).
  assert (Hf : Z.of_nat (indexCount (FBXMesh.parts mesh_two_parts))
               * sizeof_int < 2 ^ 31) by (vm_compute; reflexivity).
  split; [exact Hv|]. split; [exact Hc|]. split; [exact Hf|].
  destruct (index_buffer_concatenates_parts mesh_two_parts EmptyString
              Hv Hc Hf) as (mesh & view & Hb & Hi & _ & _ & _ & Hbuf & _).
  exists mesh, view. split; [exact Hb|]. split; [exact Hi|]. exact Hbuf.
Defined.

(** X2. Under the same conditions the part buffer holds one range per
    part, in part order, 16 bytes each: the range of a part starts at the
    number of indices of the parts before it, has as many indices as the
    part, base vertex 0 and topology TRIANGLES; read through its range,
    the index array gives back the indices of the part. *)
Theorem part_ranges_tile_index_array (extractedMesh : FBXMesh.t)
    (url : string) :
  FBXMesh.vertices extractedMesh <> [] ->
  (0 < indexCount (FBXMesh.parts extractedMesh))%nat ->
  Z.of_nat (indexCount (FBXMesh.parts extractedMesh)) * sizeof_int < 2 ^ 31 ->
  let parts := FBXMesh.parts extractedMesh in
  exists mesh view ranges,
    buildModelMesh extractedMesh url
    = (FBXMesh_setMesh extractedMesh (Some mesh), [])
    /\ Mesh._partBuffer mesh = Some view
    /\ gpu._element view = gpu.mkElement gpu.VEC4 gpu.UINT32 gpu.XYZW
    /\ gpu._offset view = 0
    /\ gpu._size view = size parts * sizeof_Part
    /\ gpu._buffer view = flat_map bytes_Part ranges
    /\ length ranges = length parts
    /\ forall k part,
         parts !! k = Some part ->
         exists range,
           ranges !! k = Some range
           /\ Mesh._startIndex range = Z.of_nat (indexCount (take k parts))
           /\ Mesh._numIndices range = Z.of_nat (length (partIndices part))
           /\ Mesh._baseVertex range = 0
           /\ Mesh._topology range = Mesh.TRIANGLES
           /\ rangeIndices range (allIndices parts) = partIndices part.
Proof.
  intros Hv Hc Hfit parts. assert (Hs4 : sizeof_int = 4) by reflexivity.
  assert (Hvalid : totalIndices_of (FBXMesh.parts extractedMesh) <> 0).
  { rewrite totalIndices_of_mod, to_uint_small by lia. lia. }
  eexists. eexists. exists (partRanges 0 parts).
  split; [apply buildModelMesh_valid; assumption|].
  unfold builtMesh. cbv zeta.
  rewrite (part_loop_result _ Hfit).
  cbn [modelParts Mesh.setPartBuffer Mesh._partBuffer].
  split; [reflexivity|].
  unfold gpu.wholeView. cbn [gpu._element gpu._offset gpu._size gpu._buffer].
  fold parts.
  assert (Hpb : gpu.setData (size (partRanges 0 parts) * sizeof_Part)
                  (flat_map bytes_Part (partRanges 0 parts))
                = flat_map bytes_Part (partRanges 0 parts)).
  { unfold gpu.setData. rewrite <- length_bytes_Part. apply firstn_size. }
  rewrite Hpb.
  split; [reflexivity|]. split; [reflexivity|].
  split.
  { fold (size (flat_map bytes_Part (partRanges 0 parts))).
    rewrite length_bytes_Part. unfold size. rewrite partRanges_length.
    reflexivity. }
  split; [reflexivity|]. split; [apply partRanges_length|].
  intros k part Hk. eexists. split; [apply partRanges_lookup; exact Hk|].
  cbn [Mesh._startIndex Mesh._numIndices Mesh._baseVertex Mesh._topology].
  rewrite Nat.add_0_l.
  split; [reflexivity|]. split; [reflexivity|].
  split; [reflexivity|]. split; [reflexivity|].
  unfold rangeIndices. cbn [Mesh._startIndex Mesh._numIndices].
  rewrite !Nat2Z.id.
  rewrite (allIndices_split parts k part Hk).
  rewrite indexCount_allIndices.
  rewrite drop_app_length. apply take_app_length.
Qed.

Lemma part_ranges_tile_index_array_witness :
  FBXMesh.vertices mesh_two_parts <> []
  /\ (0 < indexCount (FBXMesh.parts mesh_two_parts))%nat
  /\ Z.of_nat (indexCount (FBXMesh.parts mesh_two_parts)) * sizeof_int < 2 ^ 31
  /\ exists mesh view ranges,
       buildModelMesh mesh_two_parts EmptyString
       = (FBXMesh_setMesh mesh_two_parts (Some mesh), [])
       /\ Mesh._partBuffer mesh = Some view
       /\ gpu._buffer view = flat_map bytes_Part ranges
       /\ length ranges = 2%nat.
Proof.
  assert (Hv : FBXMesh.vertices mesh_two_parts <> []) by discriminate.
  assert (Hc : (0 < indexCount (FBXMesh.parts mesh_two_parts))%nat)
    by (vm_compute; lia).
  assert (Hf : Z.of_nat (indexCount (FBXMesh.parts mesh_two_parts))
               * sizeof_int < 2 ^ 31) by (vm_compute; reflexivity).
  split; [exact Hv|]. split; [exact Hc|]. split; [exact Hf|].
  destruct (part_ranges_tile_index_array mesh_two_parts EmptyString
              Hv Hc Hf)
    as (mesh & view & ranges & Hb & Hp & _ & _ & _ & Hbuf & Hlen & _).
  exists mesh, view, ranges.
  split; [exact Hb|]. split; [exact Hp|]. split; [exact Hbuf|]. exact Hlen.
Defined.

(** ** buildModelMesh: the vertex buffer, the cluster indices, what a call
    leaves alone *)

Lemma builtMesh_vertexBuffer (m : FBXMesh.t) :
  Mesh._vertexBuffer (builtMesh m)
  = Some (gpu.wholeView (flat_map bytes_vec3 (FBXMesh.vertices m))
            (gpu.mkElement gpu.VEC3 gpu.FLOAT gpu.XYZ)).
Proof.
  unfold builtMesh. cbv zeta.
  assert (Hvb : gpu.setData (size (FBXMesh.vertices m) * sizeof_vec3)
                  (flat_map bytes_vec3 (FBXMesh.vertices m))
                = flat_map bytes_vec3 (FBXMesh.vertices m)).
  { unfold gpu.setData. rewrite <- length_bytes_vec3. apply firstn_size. }
  rewrite Hvb.
  assert (Hkeep : forall mesh, Mesh._vertexBuffer
                                 (attachAttributes m (attributeBuffer m) mesh)
                               = Mesh._vertexBuffer mesh).
  { intros mesh. unfold attachAttributes. cbv zeta.
    repeat match goal with
           | |- context [if ?b then _ else _] => destruct b
           end; reflexivity. }
  cbn [Mesh.setPartBuffer Mesh.setIndexBuffer Mesh._vertexBuffer].
  rewrite Hkeep. reflexivity.
Qed.

(** X3. For a mesh that passes validation, the vertex buffer of the mesh
    the call sets holds the vertices in order, 12 bytes each (x, y, z as
    floats), and is viewed whole as VEC3 FLOAT XYZ. *)
Theorem vertex_buffer_holds_vertices (extractedMesh : FBXMesh.t)
    (url : string) :
  passesValidation extractedMesh ->
  exists mesh view,
    buildModelMesh extractedMesh url
    = (FBXMesh_setMesh extractedMesh (Some mesh), [])
    /\ Mesh._vertexBuffer mesh = Some view
    /\ gpu._element view = gpu.mkElement gpu.VEC3 gpu.FLOAT gpu.XYZ
    /\ gpu._offset view = 0
    /\ gpu._size view = size (FBXMesh.vertices extractedMesh) * sizeof_vec3
    /\ gpu._buffer view
       = flat_map bytes_vec3 (FBXMesh.vertices extractedMesh)
    /\ gpu.viewBytes view = gpu._buffer view.
Proof.
  intros [Hi Hv].
  eexists. eexists. split; [apply buildModelMesh_valid; assumption|].
  split; [apply builtMesh_vertexBuffer|].
  unfold gpu.wholeView, gpu.viewBytes.
  cbn [gpu._element gpu._offset gpu._size gpu._buffer].
  split; [reflexivity|]. split; [reflexivity|].
  split; [apply length_bytes_vec3|]. split; [reflexivity|].
  change (Z.to_nat 0) with 0%nat. cbn [skipn]. apply firstn_size.
Qed.

Lemma vertex_buffer_holds_vertices_witness :
  passesValidation mesh_two_parts
  /\ exists mesh view,
       buildModelMesh mesh_two_parts EmptyString
       = (FBXMesh_setMesh mesh_two_parts (Some mesh), [])
       /\ Mesh._vertexBuffer mesh = Some view
       /\ gpu._size view = 60.
Proof.
  assert (Hv : passesValidation mesh_two_parts)
    by (split; vm_compute; discriminate).
  split; [exact Hv|].
  destruct (vertex_buffer_holds_vertices mesh_two_parts EmptyString Hv)
    as (mesh & view & Hb & Hvb & _ & _ & Hs & _).
  exists mesh, view. split; [exact Hb|]. split; [exact Hvb|].
  rewrite Hs. reflexivity.
Defined.

(** X4. Away from the boundary of 255 clusters the size and the format
    of the skin-cluster indices agree: with fewer than 255 clusters the
    region has one byte per index, the format is UINT8 and the bytes are
    the indices narrowed to 8 bits; with more than 255 clusters the region
    has two bytes per index, the format is UINT16 and the bytes are those
    of the 16-bit indices. *)
Theorem cluster_index_width_consistent (fbxMesh : FBXMesh.t) (url : string) :
  passesValidation fbxMesh ->
  fitsInt fbxMesh ->
  FBXMesh.clusterIndices fbxMesh <> [] ->
  size (FBXMesh.clusters fbxMesh) <> UINT8_MAX ->
  exists mesh view,
    buildModelMesh fbxMesh url = (FBXMesh_setMesh fbxMesh (Some mesh), [])
    /\ Mesh.getAttribute (Mesh._attributeBuffers mesh) gpu.SKIN_CLUSTER_INDEX
       = Some view
    /\ gpu.dimension (gpu._element view) = gpu.VEC4
    /\ ((size (FBXMesh.clusters fbxMesh) < UINT8_MAX
         /\ gpu.type (gpu._element view) = gpu.UINT8
         /\ gpu._size view = size (FBXMesh.clusterIndices fbxMesh) * 1
         /\ gpu.viewBytes view
            = flat_map bytes_uint8
                (map (fun i => i mod 256) (FBXMesh.clusterIndices fbxMesh)))
        \/ (UINT8_MAX < size (FBXMesh.clusters fbxMesh)
            /\ gpu.type (gpu._element view) = gpu.UINT16
            /\ gpu._size view = size (FBXMesh.clusterIndices fbxMesh) * 2
            /\ gpu.viewBytes view
               = flat_map bytes_uint16 (FBXMesh.clusterIndices fbxMesh))).
Proof.
  intros [Hi Hv] Hfit Hne H255.
  exists (builtMesh fbxMesh), (slotView fbxMesh gpu.SKIN_CLUSTER_INDEX).
  split; [apply buildModelMesh_valid; assumption|].
  pose proof (attributeOf_by_source fbxMesh gpu.SKIN_CLUSTER_INDEX Hfit) as A.
  assert (E : (sourceSize fbxMesh gpu.SKIN_CLUSTER_INDEX =? 0) = false).
  { apply Z.eqb_neq. simpl. rewrite size_zero_iff. exact Hne. }
  rewrite E in A. split; [exact A|]. split; [reflexivity|].
  pose proof (viewBytes_slotView fbxMesh gpu.SKIN_CLUSTER_INDEX Hfit) as Hb.
  pose proof (slotSize_exact fbxMesh gpu.SKIN_CLUSTER_INDEX Hfit) as Hs.
  cbn [slotBytes sourceSize elementBytes] in Hb, Hs.
  assert (Ht : gpu.type (gpu._element (slotView fbxMesh gpu.SKIN_CLUSTER_INDEX))
               = if size (FBXMesh.clusters fbxMesh) <? UINT8_MAX
                 then gpu.UINT8 else gpu.UINT16) by reflexivity.
  assert (Hsz : gpu._size (slotView fbxMesh gpu.SKIN_CLUSTER_INDEX)
                = slotSize (attributeLayout fbxMesh) gpu.SKIN_CLUSTER_INDEX)
    by reflexivity.
  rewrite Hb, Ht, Hsz, Hs. clear Ht Hsz Hb A.
  unfold clusterIndexBytes.
  change (clusterIndicesSize (attributeLayout fbxMesh))
    with (slotSize (attributeLayout fbxMesh) gpu.SKIN_CLUSTER_INDEX).
  rewrite Hs. unfold clusterIndexWidth, UINT8_MAX in *.
  destruct (size (FBXMesh.clusters fbxMesh) <? 255) eqn:E1;
    destruct (255 <? size (FBXMesh.clusters fbxMesh)) eqn:E2;
    try apply Z.ltb_lt in E1; try apply Z.ltb_lt in E2;
    try apply Z.ltb_ge in E1; try apply Z.ltb_ge in E2; try lia.
  - left. split; [exact E1|]. split; [reflexivity|]. split; [reflexivity|].
    rewrite <- (length_bytes_uint8 (FBXMesh.clusterIndices fbxMesh)).
    rewrite Z.mul_1_r.
    replace (size (flat_map bytes_uint8 (FBXMesh.clusterIndices fbxMesh)))
      with (size (flat_map bytes_uint8
                    (map (fun i => i mod 256)
                       (FBXMesh.clusterIndices fbxMesh)))).
    + apply firstn_size.
    + rewrite !length_bytes_uint8. unfold size. rewrite length_map.
      reflexivity.
  - right. split; [exact E2|]. split; [reflexivity|]. split; [reflexivity|].
    rewrite <- (length_bytes_uint16 (FBXMesh.clusterIndices fbxMesh)).
    apply firstn_size.
Qed.

Lemma cluster_index_width_consistent_witness :
  passesValidation mesh_300_clusters
  /\ fitsInt mesh_300_clusters
  /\ FBXMesh.clusterIndices mesh_300_clusters <> []
  /\ size (FBXMesh.clusters mesh_300_clusters) <> UINT8_MAX
  /\ exists mesh view,
       buildModelMesh mesh_300_clusters EmptyString
       = (FBXMesh_setMesh mesh_300_clusters (Some mesh), [])
       /\ Mesh.getAttribute (Mesh._attributeBuffers mesh)
            gpu.SKIN_CLUSTER_INDEX = Some view
       /\ gpu.dimension (gpu._element view) = gpu.VEC4.
Proof.
  assert (Hv : passesValidation mesh_300_clusters)
    by (split; vm_compute; discriminate).
  assert (Hf : fitsInt mesh_300_clusters) by (vm_compute; reflexivity).
  assert (Hn : FBXMesh.clusterIndices mesh_300_clusters <> [])
    by discriminate.
  assert (Hc : size (FBXMesh.clusters mesh_300_clusters) <> UINT8_MAX)
    by (vm_compute; discriminate).
  split; [exact Hv|]. split; [exact Hf|]. split; [exact Hn|].
  split; [exact Hc|].
  destruct (cluster_index_width_consistent mesh_300_clusters EmptyString
              Hv Hf Hn Hc) as (mesh & view & Hb & Ha & Hd & _).
  exists mesh, view. split; [exact Hb|]. split; [exact Ha|]. exact Hd.
Defined.

Lemma attributeLayout_setMesh (m : FBXMesh.t) (x : option Mesh.t) :
  attributeLayout (FBXMesh_setMesh m x) = attributeLayout m.
Proof. destruct m. reflexivity. Qed.

Lemma attributeBuffer_setMesh (m : FBXMesh.t) (x : option Mesh.t) :
  attributeBuffer (FBXMesh_setMesh m x) = attributeBuffer m.
Proof.
  unfold attributeBuffer. rewrite attributeLayout_setMesh.
  destruct m. reflexivity.
Qed.

Lemma attachAttributes_setMesh (m : FBXMesh.t) (x : option Mesh.t)
    (b : gpu.Buffer) (mesh : Mesh.t) :
  attachAttributes (FBXMesh_setMesh m x) b mesh = attachAttributes m b mesh.
Proof.
  unfold attachAttributes. rewrite attributeLayout_setMesh.
  destruct m. reflexivity.
Qed.

Lemma builtMesh_setMesh (m : FBXMesh.t) (x : option Mesh.t) :
  builtMesh (FBXMesh_setMesh m x) = builtMesh m.
Proof.
  unfold builtMesh.
  rewrite attachAttributes_setMesh, attributeBuffer_setMesh.
  destruct m. reflexivity.
Qed.

(** X5. A call changes nothing of the mesh but [_mesh]: putting the old
    [_mesh] back gives the mesh as it was. What it sets does not depend
    on the [_mesh] found: a second call, with any url, leaves the result
    of the first as it is. *)
Theorem buildModelMesh_sets_only_mesh (extractedMesh : FBXMesh.t)
    (url url' : string) :
  let result := fst (buildModelMesh extractedMesh url) in
  FBXMesh_setMesh result (FBXMesh._mesh extractedMesh) = extractedMesh
  /\ fst (buildModelMesh result url') = result.
Proof.
  cbv zeta.
  destruct (Z.eq_dec (totalIndices_of (FBXMesh.parts extractedMesh)) 0)
    as [E | E].
  { rewrite buildModelMesh_noIndices by exact E. cbn [fst].
    rewrite buildModelMesh_noIndices by exact E.
    split; [destruct extractedMesh; reflexivity | reflexivity]. }
  destruct (FBXMesh.vertices extractedMesh) eqn:Ev.
  { rewrite buildModelMesh_noVertices by assumption. cbn [fst].
    rewrite buildModelMesh_noVertices by assumption.
    split; [destruct extractedMesh; reflexivity | reflexivity]. }
  assert (Hv : FBXMesh.vertices extractedMesh <> [])
    by (rewrite Ev; discriminate).
  rewrite buildModelMesh_valid by assumption. cbn [fst].
  split; [destruct extractedMesh; reflexivity|].
  rewrite buildModelMesh_valid.
  - cbn [fst]. rewrite builtMesh_setMesh.
    destruct extractedMesh; unfold FBXMesh_setMesh;
      cbn [FBXMesh.parts FBXMesh.vertices FBXMesh.normals FBXMesh.tangents
           FBXMesh.colors FBXMesh.texCoords FBXMesh.texCoords1
           FBXMesh.clusterIndices FBXMesh.clusterWeights FBXMesh.clusters
           FBXMesh.meshIndex FBXMesh._mesh]; reflexivity.
  - destruct extractedMesh; exact E.
  - destruct extractedMesh; exact Hv.
Qed.

(** ** The polygon loop, round by round *)

(** The state the polygon loop ends in is one of the states it reaches,
    and the stream is used up there. *)
Lemma polygonLoop_reaches (materials textures : list Z) (data : MeshData.t)
    (fuel : nat) :
  forall st st' : PolyState,
  loopReaches materials textures data st ->
  polygonLoop fuel materials textures st = Some st' ->
  loopReaches materials textures data st'
  /\ (length (MeshData.polygonIndices (poly_data st')) <= beginIndex st')%nat.
Proof.
  induction fuel as [|fuel IH]; intros st st' Hr; cbn [polygonLoop];
    destruct (Z.of_nat (beginIndex st)
              <? size (MeshData.polygonIndices (poly_data st))) eqn:E;
    try discriminate.
  - intros H. injection H as <-. apply Z.ltb_ge in E. unfold size in E.
    split; [exact Hr | lia].
  - destruct (polygonStep materials textures st) as [st1|] eqn:Hs;
      [|discriminate].
    apply IH. apply (reach_round _ _ _ st); [exact Hr | | exact Hs].
    apply Z.ltb_lt in E. unfold size in E. lia.
  - intros H. injection H as <-. apply Z.ltb_ge in E. unfold size in E.
    split; [exact Hr | lia].
Qed.

(** A round of the polygon loop: the part of the polygon is obtained, a
    run of [appendIndex] follows, its indices go to that part. *)
Lemma polygonStep_round (materials textures : list Z) (st st' : PolyState) :
  polyInv st ->
  (beginIndex st < length (MeshData.polygonIndices (poly_data st)))%nat ->
  polygonStep materials textures st = Some st' ->
  exists data0 mtp' partIndex part cs part',
    obtainPart (poly_data st) (materialTextureParts st)
      (materialTexture_of materials textures (polygonIndex st))
    = (data0, mtp', partIndex)
    /\ MeshData_parts data0 !! (partIndex - 1)%nat = Some part
    /\ roundPart part (snd (appendCorners data0 [] cs)) part'
    /\ poly_data st'
       = MeshData_setParts (fst (appendCorners data0 [] cs))
           (<[(partIndex - 1)%nat := part']> (MeshData_parts data0))
    /\ materialTextureParts st' = mtp'
    /\ polygonIndex st' = S (polygonIndex st).
Proof.
  intros [Hd Hm] Hb Hstep.
  destruct (obtainPart (poly_data st) (materialTextureParts st)
              (materialTexture_of materials textures (polygonIndex st)))
    as [[data0 mtp'] partIndex] eqn:Hob.
  destruct (obtainPart_spec _ _ _ _ _ _ Hm Hob)
    as (Hpi & Hm' & Hsrc & Hvd & Hparts).
  pose proof (source_polygonIndices _ _ Hsrc) as Hpoly.
  pose proof (spanEnd_bounds _ _ Hb) as Hse.
  destruct (lookup_lt_is_Some_2 (MeshData_parts data0) (partIndex - 1)%nat
              ltac:(lia)) as [part Hpart].
  exists data0, mtp', partIndex, part.
  destruct (Nat.eqb_spec
              (spanEnd (MeshData.polygonIndices (poly_data st)) (beginIndex st)
               - beginIndex st) 4) as [Hspan | Hspan].
  - destruct (polygonStep_quad materials textures st data0 mtp' partIndex
                (conj Hd Hm) Hb Hspan Hob)
      as (A & B & C & D & part0 & Hout & Hpart0 & Hstep0).
    rewrite Hpart in Hpart0. injection Hpart0 as <-.
    rewrite Hstep in Hstep0. injection Hstep0 as ->.
    eexists. eexists. split; [reflexivity|]. split; [exact Hpart|].
    split; [|split; [reflexivity|split; reflexivity]].
    left. exists A, B, C, D. split; [exact Hout | reflexivity].
  - unfold polygonStep in Hstep. rewrite Hob in Hstep.
    rewrite (nth_lookup_Some _ _ FBXMeshPart.empty _ Hpart) in Hstep.
    destruct (Nat.eqb_spec
                (spanEnd (MeshData.polygonIndices (poly_data st))
                   (beginIndex st) - beginIndex st) 4) as [? | _];
      [contradiction|].
    destruct (fanLoop_total (length (MeshData.polygonIndices data0)) data0
                (FBXMeshPart.triangleIndices part) (beginIndex st)
                (S (beginIndex st))) as [cs Hcs]; [rewrite Hpoly; lia | lia |].
    rewrite Hcs, appendCorners_prefix in Hstep. cbn [fst snd] in Hstep.
    rewrite appendCorners_parts in Hstep. injection Hstep as <-.
    exists cs. eexists. split; [reflexivity|]. split; [exact Hpart|].
    split; [|split; [reflexivity|split; reflexivity]].
    right. reflexivity.
Qed.

(** A property of the loop state that holds at the start and that every
    round keeps holds in the state the conversion ends in. *)
Lemma extractPolygons_invariant (P : PolyState -> Prop)
    (materials textures : list Z) (data data' : MeshData.t) :
  MeshData.indices data = [] -> nothingExtracted data ->
  extractPolygons materials textures data = Some data' ->
  P (polyStart data) ->
  (forall st st',
     extractInv st -> P st ->
     (beginIndex st < length (MeshData.polygonIndices (poly_data st)))%nat ->
     polygonStep materials textures st = Some st' -> P st') ->
  exists st', data' = poly_data st' /\ P st' /\ extractInv st'.
Proof.
  intros Hi He Hex H0 Hstep. unfold extractPolygons in Hex.
  destruct (polygonLoop _ materials textures (mkPoly data ∅ 0 0))
    as [st'|] eqn:Hloop; [|discriminate].
  injection Hex as <-. exists st'. split; [reflexivity|].
  destruct (polygonLoop_reaches materials textures data _ _ _
              (reach_start materials textures data) Hloop) as [Hr _].
  assert (G : forall st, loopReaches materials textures data st ->
                         P st /\ extractInv st).
  { clear st' Hloop Hr. intros st Hr.
    induction Hr as [|st st' Hr [IHP IHI] Hb Hs].
    - split; [exact H0 | apply extractInv_start; assumption].
    - split; [apply (Hstep st st'); assumption|].
      destruct (polygonStep_extractInv materials textures st IHI Hb)
        as (st1 & Hs1 & Hinv & _).
      rewrite Hs in Hs1. injection Hs1 as <-. exact Hinv. }
  apply G. exact Hr.
Qed.

(** The two ways out of [extractMesh]. *)
Lemma extractMesh_paths (normalsByVertex colorsByVertex : bool)
    (object : FBXNode.t) (meshIndex : Z) :
  let sc := scanned normalsByVertex colorsByVertex object meshIndex in
  MeshData.indices (scan_data sc) = []
  /\ (isDracoMesh sc = false -> nothingExtracted (scan_data sc))
  /\ exists data',
       extractMesh normalsByVertex colorsByVertex object meshIndex
       = Some (MeshData.extracted data', to_uint (meshIndex + 1))
       /\ (if isDracoMesh sc then data' = scan_data sc
           else extractPolygons (materials sc) (textures sc) (scan_data sc)
                = Some data').
Proof.
  cbv zeta.
  destruct (fold_scanChild_fresh (FBXNode.children object)
              (mkScan (MeshData_initial normalsByVertex colorsByVertex
                         meshIndex) [] [] false false)) as [Hi He].
  { split; [reflexivity|]. intros _. split; reflexivity. }
  fold (scanned normalsByVertex colorsByVertex object meshIndex) in Hi, He.
  split; [exact Hi|]. split; [exact He|].
  unfold extractMesh. cbv zeta.
  fold (scanned normalsByVertex colorsByVertex object meshIndex).
  destruct (isDracoMesh (scanned normalsByVertex colorsByVertex object
                           meshIndex)) eqn:Hd.
  - eexists. split; reflexivity.
  - destruct (extractPolygons_total
                (materials (scanned normalsByVertex colorsByVertex object
                              meshIndex))
                (textures (scanned normalsByVertex colorsByVertex object
                             meshIndex))
                _ Hi (He eq_refl))
      as (st' & Hex & _).
    exists (poly_data st'). rewrite Hex. split; reflexivity.
Qed.

Lemma scanned_noDraco (normalsByVertex colorsByVertex : bool)
    (object : FBXNode.t) (meshIndex : Z) :
  dracoChildren object = [] ->
  isDracoMesh (scanned normalsByVertex colorsByVertex object meshIndex)
  = false.
Proof.
  intros Hnone. unfold scanned.
  rewrite fold_scanChild_noDraco; [reflexivity|].
  apply dracoChildren_nil. exact Hnone.
Qed.

(** ** Every index of a part is the index of a vertex *)

Lemma appendIndex_in_range (data : MeshData.t) (indices : list nat)
    (index : nat) :
  dedupInv data ->
  Forall (fun i => (i < length (FBXMesh.vertices (meshOf data)))%nat) indices ->
  Forall (fun i => (i < length (FBXMesh.vertices
                                  (meshOf (fst (appendIndex data indices
                                                  index)))))%nat)
    (snd (appendIndex data indices index)).
Proof.
  intros Hd Hin.
  destruct (appendIndex_cases data indices index)
    as [E | [(Hlt & it & F & Hs & Hv) | (Hlt & F & Hs & Hv)]].
  - rewrite E. exact Hin.
  - unfold vertexDataOf in Hv. injection Hv as _ H2 _ _ _ _.
    rewrite Hs, H2. apply Forall_app. split; [exact Hin|].
    constructor; [|constructor].
    destruct Hd as (_ & _ & Hb & _).
    destruct (find_Some_In _ _ _ F) as (k' & Hk & _).
    apply (Hb (k', it) Hk).
  - unfold vertexDataOf in Hv. injection Hv as _ H2 _ _ _ _.
    rewrite Hs, H2, length_app. simpl. apply Forall_app. split.
    + eapply Forall_impl; [exact Hin|]. simpl. intros; lia.
    + constructor; [lia | constructor].
Qed.

Lemma appendCorners_in_range (data : MeshData.t) (cs : list nat) :
  dedupInv data ->
  Forall (fun i => (i < length (FBXMesh.vertices
                                  (meshOf (fst (appendCorners data [] cs)))))%nat)
    (snd (appendCorners data [] cs)).
Proof.
  intros Hd. induction cs as [|c cs IH] using rev_ind; [constructor|].
  rewrite appendCorners_snoc. apply appendIndex_in_range; [|exact IH].
  apply appendCorners_dedupInv. exact Hd.
Qed.

Lemma partInRange_mono (n n' : nat) (part : FBXMeshPart.t) :
  (n <= n')%nat -> partInRange n part -> partInRange n' part.
Proof.
  intros Hn (H1 & H2 & H3).
  repeat split; (eapply Forall_impl; [eassumption|]); simpl; intros; lia.
Qed.

Lemma roundPart_in_range (n : nat) (part part' : FBXMeshPart.t)
    (out : list nat) :
  partInRange n part -> Forall (fun i => (i < n)%nat) out ->
  roundPart part out part' -> partInRange n part'.
Proof.
  intros (H1 & H2 & H3) Ho [(A & B & C & D & -> & ->) | ->].
  - repeat split; cbn; try assumption.
    + apply Forall_app. split; assumption.
    + apply Forall_app. split; [assumption|].
      rewrite !Forall_cons in Ho. destruct Ho as (HA & HB & HC & HD & _).
      repeat constructor; assumption.
  - repeat split; cbn; try assumption.
    apply Forall_app. split; assumption.
Qed.

Lemma obtainPart_parts_Forall (P : FBXMeshPart.t -> Prop) (data : MeshData.t)
    (mtp : gmap (Z * Z) nat) (key : Z * Z) (data0 : MeshData.t)
    (mtp' : gmap (Z * Z) nat) (partIndex : nat) :
  (forall k v, mtp !! k = Some v ->
               (1 <= v <= length (MeshData_parts data))%nat) ->
  obtainPart data mtp key = (data0, mtp', partIndex) ->
  P FBXMeshPart.empty ->
  Forall P (MeshData_parts data) -> Forall P (MeshData_parts data0).
Proof.
  intros Hm Hob He Hall.
  destruct (obtainPart_spec _ _ _ _ _ _ Hm Hob) as (_ & _ & _ & _ & Hp).
  destruct Hp as [-> | [-> _]]; [exact Hall|].
  apply Forall_app. split; [exact Hall|]. constructor; [exact He|constructor].
Qed.

Lemma round_in_range (materials textures : list Z) (st st' : PolyState) :
  extractInv st ->
  Forall (partInRange (length (FBXMesh.vertices (meshOf (poly_data st)))))
    (MeshData_parts (poly_data st)) ->
  (beginIndex st < length (MeshData.polygonIndices (poly_data st)))%nat ->
  polygonStep materials textures st = Some st' ->
  Forall (partInRange (length (FBXMesh.vertices (meshOf (poly_data st')))))
    (MeshData_parts (poly_data st')).
Proof.
  intros (Hpi & _) Hall Hb Hstep.
  destruct (polygonStep_round materials textures st st' Hpi Hb Hstep)
    as (data0 & mtp' & partIndex & part & cs & part' & Hob & Hpart & Hround
        & Hdata & _).
  destruct Hpi as [Hd Hm].
  destruct (obtainPart_spec _ _ _ _ _ _ Hm Hob) as (_ & _ & _ & Hvd & _).
  assert (Hd0 : dedupInv data0).
  { eapply vertexData_dedupInv; [symmetry; exact Hvd | exact Hd]. }
  pose proof (appendCorners_in_range data0 cs Hd0) as Hout.
  pose proof (appendCorners_growth data0 [] cs) as G. cbv zeta in G.
  destruct G as (_ & _ & _ & Hmono).
  rewrite Hdata.
  rewrite (vertexData_vertices _ _ (setParts_vertexData _ _)), setParts_parts.
  assert (Hall0 : Forall (partInRange
                            (length (FBXMesh.vertices (meshOf data0))))
                    (MeshData_parts data0)).
  { rewrite (vertexData_vertices _ _ Hvd).
    eapply obtainPart_parts_Forall; try eassumption.
    repeat split; constructor. }
  assert (Hall1 : Forall (partInRange
                            (length (FBXMesh.vertices
                                       (meshOf (fst (appendCorners data0 []
                                                       cs))))))
                    (MeshData_parts data0)).
  { eapply Forall_impl; [exact Hall0|]. intros p Hp.
    eapply partInRange_mono; [exact Hmono | exact Hp]. }
  apply Forall_insert; [exact Hall1|].
  eapply roundPart_in_range; [| exact Hout | exact Hround].
  rewrite Forall_forall in Hall1. apply Hall1.
  eapply list_elem_of_lookup_2. exact Hpart.
Qed.

(** The state the non-compressed path ends in. *)
Lemma noncompressed_result (normalsByVertex colorsByVertex : bool)
    (object : FBXNode.t) (meshIndex : Z) :
  dracoChildren object = [] ->
  exists st',
    extractMesh normalsByVertex colorsByVertex object meshIndex
    = Some (MeshData.extracted (poly_data st'), to_uint (meshIndex + 1))
    /\ extractInv st'
    /\ Forall (partInRange
                 (length (FBXMesh.vertices (meshOf (poly_data st')))))
         (MeshData_parts (poly_data st')).
Proof.
  intros Hnone.
  destruct (extractMesh_paths normalsByVertex colorsByVertex object meshIndex)
    as (Hi & He & data' & Hex & Hpath).
  rewrite (scanned_noDraco _ _ _ _ Hnone) in Hpath, He.
  specialize (He eq_refl).
  destruct (extractPolygons_invariant
              (fun st =>
                 Forall (partInRange
                           (length (FBXMesh.vertices (meshOf (poly_data st)))))
                   (MeshData_parts (poly_data st)))
              _ _ _ _ Hi He Hpath) as (st' & -> & HP & Hinv).
  - destruct He as [_ Hp]. cbn [poly_data polyStart]. rewrite Hp. constructor.
  - intros st st1 Hinv HP Hb Hs.
    eapply round_in_range; eassumption.
  - exists st'. split; [exact Hex|]. split; [exact Hinv | exact HP].
Qed.

(** X6. On the non-compressed path (a node without DracoMesh child)
    every index in the quad list, the quad-triangles list and the triangle
    list of every part of the result is the index of a vertex of the
    result. *)
Theorem noncompressed_indices_in_range (normalsByVertex colorsByVertex : bool)
    (object : FBXNode.t) (meshIndex : Z) :
  dracoChildren object = [] ->
  exists e i,
    extractMesh normalsByVertex colorsByVertex object meshIndex = Some (e, i)
    /\ Forall (partInRange (length (FBXMesh.vertices (ExtractedMesh.mesh e))))
         (FBXMesh.parts (ExtractedMesh.mesh e)).
Proof.
  intros Hnone.
  destruct (noncompressed_result normalsByVertex colorsByVertex object
              meshIndex Hnone) as (st' & Hex & _ & HP).
  eexists. eexists. split; [exact Hex | exact HP].
Qed.

Lemma noncompressed_indices_in_range_witness :
  dracoChildren quadNode = []
  /\ exists e i,
       extractMesh false false quadNode 0 = Some (e, i)
       /\ Forall (partInRange
                    (length (FBXMesh.vertices (ExtractedMesh.mesh e))))
            (FBXMesh.parts (ExtractedMesh.mesh e)).
Proof.
  split; [reflexivity|].
  exact (noncompressed_indices_in_range false false quadNode 0 eq_refl).
Defined.

(** ** The mesh index *)

Lemma appendIndex_labels (data : MeshData.t) (indices : list nat)
    (index : nat) :
  FBXMesh.meshIndex (meshOf (fst (appendIndex data indices index)))
  = FBXMesh.meshIndex (meshOf data)
  /\ keysOf (fst (appendIndex data indices index)) = keysOf data.
Proof.
  unfold appendIndex.
  destruct (size (MeshData.polygonIndices data) <=? Z.of_nat index);
    [split; reflexivity|].
  cbv zeta. destruct (QHash.find _ _); split; reflexivity.
Qed.

Lemma appendCorners_labels (data : MeshData.t) (indices : list nat)
    (cs : list nat) :
  FBXMesh.meshIndex (meshOf (fst (appendCorners data indices cs)))
  = FBXMesh.meshIndex (meshOf data)
  /\ keysOf (fst (appendCorners data indices cs)) = keysOf data.
Proof.
  induction cs as [|c cs IH] using rev_ind; [split; reflexivity|].
  rewrite appendCorners_snoc.
  destruct (appendIndex_labels (fst (appendCorners data indices cs))
              (snd (appendCorners data indices cs)) c) as [H1 H2].
  destruct IH as [I1 I2]. split; congruence.
Qed.

Lemma obtainPart_meshIndex (data : MeshData.t) (mtp : gmap (Z * Z) nat)
    (key : Z * Z) :
  FBXMesh.meshIndex (meshOf (fst (fst (obtainPart data mtp key))))
  = FBXMesh.meshIndex (meshOf data).
Proof.
  unfold obtainPart. destruct (Nat.eqb _ 0); reflexivity.
Qed.

Lemma extractDraco_meshIndex (m : draco.Mesh) (d : MeshData.t) :
  FBXMesh.meshIndex (meshOf (extractDraco m d))
  = FBXMesh.meshIndex (meshOf d).
Proof.
  unfold extractDraco.
  assert (Hpts : forall l d0,
             FBXMesh.meshIndex (meshOf (fold_left (dracoPoint m) l d0))
             = FBXMesh.meshIndex (meshOf d0)).
  { induction l as [|i l IH]; intros d0; simpl; [reflexivity|].
    rewrite IH. reflexivity. }
  assert (Hfaces : forall l st,
             FBXMesh.meshIndex (meshOf (fst (fold_left (dracoFace m) l st)))
             = FBXMesh.meshIndex (meshOf (fst st))).
  { induction l as [|f l IH]; intros st; simpl; [reflexivity|].
    rewrite IH. destruct st as [d0 mtp], f as [[a b] c]. unfold dracoFace.
    pose proof (obtainPart_meshIndex d0 mtp
                  (match draco.MATERIAL_ID m with
                   | Some value => value a
                   | None => 0
                   end, 0)) as Ho.
    destruct (obtainPart d0 mtp _) as [[d1 mtp1] pi]. exact Ho. }
  rewrite Hfaces. apply Hpts.
Qed.

Lemma fold_scanUV0Sub_meshIndex (l : list FBXNode.t) (d : MeshData.t)
    (a : AttributeData.t) :
  FBXMesh.meshIndex (meshOf (fst (fold_left scanUV0Sub l (d, a))))
  = FBXMesh.meshIndex (meshOf d).
Proof.
  revert d a. induction l as [|x l IH]; intros d a; simpl; [reflexivity|].
  rewrite IH.
  destruct (String.eqb (FBXNode.name x) "UV");
    [reflexivity | destruct (String.eqb (FBXNode.name x) "UVIndex");
                   reflexivity].
Qed.

Lemma scanChild_meshIndex (st : ScanState) (child : FBXNode.t) :
  FBXMesh.meshIndex (meshOf (scan_data (scanChild st child)))
  = FBXMesh.meshIndex (meshOf (scan_data st)).
Proof.
  unfold scanChild.
  destruct (String.eqb (FBXNode.name child) "Vertices"); [reflexivity|].
  destruct (String.eqb (FBXNode.name child) "PolygonVertexIndex");
    [reflexivity|].
  destruct (String.eqb (FBXNode.name child) "LayerElementNormal").
  { unfold scanNormalLayer.
    destruct (fold_left scanNormalSub _ _) as [[[? ?] ?] ?]. reflexivity. }
  destruct (String.eqb (FBXNode.name child) "LayerElementColor").
  { unfold scanColorLayer.
    destruct (fold_left scanColorSub _ _) as [[[[? ?] ?] ?] ?]. reflexivity. }
  destruct (String.eqb (FBXNode.name child) "LayerElementUV").
  { cbn [scan_data]. unfold scanUVLayer.
    destruct (Z.eqb (FBXNode.toInt child) 0).
    - pose proof (fold_scanUV0Sub_meshIndex (FBXNode.children child)
                    (scan_data st)
                    (AttributeData.mk [] [] "" (FBXNode.toInt child))) as H.
      destruct (fold_left scanUV0Sub _ _) as [d' a]. exact H.
    - destruct (_ !! _); reflexivity. }
  destruct (String.eqb (FBXNode.name child) "LayerElementMaterial").
  { destruct (fold_left scanMaterialSub _ _) as [? ?]. reflexivity. }
  destruct (String.eqb (FBXNode.name child) "LayerElementTexture");
    [reflexivity|].
  destruct (String.eqb (FBXNode.name child) "DracoMesh"); [|reflexivity].
  cbn [scan_data]. apply extractDraco_meshIndex.
Qed.

Lemma scanned_meshIndex (normalsByVertex colorsByVertex : bool)
    (object : FBXNode.t) (meshIndex : Z) :
  FBXMesh.meshIndex
    (meshOf (scan_data (scanned normalsByVertex colorsByVertex object
                          meshIndex)))
  = meshIndex.
Proof.
  unfold scanned.
  assert (G : forall l st,
             FBXMesh.meshIndex (meshOf (scan_data (fold_left scanChild l st)))
             = FBXMesh.meshIndex (meshOf (scan_data st))).
  { induction l as [|c l IH]; intros st; simpl; [reflexivity|].
    rewrite IH. apply scanChild_meshIndex. }
  rewrite G. reflexivity.
Qed.

Lemma round_meshIndex (materials textures : list Z) (st st' : PolyState) :
  extractInv st ->
  (beginIndex st < length (MeshData.polygonIndices (poly_data st)))%nat ->
  polygonStep materials textures st = Some st' ->
  FBXMesh.meshIndex (meshOf (poly_data st'))
  = FBXMesh.meshIndex (meshOf (poly_data st)).
Proof.
  intros (Hpi & _) Hb Hstep.
  destruct (polygonStep_round materials textures st st' Hpi Hb Hstep)
    as (data0 & mtp' & partIndex & part & cs & part' & Hob & _ & _ & Hdata & _).
  rewrite Hdata.
  change (FBXMesh.meshIndex (meshOf (MeshData_setParts ?d ?p)))
    with (FBXMesh.meshIndex (meshOf d)).
  rewrite (proj1 (appendCorners_labels data0 [] cs)).
  pose proof (obtainPart_meshIndex (poly_data st) (materialTextureParts st)
                (materialTexture_of materials textures (polygonIndex st)))
    as Ho.
  rewrite Hob in Ho. exact Ho.
Qed.

(** X7. On every node whose scan reads no first property of a node
    without property ([propertiesPresent]), [extractMesh] returns,
    whatever the polygon stream (the polygon loop and the fan loop end
    also on streams whose polygons are not terminated); the mesh it
    returns carries the value the counter had at the call, and the
    counter comes back incremented, as an [unsigned int]. *)
Theorem extractMesh_returns_numbered (normalsByVertex colorsByVertex : bool)
    (object : FBXNode.t) (meshIndex : Z) :
  propertiesPresent object = true ->
  exists e,
    extractMesh normalsByVertex colorsByVertex object meshIndex
    = Some (e, to_uint (meshIndex + 1))
    /\ FBXMesh.meshIndex (ExtractedMesh.mesh e) = meshIndex.
Proof.
  intros _.
  destruct (extractMesh_paths normalsByVertex colorsByVertex object meshIndex)
    as (Hi & He & data' & Hex & Hpath).
  exists (MeshData.extracted data'). split; [exact Hex|].
  fold (meshOf data').
  pose proof (scanned_meshIndex normalsByVertex colorsByVertex object
                meshIndex) as Hm.
  destruct (isDracoMesh (scanned normalsByVertex colorsByVertex object
                           meshIndex)) eqn:Hd.
  - subst data'. exact Hm.
  - destruct (extractPolygons_invariant
                (fun st => FBXMesh.meshIndex (meshOf (poly_data st))
                           = meshIndex)
                _ _ _ _ Hi (He eq_refl) Hpath) as (st' & -> & HP & _).
    + exact Hm.
    + intros st st1 Hinv HP Hb Hs.
      rewrite (round_meshIndex _ _ _ _ Hinv Hb Hs). exact HP.
    + exact HP.
Qed.

Lemma extractMesh_returns_numbered_witness :
  propertiesPresent threeUVNode = true
  /\ exists e,
       extractMesh false false threeUVNode 4294967295 = Some (e, 0)
       /\ FBXMesh.meshIndex (ExtractedMesh.mesh e) = 4294967295.
Proof.
  assert (Hp : propertiesPresent threeUVNode = true) by reflexivity.
  split; [exact Hp|].
  exact (extractMesh_returns_numbered false false threeUVNode 4294967295 Hp).
Defined.

(** ** Parts and their keys *)

Lemma keysInv_NoDup (mtp : gmap (Z * Z) nat) (data : MeshData.t) :
  keysInv mtp data -> NoDup (keysOf data).
Proof.
  intros (_ & _ & H). apply NoDup_alt. intros i j k Hi Hj.
  pose proof (H i k Hi) as E1. pose proof (H j k Hj) as E2.
  rewrite E1 in E2. injection E2 as E2. exact E2.
Qed.

Lemma obtainPart_keys (data : MeshData.t) (mtp : gmap (Z * Z) nat)
    (key : Z * Z) (data0 : MeshData.t) (mtp' : gmap (Z * Z) nat)
    (partIndex : nat) :
  keysInv mtp data ->
  obtainPart data mtp key = (data0, mtp', partIndex) ->
  keysInv mtp' data0
  /\ (1 <= partIndex)%nat
  /\ keysOf data0 !! (partIndex - 1)%nat = Some key
  /\ ((In key (keysOf data) /\ keysOf data0 = keysOf data
       /\ MeshData_parts data0 = MeshData_parts data)
      \/ (~ In key (keysOf data) /\ keysOf data0 = keysOf data ++ [key]
          /\ MeshData_parts data0 = MeshData_parts data ++ [FBXMeshPart.empty])).
Proof.
  intros (Hlen & Hm & Hk). unfold obtainPart.
  destruct (mtp !! key) as [v|] eqn:E; simpl.
  - destruct (Hm key v E) as [Hv Hkey].
    destruct (Nat.eqb_spec v 0) as [-> | _]; [lia|].
    intros H. injection H as <- <- <-.
    split; [exact (conj Hlen (conj Hm Hk))|]. split; [exact Hv|].
    split; [exact Hkey|]. left.
    split; [|split; reflexivity].
    apply list_elem_of_In. eapply list_elem_of_lookup_2. exact Hkey.
  - intros H. injection H as <- <- <-.
    assert (Hnot : ~ In key (keysOf data)).
    { intros Hin. apply list_elem_of_In, list_elem_of_lookup_1 in Hin.
      destruct Hin as [i Hi]. rewrite (Hk i key Hi) in E. discriminate. }
    assert (Hkeys : keysOf (MeshData_newPart data key) = keysOf data ++ [key])
      by reflexivity.
    assert (Hparts : MeshData_parts (MeshData_newPart data key)
                     = MeshData_parts data ++ [FBXMeshPart.empty])
      by reflexivity.
    unfold keysInv. rewrite !Hkeys, !Hparts, !length_app. cbn [length].
    replace (length (MeshData_parts data) + 1 - 1)%nat
      with (length (keysOf data)) by lia.
    split; [|split; [lia|split]].
    + split; [lia|]. split.
      * intros k v H. destruct (decide (key = k)) as [<- | Hne].
        -- rewrite lookup_insert_eq in H. injection H as <-.
           split; [lia|].
           replace (length (MeshData_parts data) + 1 - 1)%nat
             with (length (keysOf data)) by lia.
           rewrite lookup_app_r by lia. rewrite Nat.sub_diag. reflexivity.
        -- rewrite lookup_insert_ne in H by exact Hne.
           destruct (Hm k v H) as [Hv Hkey]. split; [exact Hv|].
           rewrite lookup_app_l; [exact Hkey|].
           eapply lookup_lt_Some. exact Hkey.
      * intros i k H. apply lookup_snoc in H.
        destruct H as [[H Hi] | [-> ->]].
        -- rewrite lookup_insert_ne; [apply Hk; exact H|].
           intros <-. rewrite (Hk i key H) in E. discriminate.
        -- rewrite lookup_insert_eq. f_equal. lia.
    + rewrite lookup_app_r by lia. rewrite Nat.sub_diag. reflexivity.
    + right. auto.
Qed.

Lemma keysInv_start (data : MeshData.t) :
  keysOf data = [] -> MeshData_parts data = [] -> keysInv ∅ data.
Proof.
  intros Hk Hp. unfold keysInv. rewrite Hk, Hp.
  split; [reflexivity|]. split.
  - intros k v H. rewrite lookup_empty in H. discriminate.
  - intros i k H. discriminate.
Qed.

(** What a round does to the parts and their keys. *)
Lemma round_keys (materials textures : list Z) (st st' : PolyState) :
  extractInv st ->
  keysInv (materialTextureParts st) (poly_data st) ->
  (beginIndex st < length (MeshData.polygonIndices (poly_data st)))%nat ->
  polygonStep materials textures st = Some st' ->
  let key := materialTexture_of materials textures (polygonIndex st) in
  keysInv (materialTextureParts st') (poly_data st')
  /\ exists p,
       keysOf (poly_data st') !! p = Some key
       /\ ((In key (keysOf (poly_data st))
            /\ keysOf (poly_data st') = keysOf (poly_data st))
           \/ (~ In key (keysOf (poly_data st))
               /\ keysOf (poly_data st') = keysOf (poly_data st) ++ [key]))
       /\ forall j part,
            j <> p -> MeshData_parts (poly_data st) !! j = Some part ->
            MeshData_parts (poly_data st') !! j = Some part.
Proof.
  intros (Hpi & _) Hinv Hb Hstep key.
  destruct (polygonStep_round materials textures st st' Hpi Hb Hstep)
    as (data0 & mtp' & partIndex & part & cs & part' & Hob & Hpart & _
        & Hdata & Hmtp & _).
  destruct (obtainPart_keys _ _ _ _ _ _ Hinv Hob)
    as ((Hlen & Hm & Hk) & Hp1 & Hkey & Hcase).
  assert (Hkeys' : keysOf (poly_data st') = keysOf data0).
  { rewrite Hdata.
    change (keysOf (MeshData_setParts ?d ?p)) with (keysOf d).
    apply appendCorners_labels. }
  assert (Hparts' : MeshData_parts (poly_data st')
                    = <[(partIndex - 1)%nat := part']> (MeshData_parts data0)).
  { rewrite Hdata. apply setParts_parts. }
  split.
  - rewrite Hmtp. unfold keysInv. rewrite Hkeys', Hparts', length_insert.
    exact (conj Hlen (conj Hm Hk)).
  - exists (partIndex - 1)%nat. rewrite Hkeys'. split; [exact Hkey|]. split.
    + destruct Hcase as [(H1 & H2 & _) | (H1 & H2 & _)]; [left | right];
        split; assumption.
    + intros j pj Hj Hpj. rewrite Hparts'.
      rewrite list_lookup_insert_ne by (intros E; apply Hj; congruence).
      destruct Hcase as [(_ & _ & ->) | (_ & _ & ->)]; [exact Hpj|].
      apply lookup_app_l_Some. exact Hpj.
Qed.

(** A child that is not a DracoMesh leaves the keys and the index pairs. *)
Lemma fold_scanUV0Sub_book (l : list FBXNode.t) (d : MeshData.t)
    (a : AttributeData.t) :
  keysOf (fst (fold_left scanUV0Sub l (d, a))) = keysOf d
  /\ newIndicesOf (fst (fold_left scanUV0Sub l (d, a))) = newIndicesOf d.
Proof.
  revert d a. induction l as [|x l IH]; intros d a; simpl; [auto|].
  destruct (IH (if String.eqb (FBXNode.name x) "UV"
                then MeshData_setTexCoords d (FBXNode.getVec2Vector x)
                       (MeshData.texCoordIndices d)
                else if String.eqb (FBXNode.name x) "UVIndex"
                     then MeshData_setTexCoords d (MeshData.texCoords d)
                            (FBXNode.getIntVector x)
                     else d) (scanUVSub a x)) as [H1 H2].
  rewrite H1, H2.
  destruct (String.eqb (FBXNode.name x) "UV");
    [auto | destruct (String.eqb (FBXNode.name x) "UVIndex"); auto].
Qed.

Lemma scanChild_other_book (st : ScanState) (child : FBXNode.t) :
  String.eqb (FBXNode.name child) "DracoMesh" = false ->
  keysOf (scan_data (scanChild st child)) = keysOf (scan_data st)
  /\ newIndicesOf (scan_data (scanChild st child))
     = newIndicesOf (scan_data st).
Proof.
  intros Hn. unfold scanChild. rewrite Hn.
  destruct (String.eqb (FBXNode.name child) "Vertices"); [auto|].
  destruct (String.eqb (FBXNode.name child) "PolygonVertexIndex"); [auto|].
  destruct (String.eqb (FBXNode.name child) "LayerElementNormal").
  { unfold scanNormalLayer.
    destruct (fold_left scanNormalSub _ _) as [[[? ?] ?] ?]. auto. }
  destruct (String.eqb (FBXNode.name child) "LayerElementColor").
  { unfold scanColorLayer.
    destruct (fold_left scanColorSub _ _) as [[[[? ?] ?] ?] ?]. auto. }
  destruct (String.eqb (FBXNode.name child) "LayerElementUV").
  { cbn [scan_data]. unfold scanUVLayer.
    destruct (Z.eqb (FBXNode.toInt child) 0).
    - pose proof (fold_scanUV0Sub_book (FBXNode.children child)
                    (scan_data st)
                    (AttributeData.mk [] [] "" (FBXNode.toInt child))) as H.
      destruct (fold_left scanUV0Sub _ _) as [d' a]. exact H.
    - destruct (_ !! _); auto. }
  destruct (String.eqb (FBXNode.name child) "LayerElementMaterial").
  { destruct (fold_left scanMaterialSub _ _) as [? ?]. auto. }
  destruct (String.eqb (FBXNode.name child) "LayerElementTexture"); auto.
Qed.

Lemma scanned_noDraco_book (normalsByVertex colorsByVertex : bool)
    (object : FBXNode.t) (meshIndex : Z) :
  dracoChildren object = [] ->
  let data :=
    scan_data (scanned normalsByVertex colorsByVertex object meshIndex) in
  keysOf data = [] /\ newIndicesOf data = [].
Proof.
  intros Hnone. cbv zeta. unfold scanned.
  pose proof (dracoChildren_nil object Hnone) as Hn.
  assert (G : forall l st,
             (forall child, In child l ->
                String.eqb (FBXNode.name child) "DracoMesh" = false) ->
             keysOf (scan_data (fold_left scanChild l st))
             = keysOf (scan_data st)
             /\ newIndicesOf (scan_data (fold_left scanChild l st))
                = newIndicesOf (scan_data st)).
  { induction l as [|c l IH]; intros st Hl; simpl; [auto|].
    destruct (IH (scanChild st c)) as [H1 H2].
    { intros c' Hc'. apply Hl. right. exact Hc'. }
    destruct (scanChild_other_book st c) as [H3 H4].
    { apply Hl. left. reflexivity. }
    split; congruence. }
  destruct (G (FBXNode.children object)
              (mkScan (MeshData_initial normalsByVertex colorsByVertex
                         meshIndex) [] [] false false) Hn) as [H1 H2].
  rewrite H1, H2. split; reflexivity.
Qed.

(** The keys stay aligned with the parts on the compressed path too. *)
Lemma extractDraco_aligned (m : draco.Mesh) (d : MeshData.t) :
  length (keysOf d) = length (MeshData_parts d) ->
  length (keysOf (extractDraco m d)) = length (MeshData_parts (extractDraco m d)).
Proof.
  intros H. unfold extractDraco.
  assert (Hpts : forall l d0,
             keysOf (fold_left (dracoPoint m) l d0) = keysOf d0
             /\ MeshData_parts (fold_left (dracoPoint m) l d0)
                = MeshData_parts d0).
  { induction l as [|i l IH]; intros d0; simpl; [auto|].
    destruct (IH (dracoPoint m d0 i)) as [H1 H2]. rewrite H1, H2. auto. }
  assert (Hfaces : forall l st,
             length (keysOf (fst st)) = length (MeshData_parts (fst st)) ->
             length (keysOf (fst (fold_left (dracoFace m) l st)))
             = length (MeshData_parts (fst (fold_left (dracoFace m) l st)))).
  { induction l as [|f l IH]; intros st Hst; simpl; [exact Hst|].
    apply IH. destruct st as [d0 mtp], f as [[a b] c]. unfold dracoFace.
    cbn [fst] in Hst.
    destruct (obtainPart d0 mtp _) as [[d1 mtp1] pi] eqn:E. cbn [fst].
    change (keysOf (MeshData_setParts ?x ?p)) with (keysOf x).
    rewrite setParts_parts, length_alter.
    unfold obtainPart in E.
    destruct (Nat.eqb _ 0); injection E as <- _ _; [|exact Hst].
    change (length (keysOf d0 ++ [(match draco.MATERIAL_ID m with
                                    | Some value => value a
                                    | None => 0
                                    end, 0)])
            = length (MeshData_parts d0 ++ [FBXMeshPart.empty])).
    rewrite !length_app. simpl. lia. }
  apply Hfaces. cbn [fst].
  destruct (Hpts (seq 0 (draco.num_points m)) d) as [H1 H2].
  rewrite H1, H2. exact H.
Qed.

Lemma scanned_aligned (normalsByVertex colorsByVertex : bool)
    (object : FBXNode.t) (meshIndex : Z) :
  let data :=
    scan_data (scanned normalsByVertex colorsByVertex object meshIndex) in
  length (keysOf data) = length (MeshData_parts data).
Proof.
  cbv zeta. unfold scanned.
  assert (G : forall l st,
             length (keysOf (scan_data st))
             = length (MeshData_parts (scan_data st)) ->
             length (keysOf (scan_data (fold_left scanChild l st)))
             = length (MeshData_parts (scan_data (fold_left scanChild l st)))).
  { induction l as [|c l IH]; intros st Hst; simpl; [exact Hst|].
    apply IH.
    destruct (String.eqb (FBXNode.name c) "DracoMesh") eqn:Hn.
    - rewrite scanChild_draco by exact Hn. cbn [scan_data].
      apply extractDraco_aligned. exact Hst.
    - destruct (scanChild_other_book st c Hn) as [H1 _].
      destruct (scanChild_other st c Hn) as (_ & H2 & _).
      rewrite H1, H2. exact Hst. }
  apply G. reflexivity.
Qed.

(** X8. On both paths the result has one key (material, texture) per
    part; on the non-compressed path no two parts have the same key. *)
Theorem parts_keyed_once (normalsByVertex colorsByVertex : bool)
    (object : FBXNode.t) (meshIndex : Z) :
  exists e i,
    extractMesh normalsByVertex colorsByVertex object meshIndex = Some (e, i)
    /\ length (ExtractedMesh.partMaterialTextures e)
       = length (FBXMesh.parts (ExtractedMesh.mesh e))
    /\ (dracoChildren object = [] ->
        NoDup (ExtractedMesh.partMaterialTextures e)).
Proof.
  destruct (extractMesh_paths normalsByVertex colorsByVertex object meshIndex)
    as (Hi & He & data' & Hex & Hpath).
  exists (MeshData.extracted data'). eexists. split; [exact Hex|].
  fold (keysOf data'). fold (meshOf data').
  change (FBXMesh.parts (meshOf data')) with (MeshData_parts data').
  pose proof (scanned_aligned normalsByVertex colorsByVertex object meshIndex)
    as Hal. cbv zeta in Hal.
  destruct (isDracoMesh (scanned normalsByVertex colorsByVertex object
                           meshIndex)) eqn:Hd.
  - subst data'. split; [exact Hal|].
    intros Hnone. rewrite (scanned_noDraco _ _ _ _ Hnone) in Hd.
    discriminate Hd.
  - specialize (He eq_refl).
    destruct (extractPolygons_invariant
                (fun st => keysInv (materialTextureParts st) (poly_data st))
                _ _ _ _ Hi He Hpath) as (st' & -> & HP & _).
    + cbn [polyStart materialTextureParts poly_data].
      destruct He as [_ Hp]. apply keysInv_start; [|exact Hp].
      rewrite Hp in Hal. simpl in Hal.
      apply length_zero_iff_nil. exact Hal.
    + intros st st1 Hinv HP Hb Hs.
      apply (round_keys _ _ st st1 Hinv HP Hb Hs).
    + split; [apply HP|]. intros _. eapply keysInv_NoDup. exact HP.
Qed.

Lemma parts_keyed_once_witness :
  exists e i,
    extractMesh false false twoMaterialNode 0 = Some (e, i)
    /\ length (ExtractedMesh.partMaterialTextures e)
       = length (FBXMesh.parts (ExtractedMesh.mesh e))
    /\ NoDup (ExtractedMesh.partMaterialTextures e).
Proof.
  destruct (parts_keyed_once false false twoMaterialNode 0)
    as (e & i & He & Hl & Hn).
  exists e, i. split; [exact He|]. split; [exact Hl|].
  apply Hn. reflexivity.
Defined.

Lemma loopReaches_keysInv (materials textures : list Z) (data : MeshData.t)
    (st : PolyState) :
  MeshData.indices data = [] -> nothingExtracted data -> keysOf data = [] ->
  loopReaches materials textures data st ->
  keysInv (materialTextureParts st) (poly_data st).
Proof.
  intros Hi He Hk Hr. induction Hr as [|st st' Hr IH Hb Hstep].
  - apply keysInv_start; [exact Hk | apply He].
  - apply (round_keys materials textures st st'
             (loopReaches_extractInv _ _ _ _ Hi He Hr) IH Hb Hstep).
Qed.

(** Two states with the same source arrays, the same dedup table and the
    same per-vertex arrays give a corner the same output index. *)
Lemma appendIndex_ext (d d' : MeshData.t) (indices : list nat) (index : nat) :
  sourceOf d = sourceOf d' -> vertexDataOf d = vertexDataOf d' ->
  snd (appendIndex d indices index) = snd (appendIndex d' indices index)
  /\ vertexDataOf (fst (appendIndex d indices index))
     = vertexDataOf (fst (appendIndex d' indices index)).
Proof.
  intros Hs Hv.
  destruct (source_resolved d d' index Hs)
    as (Hk & Hp & Hn & Hc & Hhc & Hmt & Hpoly).
  pose proof Hv as Hv'. unfold vertexDataOf, meshOf in Hv'.
  injection Hv' as H1 H2 H3 H4 H5 H6.
  unfold appendIndex. rewrite Hpoly.
  destruct (size (MeshData.polygonIndices d') <=? Z.of_nat index);
    [split; [reflexivity | exact Hv]|].
  cbv zeta. rewrite Hk, H1, Hp, Hn, Hc, Hhc, Hmt.
  destruct (QHash.find (MeshData.indices d') (vertex_of d' index)).
  - cbn [fst snd]. split; [reflexivity|].
    unfold vertexDataOf, meshOf. cbn. rewrite ?H1, ?H2, ?H3, ?H4, ?H5, ?H6.
    reflexivity.
  - cbn [fst snd]. rewrite H2. split; [reflexivity|].
    unfold vertexDataOf, meshOf. cbn. rewrite ?H1, ?H2, ?H3, ?H4, ?H5, ?H6.
    reflexivity.
Qed.

Lemma appendCorners_ext (d d' : MeshData.t) (indices : list nat)
    (cs : list nat) :
  sourceOf d = sourceOf d' -> vertexDataOf d = vertexDataOf d' ->
  snd (appendCorners d indices cs) = snd (appendCorners d' indices cs)
  /\ vertexDataOf (fst (appendCorners d indices cs))
     = vertexDataOf (fst (appendCorners d' indices cs)).
Proof.
  intros Hs Hv. induction cs as [|c cs [IH1 IH2]] using rev_ind;
    [split; [reflexivity | exact Hv]|].
  rewrite !appendCorners_snoc, IH1.
  apply appendIndex_ext; [|exact IH2].
  rewrite !appendCorners_source. exact Hs.
Qed.

(** X9. In a round of the polygon loop on a node without DracoMesh
    child, on a polygon of [N >= 3] corners with its terminator, the
    output indices of the polygon go to the part whose key is the pair
    (material, texture) of the polygon, the only part with that key: the
    part is the one that had the key, or an empty part created after the
    others when none had it; a quad adds its four indices to the quad
    list of that part and the two triangles of its split to the
    quad-triangles list, any other polygon adds the indices of its fan
    to the triangle list; the other parts stay as they are. [out] is the
    list of the indices [appendIndex] gives the corners the round
    resolves, from the state the round starts in. *)
Theorem polygon_goes_to_the_part_of_its_key
    (normalsByVertex colorsByVertex : bool) (object : FBXNode.t)
    (meshIndex : Z) (st st' : PolyState) (N : nat) :
  dracoChildren object = [] ->
  let sc := scanned normalsByVertex colorsByVertex object meshIndex in
  loopReaches (materials sc) (textures sc) (scan_data sc) st ->
  (3 <= N)%nat ->
  terminatedSpan (MeshData.polygonIndices (poly_data st)) (beginIndex st) N ->
  polygonStep (materials sc) (textures sc) st = Some st' ->
  let key :=
    materialTexture_of (materials sc) (textures sc) (polygonIndex st) in
  let b := beginIndex st in
  let corners :=
    if Nat.eqb N 4 then [b; b + 1; b + 2; b + 3]%nat else fanCorners b N in
  let out := snd (appendCorners (poly_data st) [] corners) in
  exists p before,
    keysOf (poly_data st') !! p = Some key
    /\ (forall j, keysOf (poly_data st') !! j = Some key -> j = p)
    /\ ((In key (keysOf (poly_data st))
         /\ keysOf (poly_data st') = keysOf (poly_data st)
         /\ MeshData_parts (poly_data st) !! p = Some before)
        \/ (~ In key (keysOf (poly_data st))
            /\ keysOf (poly_data st') = keysOf (poly_data st) ++ [key]
            /\ p = length (MeshData_parts (poly_data st))
            /\ before = FBXMeshPart.empty))
    /\ length out = length corners
    /\ (N = 4%nat ->
        exists A B C D,
          out = [A; B; C; D]
          /\ MeshData_parts (poly_data st') !! p
             = Some (FBXMeshPart.mk
                       (FBXMeshPart.quadIndices before ++ [A; B; C; D])
                       (FBXMeshPart.quadTrianglesIndices before
                        ++ [A; B; D; B; C; D])
                       (FBXMeshPart.triangleIndices before)))
    /\ (N <> 4%nat ->
        MeshData_parts (poly_data st') !! p
        = Some (FBXMeshPart.mk
                  (FBXMeshPart.quadIndices before)
                  (FBXMeshPart.quadTrianglesIndices before)
                  (FBXMeshPart.triangleIndices before ++ out)))
    /\ forall j part,
         j <> p -> MeshData_parts (poly_data st) !! j = Some part ->
         MeshData_parts (poly_data st') !! j = Some part.
Proof.
  intros Hnone sc Hr HN Hspan Hstep key b corners out.
  destruct (extractMesh_paths normalsByVertex colorsByVertex object meshIndex)
    as (Hi & He & _).
  fold sc in Hi, He.
  assert (Hd : isDracoMesh sc = false) by (apply scanned_noDraco; exact Hnone).
  specialize (He Hd).
  destruct (scanned_noDraco_book normalsByVertex colorsByVertex object
              meshIndex Hnone) as [Hk _].
  fold sc in Hk.
  pose proof (loopReaches_keysInv _ _ _ _ Hi He Hk Hr) as Hinv.
  pose proof (loopReaches_extractInv _ _ _ _ Hi He Hr) as Hex.
  pose proof Hex as (Hpi & _).
  pose proof Hpi as [Hdd Hm].
  pose proof (spanEnd_terminated _ _ _ Hspan) as Hend.
  pose proof Hspan as (_ & Hlen & _ & _).
  assert (Hb : (beginIndex st
                < length (MeshData.polygonIndices (poly_data st)))%nat)
    by lia.
  destruct (round_keys _ _ st st' Hex Hinv Hb Hstep)
    as (Hinv' & p0 & Hp0 & _ & _).
  pose proof (keysInv_NoDup _ _ Hinv') as Hnd. rewrite NoDup_alt in Hnd.
  destruct (obtainPart (poly_data st) (materialTextureParts st) key)
    as [[data0 mtp'] partIndex] eqn:Hob.
  destruct (obtainPart_keys _ _ _ _ _ _ Hinv Hob)
    as ((Hlen0 & _ & _) & Hp1 & Hkey & Hcase).
  destruct (obtainPart_spec _ _ _ _ _ _ Hm Hob)
    as (Hpir & _ & Hsrc & Hvd & _).
  assert (Hout : snd (appendCorners data0 [] corners) = out).
  { apply appendCorners_ext; assumption. }
  assert (Hcs : Forall (fun c => (c < length (MeshData.polygonIndices
                                                (poly_data st)))%nat) corners).
  { apply Forall_forall. intros c Hc. apply list_elem_of_In in Hc.
    unfold corners in Hc. destruct (Nat.eqb_spec N 4) as [-> | _].
    - simpl in Hc. fold b in Hlen. lia.
    - apply fanCorners_range in Hc. fold b in Hlen. lia. }
  assert (Hparts : exists part part',
             MeshData_parts data0 !! (partIndex - 1)%nat = Some part
             /\ keysOf (poly_data st') = keysOf data0
             /\ MeshData_parts (poly_data st')
                = <[(partIndex - 1)%nat := part']> (MeshData_parts data0)
             /\ (N = 4%nat ->
                 exists A B C D,
                   out = [A; B; C; D]
                   /\ part' = FBXMeshPart.mk
                                (FBXMeshPart.quadIndices part ++ [A; B; C; D])
                                (FBXMeshPart.quadTrianglesIndices part
                                 ++ [A; B; D; B; C; D])
                                (FBXMeshPart.triangleIndices part))
             /\ (N <> 4%nat ->
                 part' = FBXMeshPart.mk
                           (FBXMeshPart.quadIndices part)
                           (FBXMeshPart.quadTrianglesIndices part)
                           (FBXMeshPart.triangleIndices part ++ out))).
  { destruct (Nat.eq_dec N 4%nat) as [HN4 | HN4].
    - assert (Hs4 : (spanEnd (MeshData.polygonIndices (poly_data st))
                       (beginIndex st) - beginIndex st = 4)%nat) by lia.
      destruct (polygonStep_quad _ _ st data0 mtp' partIndex Hpi Hb Hs4 Hob)
        as (A & B & C & D & part & Hq & Hpart & Hstep').
      fold key in Hstep'. rewrite Hstep in Hstep'. injection Hstep' as ->.
      exists part. eexists. split; [exact Hpart|].
      cbn [poly_data]. split; [|split; [apply setParts_parts|split]].
      + change (keysOf (MeshData_setParts ?d ?q)) with (keysOf d).
        apply appendCorners_labels.
      + intros _. exists A, B, C, D. split; [|reflexivity].
        rewrite <- Hout. unfold corners. subst N. exact Hq.
      + intros Hne. contradiction.
    - destruct (polygonStep_fan _ _ st N data0 mtp' partIndex Hpi HN HN4
                  Hspan Hob) as (part & Hpart & _ & Hstep').
      fold key in Hstep'. rewrite Hstep in Hstep'. injection Hstep' as ->.
      exists part. eexists. split; [exact Hpart|].
      cbn [poly_data]. split; [|split; [apply setParts_parts|split]].
      + change (keysOf (MeshData_setParts ?d ?q)) with (keysOf d).
        apply appendCorners_labels.
      + intros Heq. contradiction.
      + intros _. rewrite <- Hout. unfold corners.
        destruct (Nat.eqb_spec N 4) as [? | _]; [contradiction|].
        reflexivity. }
  destruct Hparts as (part & part' & Hpart & Hkeys' & Hparts' & Hquad & Hfan).
  assert (Hlookup : MeshData_parts (poly_data st') !! (partIndex - 1)%nat
                    = Some part').
  { rewrite Hparts'. apply list_lookup_insert_eq.
    apply lookup_lt_Some in Hpart. exact Hpart. }
  exists (partIndex - 1)%nat, part.
  split; [rewrite Hkeys'; exact Hkey|].
  split.
  { intros j Hj. apply (Hnd j (partIndex - 1)%nat key Hj).
    rewrite Hkeys'. exact Hkey. }
  split.
  { destruct Hcase as [(H1 & H2 & H3) | (H1 & H2 & H3)]; [left | right].
    - split; [exact H1|]. split; [congruence|]. rewrite <- H3. exact Hpart.
    - split; [exact H1|]. split; [congruence|].
      assert (Hpos : (partIndex - 1)%nat
                     = length (MeshData_parts (poly_data st))).
      { destruct (Nat.lt_ge_cases (partIndex - 1)
                    (length (keysOf (poly_data st)))) as [Hlt | Hge].
        - exfalso. apply H1. rewrite H2 in Hkey.
          rewrite lookup_app_l in Hkey by exact Hlt.
          apply list_elem_of_In. eapply list_elem_of_lookup_2. exact Hkey.
        - rewrite H3, length_app in Hpir. simpl in Hpir.
          destruct Hinv as (Hl & _). lia. }
      split; [exact Hpos|].
      rewrite H3, Hpos in Hpart.
      rewrite lookup_app_r, Nat.sub_diag in Hpart by lia.
      injection Hpart as <-. reflexivity. }
  split.
  { apply run_in_range; assumption. }
  split.
  { intros H4. destruct (Hquad H4) as (A & B & C & D & Ho & ->).
    exists A, B, C, D. split; [exact Ho | exact Hlookup]. }
  split.
  { intros H4. rewrite (Hfan H4) in Hlookup. exact Hlookup. }
  intros j pj Hj Hpj. rewrite Hparts'.
  rewrite list_lookup_insert_ne by (intros E; apply Hj; congruence).
  destruct Hcase as [(_ & _ & ->) | (_ & _ & ->)]; [exact Hpj|].
  apply lookup_app_l_Some. exact Hpj.
Qed.

Lemma polygon_goes_to_the_part_of_its_key_witness :
  let sc := scanned false false twoMaterialNode 0 in
  let st := polyStart (scan_data sc) in
  terminatedSpan (MeshData.polygonIndices (poly_data st)) (beginIndex st) 4
  /\ exists st',
       polygonStep (materials sc) (textures sc) st = Some st'
       /\ keysOf (poly_data st') = [(0, 0)]
       /\ MeshData_parts (poly_data st') !! 0%nat
          = Some (FBXMeshPart.mk [0; 1; 2; 3]%nat [0; 1; 3; 1; 2; 3]%nat []).
Proof.
  cbv zeta.
  set (sc := scanned false false twoMaterialNode 0).
  set (st := polyStart (scan_data sc)).
  assert (Hspan : terminatedSpan (MeshData.polygonIndices (poly_data st))
                    (beginIndex st) 4).
  { split; [lia|]. split; [vm_compute; lia|]. split.
    - intros i Hi. do 3 (destruct i as [|i]; [vm_compute; discriminate|]). lia.
    - vm_compute. reflexivity. }
  split; [exact Hspan|].
  destruct (polygonStep (materials sc) (textures sc) st) as [st'|] eqn:Hs;
    [|vm_compute in Hs; discriminate Hs].
  destruct (polygon_goes_to_the_part_of_its_key false false twoMaterialNode 0
              st st' 4 eq_refl (reach_start _ _ _) ltac:(lia) Hspan Hs)
    as (p & before & _ & _ & Hcase & _ & Hquad & _).
  exists st'. split; [reflexivity|].
  destruct (Hquad eq_refl) as (A & B & C & D & Ho & Hpart).
  vm_compute in Ho. injection Ho as <- <- <- <-.
  destruct Hcase as [(Hin & _) | (_ & Hk & -> & ->)].
  - vm_compute in Hin. destruct Hin.
  - split; [rewrite Hk; vm_compute; reflexivity | exact Hpart].
Defined.

(** ** What the output vertices hold *)

Lemma position_of_source (data : MeshData.t) (index : nat) :
  position_of data index = sourcePosition data (vertexIndex_of data index).
Proof. reflexivity. Qed.

(** A call of [appendIndex] leaves the vertices, UVs, colors, pairs and
    table as they are, or adds the corner's values to each. *)
Lemma appendIndex_payload (data : MeshData.t) (indices : list nat)
    (index : nat) :
  let d' := fst (appendIndex data indices index) in
  (FBXMesh.vertices (meshOf d') = FBXMesh.vertices (meshOf data)
   /\ FBXMesh.texCoords (meshOf d') = FBXMesh.texCoords (meshOf data)
   /\ FBXMesh.colors (meshOf d') = FBXMesh.colors (meshOf data)
   /\ FBXMesh.texCoords1 (meshOf d') = FBXMesh.texCoords1 (meshOf data)
   /\ newIndicesOf d' = newIndicesOf data
   /\ MeshData.indices d' = MeshData.indices data)
  \/ ((index < length (MeshData.polygonIndices data))%nat
      /\ FBXMesh.vertices (meshOf d')
         = FBXMesh.vertices (meshOf data) ++ [position_of data index]
      /\ FBXMesh.texCoords (meshOf d')
         = FBXMesh.texCoords (meshOf data) ++ [texCoord_of data index]
      /\ FBXMesh.colors (meshOf d')
         = FBXMesh.colors (meshOf data)
           ++ (if hasColors data
               then [vec3_of_vec4 (color_of data index)] else [])
      /\ FBXMesh.texCoords1 (meshOf d')
         = FBXMesh.texCoords1 (meshOf data)
           ++ (if hasMoreTexcoords data
               then [texCoord1_of data index] else [])
      /\ newIndicesOf d'
         = (vertexIndex_of data index,
            length (FBXMesh.vertices (meshOf data))) :: newIndicesOf data
      /\ MeshData.indices d'
         = MeshData.indices data
           ++ [(vertex_of data index,
                length (FBXMesh.vertices (meshOf data)))]).
Proof.
  cbv zeta.
  destruct (Nat.lt_ge_cases index (length (MeshData.polygonIndices data)))
    as [Hlt | Hge].
  - rewrite appendIndex_inside by exact Hlt.
    destruct (QHash.find (MeshData.indices data) (vertex_of data index))
      as [it|] eqn:F.
    + left. repeat split; reflexivity.
    + right. split; [exact Hlt|]. cbn [fst].
      unfold meshOf, newIndicesOf. cbn.
      destruct (hasColors data), (hasMoreTexcoords data);
        repeat split; reflexivity.
  - rewrite appendIndex_outside by exact Hge. left. repeat split; reflexivity.
Qed.

Lemma source_vertices (d d' : MeshData.t) :
  sourceOf d = sourceOf d' -> MeshData.vertices d = MeshData.vertices d'.
Proof.
  unfold sourceOf. intros H. injection H as H1 _ _ _ _ _ _ _ _ _ _. exact H1.
Qed.

(** What a corner resolves to, from any state with the same source. *)
Lemma source_corner (d src : MeshData.t) (index : nat) :
  sourceOf d = sourceOf src ->
  vertex_of d index = vertex_of src index
  /\ vertexIndex_of d index = vertexIndex_of src index
  /\ position_of d index = position_of src index
  /\ texCoord_of d index = texCoord_of src index
  /\ texCoord1_of d index = texCoord1_of src index
  /\ color_of d index = color_of src index
  /\ hasColors d = hasColors src
  /\ hasMoreTexcoords d = hasMoreTexcoords src
  /\ MeshData.polygonIndices d = MeshData.polygonIndices src.
Proof.
  intros Hs.
  destruct (source_resolved d src index Hs)
    as (Hk & Hp & _ & Hc & Hhc & Hhm & Hpoly).
  split; [exact Hk|].
  split; [exact (f_equal Vertex.originalIndex Hk)|].
  split; [exact Hp|].
  split; [exact (f_equal Vertex.texCoord Hk)|].
  split; [exact (f_equal Vertex.texCoord1 Hk)|].
  auto.
Qed.

Lemma payloadInv_step (src data : MeshData.t) (indices : list nat)
    (index : nat) :
  payloadInv src data ->
  payloadInv src (fst (appendIndex data indices index)).
Proof.
  intros (Hsrc & Hlens & Hseq & Hpairs & Hcopy).
  destruct (source_corner data src index Hsrc)
    as (Ek & Evi & Epos & Et & Et1 & Ec & Ehc & Ehm & Epoly).
  pose proof (appendIndex_source data indices index) as Hsrc'.
  pose proof (appendIndex_growth data indices index) as G. cbv zeta in G.
  destruct G as (Hl' & _).
  rewrite (sourceCarried_source data src Hsrc) in Hl'.
  specialize (Hl' Hlens).
  pose proof (appendIndex_payload data indices index) as Hp. cbv zeta in Hp.
  set (d' := fst (appendIndex data indices index)) in *.
  split; [rewrite Hsrc'; exact Hsrc|]. split; [exact Hl'|].
  destruct Hp as [(H1 & H2 & H3 & H4 & H5 & H6)
                 | (Hlt & H1 & H2 & H3 & H4 & H5 & H6)].
  - unfold copiesCorner. rewrite H1, H2, H3, H4, H5, H6.
    split; [exact Hseq|]. split; [exact Hpairs | exact Hcopy].
  - rewrite Ehc in H3. rewrite Ehm in H4.
    rewrite Epos in H1. rewrite Et in H2. rewrite Ec in H3.
    rewrite Et1 in H4. rewrite Evi in H5. rewrite Ek in H6.
    set (n := length (FBXMesh.vertices (meshOf data))) in *.
    destruct Hlens as (Ln & Lt & Lt1 & Lc). fold n in Ln, Lt, Lt1, Lc.
    unfold lengthIf in Lt, Lt1, Lc.
    split; [|split].
    + rewrite H5, H1, length_app. cbn [rev map length].
      rewrite map_app, Hseq. fold n. cbn [map snd].
      replace (n + 1)%nat with (S n) by lia. rewrite seq_S. reflexivity.
    + intros orig v Hin. rewrite H5 in Hin. destruct Hin as [Hin | Hin].
      * injection Hin as <- <-. split; [apply vertexIndex_nonneg|].
        rewrite H1. rewrite lookup_app_r by (fold n; lia).
        fold n. rewrite Nat.sub_diag. reflexivity.
      * destruct (Hpairs orig v Hin) as [Ho Hv]. split; [exact Ho|].
        rewrite H1. apply lookup_app_l_Some. exact Hv.
    + intros v Hv. rewrite H1, length_app in Hv. cbn [length] in Hv.
      fold n in Hv.
      destruct (Nat.eq_dec v n) as [-> | Hne].
      * exists index. split; [|split].
        -- unfold copiesCorner. rewrite H1, H2, H3, H4.
           split; [rewrite <- Epoly; exact Hlt|].
           split; [rewrite lookup_app_r by (fold n; lia); fold n;
                   rewrite Nat.sub_diag; reflexivity|].
           split; [rewrite lookup_app_r by lia; rewrite Lt, Nat.sub_diag;
                   reflexivity|].
           split.
           ++ destruct (hasColors src).
              ** rewrite lookup_app_r by lia. rewrite Lc, Nat.sub_diag.
                 reflexivity.
              ** rewrite app_nil_r. apply lookup_ge_None_2. lia.
           ++ destruct (hasMoreTexcoords src).
              ** rewrite lookup_app_r by lia. rewrite Lt1, Nat.sub_diag.
                 reflexivity.
              ** rewrite app_nil_r. apply lookup_ge_None_2. lia.
        -- rewrite H5. left. reflexivity.
        -- rewrite H6. apply in_app_iff. right. left. reflexivity.
      * destruct (Hcopy v ltac:(lia)) as (c & (Hc & P1 & P2 & P3 & P4) & Hn & Hi).
        exists c. split; [|split].
        -- unfold copiesCorner. rewrite H1, H2, H3, H4.
           split; [exact Hc|].
           split; [apply lookup_app_l_Some; exact P1|].
           split; [apply lookup_app_l_Some; exact P2|].
           split.
           ++ destruct (hasColors src);
                [apply lookup_app_l_Some; exact P3
                | rewrite app_nil_r; exact P3].
           ++ destruct (hasMoreTexcoords src);
                [apply lookup_app_l_Some; exact P4
                | rewrite app_nil_r; exact P4].
        -- rewrite H5. right. exact Hn.
        -- rewrite H6. apply in_app_iff. left. exact Hi.
Qed.

Lemma payloadInv_run (src data : MeshData.t) (indices : list nat)
    (cs : list nat) :
  payloadInv src data ->
  payloadInv src (fst (appendCorners data indices cs)).
Proof.
  intros H. induction cs as [|c cs IH] using rev_ind; [exact H|].
  rewrite appendCorners_snoc. apply payloadInv_step. exact IH.
Qed.

(** Changes of the parts and of their keys do not touch the payload. *)
Lemma payloadInv_ext (src d d' : MeshData.t) :
  sourceOf d' = sourceOf d -> vertexDataOf d' = vertexDataOf d ->
  newIndicesOf d' = newIndicesOf d ->
  payloadInv src d -> payloadInv src d'.
Proof.
  intros Hs Hv Hn (Hsrc & Hlens & Hseq & Hpairs & Hcopy).
  unfold vertexDataOf in Hv. injection Hv as H1 H2 H3 H4 H5 H6.
  unfold payloadInv, copiesCorner, lensSig.
  rewrite Hs, Hn, H1, H2, H3, H4, H5, H6.
  exact (conj Hsrc (conj Hlens (conj Hseq (conj Hpairs Hcopy)))).
Qed.

Lemma obtainPart_newIndices (data : MeshData.t) (mtp : gmap (Z * Z) nat)
    (key : Z * Z) :
  newIndicesOf (fst (fst (obtainPart data mtp key))) = newIndicesOf data.
Proof.
  unfold obtainPart. destruct (Nat.eqb _ 0); reflexivity.
Qed.

Lemma round_payload (src : MeshData.t) (materials textures : list Z)
    (st st' : PolyState) :
  extractInv st -> payloadInv src (poly_data st) ->
  (beginIndex st < length (MeshData.polygonIndices (poly_data st)))%nat ->
  polygonStep materials textures st = Some st' ->
  payloadInv src (poly_data st').
Proof.
  intros (Hpi & _) Hinv Hb Hstep.
  destruct (polygonStep_round materials textures st st' Hpi Hb Hstep)
    as (data0 & mtp' & partIndex & part & cs & part' & Hob & _ & _ & Hdata & _).
  destruct Hpi as [_ Hm].
  destruct (obtainPart_spec _ _ _ _ _ _ Hm Hob) as (_ & _ & Hsrc & Hvd & _).
  pose proof (obtainPart_newIndices (poly_data st) (materialTextureParts st)
                (materialTexture_of materials textures (polygonIndex st)))
    as Hn.
  rewrite Hob in Hn. cbn [fst] in Hn.
  rewrite Hdata.
  apply (payloadInv_ext src (fst (appendCorners data0 [] cs)));
    try reflexivity.
  apply payloadInv_run.
  apply (payloadInv_ext src (poly_data st)); assumption.
Qed.

Lemma payloadInv_start (data : MeshData.t) :
  nothingExtracted data -> MeshData.indices data = [] ->
  newIndicesOf data = [] ->
  payloadInv data data.
Proof.
  intros [Hv _] Hi Hn. unfold vertexDataOf in Hv.
  injection Hv as H1 H2 H3 H4 H5 H6.
  unfold payloadInv, lensSig, sourceCarried, copiesCorner.
  rewrite Hn, H2, H3, H4, H5, H6. cbn [length rev map seq].
  split; [reflexivity|].
  split; [destruct (hasMoreTexcoords data), (hasColors data);
          repeat split; reflexivity|].
  split; [reflexivity|]. split.
  - intros orig v [].
  - intros v Hv. lia.
Qed.

(** The payload invariant in the state the non-compressed path ends in. *)
Lemma noncompressed_payload (normalsByVertex colorsByVertex : bool)
    (object : FBXNode.t) (meshIndex : Z) :
  dracoChildren object = [] ->
  let src :=
    scan_data (scanned normalsByVertex colorsByVertex object meshIndex) in
  exists data',
    extractMesh normalsByVertex colorsByVertex object meshIndex
    = Some (MeshData.extracted data', to_uint (meshIndex + 1))
    /\ payloadInv src data' /\ dedupInv data'.
Proof.
  intros Hnone src.
  destruct (extractMesh_paths normalsByVertex colorsByVertex object meshIndex)
    as (Hi & He & data' & Hex & Hpath).
  rewrite (scanned_noDraco _ _ _ _ Hnone) in Hpath, He.
  specialize (He eq_refl).
  destruct (scanned_noDraco_book normalsByVertex colorsByVertex object
              meshIndex Hnone) as [_ Hn].
  fold src in Hi, He, Hpath, Hn.
  destruct (extractPolygons_invariant
              (fun st => payloadInv src (poly_data st))
              _ _ _ _ Hi He Hpath) as (st' & -> & HP & Hinv).
  - apply payloadInv_start; assumption.
  - intros st st1 Hinv HP Hb Hs.
    eapply round_payload; eassumption.
  - exists (poly_data st'). split; [exact Hex|]. split; [exact HP|].
    apply Hinv.
Qed.

(** X10. On the non-compressed path [newIndices] has one pair (source
    vertex index, output index) per output vertex, the pair of the vertex
    created last first; the source index is not negative and the position
    of the output vertex is the position of that source vertex in the
    Vertices array of the node (zero when the index is outside of it). *)
Theorem newIndices_pairs_every_vertex (normalsByVertex colorsByVertex : bool)
    (object : FBXNode.t) (meshIndex : Z) :
  dracoChildren object = [] ->
  let src :=
    scan_data (scanned normalsByVertex colorsByVertex object meshIndex) in
  exists e i,
    extractMesh normalsByVertex colorsByVertex object meshIndex = Some (e, i)
    /\ map snd (rev (ExtractedMesh.newIndices e))
       = seq 0 (length (FBXMesh.vertices (ExtractedMesh.mesh e)))
    /\ forall orig v,
         In (orig, v) (ExtractedMesh.newIndices e) ->
         0 <= orig
         /\ FBXMesh.vertices (ExtractedMesh.mesh e) !! v
            = Some (sourcePosition src orig).
Proof.
  intros Hnone src.
  destruct (noncompressed_payload normalsByVertex colorsByVertex object
              meshIndex Hnone) as (data' & Hex & (_ & _ & Hseq & Hpairs & _) & _).
  exists (MeshData.extracted data'). eexists. split; [exact Hex|].
  split; [exact Hseq | exact Hpairs].
Qed.

Lemma newIndices_pairs_every_vertex_witness :
  exists e i,
    extractMesh false false quadNode 0 = Some (e, i)
    /\ map snd (rev (ExtractedMesh.newIndices e))
       = seq 0 (length (FBXMesh.vertices (ExtractedMesh.mesh e))).
Proof.
  destruct (newIndices_pairs_every_vertex false false quadNode 0 eq_refl)
    as (e & i & He & Hs & _).
  exists e, i. split; [exact He | exact Hs].
Defined.

(** X11. On the non-compressed path every output vertex is a copy of one
    corner of the polygon stream: its position, its primary UV, and its
    color and secondary UV when the source has them, are the values that
    corner resolves to, and [newIndices] pairs the corner's source vertex
    with it. *)
Theorem output_vertex_copies_a_corner (normalsByVertex colorsByVertex : bool)
    (object : FBXNode.t) (meshIndex : Z) :
  dracoChildren object = [] ->
  let src :=
    scan_data (scanned normalsByVertex colorsByVertex object meshIndex) in
  exists e i,
    extractMesh normalsByVertex colorsByVertex object meshIndex = Some (e, i)
    /\ forall v,
         (v < length (FBXMesh.vertices (ExtractedMesh.mesh e)))%nat ->
         exists c,
           copiesCorner src (ExtractedMesh.mesh e) v c
           /\ In (vertexIndex_of src c, v) (ExtractedMesh.newIndices e).
Proof.
  intros Hnone src.
  destruct (noncompressed_payload normalsByVertex colorsByVertex object
              meshIndex Hnone) as (data' & Hex & (_ & _ & _ & _ & Hcopy) & _).
  exists (MeshData.extracted data'). eexists. split; [exact Hex|].
  intros v Hv. destruct (Hcopy v Hv) as (c & Hc & Hn & _).
  exists c. split; [exact Hc | exact Hn].
Qed.

Lemma output_vertex_copies_a_corner_witness :
  exists e i,
    extractMesh false false quadNode 0 = Some (e, i)
    /\ exists c,
         copiesCorner (scan_data (scanned false false quadNode 0))
           (ExtractedMesh.mesh e) 3 c.
Proof.
  destruct (output_vertex_copies_a_corner false false quadNode 0 eq_refl)
    as (e & i & He & Hc).
  exists e, i. split; [exact He|].
  destruct (Hc 3%nat) as (c & H & _).
  - pose proof He as He'. vm_compute in He'. injection He' as <- _.
    vm_compute. lia.
  - exists c. exact H.
Defined.

(** ** The comparison of keys, NaN, and the number of vertices *)

Lemma feqb_refl_iff (a : float) : feqb a a = true <-> isNaN a = false.
Proof.
  rewrite feqb_true_iff. destruct a; simpl; intuition congruence.
Qed.

Lemma vec2_eqb_refl_iff (a : vec2) : vec2_eqb a a = true <-> hasNaN a = false.
Proof.
  unfold vec2_eqb, hasNaN. rewrite andb_true_iff, orb_false_iff.
  rewrite !feqb_refl_iff. reflexivity.
Qed.

Lemma Vertex_eqb_refl_iff (a : Vertex.t) :
  Vertex_eqb a a = true
  <-> hasNaN (Vertex.texCoord a) = false /\ hasNaN (Vertex.texCoord1 a) = false.
Proof.
  unfold Vertex_eqb. rewrite !andb_true_iff, !vec2_eqb_refl_iff, Z.eqb_eq.
  tauto.
Qed.

Lemma feqb_nan_r (a b : float) : isNaN b = true -> feqb a b = false.
Proof.
  destruct b; try discriminate. intros _.
  destruct (feqb a S754_nan) eqn:E; [|reflexivity].
  apply feqb_true_iff in E. destruct a; contradiction.
Qed.

Lemma vec2_eqb_nan_r (a b : vec2) : hasNaN b = true -> vec2_eqb a b = false.
Proof.
  unfold hasNaN, vec2_eqb. intros H. apply orb_true_iff in H.
  destruct H as [H | H]; rewrite (feqb_nan_r _ _ H).
  - reflexivity.
  - apply andb_false_r.
Qed.

Lemma Vertex_eqb_nan_r (a b : Vertex.t) :
  hasNaN (Vertex.texCoord b) || hasNaN (Vertex.texCoord1 b) = true ->
  Vertex_eqb a b = false.
Proof.
  unfold Vertex_eqb. intros H. apply orb_true_iff in H.
  destruct H as [H | H]; rewrite (vec2_eqb_nan_r _ _ H).
  - rewrite andb_false_r. reflexivity.
  - apply andb_false_r.
Qed.

Lemma find_nan (h : QHash.t) (k : Vertex.t) :
  hasNaN (Vertex.texCoord k) || hasNaN (Vertex.texCoord1 k) = true ->
  QHash.find h k = None.
Proof.
  intros H. induction h as [|[k' v] r IH]; simpl; [reflexivity|].
  rewrite (Vertex_eqb_nan_r k' k H). exact IH.
Qed.

(** X12. The comparison of keys ([operator==], lines 52-54) is symmetric
    and transitive; a key compares equal to itself exactly when none of
    its four UV components is NaN; and keys that compare equal have the
    same hash ([qHash], lines 48-50), whatever the hash of [int] is. *)
Theorem key_comparison_and_hash :
  (forall a b, Vertex_eqb a b = Vertex_eqb b a)
  /\ (forall a b c,
        Vertex_eqb a b = true -> Vertex_eqb b c = true ->
        Vertex_eqb a c = true)
  /\ (forall a,
        Vertex_eqb a a = true
        <-> hasNaN (Vertex.texCoord a) = false
            /\ hasNaN (Vertex.texCoord1 a) = false)
  /\ (forall (qHash_int : Z -> Z -> Z) a b seed,
        Vertex_eqb a b = true ->
        qHash_Vertex qHash_int a seed = qHash_Vertex qHash_int b seed).
Proof.
  split; [exact Vertex_eqb_sym|]. split; [exact Vertex_eqb_trans|].
  split; [exact Vertex_eqb_refl_iff|].
  intros qHash_int a b seed H. unfold qHash_Vertex.
  unfold Vertex_eqb in H. rewrite !andb_true_iff, Z.eqb_eq in H.
  destruct H as [[-> _] _]. reflexivity.
Qed.

Lemma key_comparison_and_hash_witness :
  Vertex_eqb (Vertex.mk 3 (fzero, fone) (fzero, fzero))
    (Vertex.mk 3 (S754_zero true, fone) (fzero, fzero)) = true
  /\ qHash_Vertex Z.add (Vertex.mk 3 (fzero, fone) (fzero, fzero)) 7
     = qHash_Vertex Z.add (Vertex.mk 3 (S754_zero true, fone) (fzero, fzero)) 7.
Proof.
  assert (H : Vertex_eqb (Vertex.mk 3 (fzero, fone) (fzero, fzero))
                (Vertex.mk 3 (S754_zero true, fone) (fzero, fzero)) = true)
    by reflexivity.
  split; [exact H|].
  exact (proj2 (proj2 (proj2 key_comparison_and_hash)) Z.add _ _ 7 H).
Defined.

(** X13. A corner whose primary or secondary UV has a NaN component is
    never found in the dedup table: whatever the table holds, the call
    creates a vertex for it and appends the new index. A corner without
    NaN, once resolved, is found again: a second visit appends the index
    of the first and creates no vertex. *)
Theorem nan_uv_defeats_dedup (data : MeshData.t) (indices : list nat)
    (index : nat) :
  (index < length (MeshData.polygonIndices data))%nat ->
  (hasNaN (texCoord_of data index) || hasNaN (texCoord1_of data index) = true ->
   snd (appendIndex data indices index)
   = indices ++ [length (FBXMesh.vertices (meshOf data))]
   /\ FBXMesh.vertices (meshOf (fst (appendIndex data indices index)))
      = FBXMesh.vertices (meshOf data) ++ [position_of data index])
  /\ (hasNaN (texCoord_of data index) || hasNaN (texCoord1_of data index)
      = false ->
      dedupInv data ->
      let first := appendIndex data indices index in
      let second := appendIndex (fst first) (snd first) index in
      exists o,
        snd first = indices ++ [o]
        /\ snd second = indices ++ [o; o]
        /\ FBXMesh.vertices (meshOf (fst second))
           = FBXMesh.vertices (meshOf (fst first))).
Proof.
  intros Hlt. split.
  - intros Hnan. rewrite appendIndex_inside by exact Hlt.
    rewrite (find_nan _ (vertex_of data index) Hnan). split; reflexivity.
  - intros Hnan Hd. cbv zeta.
    assert (Hself : selfEqual data index).
    { apply Vertex_eqb_refl_iff. apply orb_false_iff in Hnan. exact Hnan. }
    pose proof (runInv_step data [] data [] index (runInv_start data Hd) Hlt)
      as R1.
    rewrite (appendIndex_prefix data indices index).
    cbn [fst snd].
    pose proof (run_length _ _ _ _ R1) as Hlen. simpl in Hlen.
    destruct (snd (appendIndex data [] index)) as [|o [|? ?]] eqn:Eo;
      try discriminate Hlen.
    exists o. split; [reflexivity|].
    pose proof (run_lookup _ _ _ _ R1 0%nat index o eq_refl eq_refl Hself)
      as F.
    pose proof (run_source _ _ _ _ R1) as Hsrc.
    destruct (source_resolved _ _ index Hsrc) as (Hk & _ & _ & _ & _ & _ & Hp).
    rewrite <- Hk in F.
    rewrite appendIndex_inside by (rewrite Hp; exact Hlt).
    rewrite F. cbn [fst snd]. rewrite <- app_assoc. split; reflexivity.
Qed.

Lemma nan_uv_defeats_dedup_witness :
  ((0 < length (MeshData.polygonIndices data_nan_uv))%nat
   /\ hasNaN (texCoord_of data_nan_uv 0) || hasNaN (texCoord1_of data_nan_uv 0)
      = true
   /\ snd (appendIndex data_nan_uv [] 0) = [0%nat])
  /\ ((0 < length (MeshData.polygonIndices data_shared_corner))%nat
      /\ hasNaN (texCoord_of data_shared_corner 0)
         || hasNaN (texCoord1_of data_shared_corner 0) = false
      /\ dedupInv data_shared_corner
      /\ exists o,
           snd (appendIndex data_shared_corner [] 0) = [o]
           /\ snd (appendIndex (fst (appendIndex data_shared_corner [] 0))
                     (snd (appendIndex data_shared_corner [] 0)) 0)
              = [o; o]).
Proof.
  assert (H0 : (0 < length (MeshData.polygonIndices data_nan_uv))%nat)
    by (vm_compute; lia).
  assert (Hn : hasNaN (texCoord_of data_nan_uv 0)
               || hasNaN (texCoord1_of data_nan_uv 0) = true) by reflexivity.
  assert (H1 : (0 < length (MeshData.polygonIndices data_shared_corner))%nat)
    by (vm_compute; lia).
  assert (Hf : hasNaN (texCoord_of data_shared_corner 0)
               || hasNaN (texCoord1_of data_shared_corner 0) = false)
    by reflexivity.
  assert (Hd : dedupInv data_shared_corner)
    by (apply dedupInv_empty; reflexivity).
  split.
  - split; [exact H0|]. split; [exact Hn|].
    exact (proj1 (proj1 (nan_uv_defeats_dedup data_nan_uv [] 0 H0) Hn)).
  - split; [exact H1|]. split; [exact Hf|]. split; [exact Hd|].
    destruct (proj2 (nan_uv_defeats_dedup data_shared_corner [] 0 H1) Hf Hd)
      as (o & Ha & Hb & _).
    exists o. split; [exact Ha | exact Hb].
Defined.

(** A list of witnesses, one per position. *)
Lemma choose_list (n : nat) (P : nat -> nat -> Prop) :
  (forall v, (v < n)%nat -> exists c, P v c) ->
  exists cs, length cs = n /\ forall v c, cs !! v = Some c -> P v c.
Proof.
  induction n as [|n IH]; intros H.
  - exists []. split; [reflexivity|]. intros v c Hv. discriminate.
  - destruct IH as (cs & Hlen & Hcs); [intros v Hv; apply H; lia|].
    destruct (H n ltac:(lia)) as [c Hc].
    exists (cs ++ [c]). split; [rewrite length_app; simpl; lia|].
    intros v c' Hv. apply lookup_snoc in Hv.
    destruct Hv as [[Hv _] | [-> ->]]; [apply Hcs; exact Hv|].
    rewrite Hlen. exact Hc.
Qed.

(** X14. On the non-compressed path, when no corner of the polygon
    stream has a NaN among its UVs, the result has at most as many
    vertices as the stream has entries. *)
Theorem vertices_bounded_by_corners (normalsByVertex colorsByVertex : bool)
    (object : FBXNode.t) (meshIndex : Z) :
  dracoChildren object = [] ->
  let src :=
    scan_data (scanned normalsByVertex colorsByVertex object meshIndex) in
  (forall c, (c < length (MeshData.polygonIndices src))%nat ->
             selfEqual src c) ->
  exists e i,
    extractMesh normalsByVertex colorsByVertex object meshIndex = Some (e, i)
    /\ (length (FBXMesh.vertices (ExtractedMesh.mesh e))
        <= length (MeshData.polygonIndices src))%nat.
Proof.
  intros Hnone src Hself.
  destruct (noncompressed_payload normalsByVertex colorsByVertex object
              meshIndex Hnone) as (data' & Hex & (_ & _ & _ & _ & Hcopy) & Hd).
  fold src in Hcopy.
  exists (MeshData.extracted data'). eexists. split; [exact Hex|].
  fold (meshOf data').
  destruct (choose_list (length (FBXMesh.vertices (meshOf data')))
              (fun v c =>
                 (c < length (MeshData.polygonIndices src))%nat
                 /\ In (vertex_of src c, v) (MeshData.indices data')))
    as (cs & Hlen & Hcs).
  { intros v Hv. destruct (Hcopy v Hv) as (c & (Hc & _) & _ & Hin).
    exists c. auto. }
  rewrite <- Hlen, <- (length_seq (length (MeshData.polygonIndices src)) 0).
  apply submseteq_length. apply NoDup_submseteq.
  - apply NoDup_alt. intros v1 v2 c H1 H2.
    destruct (Hcs v1 c H1) as [Hc I1]. destruct (Hcs v2 c H2) as [_ I2].
    destruct Hd as (Ha & _).
    pose proof (keysApart_unique _ _ _ Ha I1 I2 (Hself c Hc)) as E.
    injection E as E. exact E.
  - intros c Hc. apply list_elem_of_lookup_1 in Hc. destruct Hc as [v Hv].
    destruct (Hcs v c Hv) as [Hc _]. apply elem_of_seq. lia.
Qed.

Lemma vertices_bounded_by_corners_witness :
  exists e i,
    extractMesh false false quadNode 0 = Some (e, i)
    /\ (length (FBXMesh.vertices (ExtractedMesh.mesh e)) <= 4)%nat.
Proof.
  apply (vertices_bounded_by_corners false false quadNode 0 eq_refl).
  intros c Hc.
  do 4 (destruct c as [|c]; [reflexivity|]).
  vm_compute in Hc. lia.
Defined.

(** ** The compressed path *)

Lemma dracoPoint_arrays (m : draco.Mesh) (d : MeshData.t) (i : nat) :
  let d' := dracoPoint m d i in
  FBXMesh.vertices (meshOf d')
  = FBXMesh.vertices (meshOf d) ++ optionalValue (draco.POSITION m) i
  /\ FBXMesh.normals (meshOf d')
     = FBXMesh.normals (meshOf d) ++ optionalValue (draco.NORMAL m) i
  /\ FBXMesh.texCoords (meshOf d')
     = FBXMesh.texCoords (meshOf d) ++ optionalValue (draco.TEX_COORD m) i
  /\ FBXMesh.texCoords1 (meshOf d')
     = FBXMesh.texCoords1 (meshOf d) ++ optionalValue (draco.TEX_COORD_1 m) i
  /\ FBXMesh.colors (meshOf d')
     = FBXMesh.colors (meshOf d) ++ optionalValue (draco.COLOR m) i
  /\ newIndicesOf d' = (Z.of_nat i, i) :: newIndicesOf d
  /\ keysOf d' = keysOf d
  /\ MeshData_parts d' = MeshData_parts d.
Proof. repeat split; reflexivity. Qed.

Lemma fold_dracoPoint_arrays (m : draco.Mesh) (l : list nat) :
  forall d : MeshData.t,
  let d' := fold_left (dracoPoint m) l d in
  FBXMesh.vertices (meshOf d')
  = FBXMesh.vertices (meshOf d) ++ flat_map (optionalValue (draco.POSITION m)) l
  /\ FBXMesh.normals (meshOf d')
     = FBXMesh.normals (meshOf d) ++ flat_map (optionalValue (draco.NORMAL m)) l
  /\ FBXMesh.texCoords (meshOf d')
     = FBXMesh.texCoords (meshOf d)
       ++ flat_map (optionalValue (draco.TEX_COORD m)) l
  /\ FBXMesh.texCoords1 (meshOf d')
     = FBXMesh.texCoords1 (meshOf d)
       ++ flat_map (optionalValue (draco.TEX_COORD_1 m)) l
  /\ FBXMesh.colors (meshOf d')
     = FBXMesh.colors (meshOf d) ++ flat_map (optionalValue (draco.COLOR m)) l
  /\ newIndicesOf d'
     = rev (map (fun i => (Z.of_nat i, i)) l) ++ newIndicesOf d
  /\ keysOf d' = keysOf d
  /\ MeshData_parts d' = MeshData_parts d.
Proof.
  induction l as [|i l IH]; intros d; cbv zeta.
  - simpl. rewrite !app_nil_r. repeat split; reflexivity.
  - cbn [fold_left]. specialize (IH (dracoPoint m d i)). cbv zeta in IH.
    destruct IH as (H1 & H2 & H3 & H4 & H5 & H6 & H7 & H8).
    rewrite H1, H2, H3, H4, H5, H6, H7, H8.
    pose proof (dracoPoint_arrays m d i) as Hp. cbv zeta in Hp.
    destruct Hp as (P1 & P2 & P3 & P4 & P5 & P6 & P7 & P8).
    rewrite P1, P2, P3, P4, P5, P6, P7, P8.
    cbn [flat_map map rev]. rewrite <- !app_assoc.
    repeat split; reflexivity.
Qed.

Lemma fold_dracoFace_kept (m : draco.Mesh) (l : list (nat * nat * nat)) :
  forall st : MeshData.t * gmap (Z * Z) nat,
  vertexDataOf (fst (fold_left (dracoFace m) l st)) = vertexDataOf (fst st)
  /\ newIndicesOf (fst (fold_left (dracoFace m) l st)) = newIndicesOf (fst st).
Proof.
  induction l as [|f l IH]; intros st; simpl; [auto|].
  destruct (IH (dracoFace m st f)) as [H1 H2]. rewrite H1, H2.
  split; [apply dracoFace_kept|].
  destruct st as [d mtp], f as [[a b] c]. unfold dracoFace.
  pose proof (obtainPart_newIndices d mtp
                (match draco.MATERIAL_ID m with
                 | Some value => value a
                 | None => 0
                 end, 0)) as Ho.
  destruct (obtainPart d mtp _) as [[d1 mtp1] pi]. exact Ho.
Qed.

(** What a DracoMesh child adds to the arrays. *)
Lemma extractDraco_arrays (m : draco.Mesh) (d : MeshData.t) :
  let d' := extractDraco m d in
  let n := draco.num_points m in
  FBXMesh.vertices (meshOf d')
  = FBXMesh.vertices (meshOf d) ++ pointValues (draco.POSITION m) n
  /\ FBXMesh.normals (meshOf d')
     = FBXMesh.normals (meshOf d) ++ pointValues (draco.NORMAL m) n
  /\ FBXMesh.texCoords (meshOf d')
     = FBXMesh.texCoords (meshOf d) ++ pointValues (draco.TEX_COORD m) n
  /\ FBXMesh.texCoords1 (meshOf d')
     = FBXMesh.texCoords1 (meshOf d) ++ pointValues (draco.TEX_COORD_1 m) n
  /\ FBXMesh.colors (meshOf d')
     = FBXMesh.colors (meshOf d) ++ pointValues (draco.COLOR m) n
  /\ newIndicesOf d' = rev (pointPairs n) ++ newIndicesOf d.
Proof.
  cbv zeta. unfold extractDraco, pointValues, pointPairs.
  pose proof (fold_dracoPoint_arrays m (seq 0 (draco.num_points m)) d) as Hp.
  cbv zeta in Hp.
  set (d1 := fold_left (dracoPoint m) (seq 0 (draco.num_points m)) d) in *.
  destruct (fold_dracoFace_kept m (draco.faces m) (d1, ∅)) as [Hv Hn].
  cbn [fst] in Hv, Hn. unfold vertexDataOf in Hv.
  injection Hv as _ H2 H3 H4 H5 H6.
  destruct Hp as (P1 & P2 & P3 & P4 & P5 & P6 & _).
  rewrite H2, H3, H4, H5, H6, Hn.
  repeat split; assumption.
Qed.

Lemma scanChild_other_arrays (st : ScanState) (child : FBXNode.t) :
  String.eqb (FBXNode.name child) "DracoMesh" = false ->
  let d := scan_data st in
  let d' := scan_data (scanChild st child) in
  FBXMesh.vertices (meshOf d') = FBXMesh.vertices (meshOf d)
  /\ FBXMesh.normals (meshOf d') = FBXMesh.normals (meshOf d)
  /\ FBXMesh.texCoords (meshOf d') = FBXMesh.texCoords (meshOf d)
  /\ FBXMesh.texCoords1 (meshOf d') = FBXMesh.texCoords1 (meshOf d)
  /\ FBXMesh.colors (meshOf d') = FBXMesh.colors (meshOf d)
  /\ newIndicesOf d' = newIndicesOf d.
Proof.
  intros Hn. cbv zeta.
  destruct (scanChild_other st child Hn) as (Hv & _ & _).
  destruct (scanChild_other_book st child Hn) as [_ Hb].
  unfold vertexDataOf in Hv. injection Hv as _ H2 H3 H4 H5 H6.
  repeat split; assumption.
Qed.

Lemma isDraco_getDraco (l : list FBXNode.t) (child : FBXNode.t) :
  map FBXNode.getDraco
    (List.filter (fun c => String.eqb (FBXNode.name c) "DracoMesh")
       (child :: l))
  = (if String.eqb (FBXNode.name child) "DracoMesh"
     then [FBXNode.getDraco child] else [])
    ++ map FBXNode.getDraco
         (List.filter (fun c => String.eqb (FBXNode.name c) "DracoMesh") l).
Proof.
  cbn [List.filter]. destruct (String.eqb (FBXNode.name child) "DracoMesh");
    reflexivity.
Qed.

(** The arrays after the scan, from the DracoMesh children met. *)
Lemma fold_scanChild_arrays (l : list FBXNode.t) :
  forall st : ScanState,
  let ms :=
    map FBXNode.getDraco
      (List.filter (fun c => String.eqb (FBXNode.name c) "DracoMesh") l) in
  let d := scan_data st in
  let d' := scan_data (fold_left scanChild l st) in
  FBXMesh.vertices (meshOf d')
  = FBXMesh.vertices (meshOf d)
    ++ flat_map (fun m => pointValues (draco.POSITION m) (draco.num_points m))
         ms
  /\ FBXMesh.normals (meshOf d')
     = FBXMesh.normals (meshOf d)
       ++ flat_map (fun m => pointValues (draco.NORMAL m) (draco.num_points m))
            ms
  /\ FBXMesh.texCoords (meshOf d')
     = FBXMesh.texCoords (meshOf d)
       ++ flat_map
            (fun m => pointValues (draco.TEX_COORD m) (draco.num_points m)) ms
  /\ FBXMesh.texCoords1 (meshOf d')
     = FBXMesh.texCoords1 (meshOf d)
       ++ flat_map
            (fun m => pointValues (draco.TEX_COORD_1 m) (draco.num_points m))
            ms
  /\ FBXMesh.colors (meshOf d')
     = FBXMesh.colors (meshOf d)
       ++ flat_map (fun m => pointValues (draco.COLOR m) (draco.num_points m))
            ms
  /\ newIndicesOf d'
     = rev (flat_map (fun m => pointPairs (draco.num_points m)) ms)
       ++ newIndicesOf d
  /\ isDracoMesh (fold_left scanChild l st)
     = isDracoMesh st || negb (isEmpty ms).
Proof.
  induction l as [|child l IH]; intros st; cbv zeta.
  - simpl. rewrite !app_nil_r, orb_false_r. repeat split; reflexivity.
  - cbn [fold_left]. rewrite isDraco_getDraco.
    specialize (IH (scanChild st child)). cbv zeta in IH.
    destruct IH as (H1 & H2 & H3 & H4 & H5 & H6 & H7).
    rewrite H1, H2, H3, H4, H5, H6, H7. clear H1 H2 H3 H4 H5 H6 H7.
    destruct (String.eqb (FBXNode.name child) "DracoMesh") eqn:Hn.
    + rewrite scanChild_draco by exact Hn. cbn [scan_data isDracoMesh].
      pose proof (extractDraco_arrays (FBXNode.getDraco child) (scan_data st))
        as Hd. cbv zeta in Hd.
      destruct Hd as (D1 & D2 & D3 & D4 & D5 & D6).
      rewrite D1, D2, D3, D4, D5, D6.
      cbn [app flat_map isEmpty negb]. rewrite rev_app_distr, <- !app_assoc.
      rewrite orb_true_r.
      repeat split; reflexivity.
    + pose proof (scanChild_other_arrays st child Hn) as Ho. cbv zeta in Ho.
      destruct Ho as (O1 & O2 & O3 & O4 & O5 & O6).
      destruct (scanChild_other st child Hn) as (_ & _ & Od).
      rewrite O1, O2, O3, O4, O5, O6, Od. cbn [app].
      repeat split; reflexivity.
Qed.

(** X15. When the node has a DracoMesh child, the arrays of the result
    come from the DracoMesh children alone, block after block: for each
    block and each of its points in order, the position, normal, UV,
    second UV and color that the block carries; the other children
    (Vertices, PolygonVertexIndex, the layers) add nothing. [newIndices]
    pairs each point number with itself, per block. *)
Theorem compressed_arrays_from_blocks (normalsByVertex colorsByVertex : bool)
    (object : FBXNode.t) (meshIndex : Z) :
  dracoChildren object <> [] ->
  let ms := dracoChildren object in
  let values {A : Type} (attribute : draco.Mesh -> option (nat -> A)) :=
    flat_map (fun m => pointValues (attribute m) (draco.num_points m)) ms in
  exists e i,
    extractMesh normalsByVertex colorsByVertex object meshIndex = Some (e, i)
    /\ FBXMesh.vertices (ExtractedMesh.mesh e) = values draco.POSITION
    /\ FBXMesh.normals (ExtractedMesh.mesh e) = values draco.NORMAL
    /\ FBXMesh.texCoords (ExtractedMesh.mesh e) = values draco.TEX_COORD
    /\ FBXMesh.texCoords1 (ExtractedMesh.mesh e) = values draco.TEX_COORD_1
    /\ FBXMesh.colors (ExtractedMesh.mesh e) = values draco.COLOR
    /\ ExtractedMesh.newIndices e
       = rev (flat_map (fun m => pointPairs (draco.num_points m)) ms).
Proof.
  intros Hne ms values.
  destruct (extractMesh_paths normalsByVertex colorsByVertex object meshIndex)
    as (_ & _ & data' & Hex & Hpath).
  pose proof (fold_scanChild_arrays (FBXNode.children object)
                (mkScan (MeshData_initial normalsByVertex colorsByVertex
                           meshIndex) [] [] false false)) as H.
  cbv zeta in H.
  fold (dracoChildren object) in H. fold ms in H.
  fold (scanned normalsByVertex colorsByVertex object meshIndex) in H.
  destruct H as (H1 & H2 & H3 & H4 & H5 & H6 & H7).
  assert (Hd : isDracoMesh (scanned normalsByVertex colorsByVertex object
                              meshIndex) = true).
  { rewrite H7. cbn [isDracoMesh orb]. unfold ms.
    destruct (dracoChildren object); [contradiction | reflexivity]. }
  rewrite Hd in Hpath. subst data'.
  exists (MeshData.extracted
            (scan_data (scanned normalsByVertex colorsByVertex object
                          meshIndex))).
  eexists. split; [exact Hex|].
  cbn [app] in H1, H2, H3, H4, H5.
  rewrite app_nil_r in H6.
  repeat split; assumption.
Qed.

Lemma compressed_arrays_from_blocks_witness :
  dracoChildren dracoMaterialNode <> []
  /\ exists e i,
       extractMesh false false dracoMaterialNode 0 = Some (e, i)
       /\ length (FBXMesh.vertices (ExtractedMesh.mesh e)) = 4%nat
       /\ FBXMesh.normals (ExtractedMesh.mesh e) = [].
Proof.
  assert (H : dracoChildren dracoMaterialNode <> []) by discriminate.
  split; [exact H|].
  destruct (compressed_arrays_from_blocks false false dracoMaterialNode 0 H)
    as (e & i & He & Hv & Hn & _).
  exists e, i. split; [exact He|]. rewrite Hv, Hn. split; reflexivity.
Defined.

(** ** The compressed path: faces and parts *)

Lemma sameKey_true (a b : Z * Z) : sameKey a b = true <-> a = b.
Proof.
  unfold sameKey. rewrite andb_true_iff, !Z.eqb_eq.
  destruct a, b; simpl. split; [intros [-> ->]; reflexivity|].
  intros H. injection H as -> ->. auto.
Qed.

Lemma sameKey_false (a b : Z * Z) : sameKey a b = false <-> a <> b.
Proof.
  destruct (sameKey a b) eqn:E.
  - apply sameKey_true in E. split; [discriminate | contradiction].
  - split; [|reflexivity]. intros _ H. apply sameKey_true in H. congruence.
Qed.

Lemma existsb_sameKey (key : Z * Z) (l : list (Z * Z)) :
  existsb (sameKey key) l = true <-> In key l.
Proof.
  rewrite existsb_exists. split.
  - intros (x & Hx & E). apply sameKey_true in E. subst x. exact Hx.
  - intros H. exists key. split; [exact H | apply sameKey_true; reflexivity].
Qed.

Lemma addKey_cases (seen : list (Z * Z)) (key : Z * Z) :
  (In key seen /\ addKey seen key = seen)
  \/ (~ In key seen /\ addKey seen key = seen ++ [key]).
Proof.
  unfold addKey. destruct (existsb (sameKey key) seen) eqn:E.
  - left. split; [apply existsb_sameKey; exact E | reflexivity].
  - right. split; [|reflexivity]. intros H. apply existsb_sameKey in H.
    congruence.
Qed.

Lemma firstKeys_snoc (l : list (Z * Z)) (key : Z * Z) :
  firstKeys (l ++ [key]) = addKey (firstKeys l) key.
Proof. unfold firstKeys. rewrite fold_left_app. reflexivity. Qed.

Lemma firstKeys_complete (l : list (Z * Z)) (key : Z * Z) :
  In key l -> In key (firstKeys l).
Proof.
  induction l as [|k l IH] using rev_ind; [contradiction|].
  rewrite firstKeys_snoc. intros H. apply in_app_iff in H.
  destruct (addKey_cases (firstKeys l) k) as [[Hin ->] | [Hnot ->]].
  - destruct H as [H | [<- | []]]; [apply IH; exact H | exact Hin].
  - apply in_app_iff. destruct H as [H | [<- | []]];
      [left; apply IH; exact H | right; left; reflexivity].
Qed.

Lemma facesPart_snoc_same (m : draco.Mesh) (done : list (nat * nat * nat))
    (f : nat * nat * nat) :
  facesPart m (done ++ [f]) (faceKey m f)
  = FBXMeshPart.mk [] []
      (FBXMeshPart.triangleIndices (facesPart m done (faceKey m f))
       ++ faceCorners f).
Proof.
  unfold facesPart. rewrite List.filter_app, flat_map_app. cbn [List.filter].
  rewrite (proj2 (sameKey_true _ _) eq_refl). cbn [flat_map].
  rewrite app_nil_r. reflexivity.
Qed.

Lemma facesPart_snoc_other (m : draco.Mesh) (done : list (nat * nat * nat))
    (f : nat * nat * nat) (key : Z * Z) :
  key <> faceKey m f ->
  facesPart m (done ++ [f]) key = facesPart m done key.
Proof.
  intros Hne. unfold facesPart. rewrite List.filter_app. cbn [List.filter].
  rewrite (proj2 (sameKey_false (faceKey m f) key)) by congruence.
  rewrite app_nil_r. reflexivity.
Qed.

Lemma facesPart_none (m : draco.Mesh) (done : list (nat * nat * nat))
    (key : Z * Z) :
  ~ In key (map (faceKey m) done) -> facesPart m done key = FBXMeshPart.empty.
Proof.
  intros Hnot. unfold facesPart, FBXMeshPart.empty. f_equal.
  induction done as [|f done IH]; [reflexivity|].
  cbn [List.filter].
  destruct (sameKey (faceKey m f) key) eqn:E.
  - apply sameKey_true in E. exfalso. apply Hnot. left. exact E.
  - apply IH. intros H. apply Hnot. right. exact H.
Qed.

(** One face more: the keys and the parts are those of the faces met. *)
Lemma dracoFace_grouped (m : draco.Mesh) (done : list (nat * nat * nat))
    (st : MeshData.t * gmap (Z * Z) nat) (f : nat * nat * nat) :
  keysInv (snd st) (fst st) ->
  keysOf (fst st) = firstKeys (map (faceKey m) done) ->
  MeshData_parts (fst st) = map (facesPart m done) (keysOf (fst st)) ->
  let st' := dracoFace m st f in
  keysInv (snd st') (fst st')
  /\ keysOf (fst st') = firstKeys (map (faceKey m) (done ++ [f]))
  /\ MeshData_parts (fst st')
     = map (facesPart m (done ++ [f])) (keysOf (fst st')).
Proof.
  destruct st as [d mtp]. cbn [fst snd]. intros Hinv Hkeys Hparts. cbv zeta.
  assert (Hface : dracoFace m (d, mtp) f
                  = let '(d1, mtp1, pi) := obtainPart d mtp (faceKey m f) in
                    (MeshData_setParts d1
                       (alter (fun part =>
                                 FBXMeshPart.mk (FBXMeshPart.quadIndices part)
                                   (FBXMeshPart.quadTrianglesIndices part)
                                   (FBXMeshPart.triangleIndices part
                                    ++ faceCorners f))
                          (pi - 1)%nat (MeshData_parts d1)), mtp1)).
  { destruct f as [[a b] c]. reflexivity. }
  rewrite Hface. clear Hface.
  destruct (obtainPart d mtp (faceKey m f)) as [[d1 mtp1] pi] eqn:Hob.
  cbn [fst snd].
  destruct (obtainPart_keys _ _ _ _ _ _ Hinv Hob)
    as (Hinv1 & Hpi & Hkey & Hcase).
  change (keysOf (MeshData_setParts ?x ?p)) with (keysOf x).
  rewrite setParts_parts.
  pose proof (keysInv_NoDup _ _ Hinv1) as Hnd. rewrite NoDup_alt in Hnd.
  split; [|split].
  - destruct Hinv1 as (Hl & Hm & Hk). unfold keysInv.
    change (keysOf (MeshData_setParts ?x ?p)) with (keysOf x).
    rewrite setParts_parts, length_alter. exact (conj Hl (conj Hm Hk)).
  - rewrite map_app. cbn [map]. rewrite firstKeys_snoc, <- Hkeys.
    destruct Hcase as [(Hin & -> & _) | (Hnot & -> & _)];
      destruct (addKey_cases (keysOf d) (faceKey m f)) as [[H ->] | [H ->]];
      try reflexivity; contradiction.
  - assert (Hparts1 : MeshData_parts d1 = map (facesPart m done) (keysOf d1)).
    { destruct Hcase as [(_ & -> & ->) | (Hnot & -> & ->)]; [exact Hparts|].
      rewrite map_app, <- Hparts. cbn [map]. f_equal. f_equal.
      symmetry. apply facesPart_none. rewrite Hkeys in Hnot.
      intros H. apply Hnot. apply firstKeys_complete. exact H. }
    rewrite Hparts1. apply list_eq. intros p.
    rewrite list_lookup_fmap.
    destruct (decide (p = (pi - 1)%nat)) as [-> | Hne].
    + rewrite list_lookup_alter, list_lookup_fmap, Hkey. cbn.
      destruct (decide ((pi - 1)%nat = (pi - 1)%nat)); [|congruence].
      cbn. rewrite facesPart_snoc_same. reflexivity.
    + rewrite list_lookup_alter_ne by congruence.
      rewrite list_lookup_fmap.
      destruct (keysOf d1 !! p) as [key|] eqn:Hp; [|reflexivity]. cbn.
      rewrite facesPart_snoc_other; [reflexivity|].
      intros ->. apply Hne. apply (Hnd p (pi - 1)%nat (faceKey m f) Hp Hkey).
Qed.

Lemma fold_dracoFace_grouped (m : draco.Mesh) (l : list (nat * nat * nat)) :
  forall (done : list (nat * nat * nat)) (st : MeshData.t * gmap (Z * Z) nat),
  keysInv (snd st) (fst st) ->
  keysOf (fst st) = firstKeys (map (faceKey m) done) ->
  MeshData_parts (fst st) = map (facesPart m done) (keysOf (fst st)) ->
  let st' := fold_left (dracoFace m) l st in
  keysInv (snd st') (fst st')
  /\ keysOf (fst st') = firstKeys (map (faceKey m) (done ++ l))
  /\ MeshData_parts (fst st')
     = map (facesPart m (done ++ l)) (keysOf (fst st')).
Proof.
  induction l as [|f l IH]; intros done st H1 H2 H3; cbv zeta.
  - rewrite app_nil_r. simpl. auto.
  - cbn [fold_left].
    destruct (dracoFace_grouped m done st f H1 H2 H3) as (G1 & G2 & G3).
    specialize (IH (done ++ [f]) (dracoFace m st f) G1 G2 G3).
    cbv zeta in IH. rewrite <- app_assoc in IH. exact IH.
Qed.

(** The parts and keys a DracoMesh child makes, from none. *)
Lemma extractDraco_grouped (m : draco.Mesh) (d : MeshData.t) :
  keysOf d = [] -> MeshData_parts d = [] ->
  let d' := extractDraco m d in
  NoDup (keysOf d')
  /\ keysOf d' = firstKeys (map (faceKey m) (draco.faces m))
  /\ MeshData_parts d' = map (facesPart m (draco.faces m)) (keysOf d').
Proof.
  intros Hk Hp. cbv zeta. unfold extractDraco.
  pose proof (fold_dracoPoint_arrays m (seq 0 (draco.num_points m)) d) as H.
  cbv zeta in H. destruct H as (_ & _ & _ & _ & _ & _ & K & P).
  set (d1 := fold_left (dracoPoint m) (seq 0 (draco.num_points m)) d) in *.
  rewrite Hk in K. rewrite Hp in P.
  destruct (fold_dracoFace_grouped m (draco.faces m) [] (d1, ∅))
    as (G1 & G2 & G3).
  - cbn [fst snd]. apply keysInv_start; assumption.
  - cbn [fst]. rewrite K. reflexivity.
  - cbn [fst]. rewrite P, K. reflexivity.
  - cbn [app] in G2, G3. split; [|split; assumption].
    eapply keysInv_NoDup. exact G1.
Qed.

Lemma fold_scanChild_noDraco_book (l : list FBXNode.t) :
  forall st : ScanState,
  (forall child, In child l ->
     String.eqb (FBXNode.name child) "DracoMesh" = false) ->
  keysOf (scan_data (fold_left scanChild l st)) = keysOf (scan_data st)
  /\ MeshData_parts (scan_data (fold_left scanChild l st))
     = MeshData_parts (scan_data st).
Proof.
  induction l as [|c l IH]; intros st Hl; simpl; [auto|].
  destruct (IH (scanChild st c)) as [H1 H2].
  { intros c' Hc'. apply Hl. right. exact Hc'. }
  destruct (scanChild_other_book st c) as [H3 _].
  { apply Hl. left. reflexivity. }
  destruct (scanChild_other st c) as (_ & H4 & _).
  { apply Hl. left. reflexivity. }
  split; congruence.
Qed.

Lemma filter_draco_nil (l : list FBXNode.t) :
  map FBXNode.getDraco
    (List.filter (fun c => String.eqb (FBXNode.name c) "DracoMesh") l) = [] ->
  forall child, In child l ->
  String.eqb (FBXNode.name child) "DracoMesh" = false.
Proof.
  intros H child Hc.
  destruct (String.eqb (FBXNode.name child) "DracoMesh") eqn:E;
    [|reflexivity].
  apply map_eq_nil in H.
  assert (Hin : In child (List.filter
                            (fun c => String.eqb (FBXNode.name c) "DracoMesh")
                            l)) by (apply filter_In; auto).
  rewrite H in Hin. contradiction.
Qed.

(** The scan of a node with one DracoMesh child. *)
Lemma fold_scanChild_single (m : draco.Mesh) (l : list FBXNode.t) :
  forall st : ScanState,
  map FBXNode.getDraco
    (List.filter (fun c => String.eqb (FBXNode.name c) "DracoMesh") l) = [m] ->
  keysOf (scan_data st) = [] -> MeshData_parts (scan_data st) = [] ->
  exists d0,
    keysOf d0 = [] /\ MeshData_parts d0 = []
    /\ keysOf (scan_data (fold_left scanChild l st))
       = keysOf (extractDraco m d0)
    /\ MeshData_parts (scan_data (fold_left scanChild l st))
       = MeshData_parts (extractDraco m d0).
Proof.
  induction l as [|child l IH]; intros st Hm Hk Hp; [discriminate Hm|].
  rewrite isDraco_getDraco in Hm. cbn [fold_left].
  destruct (String.eqb (FBXNode.name child) "DracoMesh") eqn:Hn.
  - cbn [app] in Hm. injection Hm as Hm Hrest.
    rewrite scanChild_draco by exact Hn.
    destruct (fold_scanChild_noDraco_book l
                (mkScan (extractDraco (FBXNode.getDraco child) (scan_data st))
                   (materials st) (textures st) (isMaterialPerPolygon st) true)
                (filter_draco_nil l Hrest)) as [H1 H2].
    cbn [scan_data] in H1, H2. subst m.
    exists (scan_data st).
    split; [exact Hk|]. split; [exact Hp|]. split; [exact H1 | exact H2].
  - cbn [app] in Hm.
    destruct (scanChild_other_book st child Hn) as [H3 _].
    destruct (scanChild_other st child Hn) as (_ & H4 & _).
    apply IH; [exact Hm | rewrite H3; exact Hk | rewrite H4; exact Hp].
Qed.

(** X16. For a node with one DracoMesh child, the keys of the result
    are the distinct pairs (material id of the first corner, 0) of the
    faces, in the order in which they first occur, and the part of a key
    has empty quad lists and, as triangle indices, the corners of the
    faces with that key, in face order. *)
Theorem compressed_faces_grouped_by_material
    (normalsByVertex colorsByVertex : bool) (object : FBXNode.t)
    (meshIndex : Z) (m : draco.Mesh) :
  dracoChildren object = [m] ->
  exists e i,
    extractMesh normalsByVertex colorsByVertex object meshIndex = Some (e, i)
    /\ NoDup (ExtractedMesh.partMaterialTextures e)
    /\ ExtractedMesh.partMaterialTextures e
       = firstKeys (map (faceKey m) (draco.faces m))
    /\ FBXMesh.parts (ExtractedMesh.mesh e)
       = map (facesPart m (draco.faces m))
           (ExtractedMesh.partMaterialTextures e).
Proof.
  intros Hm.
  destruct (extractMesh_paths normalsByVertex colorsByVertex object meshIndex)
    as (_ & _ & data' & Hex & Hpath).
  pose proof (fold_scanChild_arrays (FBXNode.children object)
                (mkScan (MeshData_initial normalsByVertex colorsByVertex
                           meshIndex) [] [] false false)) as H.
  cbv zeta in H. destruct H as (_ & _ & _ & _ & _ & _ & H7).
  fold (dracoChildren object) in H7.
  fold (scanned normalsByVertex colorsByVertex object meshIndex) in H7.
  rewrite Hm in H7. cbn in H7. rewrite H7 in Hpath. subst data'.
  destruct (fold_scanChild_single m (FBXNode.children object)
              (mkScan (MeshData_initial normalsByVertex colorsByVertex
                         meshIndex) [] [] false false) Hm eq_refl eq_refl)
    as (d0 & Hk0 & Hp0 & Hk & Hp).
  fold (scanned normalsByVertex colorsByVertex object meshIndex) in Hk, Hp.
  destruct (extractDraco_grouped m d0 Hk0 Hp0) as (Gn & Gk & Gp).
  eexists. eexists. split; [exact Hex|].
  fold (keysOf (scan_data (scanned normalsByVertex colorsByVertex object
                             meshIndex))).
  change (FBXMesh.parts
            (ExtractedMesh.mesh
               (MeshData.extracted
                  (scan_data (scanned normalsByVertex colorsByVertex object
                                meshIndex)))))
    with (MeshData_parts
            (scan_data (scanned normalsByVertex colorsByVertex object
                          meshIndex))).
  rewrite Hk, Hp. split; [exact Gn|]. split; [exact Gk | exact Gp].
Qed.

Lemma compressed_faces_grouped_by_material_witness :
  exists e i,
    extractMesh false false dracoMaterialNode 0 = Some (e, i)
    /\ ExtractedMesh.partMaterialTextures e = [(7, 0); (2, 0)]
    /\ FBXMesh.parts (ExtractedMesh.mesh e)
       = [FBXMeshPart.mk [] [] [0; 1; 2; 2; 3; 0]%nat;
          FBXMeshPart.mk [] [] [1; 2; 3]%nat].
Proof.
  destruct (compressed_faces_grouped_by_material false false
              dracoMaterialNode 0 _ eq_refl) as (e & i & He & _ & Hk & Hp).
  exists e, i. split; [exact He|]. rewrite Hp, Hk. split; reflexivity.
Defined.

(** ** A stream that ends inside a polygon *)

Lemma spanEnd_open (l : list Z) (b M : nat) :
  openSpan l b M -> spanEnd l b = length l.
Proof.
  unfold spanEnd. revert b. induction M as [|M IH]; intros b (H1 & H2 & H3).
  - lia.
  - rewrite (skipn_nth 0 l b) by lia. simpl.
    pose proof (H3 0%nat ltac:(lia)) as H0. rewrite Nat.add_0_r in H0.
    apply Z.leb_le in H0. rewrite H0.
    destruct M as [|M].
    + rewrite skipn_all2 by lia. simpl. lia.
    + apply IH. split; [lia|]. split; [lia|].
      intros i Hi. replace (S b + i)%nat with (b + S i)%nat by lia.
      apply H3. lia.
Qed.

(** On a run without terminator: after the corner [b + i], with [K]
    entries left after it, the loop makes [K] rounds, the last of which
    reaches the end of the stream. *)
Lemma fanLoop_open (K : nat) :
  forall (fuel : nat) (data : MeshData.t) (triangleIndices : list nat)
         (b i : nat),
  (1 <= K <= fuel)%nat ->
  (b + i + K)%nat = length (MeshData.polygonIndices data) ->
  (forall j, (1 <= j < K)%nat ->
             0 <= nth (b + i + j) (MeshData.polygonIndices data) 0) ->
  fanLoop fuel data triangleIndices b (b + i)
  = Some (appendCorners data triangleIndices
            (flat_map (fun j => [b; b + j; b + j + 1]%nat) (seq i K))).
Proof.
  induction K as [|K IH]; intros fuel data tri b i HK Hlen Hpos; [lia|].
  destruct fuel as [|fuel]; [lia|].
  cbn [fanLoop].
  destruct (appendIndex data tri b) as [data1 t1] eqn:E1.
  destruct (appendIndex data1 t1 (b + i)) as [data2 t2] eqn:E2.
  destruct (appendIndex data2 t2 (S (b + i))) as [data3 t3] eqn:E3.
  assert (Hrun : appendCorners data tri [b; b + i; b + i + 1]%nat = (data3, t3)).
  { unfold appendCorners. simpl. rewrite E1. simpl. rewrite E2. simpl.
    replace (b + i + 1)%nat with (S (b + i)) by lia. exact E3. }
  assert (Hsrc : MeshData.polygonIndices data3 = MeshData.polygonIndices data).
  { apply source_polygonIndices.
    pose proof (appendCorners_source data tri [b; b + i; b + i + 1]%nat) as Hs.
    rewrite Hrun in Hs. exact Hs. }
  rewrite Hsrc, at_nat.
  cbn [seq flat_map]. rewrite appendCorners_app, Hrun. cbn [fst snd].
  destruct K as [|K].
  - assert (Hout : (size (MeshData.polygonIndices data)
                    <=? Z.of_nat (S (b + i))) = true).
    { apply Z.leb_le. unfold size. lia. }
    rewrite Hout. reflexivity.
  - assert (Hin : (size (MeshData.polygonIndices data)
                   <=? Z.of_nat (S (b + i))) = false).
    { apply Z.leb_gt. unfold size. lia. }
    rewrite Hin. simpl orb.
    pose proof (Hpos 1%nat ltac:(lia)) as H1.
    replace (b + i + 1)%nat with (S (b + i)) in H1 by lia.
    destruct (nth (S (b + i)) (MeshData.polygonIndices data) 0 <? 0) eqn:E;
      [apply Z.ltb_lt in E; lia|].
    replace (S (b + i)) with (b + S i)%nat by lia.
    apply IH.
    + lia.
    + rewrite Hsrc. lia.
    + rewrite Hsrc. intros j Hj.
      replace (b + S i + j)%nat with (b + i + S j)%nat by lia.
      apply Hpos. lia.
Qed.

Lemma fanCorners_open (b M : nat) :
  (2 <= M)%nat ->
  fanCorners b (M + 1) = openFanCorners b M ++ [(b + M)%nat].
Proof.
  intros HM. unfold openFanCorners, fanCorners.
  replace (M + 1 - 2)%nat with (S (M - 2)) by lia.
  rewrite seq_S, flat_map_app. cbn [flat_map]. rewrite app_nil_r.
  replace (1 + (M - 2))%nat with (M - 1)%nat by lia.
  replace (b + (M - 1) + 1)%nat with (b + M)%nat by lia.
  change [b; (b + (M - 1))%nat; (b + M)%nat]
    with ([b; (b + (M - 1))%nat] ++ [(b + M)%nat]).
  rewrite app_assoc, removelast_last. reflexivity.
Qed.

Lemma openFanCorners_range (b M c : nat) :
  (2 <= M)%nat -> In c (openFanCorners b M) -> (b <= c < b + M)%nat.
Proof.
  intros HM Hc. unfold openFanCorners, fanCorners in Hc.
  replace (M + 1 - 2)%nat with (S (M - 2)) in Hc by lia.
  rewrite seq_S, flat_map_app in Hc. cbn [flat_map] in Hc.
  rewrite app_nil_r in Hc.
  change [b; (b + (1 + (M - 2)))%nat; (b + (1 + (M - 2)) + 1)%nat]
    with ([b; (b + (1 + (M - 2)))%nat] ++ [(b + (1 + (M - 2)) + 1)%nat]) in Hc.
  rewrite app_assoc, removelast_last in Hc.
  apply in_app_iff in Hc. destruct Hc as [Hc | [<- | [<- | []]]]; try lia.
  apply in_flat_map in Hc. destruct Hc as (i & Hi & Hc). apply in_seq in Hi.
  simpl in Hc. destruct Hc as [<- | [<- | [<- | []]]]; lia.
Qed.

Lemma openFanCorners_length (b M : nat) :
  (2 <= M)%nat -> length (openFanCorners b M) = (3 * M - 4)%nat.
Proof.
  intros HM.
  pose proof (f_equal (@length nat) (fanCorners_open b M HM)) as H.
  rewrite fanCorners_length, length_app in H. simpl in H. lia.
Qed.

(** X17. When the stream ends inside a polygon (a last run of [M >= 2]
    entries without terminator, [M <> 4]), the round of that run resolves
    the corners of the fan up to the end of the stream and stops inside
    the last triangle: it appends [3 * M - 4] indices to the triangle
    list of the part, so that the list ends with two indices of an
    unfinished triangle, and the stream is used up. *)
Theorem open_span_leaves_partial_triangle (materials textures : list Z)
    (st : PolyState) (M : nat) (data0 : MeshData.t)
    (mtp' : gmap (Z * Z) nat) (partIndex : nat) :
  polyInv st ->
  (2 <= M)%nat -> M <> 4%nat ->
  openSpan (MeshData.polygonIndices (poly_data st)) (beginIndex st) M ->
  obtainPart (poly_data st) (materialTextureParts st)
    (materialTexture_of materials textures (polygonIndex st))
  = (data0, mtp', partIndex) ->
  let b := beginIndex st in
  exists part st' idxs,
    polygonStep materials textures st = Some st'
    /\ idxs = snd (appendCorners data0 [] (openFanCorners b M))
    /\ length idxs = (3 * M - 4)%nat
    /\ (length idxs mod 3 = 2)%nat
    /\ MeshData_parts data0 !! (partIndex - 1)%nat = Some part
    /\ MeshData_parts (poly_data st')
       = <[(partIndex - 1)%nat :=
             FBXMeshPart.mk (FBXMeshPart.quadIndices part)
               (FBXMeshPart.quadTrianglesIndices part)
               (FBXMeshPart.triangleIndices part ++ idxs)]>
           (MeshData_parts data0)
    /\ beginIndex st' = length (MeshData.polygonIndices (poly_data st)).
Proof.
  intros [Hd Hm] HM HM4 Hspan Hob b.
  destruct (obtainPart_spec _ _ _ _ _ _ Hm Hob) as (Hpi & Hm' & Hsrc & Hvd & _).
  assert (Hd0 : dedupInv data0).
  { eapply vertexData_dedupInv; [symmetry; exact Hvd | exact Hd]. }
  pose proof (source_polygonIndices _ _ Hsrc) as Hpoly.
  pose proof (spanEnd_open _ _ _ Hspan) as Hend. fold b in Hend, Hspan.
  destruct Hspan as (_ & Hlen & Hpos).
  assert (Hcs : Forall (fun c => (c < length (MeshData.polygonIndices data0))%nat)
                  (openFanCorners b M)).
  { apply Forall_forall. intros c Hc. apply list_elem_of_In in Hc.
    apply openFanCorners_range in Hc; [|exact HM]. rewrite Hpoly. lia. }
  destruct (lookup_lt_is_Some_2 (MeshData_parts data0) (partIndex - 1)%nat
              ltac:(lia)) as [part Hpart].
  assert (Hlenout : length (snd (appendCorners data0 [] (openFanCorners b M)))
                    = (3 * M - 4)%nat).
  { rewrite run_in_range by assumption. apply openFanCorners_length. exact HM. }
  assert (Hstep : polygonStep materials textures st
                  = Some (mkPoly
                            (MeshData_setParts
                               (fst (appendCorners data0 []
                                       (openFanCorners b M)))
                               (<[(partIndex - 1)%nat :=
                                    FBXMeshPart.mk
                                      (FBXMeshPart.quadIndices part)
                                      (FBXMeshPart.quadTrianglesIndices part)
                                      (FBXMeshPart.triangleIndices part
                                       ++ snd (appendCorners data0 []
                                                 (openFanCorners b M)))]>
                                  (MeshData_parts data0)))
                            mtp'
                            (length (MeshData.polygonIndices (poly_data st)))
                            (S (polygonIndex st)))).
  { unfold polygonStep. rewrite Hob.
    rewrite (nth_lookup_Some _ _ FBXMeshPart.empty _ Hpart).
    fold b. rewrite Hend, <- Hlen.
    replace (b + M - b)%nat with M by lia.
    destruct (Nat.eqb_spec M 4) as [? | _]; [contradiction|].
    replace (S b) with (b + 1)%nat by lia.
    rewrite (fanLoop_open (M - 1)).
    + replace (M - 1)%nat with (M + 1 - 2)%nat by lia.
      fold (fanCorners b (M + 1)). rewrite fanCorners_open by exact HM.
      rewrite appendCorners_snoc.
      rewrite appendIndex_outside.
      * rewrite appendCorners_prefix. cbn [fst snd].
        rewrite appendCorners_parts. reflexivity.
      * rewrite (source_polygonIndices _ _ (appendCorners_source _ _ _)).
        rewrite Hpoly. lia.
    + rewrite Hpoly. lia.
    + rewrite Hpoly. lia.
    + rewrite Hpoly. intros j Hj.
      replace (b + 1 + j)%nat with (b + (1 + j))%nat by lia. apply Hpos. lia. }
  exists part. eexists. exists (snd (appendCorners data0 [] (openFanCorners b M))).
  split; [exact Hstep|]. split; [reflexivity|]. split; [exact Hlenout|].
  split; [|split; [exact Hpart|split; reflexivity]].
  rewrite Hlenout.
  replace (3 * M - 4)%nat with (2 + (M - 2) * 3)%nat by lia.
  rewrite Nat.Div0.mod_add. reflexivity.
Qed.

(** The stream [0, 1, 2] gives the five indices 0, 1, 2, 0, 2. *)
Lemma open_span_leaves_partial_triangle_witness :
  polyInv (polyStart openTriangleData)
  /\ openSpan (MeshData.polygonIndices (poly_data (polyStart openTriangleData)))
       (beginIndex (polyStart openTriangleData)) 3
  /\ exists st',
       polygonStep [] [] (polyStart openTriangleData) = Some st'
       /\ MeshData_parts (poly_data st')
          = [FBXMeshPart.mk [] [] [0; 1; 2; 0; 2]%nat].
Proof.
  assert (Hinv : polyInv (polyStart openTriangleData)).
  { apply polyInv_start. apply dedupInv_empty; reflexivity. }
  assert (Hspan : openSpan
                    (MeshData.polygonIndices
                       (poly_data (polyStart openTriangleData)))
                    (beginIndex (polyStart openTriangleData)) 3).
  { split; [lia|]. split; [reflexivity|].
    intros i Hi. do 3 (destruct i as [|i]; [simpl; lia|]). lia. }
  split; [exact Hinv|]. split; [exact Hspan|].
  destruct (open_span_leaves_partial_triangle [] [] (polyStart openTriangleData)
              3 (MeshData_newPart openTriangleData (0, 0))
              (<[(0, 0) := 1%nat]> ∅) 1%nat Hinv ltac:(lia) ltac:(lia)
              Hspan eq_refl)
    as (part & st' & idxs & Hstep & Hidx & _ & _ & Hpart & Hparts & _).
  exists st'. split; [exact Hstep|]. rewrite Hparts.
  vm_compute in Hidx. subst idxs.
  vm_compute in Hpart. injection Hpart as <-.
  reflexivity.
Defined.

(** ** From the extraction to the index buffer *)

Lemma allIndices_in_range (n : nat) (parts : list FBXMeshPart.t) :
  Forall (partInRange n) parts ->
  Forall (fun i => (i < n)%nat) (allIndices parts).
Proof.
  intros H. unfold allIndices. induction H as [|p parts (_ & H2 & H3) _ IH];
    simpl; [constructor|].
  apply Forall_app. split; [|exact IH].
  unfold partIndices. apply Forall_app. split; assumption.
Qed.

(** X18. The two functions composed, on the non-compressed path: when
    the extracted mesh has a vertex and its index array stays below 2^31
    bytes, [buildModelMesh] sets a mesh; its vertex buffer has 12 bytes
    per vertex of the extracted mesh, and every index stored in its index
    buffer is the index of one of these vertices. *)
Theorem built_indices_address_vertices (normalsByVertex colorsByVertex : bool)
    (object : FBXNode.t) (meshIndex : Z) (url : string) :
  dracoChildren object = [] ->
  exists e i,
    extractMesh normalsByVertex colorsByVertex object meshIndex = Some (e, i)
    /\ let m := ExtractedMesh.mesh e in
       (FBXMesh.vertices m <> [] ->
        Z.of_nat (indexCount (FBXMesh.parts m)) * sizeof_int < 2 ^ 31 ->
        exists mesh vertexView indexView indices,
          buildModelMesh m url = (FBXMesh_setMesh m (Some mesh), [])
          /\ Mesh._vertexBuffer mesh = Some vertexView
          /\ gpu._size vertexView = size (FBXMesh.vertices m) * sizeof_vec3
          /\ Mesh._indexBuffer mesh = Some indexView
          /\ gpu._buffer indexView = flat_map bytes_index indices
          /\ indices <> []
          /\ Forall (fun index => (index < length (FBXMesh.vertices m))%nat)
               indices).
Proof.
  intros Hnone.
  destruct (noncompressed_result normalsByVertex colorsByVertex object
              meshIndex Hnone) as (st' & Hex & Hinv & HP).
  eexists. eexists. split; [exact Hex|]. cbv zeta.
  fold (meshOf (poly_data st')).
  change (FBXMesh.parts (meshOf (poly_data st')))
    with (MeshData_parts (poly_data st')).
  intros Hv Hfit.
  destruct Hinv as (_ & _ & Hcount & Hsplit).
  assert (Hlen : (0 < length (FBXMesh.vertices (meshOf (poly_data st'))))%nat).
  { destruct (FBXMesh.vertices (meshOf (poly_data st')));
      [contradiction | simpl; lia]. }
  assert (Hix : (0 < indexCount (MeshData_parts (poly_data st')))%nat).
  { apply quadsSplit_indexCount; [exact Hsplit | lia]. }
  assert (Hs4 : sizeof_int = 4) by reflexivity.
  assert (Hvalid : totalIndices_of (MeshData_parts (poly_data st')) <> 0).
  { rewrite totalIndices_of_mod, to_uint_small by lia. lia. }
  exists (builtMesh (meshOf (poly_data st'))).
  eexists. eexists. exists (allIndices (MeshData_parts (poly_data st'))).
  split; [apply buildModelMesh_valid; assumption|].
  split; [apply builtMesh_vertexBuffer|].
  split; [apply length_bytes_vec3|].
  split; [apply builtMesh_indexBuffer; exact Hfit|].
  split; [reflexivity|]. split.
  - intros E. rewrite indexCount_allIndices, E in Hix. simpl in Hix. lia.
  - apply allIndices_in_range. exact HP.
Qed.

Lemma built_indices_address_vertices_witness :
  exists e i,
    extractMesh false false quadNode 0 = Some (e, i)
    /\ exists mesh indexView indices,
         buildModelMesh (ExtractedMesh.mesh e) EmptyString
         = (FBXMesh_setMesh (ExtractedMesh.mesh e) (Some mesh), [])
         /\ Mesh._indexBuffer mesh = Some indexView
         /\ gpu._buffer indexView = flat_map bytes_index indices
         /\ Forall (fun index => (index < 4)%nat) indices.
Proof.
  destruct (built_indices_address_vertices false false quadNode 0 EmptyString
              eq_refl) as (e & i & He & H).
  exists e, i. split; [exact He|].
  pose proof He as He'. vm_compute in He'. injection He' as <- _.
  destruct H as (mesh & vv & iv & indices & Hb & _ & _ & Hi & Hbuf & _ & Hr).
  - discriminate.
  - vm_compute. reflexivity.
  - exists mesh, iv, indices. split; [exact Hb|]. split; [exact Hi|].
    split; [exact Hbuf | exact Hr].
Defined.

(** ** Streams of whole polygons *)

Lemma wholeFrom_span (r : list Z) :
  forall c : nat,
  wholeFrom c r = true -> r <> [] \/ c <> 0%nat ->
  exists k,
    (k < length r)%nat
    /\ (forall i, (i < k)%nat -> 0 <= nth i r 0)
    /\ nth k r 0 < 0
    /\ (2 <= c + k)%nat
    /\ wholeFrom 0 (drop (S k) r) = true.
Proof.
  induction r as [|x r IH]; intros c H Hne.
  - cbn [wholeFrom] in H. apply Nat.eqb_eq in H. destruct Hne as [Hne | Hne];
      [contradiction | lia].
  - cbn [wholeFrom] in H. destruct (0 <=? x) eqn:E.
    + apply Z.leb_le in E.
      destruct (IH (S c) H ltac:(right; lia)) as (k & H1 & H2 & H3 & H4 & H5).
      exists (S k). simpl. split; [lia|]. split; [|split; [exact H3|]].
      * intros i Hi. destruct i as [|i]; [exact E | apply H2; lia].
      * split; [lia | exact H5].
    + apply Z.leb_gt in E. apply andb_true_iff in H. destruct H as [H1 H2].
      apply Nat.leb_le in H1.
      exists 0%nat. simpl. split; [lia|]. split; [intros i Hi; lia|].
      split; [exact E|]. split; [lia | exact H2].
Qed.

Lemma nth_drop (l : list Z) (b i : nat) : nth i (drop b l) 0 = nth (b + i) l 0.
Proof.
  revert b. induction l as [|x l IH]; intros b.
  - rewrite drop_nil. destruct i, b; reflexivity.
  - destruct b; [reflexivity|]. simpl. apply IH.
Qed.

(** The polygon that starts at [b] in a stream of whole polygons. *)
Lemma wholePolygons_span (l : list Z) (b : nat) :
  wholeFrom 0 (drop b l) = true -> (b < length l)%nat ->
  exists N,
    (3 <= N)%nat /\ terminatedSpan l b N
    /\ wholeFrom 0 (drop (b + N) l) = true.
Proof.
  intros H Hb.
  destruct (wholeFrom_span (drop b l) 0 H) as (k & H1 & H2 & H3 & H4 & H5).
  { left. intros E. apply (f_equal (@length Z)) in E.
    rewrite length_drop in E. simpl in E. lia. }
  rewrite length_drop in H1. rewrite drop_drop in H5.
  exists (S k). split; [lia|]. split.
  - split; [lia|]. split; [lia|]. split.
    + intros i Hi. rewrite <- nth_drop. apply H2. lia.
    + replace (b + S k - 1)%nat with (b + k)%nat by lia.
      rewrite <- nth_drop. exact H3.
  - exact H5.
Qed.

Lemma wholePart_empty : wholePart FBXMeshPart.empty.
Proof. repeat split. Qed.

(** A round on a stream of whole polygons. *)
Lemma round_whole (materials textures : list Z) (st st' : PolyState) :
  extractInv st ->
  wholeFrom 0 (drop (beginIndex st) (MeshData.polygonIndices (poly_data st)))
  = true
  /\ Forall wholePart (MeshData_parts (poly_data st)) ->
  (beginIndex st < length (MeshData.polygonIndices (poly_data st)))%nat ->
  polygonStep materials textures st = Some st' ->
  wholeFrom 0 (drop (beginIndex st') (MeshData.polygonIndices (poly_data st')))
  = true
  /\ Forall wholePart (MeshData_parts (poly_data st')).
Proof.
  intros (Hpi & _) [Hw Hall] Hb Hstep.
  destruct (wholePolygons_span _ _ Hw Hb) as (N & HN & Hspan & Hrest).
  destruct (obtainPart (poly_data st) (materialTextureParts st)
              (materialTexture_of materials textures (polygonIndex st)))
    as [[data0 mtp'] partIndex] eqn:Hob.
  pose proof Hpi as [Hd Hm].
  destruct (obtainPart_spec _ _ _ _ _ _ Hm Hob) as (_ & _ & Hsrc & _ & _).
  assert (Hall0 : Forall wholePart (MeshData_parts data0)).
  { eapply obtainPart_parts_Forall; try eassumption. apply wholePart_empty. }
  destruct (Nat.eq_dec N 4%nat) as [-> | HN4].
  - assert (Hs4 : (spanEnd (MeshData.polygonIndices (poly_data st))
                     (beginIndex st) - beginIndex st = 4)%nat).
    { rewrite (spanEnd_terminated _ _ _ Hspan). lia. }
    destruct (polygonStep_quad materials textures st data0 mtp' partIndex
                Hpi Hb Hs4 Hob)
      as (A & B & C & D & part & Hout & Hpart & Hstep0).
    rewrite Hstep in Hstep0. injection Hstep0 as ->.
    cbn [beginIndex poly_data].
    rewrite setParts_parts.
    rewrite (source_polygonIndices _ (poly_data st))
      by (rewrite setParts_source, appendCorners_source; exact Hsrc).
    split; [exact Hrest|].
    apply Forall_insert; [exact Hall0|].
    rewrite Forall_forall in Hall0.
    destruct (Hall0 part (list_elem_of_lookup_2 _ _ _ Hpart))
      as (W1 & W2 & W3).
    unfold wholePart.
    cbn [FBXMeshPart.triangleIndices FBXMeshPart.quadIndices
         FBXMeshPart.quadTrianglesIndices].
    rewrite !length_app. cbn [length].
    split; [exact W1|]. split; [|lia].
    replace (length (FBXMeshPart.quadIndices part) + 4)%nat
      with (length (FBXMeshPart.quadIndices part) + 1 * 4)%nat by lia.
    rewrite Nat.Div0.mod_add. exact W2.
  - destruct (polygonStep_fan materials textures st N data0 mtp' partIndex
                Hpi HN HN4 Hspan Hob) as (part & Hpart & Hlen & Hstep0).
    rewrite Hstep in Hstep0. injection Hstep0 as ->.
    cbn [beginIndex poly_data].
    rewrite setParts_parts.
    rewrite (source_polygonIndices _ (poly_data st))
      by (rewrite setParts_source, appendCorners_source; exact Hsrc).
    split; [exact Hrest|].
    apply Forall_insert; [exact Hall0|].
    rewrite Forall_forall in Hall0.
    destruct (Hall0 part (list_elem_of_lookup_2 _ _ _ Hpart))
      as (W1 & W2 & W3).
    unfold wholePart.
    cbn [FBXMeshPart.triangleIndices FBXMeshPart.quadIndices
         FBXMeshPart.quadTrianglesIndices].
    rewrite length_app, Hlen.
    split; [|split; assumption].
    replace (length (FBXMeshPart.triangleIndices part) + 3 * (N - 2))%nat
      with (length (FBXMeshPart.triangleIndices part) + (N - 2) * 3)%nat
      by lia.
    rewrite Nat.Div0.mod_add. exact W1.
Qed.

(** X19. On the non-compressed path, when the polygon stream is made
    of whole polygons (each with at least three corners and its
    terminator), every part of the result holds whole triangles and whole
    quads: the length of its triangle list is a multiple of 3, that of
    its quad list a multiple of 4, and its quad-triangles list has six
    indices for the four of each quad. *)
Theorem whole_polygons_give_whole_triangles
    (normalsByVertex colorsByVertex : bool) (object : FBXNode.t)
    (meshIndex : Z) :
  dracoChildren object = [] ->
  wholePolygons
    (MeshData.polygonIndices
       (scan_data (scanned normalsByVertex colorsByVertex object meshIndex)))
  = true ->
  exists e i,
    extractMesh normalsByVertex colorsByVertex object meshIndex = Some (e, i)
    /\ Forall wholePart (FBXMesh.parts (ExtractedMesh.mesh e)).
Proof.
  intros Hnone Hw.
  destruct (extractMesh_paths normalsByVertex colorsByVertex object meshIndex)
    as (Hi & He & data' & Hex & Hpath).
  rewrite (scanned_noDraco _ _ _ _ Hnone) in Hpath, He.
  specialize (He eq_refl).
  destruct (extractPolygons_invariant
              (fun st =>
                 wholeFrom 0 (drop (beginIndex st)
                                (MeshData.polygonIndices (poly_data st)))
                 = true
                 /\ Forall wholePart (MeshData_parts (poly_data st)))
              _ _ _ _ Hi He Hpath) as (st' & -> & [_ HP] & _).
  - cbn [polyStart beginIndex poly_data]. split; [exact Hw|].
    destruct He as [_ Hp]. rewrite Hp. constructor.
  - intros st st1 Hinv HP Hb Hs.
    eapply round_whole; eassumption.
  - eexists. eexists. split; [exact Hex | exact HP].
Qed.

Lemma whole_polygons_give_whole_triangles_witness :
  exists e i,
    extractMesh false false mixedNode 0 = Some (e, i)
    /\ Forall wholePart (FBXMesh.parts (ExtractedMesh.mesh e)).
Proof.
  exact (whole_polygons_give_whole_triangles false false mixedNode 0
           eq_refl eq_refl).
Defined.

(** ** The named UV sets *)

Lemma pushAttribute_names (d : MeshData.t) (attrib : AttributeData.t) :
  namesInv d -> namesInv (MeshData_pushAttribute d attrib).
Proof.
  intros H name k Hk. unfold setMapOf in Hk. cbn in Hk.
  destruct (decide (AttributeData.name attrib = name)) as [<- | Hne].
  - rewrite lookup_insert_eq in Hk. injection Hk as <-.
    exists attrib. split; [|reflexivity]. cbn.
    rewrite lookup_app_r by lia. rewrite Nat.sub_diag. reflexivity.
  - rewrite lookup_insert_ne in Hk by exact Hne.
    destruct (H name k Hk) as (a & Ha & Hn). exists a. split; [|exact Hn].
    cbn. apply lookup_app_l_Some. exact Ha.
Qed.

Lemma namesInv_ext (d d' : MeshData.t) :
  setMapOf d' = setMapOf d -> MeshData.attributes d' = MeshData.attributes d ->
  namesInv d -> namesInv d'.
Proof.
  intros H1 H2 H. unfold namesInv. rewrite H1, H2. exact H.
Qed.

Lemma fold_scanUV0Sub_names (l : list FBXNode.t) (d : MeshData.t)
    (a : AttributeData.t) :
  setMapOf (fst (fold_left scanUV0Sub l (d, a))) = setMapOf d
  /\ MeshData.attributes (fst (fold_left scanUV0Sub l (d, a)))
     = MeshData.attributes d.
Proof.
  revert d a. induction l as [|x l IH]; intros d a; simpl; [auto|].
  destruct (IH (if String.eqb (FBXNode.name x) "UV"
                then MeshData_setTexCoords d (FBXNode.getVec2Vector x)
                       (MeshData.texCoordIndices d)
                else if String.eqb (FBXNode.name x) "UVIndex"
                     then MeshData_setTexCoords d (MeshData.texCoords d)
                            (FBXNode.getIntVector x)
                     else d) (scanUVSub a x)) as [H1 H2].
  rewrite H1, H2.
  destruct (String.eqb (FBXNode.name x) "UV");
    [auto | destruct (String.eqb (FBXNode.name x) "UVIndex"); auto].
Qed.

Lemma extractDraco_names (m : draco.Mesh) (d : MeshData.t) :
  setMapOf (extractDraco m d) = setMapOf d
  /\ MeshData.attributes (extractDraco m d) = MeshData.attributes d.
Proof.
  unfold extractDraco.
  assert (Hpts : forall l d0,
             setMapOf (fold_left (dracoPoint m) l d0) = setMapOf d0
             /\ MeshData.attributes (fold_left (dracoPoint m) l d0)
                = MeshData.attributes d0).
  { induction l as [|i l IH]; intros d0; simpl; [auto|].
    destruct (IH (dracoPoint m d0 i)) as [H1 H2]. rewrite H1, H2. auto. }
  assert (Hfaces : forall l st,
             setMapOf (fst (fold_left (dracoFace m) l st)) = setMapOf (fst st)
             /\ MeshData.attributes (fst (fold_left (dracoFace m) l st))
                = MeshData.attributes (fst st)).
  { induction l as [|f l IH]; intros st; simpl; [auto|].
    destruct (IH (dracoFace m st f)) as [H1 H2]. rewrite H1, H2.
    destruct st as [d0 mtp], f as [[a b] c]. unfold dracoFace.
    destruct (obtainPart d0 mtp _) as [[d1 mtp1] pi] eqn:E. cbn [fst].
    unfold obtainPart in E.
    destruct (Nat.eqb _ 0); injection E as <- _ _; auto. }
  destruct (Hfaces (draco.faces m)
              (fold_left (dracoPoint m) (seq 0 (draco.num_points m)) d, ∅))
    as [F1 F2].
  destruct (Hpts (seq 0 (draco.num_points m)) d) as [P1 P2].
  cbn [fst] in F1, F2. split; congruence.
Qed.

Lemma scanChild_names (st : ScanState) (child : FBXNode.t) :
  namesInv (scan_data st) -> namesInv (scan_data (scanChild st child)).
Proof.
  intros H. unfold scanChild.
  destruct (String.eqb (FBXNode.name child) "Vertices"); [exact H|].
  destruct (String.eqb (FBXNode.name child) "PolygonVertexIndex"); [exact H|].
  destruct (String.eqb (FBXNode.name child) "LayerElementNormal").
  { unfold scanNormalLayer.
    destruct (fold_left scanNormalSub _ _) as [[[? ?] ?] ?]. exact H. }
  destruct (String.eqb (FBXNode.name child) "LayerElementColor").
  { unfold scanColorLayer.
    destruct (fold_left scanColorSub _ _) as [[[[? ?] ?] ?] ?]. exact H. }
  destruct (String.eqb (FBXNode.name child) "LayerElementUV").
  { cbn [scan_data]. unfold scanUVLayer.
    destruct (Z.eqb (FBXNode.toInt child) 0).
    - pose proof (fold_scanUV0Sub_names (FBXNode.children child)
                    (scan_data st)
                    (AttributeData.mk [] [] "" (FBXNode.toInt child))) as Hf.
      destruct (fold_left scanUV0Sub _ _) as [d' a]. cbn [fst] in Hf.
      destruct Hf as [H1 H2]. apply pushAttribute_names.
      apply (namesInv_ext (scan_data st)); assumption.
    - destruct (_ !! _); [exact H | apply pushAttribute_names; exact H]. }
  destruct (String.eqb (FBXNode.name child) "LayerElementMaterial").
  { destruct (fold_left scanMaterialSub _ _) as [? ?]. exact H. }
  destruct (String.eqb (FBXNode.name child) "LayerElementTexture");
    [exact H|].
  destruct (String.eqb (FBXNode.name child) "DracoMesh"); [|exact H].
  cbn [scan_data].
  destruct (extractDraco_names (FBXNode.getDraco child) (scan_data st))
    as [H1 H2].
  apply (namesInv_ext (scan_data st)); assumption.
Qed.

Lemma scanned_names (normalsByVertex colorsByVertex : bool)
    (object : FBXNode.t) (meshIndex : Z) :
  namesInv (scan_data (scanned normalsByVertex colorsByVertex object
                         meshIndex)).
Proof.
  unfold scanned.
  assert (G : forall l st,
             namesInv (scan_data st) ->
             namesInv (scan_data (fold_left scanChild l st))).
  { induction l as [|c l IH]; intros st H; simpl; [exact H|].
    apply IH. apply scanChild_names. exact H. }
  apply G. intros name k Hk. unfold setMapOf in Hk. cbn in Hk.
  rewrite lookup_empty in Hk. discriminate.
Qed.

Lemma appendIndex_setMap (data : MeshData.t) (indices : list nat)
    (index : nat) :
  setMapOf (fst (appendIndex data indices index)) = setMapOf data.
Proof.
  unfold appendIndex.
  destruct (size (MeshData.polygonIndices data) <=? Z.of_nat index);
    [reflexivity|].
  cbv zeta. destruct (QHash.find _ _); reflexivity.
Qed.

Lemma round_setMap (materials textures : list Z) (st st' : PolyState) :
  extractInv st ->
  (beginIndex st < length (MeshData.polygonIndices (poly_data st)))%nat ->
  polygonStep materials textures st = Some st' ->
  setMapOf (poly_data st') = setMapOf (poly_data st).
Proof.
  intros (Hpi & _) Hb Hstep.
  destruct (polygonStep_round materials textures st st' Hpi Hb Hstep)
    as (data0 & mtp' & partIndex & part & cs & part' & Hob & _ & _ & Hdata & _).
  rewrite Hdata.
  change (setMapOf (MeshData_setParts ?d ?p)) with (setMapOf d).
  assert (Hrun : forall l, setMapOf (fst (appendCorners data0 [] l))
                           = setMapOf data0).
  { induction l as [|c l IH] using rev_ind; [reflexivity|].
    rewrite appendCorners_snoc, appendIndex_setMap. exact IH. }
  rewrite Hrun. unfold obtainPart in Hob.
  destruct (Nat.eqb _ 0); injection Hob as <- _ _; reflexivity.
Qed.

(** X20. On both paths, every name of the map of UV sets of the result
    is sent to the position, among the UV layers the scan accepted, of a
    layer with that name; so two names are never sent to one position.
    (A layer of index other than 0 whose name is already in the map is
    not accepted, line 309-316.) *)
Theorem uv_set_names_point_to_their_sets
    (normalsByVertex colorsByVertex : bool) (object : FBXNode.t)
    (meshIndex : Z) :
  let accepted :=
    MeshData.attributes
      (scan_data (scanned normalsByVertex colorsByVertex object meshIndex)) in
  exists e i,
    extractMesh normalsByVertex colorsByVertex object meshIndex = Some (e, i)
    /\ (forall name k,
          ExtractedMesh.texcoordSetMap e !! name = Some k ->
          exists attrib,
            accepted !! k = Some attrib
            /\ AttributeData.name attrib = name)
    /\ (forall name name' k,
          ExtractedMesh.texcoordSetMap e !! name = Some k ->
          ExtractedMesh.texcoordSetMap e !! name' = Some k ->
          name = name').
Proof.
  cbv zeta.
  destruct (extractMesh_paths normalsByVertex colorsByVertex object meshIndex)
    as (Hi & He & data' & Hex & Hpath).
  pose proof (scanned_names normalsByVertex colorsByVertex object meshIndex)
    as Hn.
  assert (Hmap : setMapOf data'
                 = setMapOf (scan_data (scanned normalsByVertex colorsByVertex
                                          object meshIndex))).
  { destruct (isDracoMesh (scanned normalsByVertex colorsByVertex object
                             meshIndex)) eqn:Hd.
    - subst data'. reflexivity.
    - destruct (extractPolygons_invariant
                  (fun st =>
                     setMapOf (poly_data st)
                     = setMapOf (scan_data (scanned normalsByVertex
                                              colorsByVertex object meshIndex)))
                  _ _ _ _ Hi (He eq_refl) Hpath) as (st' & -> & HP & _).
      + reflexivity.
      + intros st st1 Hinv HP Hb Hs.
        rewrite (round_setMap _ _ _ _ Hinv Hb Hs). exact HP.
      + exact HP. }
  exists (MeshData.extracted data'). eexists. split; [exact Hex|].
  fold (setMapOf data'). rewrite Hmap.
  split; [exact Hn|].
  intros name name' k H1 H2.
  destruct (Hn name k H1) as (a & Ha & <-).
  destruct (Hn name' k H2) as (a' & Ha' & <-).
  congruence.
Qed.

Lemma uv_set_names_point_to_their_sets_witness :
  exists e i,
    extractMesh false false threeUVNode 0 = Some (e, i)
    /\ ExtractedMesh.texcoordSetMap e !! "light"%string = Some 1%nat
    /\ exists attrib,
         MeshData.attributes (scan_data (scanned false false threeUVNode 0))
         !! 1%nat = Some attrib
         /\ AttributeData.name attrib = "light"%string.
Proof.
  destruct (uv_set_names_point_to_their_sets false false threeUVNode 0)
    as (e & i & He & Hn & _).
  exists e, i. split; [exact He|].
  assert (Hl : ExtractedMesh.texcoordSetMap e !! "light"%string = Some 1%nat).
  { pose proof He as He'. vm_compute in He'. injection He' as <- _.
    vm_compute. reflexivity. }
  split; [exact Hl|]. exact (Hn _ _ Hl).
Defined.
